(* ===== verification/_CoqProject ===== *)
-Q . S2P
Prelude.v
PyDict.v
PySort.v
PyStr.v
PyFormat.v
Notify.v
NotifyProps.v
Client.v
ClientProps.v
Config.v
Strategy.v
Ledger.v
LedgerInv.v
LedgerSteps.v
Metrics.v
MetricsProps.v
Allocator.v
AllocatorProps.v
Strategies.v
UfcStrategies.v
StrategiesProps.v
StrategyLaws.v
UfcProps.v
LedgerExits.v
Scanner.v
ClientExchange.v
ScannerProps.v
ScannerClient.v
ScannerClientProps.v
Persistence.v
Orchestrator.v
OrchestratorProps.v
RunProps.v
Main.v
MainProps.v
ClientRun.v
ClientRunProps.v
SpecExamples.v
