(* ===== verification/Prelude.v ===== *)
(** * Verification of the Kalshi trading bot

    ** The program

    The repository is a Python bot that trades binary contracts on the
    Kalshi exchange on paper.  The command line (src/main.py) picks the
    exchange and the mode; the orchestrator (src/src/orchestrator.py)
    loads the configuration, creates the API client, the strategies and
    the components below, and runs cycles: the scanner
    (src/src/scanner.py) pages through the markets of the exchange and
    asks each strategy for a signal on each market that passes its
    filters; the paper trader (src/src/paper_trader.py) books a signal as
    a simulated position under risk limits and closes a position when its
    strategy says so; the performance tracker (src/src/performance.py)
    computes the statistics of the closed trades and writes trades and
    capital to an SQLite store; the capital allocator
    (src/src/allocator.py) scores and ranks the strategies and
    periodically rewrites their capital.

    ** Layout: which file models which part

    Shared Python semantics:
    - [Prelude] (this file): errors, floats, [min], [max], [sum].
    - [PyDict]: the insertion-ordered dictionary ([dict_get], [dict_set],
      [dict_del]) over keys with decidable equality ([EqDec]), and the
      values of the free-form dictionaries ([PyVal], [Field]).
    - [PySort]: [sorted(l, key=...)] as a stable insertion sort, with
      permutation, order and stability.
    - [PyStr]: [sub in s], [s.upper()], [s[:n]], [str(n)] and [int(s)]
      with their lemmas.
    - [PyFormat]: the format specifications of a float ([.2f], [+.2f],
      [.0%], [+.1%]) on exact rationals, and the reading of a printed
      number.

    The exchange (src/src/api/kalshi_client.py):
    - [Client]: Modules [RateLimiter] and [KalshiClient].  The client's
      state is the record [KalshiClient.t]; the clock and the log of the
      requests sent are the record [World.t], the exchange a [Server]
      that answers the n-th request.  [_request] with its retry, the
      signature and every endpoint method.
    - [ClientProps]: pacing and the rate it gives, the exchange the
      requests go to, the retry, a request after [close].

    Configuration and interface:
    - [Config]: src/src/config.py, the dataclasses, one Module each, and
      [Config.load] on the parsed document [Yaml.t].
    - [Strategy]: src/src/strategies/base.py: [Signal], the market and
      position dictionaries, [BaseStrategy] as a record of operations
      over the state of a strategy, the class [Lawful] of what the scanner
      and the orchestrator assume of a strategy, and [Strategy.t], a
      strategy object of any class.

    The ledger (src/src/paper_trader.py):
    - [Ledger]: Modules [PaperPosition], [StrategyPortfolio] and
      [PaperTrader]; the state of [PaperTrader] is the record
      [PaperTrader.t] (risk configuration, dictionary of portfolios, daily
      P&L, day) and every method is a function that returns the new state
      beside its result: [initialize_portfolio], [execute_signal] with
      [_check_risk_limits], [close_position], [check_exits],
      [reset_daily_stats], [get_summary], [get_all_positions], and
      [to_dict] of a position.
    - [LedgerInv]: well-formedness of a ledger ([trader_ok]) and the
      lemmas on exposure and open counts under a write to one portfolio.
    - [LedgerSteps]: the effect of each operation, the invariants
      ([within_exposure_cap], [within_position_limit], [solvent],
      [books_balance]), the operations as an inductive type [op] with the
      executable [run_op], and [reachable], the states a sequence of valid
      operations leads to from [PaperTrader.init].
    - [LedgerExits]: the loop of [check_exits] against its reference.

    Statistics and capital (src/src/performance.py, src/src/allocator.py):
    - [Metrics]: Modules [StrategyMetrics] and [PerformanceTracker]; the
      state is the metrics cache and the capital history;
      [calculate_metrics], [_calculate_sharpe], [_calculate_sortino],
      [_calculate_max_drawdown], [record_capital_snapshot],
      [get_leaderboard], [to_dict].  [MetricsProps]: its theorems.
    - [Persistence]: the three SQLite tables as lists of rows
      ([Database.t]) with the statements that write and read them.
    - [Allocator]: Module [CapitalAllocator]; its state carries the
      tracker and the trader it shares with the orchestrator;
      [calculate_strategy_score], [rank_strategies],
      [calculate_allocations], [should_rebalance], [rebalance],
      [get_allocation_summary].  [AllocatorProps]: its theorems.

    Strategies (src/src/strategies/):
    - [Strategies]: mean_reversion.py, market_making.py and momentum.py,
      one Module per class, each with its instance of the [BaseStrategy]
      interface.  [StrategiesProps]: their theorems.  [StrategyLaws]:
      the three classes are [Lawful].
    - [UfcStrategies]: ufc_strategies.py, the four classes.  [UfcProps]:
      their theorems and [Lawful] instances.

    The loop (src/src/scanner.py, src/src/orchestrator.py, src/main.py):
    - [Scanner]: Modules [MarketData] and [MarketScanner]; the state is
      the record [MarketScanner.t] (configuration, strategies, cache,
      time of the last scan, running flag); [_parse_market],
      [_parse_orderbook], [_passes_filters], [scan_once],
      [generate_signals], a turn of [run_continuous].  The exchange is
      the record [Exchange.t] of the calls made to the client.
      [ScannerProps]: its theorems.
    - [ClientExchange]: when the record [Exchange.t] is what the client
      returns ([exchange_of]): on an exchange that answers a request the
      same way whenever it is asked.
    - [ScannerClient]: Module [ClientScan], the loops of [scan_once] and
      [run_continuous] with every [get_markets] and [get_orderbook] made
      through [KalshiClient], the client and the world threaded through
      the pages, the markets and the turns.  [ScannerClientProps]: what
      every request and every sleep preserve the loop preserves, and a
      turn over the client refines the turn over the record.
    - [Orchestrator]: the state is [Orchestrator.t]; the strategies live
      in the scanner and the ledger and the tracker in the allocator, as
      the objects are shared in the code; [initialize], the four phases
      of [_process_cycle], [run_once], [run] over a list of rounds (what
      the exchange, the clock and the signal handlers give to each turn
      of the loop), [cleanup], [get_status], [run_bot].
    - [OrchestratorProps], [RunProps]: the theorems on a cycle and on a
      run, with their examples on the default configuration.
    - [ClientRun]: Module [ClientRun], the orchestrator with the client
      it creates: [initialize] with the balance asked through the
      client, the loop of [run] with the scanner of every turn calling
      it, [run_once], [cleanup] with the client closed, [run_bot]; and
      Module [ClientMain], the modes of src/main.py over it.
      [ClientRunProps]: what such a run keeps, and that it refines the
      run of [Orchestrator].
    - [Main]: the namespace of the command line and the action of each
      option on it ([Args.parse_args]), [main], [check_status],
      [run_once] with the report it prints, [run_continuous].
      [MainProps]: the mode of a command line and which exchange each
      mode reaches.

    - [SpecExamples]: the worked examples of the specification,
      evaluated on the definitions.

    Notifications (src/src/notifications.py):
    - [Notify]: Module [TelegramNotifier]; [_send] over the command line
      tool [Cli], and the six notifications with the text of each.
      [NotifyProps]: its theorems and examples of the texts.

    ** What the theorems show

    - Ledger, functional: [execute_signal] returns a position exactly
      when the portfolio exists, none of the five risk limits is exceeded
      and the price of the side is positive and at most the size; the
      fields of that position, with the largest quantity the size pays
      for, and what the state returned holds under which key;
      [close_position] returns exactly when a portfolio holds the id, and
      closes the position of the first that does: its exit fields, its
      P&L, and the capital, the closed list and the daily P&L after it,
      all stated on the fields of the records; a second close of the
      same id does nothing; [check_exits] closes the positions its
      reference names and raises exactly when the exit rule does.
    - Ledger, invariants by induction on [reachable]: well-formedness,
      the exposure cap, the limit on open positions, solvency of every
      portfolio, balanced books, and that no position is ever EXPIRED.
    - Statistics: exactly when [calculate_metrics] raises; the Sharpe and
      Sortino ratios against their definitions on the list of returns;
      the maximum drawdown as an upper bound of every peak-to-trough
      decline, between 0 and 100; counts, win rate, profit factor,
      expectancy; the leaderboard as a stable sort; a row of the store
      decodes to the position it was written from, and its quantity
      fits the 64-bit integer of its column; the dictionaries of
      [to_dict] determine the position and the metrics.
    - Allocator: bounds of the score; the ranking is a sorted permutation
      of the portfolios; allocations are not negative and never exceed the
      total capital; a strategy with more than 60% of the total score is
      cut at half of the capital and the allocations then add up to less
      than the capital, as in the example of the specification; when the
      allocation returns; what the rebalance writes; and that the
      rebalance keeps neither the books nor the solvency of the ledger.
    - Strategies: when each of the seven classes emits a signal and with
      which side, size and confidence; the bound of the momentum price
      history; when the momentum strategy raises; that a NO position of
      the mean-reversion strategy is due for exit on the snapshot that
      opened it, and that no position of a UFC strategy is; that all
      seven meet [Lawful].
    - Client: requests are at least the minimum interval apart and go to
      the exchange the client was built for; [_request] returns the first
      answer that is not a 429, given that many attempts, and does not
      return while the exchange refuses; the signature ignores the query;
      on a steady exchange the calls of the scanner return the entries of
      the exchange record, in every state of the client; a request to a
      closed client opens it again.
    - Scanner: the scan ends within [scan_fuel] pages on every exchange;
      what it returns and caches; [generate_signals] as a map of the
      strategies over the markets, from which: a strategy that adds no
      signal, one that raises on every call included, can be taken out
      without a change for the others; the type of a signal.
    - Scanner over the client: on every exchange the requests of the
      scanning loop, retries included, go to the exchange of the client
      and are paced, [j] requests taking at least
      [j / calls_per_second] seconds, and a turn lasts at least the
      poll interval; on a steady exchange that never answers 429 the
      scan and the turn over the client return what the scan and the
      turn over the record return, with one attempt per request.
    - Orchestrator: the first two phases of a cycle refine runs of the
      ledger's state machine; through cycles and runs, rebalances and
      exceptions included, the ledger stays well formed and within its
      limits; a cycle that returns has closed every position due to
      leave and rebalanced if a rebalance was due; the store mirrors the
      history of the tracker through every cycle and over a whole run;
      [cleanup] saves a row for every portfolio.
    - The bot over the client: without [--live] on the command line
      every mode of [main] sends every request to the sandbox and at
      most [8] a second, whatever the configuration and the exchange; the
      ledger stays within its limits; on a steady exchange that never
      answers 429 the run over the client returns what the run over the
      record returns.
    - Entry point: a flag is set exactly when its option is given,
      except [sandbox], which is always set; the mode [main] runs for a
      command line; without [--live] every mode reaches the sandbox;
      with [--live] the loop honours [force_sandbox] and the single
      cycle does not.
    - Notifier and formats: a printed amount reads back within half a
      unit of its last digit, and exactly when it is a whole number of
      such units; the message of a position closed at less than half a
      cent either way shows a zero amount with the sign and the mark of
      the P&L; a notifier runs one command per notification when it is
      on, to the one recipient, and none when it is off.

    ** Numbers

    Python's [float] is modelled by the exact rationals [Q] of the Standard
    Library, compared with [==] ([Qeq]).  Rounding, overflow and NaN are
    therefore outside the model: every theorem is about the arithmetic the
    code means, not about binary64.  What is kept of the float behaviour:

    - [x / y] raises [ZeroDivisionError] when [y] is zero ([qdiv] returns a
      [result]); a division whose divisor is tested in the same expression
      or is a literal is written with the total [/];
    - [float('inf')] is a value of [xfloat] ([PInf]);
    - [int(x)] truncates toward zero ([Qtrunc]); a Python [int] has no
      width and is a [Z]; the one width that matters is that of an SQLite
      [INTEGER] column, 64 bits ([INTEGER_MAX] of [Persistence]);
    - [min] and [max] return the argument Python returns ([py_min],
      [py_max]); [max] of an empty list raises [ValueError];
    - [sum] adds from the left starting at 0 ([py_sum]), with [Qsum] as
      its reference;
    - a format specification prints the digits of the rational rounded
      to the last place, ties to the even digit ([PyFormat]); on a float
      whose binary value is not the decimal it was written as, Python
      rounds the binary value;
    - [math.sqrt] is an operation of the class [Sqrt], of which only that
      it respects [==], is positive on positive numbers and is 0 at 0 is
      assumed; [approx_sqrt] is an executable instance, so every theorem
      on the ratios holds for it and for the real square root alike.

    ** State, time and identifiers

    A Python object that is mutated in place is a record that the
    operation returns anew; a portfolio is written back under the key it
    is stored at, which keeps its place in the dictionary as the in-place
    update does.  An object two components hold is kept once, in the
    component that owns it in the model, and read there by the other.
    An operation that raises returns [Err]; where the program goes on
    after the exception ([check_exits], [analyze] of the momentum
    strategy, the scan, a cycle, [cleanup]) the operation returns the
    state it had reached beside the exception.  Points in time are
    integers in microseconds, and rationals in seconds for the clock of
    the API client; what [datetime.now()] reads is the parameter [now]
    and what [uuid.uuid4()] draws is the parameter [new_id].  The
    reachability theorems assume of the environment what [op_valid]
    says: a new id is not the id of an open position, an initial capital
    is not negative, and a market price is between 0 and 1.

    ** Fuel

    Two loops of the program are not loops over a finite list, and their
    models take fuel.  The pages of [scan_once]: each page that does not
    end the loop holds a market, so [scan_fuel], one more than
    [max_markets], is enough on every exchange, and [scan_once] is
    defined with it.  The attempts of [_request]: the code retries a 429
    without a bound, so no fuel is enough for every exchange; the fuel is
    the number of attempts, [None] is the answer of a call still retrying
    at its end, and the theorems say for which exchanges a given fuel
    yields an answer.  The interpreter has a bound the model has not:
    the retry is a recursive call, and after about a thousand refusals
    in a row, a second apart, Python raises [RecursionError]; the
    theorems on a request that never returns are about the code as
    written, without that limit.  The scan over the client takes both: the fuel of
    its pages is [scan_fuel] again, the attempts are those of each
    request, and a request still retrying at their end leaves the scan
    without a result; on a steady exchange that never refuses one
    attempt per request is enough; the run over the client has the same
    two and no other.  The theorems on the log of requests hold for
    every number of attempts, also when the result is [None]: any
    finite part of a run of the program retries each request finitely
    often, and is the run of the model with more attempts than that.
    The loop of [run] is a fold over the rounds it is given.  Every
    other loop is a structural recursion or a fold.

    ** Not modelled

    The scripts under src/tests, which call the live API; the parsing of
    the command line by argparse, the configuration of structlog and the
    banner of the confirmation prompt; logging; [get_private_key_path],
    which expands a path against the home directory and is never
    called.  How argparse splits the command line into options is the
    behaviour of the library (abbreviated options, [-h], the error
    exit); the program fixes the options, their defaults and their
    actions, and [Args.parse_args] starts from the options recognised.
    A value a dictionary of [to_dict] holds is typed ([Field]), and a
    time stands for its ISO text.  The parsed configuration [Yaml.t]
    holds each key [Config.load] reads at the type the program expects
    of it: [sandbox] and [force_sandbox] are an optional boolean, so a
    key that is present with the value null or with a value that is
    not a boolean, which Python would test for truth, has no
    counterpart.  The periods of the momentum strategy are natural
    numbers: a negative period, for which [deque(maxlen=...)] raises
    [ValueError] in [analyze], is read as 0.  The function [read_fixed]
    of [PyFormat], which reads a printed number back as [float(s)]
    does, models the builtin and no code of the repository.  Of
    the API client, the RSA-PSS signature is a function held as the key,
    the HTTP transport is the [Server] and the JSON body of an answer is
    of an abstract type.  Of the notifier, the subprocess is the [Cli].
    Reading the configuration file and the environment is input of the
    model: [Config.load] starts from the parsed document.  A text is the
    sequence of its bytes in UTF-8, so the length of a text with
    characters outside ASCII is counted in bytes.  A market dictionary
    without the key [market_id] yields a signal whose market id is the
    empty string where Python would store [None].

    ** This file

    The generic layer shared by every component: the error monad [result]
    with its notation in [py_scope], boolean comparisons on [Q] with their
    reflection lemmas, the tactics [qcases] and [qsolve], the hint
    database [py], [py_min], [py_max] and [clamp], sums and their
    lemmas, truncation, the extended floats and the square-root
    interface. *)

From Stdlib Require Import String.
From Stdlib Require Import QArith Qround Qabs Lqa Lia ZArith List Bool.
From Stdlib Require Import Morphisms Permutation Sorted.
Import ListNotations.

Declare Scope py_scope.
Delimit Scope py_scope with py.
#[global] Open Scope Q_scope.
#[global] Open Scope py_scope.

Create HintDb py discriminated.

(** ** Errors as values *)

(** The exceptions the modelled code can raise. *)
Inductive PyError : Type :=
| ZeroDivisionError
| KeyError (key : string)
| ValueError (what : string)
| RuntimeError (what : string)
| FileNotFoundError (path : string)
| HTTPStatusError (status : Z).

Inductive result (A : Type) : Type :=
| Ok (a : A)
| Err (e : PyError).

Arguments Ok {A} a.
Arguments Err {A} e.

Definition bind {A B : Type} (c : result A) (k : A -> result B) : result B :=
  match c with
  | Ok a => k a
  | Err e => Err e
  end.

Notation "x <- c ;; k" := (bind c (fun x => k))
  (at level 61, c at next level, right associativity) : py_scope.

Definition is_ok {A : Type} (c : result A) : bool :=
  match c with Ok _ => true | Err _ => false end.

(** [for x in l: acc = f(acc, x)] where the body can raise. *)
Fixpoint foldM {A S : Type} (f : S -> A -> result S) (l : list A) (s : S)
  : result S :=
  match l with
  | [] => Ok s
  | x :: l' => s' <- f s x ;; foldM f l' s'
  end.

(** [[f(x) for x in l]] where [f] can raise. *)
Fixpoint mapM {A B : Type} (f : A -> result B) (l : list A) : result (list B) :=
  match l with
  | [] => Ok []
  | x :: l' => y <- f x ;; ys <- mapM f l' ;; Ok (y :: ys)
  end.

(** [for x in l: ...] where the body can raise and the state it has
    reached survives the exception: the state at the exit of the loop
    and the exception that ended it, if one did. *)
Fixpoint foldS {A S : Type} (f : S -> A -> S * option PyError) (l : list A)
    (s : S) : S * option PyError :=
  match l with
  | [] => (s, None)
  | x :: l' =>
    match f s x with
    | (s', None) => foldS f l' s'
    | (s', Some e) => (s', Some e)
    end
  end.

(** What every turn of such a loop preserves holds at its exit. *)
Lemma foldS_preserves {A S : Type} (P : S -> Prop)
    (f : S -> A -> S * option PyError) (l : list A) :
  (forall s x, In x l -> P s -> P (fst (f s x))) ->
  forall s, P s -> P (fst (foldS f l s)).
Proof.
  induction l as [|x l IH]; intros Hf s Hs; [exact Hs|]. simpl.
  pose proof (Hf s x (or_introl eq_refl) Hs) as Hx.
  destruct (f s x) as [s' [e|]]; [exact Hx|].
  apply IH; [|exact Hx]. intros s0 y Hy. apply Hf. now right.
Qed.

(** When the loop returns, what a turn establishes for its element holds
    at the exit for every element, provided later turns keep it. *)
Lemma foldS_all {A S : Type} (Inv : S -> Prop) (Q : A -> S -> Prop)
    (f : S -> A -> S * option PyError) (l : list A) :
  (forall s x, In x l -> Inv s -> Inv (fst (f s x))) ->
  (forall s x, In x l -> Inv s -> snd (f s x) = None -> Q x (fst (f s x))) ->
  (forall s x y, In x l -> In y l -> Inv s -> Q y s -> Q y (fst (f s x))) ->
  forall s, Inv s -> snd (foldS f l s) = None ->
            forall x, In x l -> Q x (fst (foldS f l s)).
Proof.
  intros Hinv Hest Hkeep s Hs Hret x Hx.
  assert (Hgen : forall l', incl l' l -> forall s, Inv s ->
            snd (foldS f l' s) = None ->
            (In x l' \/ Q x s) -> Q x (fst (foldS f l' s))).
  { induction l' as [|a l' IH]; intros Hincl s0 Hs0 Hr Hq;
      [now destruct Hq as [[]|]|].
    assert (Ha : In a l) by (apply Hincl; now left).
    cbn [foldS] in *.
    pose proof (Hinv s0 a Ha Hs0) as Hs1.
    pose proof (Hest s0 a Ha Hs0) as He.
    pose proof (Hkeep s0 a x Ha Hx Hs0) as Hk.
    destruct (f s0 a) as [s1 [e|]]; [discriminate|]. cbn [fst snd] in *.
    apply IH; auto; [intros y Hy; apply Hincl; now right|].
    destruct Hq as [[->|Hin]|Hq]; auto. }
  apply Hgen; auto. apply incl_refl.
Qed.

(** A loop that returns has run every turn without an exception. *)
Lemma foldS_returns {A S : Type} (f : S -> A -> S * option PyError)
    (l : list A) (s : S) :
  snd (foldS f l s) = None ->
  foldS f l s = (fold_left (fun s x => fst (f s x)) l s, None).
Proof.
  revert s. induction l as [|x l IH]; intros s; simpl; [reflexivity|].
  destruct (f s x) as [s' [e|]] eqn:E; [discriminate|]. cbn [fst]. apply IH.
Qed.

Lemma bind_ok_inv {A B : Type} (c : result A) (k : A -> result B) (b : B) :
  bind c k = Ok b -> exists a, c = Ok a /\ k a = Ok b.
Proof. destruct c; simpl; [eauto | discriminate]. Qed.

Lemma bind_ok {A B : Type} (c : result A) (k : A -> result B) (a : A) :
  c = Ok a -> bind c k = k a.
Proof. now intros ->. Qed.

Lemma mapM_ok_length {A B : Type} (f : A -> result B) (l : list A) (r : list B) :
  mapM f l = Ok r -> length r = length l.
Proof.
  revert r; induction l as [|x l IH]; simpl; intros r H.
  - now inversion H.
  - destruct (f x); [|discriminate]. simpl in H.
    destruct (mapM f l) as [ys|]; [|discriminate].
    inversion H; subst; simpl; f_equal; auto.
Qed.

Lemma mapM_total {A B : Type} (f : A -> result B) (l : list A) :
  Forall (fun x => is_ok (f x) = true) l -> is_ok (mapM f l) = true.
Proof.
  induction 1 as [|x l Hx _ IH]; simpl; [reflexivity|].
  destruct (f x); [|discriminate]. simpl.
  destruct (mapM f l); [reflexivity | discriminate].
Qed.

(** Inverts a hypothesis [bind c k = Ok b], naming the intermediate value. *)
Ltac inv_bind H :=
  let a := fresh "a" in
  let Ha := fresh "Hbind" in
  apply bind_ok_inv in H; destruct H as (a & Ha & H).

(** ** Comparisons on [Q] as booleans *)

Definition qleb (x y : Q) : bool := Qle_bool x y.
Definition qltb (x y : Q) : bool := negb (Qle_bool y x).
Definition qeqb (x y : Q) : bool := Qeq_bool x y.

Lemma qleb_spec x y : reflect (x <= y) (qleb x y).
Proof. apply iff_reflect; symmetry; apply Qle_bool_iff. Qed.

Lemma qltb_spec x y : reflect (x < y) (qltb x y).
Proof.
  unfold qltb. change (Qle_bool y x) with (qleb y x).
  destruct (qleb_spec y x); simpl; constructor; lra.
Qed.

Lemma qeqb_spec x y : reflect (x == y) (qeqb x y).
Proof. apply iff_reflect; symmetry; apply Qeq_bool_iff. Qed.

#[export] Instance qleb_proper : Proper (Qeq ==> Qeq ==> eq) qleb.
Proof. intros x x' Hx y y' Hy. unfold qleb. now rewrite Hx, Hy. Qed.

#[export] Instance qltb_proper : Proper (Qeq ==> Qeq ==> eq) qltb.
Proof. intros x x' Hx y y' Hy. unfold qltb. now rewrite Hx, Hy. Qed.

#[export] Instance qeqb_proper : Proper (Qeq ==> Qeq ==> eq) qeqb.
Proof. intros x x' Hx y y' Hy. unfold qeqb. now rewrite Hx, Hy. Qed.

(** Case analysis on every comparison of the goal and of the context. *)
Ltac qcase1 :=
  match goal with
  | |- context [qltb ?a ?b] => destruct (qltb_spec a b)
  | |- context [qleb ?a ?b] => destruct (qleb_spec a b)
  | |- context [qeqb ?a ?b] => destruct (qeqb_spec a b)
  | H : context [qltb ?a ?b] |- _ => destruct (qltb_spec a b)
  | H : context [qleb ?a ?b] |- _ => destruct (qleb_spec a b)
  | H : context [qeqb ?a ?b] |- _ => destruct (qeqb_spec a b)
  end.

Ltac qcases := repeat qcase1.

Ltac qsolve :=
  qcases; simpl in *;
  try solve [ lra | discriminate | congruence | reflexivity | auto with py ].

Lemma qltb_true x y : qltb x y = true <-> x < y.
Proof. destruct (qltb_spec x y); split; intros; auto; discriminate || contradiction. Qed.

Lemma qltb_false x y : qltb x y = false <-> y <= x.
Proof. destruct (qltb_spec x y); split; intros; try lra; discriminate || auto. Qed.

Lemma qleb_true x y : qleb x y = true <-> x <= y.
Proof. destruct (qleb_spec x y); split; intros; auto; discriminate || contradiction. Qed.

Lemma qleb_false x y : qleb x y = false <-> y < x.
Proof. destruct (qleb_spec x y); split; intros; try lra; discriminate || auto. Qed.

Lemma qeqb_true x y : qeqb x y = true <-> x == y.
Proof. destruct (qeqb_spec x y); split; intros; auto; discriminate || contradiction. Qed.

(** ** [/] that raises *)

Definition qdiv (x y : Q) : result Q :=
  if qeqb y 0 then Err ZeroDivisionError else Ok (x / y).

Lemma qdiv_ok x y : ~ y == 0 -> qdiv x y = Ok (x / y).
Proof. unfold qdiv; intros; qsolve. Qed.

Lemma qdiv_err x y : y == 0 -> qdiv x y = Err ZeroDivisionError.
Proof. unfold qdiv; intros; qsolve. Qed.

Lemma qdiv_ok_inv x y z : qdiv x y = Ok z -> ~ y == 0 /\ z = x / y.
Proof. unfold qdiv; qcases; intros H; inversion H; auto. Qed.

(** ** [min] and [max] as Python evaluates them *)

(** [max(a, b)] is [b] when [b > a], else [a]. *)
Definition py_max (a b : Q) : Q := if qltb a b then b else a.

(** [min(a, b)] is [b] when [b < a], else [a]. *)
Definition py_min (a b : Q) : Q := if qltb b a then b else a.

Lemma py_max_spec a b : (a < b /\ py_max a b = b) \/ (b <= a /\ py_max a b = a).
Proof. unfold py_max; qcases; [left|right]; split; try reflexivity; lra. Qed.

Lemma py_min_spec a b : (b < a /\ py_min a b = b) \/ (a <= b /\ py_min a b = a).
Proof. unfold py_min; qcases; [left|right]; split; try reflexivity; lra. Qed.

Lemma py_max_ge_l a b : a <= py_max a b.
Proof. unfold py_max; qsolve. Qed.

Lemma py_max_ge_r a b : b <= py_max a b.
Proof. unfold py_max; qsolve. Qed.

Lemma py_min_le_l a b : py_min a b <= a.
Proof. unfold py_min; qsolve. Qed.

Lemma py_min_le_r a b : py_min a b <= b.
Proof. unfold py_min; qsolve. Qed.

#[export] Instance py_max_proper : Proper (Qeq ==> Qeq ==> Qeq) py_max.
Proof. intros a a' Ha b b' Hb. unfold py_max. rewrite Ha, Hb. qsolve. Qed.

#[export] Instance py_min_proper : Proper (Qeq ==> Qeq ==> Qeq) py_min.
Proof. intros a a' Ha b b' Hb. unfold py_min. rewrite Ha, Hb. qsolve. Qed.

#[export] Hint Resolve py_max_ge_l py_max_ge_r py_min_le_l py_min_le_r : py.

(** [max(l)] of a list: the first greatest element; [ValueError] on the
    empty list. *)
Definition py_max_list (l : list Q) : result Q :=
  match l with
  | [] => Err (ValueError "max() arg is an empty sequence")
  | x :: l' => Ok (fold_left py_max l' x)
  end.

Lemma fold_py_max_ge l a : a <= fold_left py_max l a.
Proof.
  revert a; induction l as [|x l IH]; intros a; simpl; [lra|].
  specialize (IH (py_max a x)). pose proof (py_max_ge_l a x). lra.
Qed.

Lemma fold_py_max_upper l a : Forall (fun x => x <= fold_left py_max l a) l.
Proof.
  revert a; induction l as [|x l IH]; intros a; simpl; constructor; [|apply IH].
  pose proof (fold_py_max_ge l (py_max a x)). pose proof (py_max_ge_r a x). lra.
Qed.

(** [max(lo, min(hi, x))]: the clamp the allocator writes. *)
Definition clamp (lo hi x : Q) : Q := py_max lo (py_min hi x).

Lemma clamp_bounds lo hi x : lo <= hi -> lo <= clamp lo hi x <= hi.
Proof. unfold clamp, py_max, py_min; intros; qcases; lra. Qed.

Lemma clamp_id lo hi x : lo <= x <= hi -> clamp lo hi x == x.
Proof. unfold clamp, py_max, py_min; intros; qcases; lra. Qed.

Lemma clamp_mono lo hi x y : x <= y -> clamp lo hi x <= clamp lo hi y.
Proof. unfold clamp, py_max, py_min; intros; qcases; lra. Qed.

(** ** [sum] *)

(** [sum(l)]: the accumulator starts at 0 and the elements are added to it
    from the left. *)
Definition py_sum (l : list Q) : Q := fold_left Qplus l 0.

(** The reference definition the proofs use. *)
Fixpoint Qsum (l : list Q) : Q :=
  match l with
  | [] => 0
  | x :: l' => x + Qsum l'
  end.

Lemma fold_left_Qplus_acc (l : list Q) (a : Q) :
  fold_left Qplus l a == a + Qsum l.
Proof.
  revert a; induction l as [|x l IH]; intros a; simpl; [lra|].
  rewrite IH. lra.
Qed.

Lemma py_sum_Qsum l : py_sum l == Qsum l.
Proof. unfold py_sum. rewrite fold_left_Qplus_acc. lra. Qed.

Lemma py_sum_nil : py_sum [] == 0.
Proof. reflexivity. Qed.

Lemma py_sum_cons x l : py_sum (x :: l) == x + py_sum l.
Proof. rewrite !py_sum_Qsum. reflexivity. Qed.

Lemma Qsum_app l1 l2 : Qsum (l1 ++ l2) == Qsum l1 + Qsum l2.
Proof. induction l1 as [|x l1 IH]; simpl; [lra | rewrite IH; lra]. Qed.

Lemma py_sum_app l1 l2 : py_sum (l1 ++ l2) == py_sum l1 + py_sum l2.
Proof. rewrite !py_sum_Qsum. apply Qsum_app. Qed.

#[export] Instance Qsum_proper : Proper (Forall2 Qeq ==> Qeq) Qsum.
Proof. intros l l' H; induction H; simpl; [reflexivity | rewrite H, IHForall2; reflexivity]. Qed.

#[export] Instance py_sum_proper : Proper (Forall2 Qeq ==> Qeq) py_sum.
Proof. intros l l' H. rewrite !py_sum_Qsum. now apply Qsum_proper. Qed.

#[export] Instance Qsum_perm_proper : Proper (@Permutation Q ==> Qeq) Qsum.
Proof. intros l l' H; induction H; simpl; lra. Qed.

Lemma Qsum_nonneg l : Forall (fun x => 0 <= x) l -> 0 <= Qsum l.
Proof. induction 1; simpl; lra. Qed.

Lemma Qsum_nonpos l : Forall (fun x => x <= 0) l -> Qsum l <= 0.
Proof. induction 1; simpl; lra. Qed.

Lemma Qsum_pos l : l <> [] -> Forall (fun x => 0 < x) l -> 0 < Qsum l.
Proof.
  intros Hne H; destruct H as [|x l Hx Hl]; [congruence|]; simpl.
  assert (0 <= Qsum l) by (apply Qsum_nonneg; eapply Forall_impl; [|exact Hl]; simpl; intros; lra).
  lra.
Qed.

Lemma Qsum_map_ext {A} (f g : A -> Q) (l : list A) :
  (forall x, In x l -> f x == g x) -> Qsum (map f l) == Qsum (map g l).
Proof.
  induction l as [|x l IH]; simpl; intros H; [reflexivity|].
  rewrite (H x), IH by auto. reflexivity.
Qed.

Lemma Qsum_map_le {A} (f g : A -> Q) (l : list A) :
  (forall x, In x l -> f x <= g x) -> Qsum (map f l) <= Qsum (map g l).
Proof.
  induction l as [|x l IH]; simpl; intros H; [lra|].
  specialize (H x (or_introl eq_refl)) as Hx. specialize (IH (fun y Hy => H y (or_intror Hy))). lra.
Qed.

(** A sum is under another by [d] when it is so at one element and not
    over it at the others. *)
Lemma Qsum_map_le_at {X} (f g : X -> Q) (l : list X) x d :
  In x l -> (forall y, In y l -> f y <= g y) -> f x <= g x - d ->
  Qsum (map f l) <= Qsum (map g l) - d.
Proof.
  intros Hin Hle Hx. induction l as [|y l IH]; [destruct Hin|].
  cbn [map Qsum]. pose proof (Hle y (or_introl eq_refl)) as Hy.
  destruct Hin as [->|Hin].
  - pose proof (Qsum_map_le f g l (fun z Hz => Hle z (or_intror Hz))). lra.
  - specialize (IH Hin (fun z Hz => Hle z (or_intror Hz))). lra.
Qed.

(** A sum of numbers that are not negative is at least each of them. *)
Lemma Qsum_ge_In (l : list Q) x :
  Forall (fun y => 0 <= y) l -> In x l -> x <= Qsum l.
Proof.
  induction 1 as [|y l Hy Hl IH]; intros Hin; [destruct Hin|]. cbn [Qsum].
  pose proof (Qsum_nonneg l Hl). destruct Hin as [->|Hin]; [|specialize (IH Hin)]; lra.
Qed.

Lemma Qsum_map_scale {A} (c : Q) (f : A -> Q) (l : list A) :
  Qsum (map (fun x => f x * c) l) == Qsum (map f l) * c.
Proof. induction l as [|x l IH]; simpl; [lra | rewrite IH; lra]. Qed.

Lemma inject_Z_S (n : nat) : inject_Z (Z.of_nat (S n)) == 1 + inject_Z (Z.of_nat n).
Proof.
  rewrite Nat2Z.inj_succ. unfold Z.succ. rewrite inject_Z_plus.
  change (inject_Z 1) with 1. lra.
Qed.

Lemma Qsum_map_const {A} (c : Q) (l : list A) :
  Qsum (map (fun _ => c) l) == inject_Z (Z.of_nat (length l)) * c.
Proof.
  induction l as [|x l IH]; [unfold Qeq; simpl; lia|].
  change (Qsum (map (fun _ => c) (x :: l))) with (c + Qsum (map (fun _ => c) l)).
  rewrite IH. change (length (x :: l)) with (S (length l)).
  rewrite inject_Z_S. lra.
Qed.

Lemma Qsum_map_add {A} (f g : A -> Q) (l : list A) :
  Qsum (map (fun x => f x + g x) l) == Qsum (map f l) + Qsum (map g l).
Proof. induction l as [|x l IH]; simpl; [lra | rewrite IH; lra]. Qed.

Lemma Qsum_filter_split {A} (p : A -> bool) (f : A -> Q) (l : list A) :
  Qsum (map f l) ==
  Qsum (map f (filter p l)) + Qsum (map f (filter (fun x => negb (p x)) l)).
Proof.
  induction l as [|x l IH]; simpl; [lra|].
  destruct (p x); simpl; rewrite IH; lra.
Qed.

Lemma Permutation_filter {A} (p : A -> bool) (l l' : list A) :
  Permutation l l' -> Permutation (filter p l) (filter p l').
Proof.
  induction 1 as [|x l l' _ IH|x y l|l l' l'' _ IH1 _ IH2]; simpl.
  - constructor.
  - destruct (p x); [now constructor | assumption].
  - destruct (p x), (p y); try reflexivity. apply perm_swap.
  - now transitivity (filter p l').
Qed.

(** [sum] of integers, and the reference definition. *)
Definition py_sumZ (l : list Z) : Z := fold_left Z.add l 0%Z.

Fixpoint Zsum (l : list Z) : Z :=
  match l with
  | [] => 0
  | x :: l' => x + Zsum l'
  end.

Lemma fold_left_Zadd_acc (l : list Z) (a : Z) :
  fold_left Z.add l a = (a + Zsum l)%Z.
Proof.
  revert a; induction l as [|x l IH]; intros a; simpl; [lia|].
  rewrite IH. lia.
Qed.

Lemma py_sumZ_Zsum l : py_sumZ l = Zsum l.
Proof. unfold py_sumZ. now rewrite fold_left_Zadd_acc. Qed.

Lemma Zsum_app l1 l2 : Zsum (l1 ++ l2) = (Zsum l1 + Zsum l2)%Z.
Proof. induction l1 as [|x l1 IH]; simpl; [reflexivity | rewrite IH; lia]. Qed.

Lemma Zsum_nonneg l : Forall (fun x => (0 <= x)%Z) l -> (0 <= Zsum l)%Z.
Proof. induction 1; simpl; lia. Qed.

(** The number of elements of a list as a float: [len(l)] in a division. *)
Definition qlen {A} (l : list A) : Q := inject_Z (Z.of_nat (length l)).

Lemma qlen_nonneg {A} (l : list A) : 0 <= qlen l.
Proof. unfold qlen. change 0 with (inject_Z 0). rewrite <- Zle_Qle. lia. Qed.

Lemma qlen_pos {A} (l : list A) : l <> [] -> 0 < qlen l.
Proof.
  destruct l; [congruence|]; intros _. unfold qlen.
  change 0 with (inject_Z 0). rewrite <- Zlt_Qlt. simpl; lia.
Qed.

Lemma qlen_cons {A} (x : A) (l : list A) : qlen (x :: l) == 1 + qlen l.
Proof.
  unfold qlen. change (length (x :: l)) with (S (length l)). apply inject_Z_S.
Qed.

(** ** [int(x)]: truncation toward zero *)

Definition Qtrunc (x : Q) : Z := Z.quot (Qnum x) (Zpos (Qden x)).

Lemma Qtrunc_floor x : 0 <= x -> Qtrunc x = Qfloor x.
Proof.
  destruct x as [n d]; unfold Qtrunc, Qfloor, Qle; simpl; intros H.
  apply Z.quot_div_nonneg; lia.
Qed.

Lemma Qtrunc_le x : 0 <= x -> inject_Z (Qtrunc x) <= x.
Proof. intros H. rewrite Qtrunc_floor by assumption. apply Qfloor_le. Qed.

Lemma Qtrunc_lt x : 0 <= x -> x < inject_Z (Qtrunc x) + 1.
Proof.
  intros H. rewrite Qtrunc_floor by assumption.
  pose proof (Qlt_floor x) as Hf. rewrite inject_Z_plus in Hf. exact Hf.
Qed.

Lemma Qtrunc_nonneg x : 0 <= x -> (0 <= Qtrunc x)%Z.
Proof.
  intros H. rewrite Qtrunc_floor by assumption.
  change 0%Z with (Qfloor 0). now apply Qfloor_resp_le.
Qed.

Lemma Qtrunc_nonpos x : x <= 0 -> (Qtrunc x <= 0)%Z.
Proof.
  destruct x as [n d]; unfold Qtrunc, Qle; simpl; intros H.
  rewrite Z.mul_1_r in H.
  assert (H0 : (0 <= Z.quot (- n) (Zpos d))%Z) by (apply Z.quot_pos; lia).
  rewrite Z.quot_opp_l in H0 by lia. lia.
Qed.

#[export] Instance Qtrunc_proper : Proper (Qeq ==> eq) Qtrunc.
Proof.
  intros [n d] [n' d']; unfold Qeq, Qtrunc; simpl; intros H.
  rewrite <- (Z.quot_mul_cancel_r n (Zpos d) (Zpos d')) by lia.
  rewrite H.
  rewrite (Z.mul_comm (Zpos d) (Zpos d')).
  apply Z.quot_mul_cancel_r; lia.
Qed.

(** ** Floats with infinity *)

(** A float that may be [float('inf')]. *)
Inductive xfloat : Type :=
| Fin (q : Q)
| PInf.

Definition xeq (x y : xfloat) : Prop :=
  match x, y with
  | Fin a, Fin b => a == b
  | PInf, PInf => True
  | _, _ => False
  end.

#[export] Instance xeq_equiv : Equivalence xeq.
Proof.
  split.
  - intros [a|]; simpl; [reflexivity | exact I].
  - intros [a|] [b|]; simpl; auto. intros H; now symmetry.
  - intros [a|] [b|] [c|]; simpl; try tauto. intros H1 H2; now rewrite H1.
Qed.

#[export] Instance Fin_proper : Proper (Qeq ==> xeq) Fin.
Proof. intros a b H; exact H. Qed.

Definition is_inf (x : xfloat) : bool :=
  match x with PInf => true | Fin _ => false end.

(** [x - c] and [x / c] for a finite positive [c]: infinity stays infinity. *)
Definition xsub (x : xfloat) (c : Q) : xfloat :=
  match x with Fin a => Fin (a - c) | PInf => PInf end.

Definition xdiv_pos (x : xfloat) (c : Q) : xfloat :=
  match x with Fin a => Fin (a / c) | PInf => PInf end.

(** [min(c, x)] for a finite [c]: the result is finite. *)
Definition xmin_l (c : Q) (x : xfloat) : Q :=
  match x with Fin a => py_min c a | PInf => c end.

Lemma xmin_l_le c x : xmin_l c x <= c.
Proof. destruct x; simpl; auto with py; lra. Qed.

#[export] Instance xmin_l_proper : Proper (Qeq ==> xeq ==> Qeq) xmin_l.
Proof.
  intros c c' Hc [a|] [b|] H; simpl in *; try tauto. now rewrite Hc, H.
Qed.

(** ** [math.sqrt] *)

(** What the model asks of the square root: it is compatible with [==] and
    positive on positive arguments.  No theorem depends on its value. *)
Class Sqrt : Type := {
  qsqrt : Q -> Q;
  qsqrt_proper :: Proper (Qeq ==> Qeq) qsqrt;
  qsqrt_pos : forall x, 0 < x -> 0 < qsqrt x;
  qsqrt_zero : qsqrt 0 == 0;
}.

(** An executable instance: [floor (sqrt (n * d) * 10^6) / (d * 10^6)] on
    the reduced fraction [n / d]. *)
Definition approx_sqrt (x : Q) : Q :=
  let r := Qred x in
  (Z.sqrt (Qnum r * Zpos (Qden r) * 1000000000000) # (Qden r * 1000000)).

Lemma approx_sqrt_pos x : 0 < x -> 0 < approx_sqrt x.
Proof.
  intros H. unfold approx_sqrt.
  assert (Hr : 0 < Qred x) by (rewrite Qred_correct; exact H).
  destruct (Qred x) as [n d]; unfold Qlt in *; simpl in *.
  rewrite Z.mul_1_r in *.
  apply Z.sqrt_pos. nia.
Qed.

#[export] Instance approx_sqrt_Sqrt : Sqrt := {
  qsqrt := approx_sqrt;
  qsqrt_proper := fun x y H =>
    eq_ind_r (fun r => (Z.sqrt (Qnum r * Zpos (Qden r) * 1000000000000)
                          # (Qden r * 1000000)) == approx_sqrt y)
             (Qeq_refl _) (Qred_complete x y H);
  qsqrt_pos := approx_sqrt_pos;
  qsqrt_zero := eq_refl;
}.
