(* ===== verification/PyDict.v ===== *)
(** * Python dictionaries

    A [dict] keeps its keys in insertion order: assigning to a key that is
    present replaces the value in place, assigning to a new key appends it,
    and [values()], [keys()] and [items()] iterate in that order.  The
    program depends on the order (the ranking of strategies is a stable
    sort of [portfolios.items()], [close_position] takes the first
    portfolio that holds an id), so a dictionary is modelled as the list of
    its items, without duplicate keys ([dict_wf]).

    The section is generic in the key type, which only needs a decidable
    equality ([EqDec]); the program's keys are strings.  The file ends
    with the values the program stores in its free-form dictionaries
    ([PyVal]) and in the dictionaries [to_dict] builds ([Field]). *)

From Stdlib Require Import String.
From Stdlib Require Import QArith Lqa Lia List Bool Permutation.
From S2P Require Import Prelude.
Import ListNotations.

Class EqDec (K : Type) : Type :=
  eq_dec : forall x y : K, {x = y} + {x <> y}.

#[export] Instance string_EqDec : EqDec string := string_dec.
#[export] Instance Z_EqDec : EqDec Z := Z.eq_dec.

Definition dict (K V : Type) : Type := list (K * V).

Section Dict.
Context {K V : Type} `{EqDec K}.

Implicit Types (d : dict K V) (k : K) (v : V).

Definition dict_empty : dict K V := [].

(** [d.get(k)] *)
Fixpoint dict_get d k : option V :=
  match d with
  | [] => None
  | (k', v) :: d' => if eq_dec k k' then Some v else dict_get d' k
  end.

(** [k in d] *)
Definition dict_mem k d : bool :=
  match dict_get d k with Some _ => true | None => false end.

(** [d[k] = v] *)
Fixpoint dict_set d k v : dict K V :=
  match d with
  | [] => [(k, v)]
  | (k', v') :: d' =>
      if eq_dec k k' then (k, v) :: d' else (k', v') :: dict_set d' k v
  end.

(** [del d[k]], for a key that is present. *)
Fixpoint dict_del d k : dict K V :=
  match d with
  | [] => []
  | (k', v') :: d' =>
      if eq_dec k k' then d' else (k', v') :: dict_del d' k
  end.

Definition dict_keys d : list K := map fst d.
Definition dict_values d : list V := map snd d.
Definition dict_items d : list (K * V) := d.

(** A dictionary holds each key once. *)
Definition dict_wf d : Prop := NoDup (dict_keys d).

(** ** Lookup after update *)

Lemma dict_get_set_same d k v : dict_get (dict_set d k v) k = Some v.
Proof.
  induction d as [|[k' v'] d IH]; simpl.
  - destruct (eq_dec k k); congruence.
  - destruct (eq_dec k k') as [->|Hne]; simpl.
    + destruct (eq_dec k' k'); congruence.
    + destruct (eq_dec k k'); congruence.
Qed.

Lemma dict_get_set_diff d k k' v :
  k <> k' -> dict_get (dict_set d k v) k' = dict_get d k'.
Proof.
  intros Hne. induction d as [|[k0 v0] d IH]; simpl.
  - destruct (eq_dec k' k); congruence.
  - destruct (eq_dec k k0) as [->|Hk]; simpl.
    + destruct (eq_dec k' k0); congruence.
    + destruct (eq_dec k' k0); congruence.
Qed.

(** Assigning to a key that is present replaces its value in place. *)
Lemma dict_set_middle (before after : dict K V) k v v' :
  ~ In k (dict_keys before) ->
  dict_set (before ++ (k, v) :: after) k v' = before ++ (k, v') :: after.
Proof.
  induction before as [|[k0 v0] before IH]; simpl; intros Hni.
  - destruct (eq_dec k k); congruence.
  - destruct (eq_dec k k0) as [->|_]; [tauto|]. rewrite IH; tauto.
Qed.

Lemma dict_wf_middle (before after : dict K V) k v :
  dict_wf (before ++ (k, v) :: after) -> ~ In k (dict_keys before).
Proof.
  unfold dict_wf, dict_keys. rewrite map_app. simpl. intros Hnd Hin.
  apply NoDup_remove_2 in Hnd. apply Hnd, in_or_app. now left.
Qed.

Lemma dict_get_In d k v : dict_get d k = Some v -> In (k, v) d.
Proof.
  induction d as [|[k' v'] d IH]; simpl; [discriminate|].
  destruct (eq_dec k k') as [->|Hne]; intros Hg.
  - inversion Hg; auto.
  - auto.
Qed.

Lemma dict_get_None d k : dict_get d k = None <-> ~ In k (dict_keys d).
Proof.
  induction d as [|[k' v'] d IH]; simpl; [tauto|].
  destruct (eq_dec k k') as [->|Hne].
  - split; [discriminate | tauto].
  - rewrite IH. split; [intros Hn [He|Hi]; [congruence | tauto] | tauto].
Qed.

Lemma dict_In_get d k v : dict_wf d -> In (k, v) d -> dict_get d k = Some v.
Proof.
  unfold dict_wf. induction d as [|[k' v'] d IH]; simpl; [tauto|].
  intros Hnd [Heq|Hin]; inversion Hnd as [|? ? Hni Hnd']; subst.
  - inversion Heq; subst. destruct (eq_dec k k); congruence.
  - destruct (eq_dec k k') as [->|Hne]; [|auto].
    exfalso; apply Hni. change k' with (fst (k', v)). now apply in_map.
Qed.

Lemma dict_mem_true d k : dict_mem k d = true <-> In k (dict_keys d).
Proof.
  unfold dict_mem. destruct (dict_get d k) eqn:E.
  - split; [intros _|reflexivity]. apply dict_get_In in E.
    change k with (fst (k, v)). now apply in_map.
  - apply dict_get_None in E. split; [discriminate | tauto].
Qed.

Lemma dict_get_values d k v : dict_get d k = Some v -> In v (dict_values d).
Proof.
  intros Hg. apply dict_get_In in Hg. change v with (snd (k, v)). now apply in_map.
Qed.

Lemma dict_values_get d v :
  dict_wf d -> In v (dict_values d) -> exists k, dict_get d k = Some v.
Proof.
  intros Hwf Hin. apply in_map_iff in Hin as ([k v'] & Heq & Hin); simpl in Heq; subst.
  exists k. now apply dict_In_get.
Qed.

(** ** Keys and values after update *)

Lemma dict_keys_set_fresh d k v :
  dict_get d k = None -> dict_set d k v = d ++ [(k, v)].
Proof.
  induction d as [|[k' v'] d IH]; simpl; [reflexivity|].
  destruct (eq_dec k k'); [discriminate|]. intros Hg. now rewrite IH.
Qed.

Lemma dict_keys_set_present d k v :
  dict_mem k d = true -> dict_keys (dict_set d k v) = dict_keys d.
Proof.
  unfold dict_mem. induction d as [|[k' v'] d IH]; simpl; [discriminate|].
  destruct (eq_dec k k') as [->|Hne]; simpl; [reflexivity|].
  intros Hm. now rewrite IH.
Qed.

Lemma dict_keys_del d k : forall k', In k' (dict_keys (dict_del d k)) -> In k' (dict_keys d).
Proof.
  induction d as [|[k0 v0] d IH]; simpl; [tauto|]. intros k'.
  destruct (eq_dec k k0); simpl; [tauto|]. intros [He|Hi]; auto.
Qed.

Lemma dict_set_wf d k v : dict_wf d -> dict_wf (dict_set d k v).
Proof.
  unfold dict_wf. destruct (dict_mem k d) eqn:E.
  - now rewrite dict_keys_set_present.
  - intros Hwf. assert (Hg : dict_get d k = None)
      by (unfold dict_mem in E; destruct (dict_get d k); congruence).
    rewrite dict_keys_set_fresh by assumption.
    unfold dict_keys. rewrite map_app. simpl.
    apply NoDup_app; [assumption | repeat constructor; simpl; tauto |].
    intros x Hx [Hk|[]]; subst. now apply dict_get_None in Hg.
Qed.

Lemma dict_del_wf d k : dict_wf d -> dict_wf (dict_del d k).
Proof.
  unfold dict_wf. induction d as [|[k' v'] d IH]; simpl; [auto|].
  intros Hnd; inversion Hnd as [|? ? Hni Hnd']; subst.
  destruct (eq_dec k k'); [assumption|]. simpl. constructor; [|auto].
  intros Hin; apply Hni. eapply dict_keys_del; eassumption.
Qed.

Lemma dict_get_del_same d k : dict_wf d -> dict_get (dict_del d k) k = None.
Proof.
  unfold dict_wf. induction d as [|[k' v'] d IH]; simpl; [reflexivity|].
  intros Hnd; inversion Hnd as [|? ? Hni Hnd']; subst.
  destruct (eq_dec k k') as [->|Hne]; simpl.
  - now apply dict_get_None.
  - destruct (eq_dec k k'); [congruence | auto].
Qed.

Lemma dict_get_del_diff d k k' : k <> k' -> dict_get (dict_del d k) k' = dict_get d k'.
Proof.
  intros Hne. induction d as [|[k0 v0] d IH]; simpl; [reflexivity|].
  destruct (eq_dec k k0) as [->|Hk]; simpl.
  - destruct (eq_dec k' k0); congruence.
  - destruct (eq_dec k' k0); congruence.
Qed.

(** Removing a present key removes its value and nothing else. *)
Lemma dict_values_del d k v :
  dict_get d k = Some v ->
  Permutation (dict_values d) (v :: dict_values (dict_del d k)).
Proof.
  induction d as [|[k' v'] d IH]; simpl; [discriminate|].
  destruct (eq_dec k k') as [->|Hne]; intros Hg.
  - inversion Hg; subst. reflexivity.
  - simpl. rewrite (IH Hg). apply perm_swap.
Qed.

Lemma dict_values_set_fresh d k v :
  dict_get d k = None -> dict_values (dict_set d k v) = dict_values d ++ [v].
Proof.
  intros Hg. rewrite dict_keys_set_fresh by assumption.
  unfold dict_values. now rewrite map_app.
Qed.

(** Replacing the value of a present key: the other values stay in place. *)
Lemma dict_values_set_present d k v v0 :
  dict_get d k = Some v0 ->
  exists l1 l2, dict_values d = l1 ++ v0 :: l2 /\
                dict_values (dict_set d k v) = l1 ++ v :: l2.
Proof.
  induction d as [|[k' v'] d IH]; simpl; [discriminate|].
  destruct (eq_dec k k') as [->|Hne]; intros Hg.
  - inversion Hg; subst. exists [], (dict_values d). auto.
  - destruct (IH Hg) as (l1 & l2 & H1 & H2). exists (v' :: l1), l2.
    simpl. now rewrite H1, H2.
Qed.

Lemma dict_set_length_present d k v :
  dict_mem k d = true -> length (dict_set d k v) = length d.
Proof.
  intros Hm. rewrite <- (length_map fst), dict_keys_set_present by assumption.
  apply length_map.
Qed.

Lemma dict_del_length d k v :
  dict_get d k = Some v -> S (length (dict_del d k)) = length d.
Proof.
  intros Hg. apply dict_values_del in Hg. apply Permutation_length in Hg.
  unfold dict_values in Hg. simpl in Hg. now rewrite !length_map in Hg.
Qed.

Lemma dict_keys_del_perm d k v :
  dict_get d k = Some v -> Permutation (dict_keys d) (k :: dict_keys (dict_del d k)).
Proof.
  induction d as [|[k' v'] d IH]; simpl; [discriminate|].
  destruct (eq_dec k k') as [->|Hne]; intros Hg.
  - reflexivity.
  - simpl. rewrite (IH Hg). apply perm_swap.
Qed.

Lemma dict_keys_set_fresh_app d k v :
  dict_get d k = None -> dict_keys (dict_set d k v) = dict_keys d ++ [k].
Proof.
  intros Hg. rewrite dict_keys_set_fresh by assumption.
  unfold dict_keys. now rewrite map_app.
Qed.

Lemma dict_get_set d k v k' :
  dict_get (dict_set d k v) k' = if eq_dec k k' then Some v else dict_get d k'.
Proof.
  destruct (eq_dec k k') as [->|Hne];
    [apply dict_get_set_same | now apply dict_get_set_diff].
Qed.

Lemma dict_get_del d k k' :
  dict_wf d ->
  dict_get (dict_del d k) k' = if eq_dec k k' then None else dict_get d k'.
Proof.
  intros Hwf. destruct (eq_dec k k') as [->|Hne];
    [now apply dict_get_del_same | now apply dict_get_del_diff].
Qed.

Lemma dict_get_app d1 d2 k :
  dict_get (d1 ++ d2) k
  = match dict_get d1 k with
    | Some v => Some v
    | None => dict_get d2 k
    end.
Proof.
  induction d1 as [|[a b] d1 IH]; simpl; [reflexivity|].
  destruct (eq_dec k a); [reflexivity | apply IH].
Qed.

(** ** Sums over the values *)

Lemma Qsum_values_set_fresh (f : V -> Q) d k v :
  dict_get d k = None ->
  Qsum (map f (dict_values (dict_set d k v))) == Qsum (map f (dict_values d)) + f v.
Proof.
  intros Hg. rewrite dict_values_set_fresh by assumption.
  rewrite map_app, Qsum_app. simpl. lra.
Qed.

Lemma Qsum_values_set_present (f : V -> Q) d k v v0 :
  dict_get d k = Some v0 ->
  Qsum (map f (dict_values (dict_set d k v)))
  == Qsum (map f (dict_values d)) - f v0 + f v.
Proof.
  intros Hg. destruct (dict_values_set_present d k v v0 Hg) as (l1 & l2 & -> & ->).
  rewrite !map_app, !Qsum_app. simpl. lra.
Qed.

Lemma Qsum_values_del (f : V -> Q) d k v0 :
  dict_get d k = Some v0 ->
  Qsum (map f (dict_values (dict_del d k))) == Qsum (map f (dict_values d)) - f v0.
Proof.
  intros Hg. rewrite (Permutation_map f (dict_values_del d k v0 Hg)). simpl. lra.
Qed.

Lemma Zsum_values_set_present (f : V -> Z) d k v v0 :
  dict_get d k = Some v0 ->
  Zsum (map f (dict_values (dict_set d k v)))
  = (Zsum (map f (dict_values d)) - f v0 + f v)%Z.
Proof.
  intros Hg. destruct (dict_values_set_present d k v v0 Hg) as (l1 & l2 & -> & ->).
  rewrite !map_app, !Zsum_app. simpl. lia.
Qed.

Lemma Zsum_values_set_fresh (f : V -> Z) d k v :
  dict_get d k = None ->
  Zsum (map f (dict_values (dict_set d k v))) = (Zsum (map f (dict_values d)) + f v)%Z.
Proof.
  intros Hg. rewrite dict_values_set_fresh by assumption.
  rewrite map_app, Zsum_app. simpl. lia.
Qed.

(** The values that satisfy [p], after an update. *)
Lemma filter_values_set_fresh (p : V -> bool) d k v :
  dict_get d k = None ->
  filter p (dict_values (dict_set d k v))
  = filter p (dict_values d) ++ (if p v then [v] else []).
Proof.
  intros Hg. rewrite dict_values_set_fresh by assumption.
  rewrite filter_app. simpl. now destruct (p v).
Qed.

Lemma filter_values_del (p : V -> bool) d k v :
  dict_get d k = Some v ->
  Permutation (filter p (dict_values d))
              ((if p v then [v] else []) ++ filter p (dict_values (dict_del d k))).
Proof.
  intros Hg. rewrite (Permutation_filter p _ _ (dict_values_del d k v Hg)).
  simpl. now destruct (p v).
Qed.

End Dict.

Arguments dict_empty {K V}.

#[export] Hint Resolve dict_set_wf dict_del_wf : py.

(** [d.get(key, default)] on a key that may be absent. *)
Definition get_default {A : Type} (o : option A) (default : A) : A :=
  match o with Some a => a | None => default end.

(** ** Values a dictionary of type [Dict[str, Any]] holds *)

(** The program stores strings and numbers in its free-form dictionaries
    (a position's metadata, a strategy's parameters). *)
Inductive PyVal : Type :=
| VStr (s : string)
| VNum (q : Q)
| VNone.

(** ** Values of the dictionaries [to_dict] builds *)

(** What [to_dict] of a dataclass stores under a key: a string, an
    integer, a float (which may be infinite), the ISO text of a time
    (held as the time the text is of), [None], or a free-form
    dictionary. *)
Inductive Field : Type :=
| FStr (s : string)
| FInt (n : Z)
| FFloat (x : xfloat)
| FTime (t : Z)
| FNone
| FDict (d : dict string PyVal).

(** A finite float. *)
Definition FNum (q : Q) : Field := FFloat (Fin q).

(** A field of type [Optional]: [None] stays [None]. *)
Definition field_opt {A : Type} (f : A -> Field) (o : option A) : Field :=
  match o with
  | Some a => f a
  | None => FNone
  end.

(** [d.get(k, default)] read as a number: the default also stands for a
    value that is not a number. *)
Definition get_num (d : dict string PyVal) (k : string) (default : Q) : Q :=
  match dict_get d k with
  | Some (VNum q) => q
  | _ => default
  end.

(** An optional field determines the option, when the values that are
    present are stored injectively and never as [None]. *)
Lemma field_opt_inj {A : Type} (f : A -> Field) :
  (forall a b, f a = f b -> a = b) -> (forall a, f a <> FNone) ->
  forall o1 o2, field_opt f o1 = field_opt f o2 -> o1 = o2.
Proof.
  intros Hinj Hnone [a|] [b|]; cbn; intros H; try reflexivity.
  - f_equal. now apply Hinj.
  - now apply Hnone in H.
  - symmetry in H. now apply Hnone in H.
Qed.

Lemma FNum_inj a b : FNum a = FNum b -> a = b.
Proof. now intros [= ->]. Qed.

Lemma FTime_inj a b : FTime a = FTime b -> a = b.
Proof. now intros [= ->]. Qed.
