(* ===== verification/PySort.v ===== *)
(** * Stable sorting

    [list.sort] and [sorted] are stable: elements with equal keys keep the
    order they had.  A stable sort is determined by its input and its
    order, so the insertion sort below returns the list Python's sort
    returns.  [sort_by le l] inserts each element before the first element
    that it may precede ([le x y]); with [le x y := key x <= key y] this is
    [sorted(l, key=key)] and with [le x y := key y <= key x] it is
    [sorted(l, key=key, reverse=True)]. *)

From Stdlib Require Import String.
From Stdlib Require Import QArith Lqa Lia ZArith List Bool Permutation Sorted.
From S2P Require Import Prelude.
Import ListNotations.

Section Sort.
Context {A : Type} (le : A -> A -> bool).

Fixpoint insert_by (x : A) (l : list A) : list A :=
  match l with
  | [] => [x]
  | y :: l' => if le x y then x :: y :: l' else y :: insert_by x l'
  end.

Definition sort_by (l : list A) : list A := fold_right insert_by [] l.

Lemma insert_by_perm x l : Permutation (x :: l) (insert_by x l).
Proof.
  induction l as [|y l IH]; simpl; [reflexivity|].
  destruct (le x y); [reflexivity|].
  rewrite perm_swap. now constructor.
Qed.

Lemma sort_by_perm l : Permutation l (sort_by l).
Proof.
  induction l as [|x l IH]; simpl; [constructor|].
  rewrite <- insert_by_perm. now constructor.
Qed.

Lemma sort_by_length l : length (sort_by l) = length l.
Proof. symmetry. apply Permutation_length, sort_by_perm. Qed.

Lemma sort_by_In x l : In x (sort_by l) <-> In x l.
Proof.
  split; apply Permutation_in; [symmetry|]; apply sort_by_perm.
Qed.

(** The order of the result, for a total and transitive [le]. *)
Hypothesis le_total : forall x y, le x y = true \/ le y x = true.
Hypothesis le_trans : forall x y z, le x y = true -> le y z = true -> le x z = true.

Lemma insert_by_sorted x l :
  StronglySorted (fun a b => le a b = true) l ->
  StronglySorted (fun a b => le a b = true) (insert_by x l).
Proof.
  induction 1 as [|y l Hs IH Hy]; simpl; [repeat constructor|].
  destruct (le x y) eqn:E.
  - constructor; [now constructor|]. constructor; [assumption|].
    eapply Forall_impl; [|exact Hy]. intros z Hz. eapply le_trans; eassumption.
  - constructor; [assumption|].
    apply (Permutation_Forall (insert_by_perm x l)). constructor; [|assumption].
    destruct (le_total x y); congruence.
Qed.

Lemma sort_by_sorted l : StronglySorted (fun a b => le a b = true) (sort_by l).
Proof.
  induction l as [|x l IH]; simpl; [constructor | now apply insert_by_sorted].
Qed.

End Sort.

(** ** Stability *)

(** Sorting keeps the order of the elements of each class of a predicate
    that the order cannot tell apart from outside: if [p] holds of [x] and
    [le] places no element of [p] strictly before another, the elements of
    [p] come out in the order they came in. *)
Section Stable.
Context {A : Type} (le : A -> A -> bool) (p : A -> bool).
Hypothesis le_class : forall x y, p x = true -> p y = true -> le x y = true.

Lemma insert_by_filter x l :
  filter p (insert_by le x l) = filter p (x :: l).
Proof.
  induction l as [|y l IH]; simpl; [reflexivity|].
  destruct (le x y) eqn:E; [reflexivity|]. simpl in *.
  destruct (p y) eqn:Py.
  - destruct (p x) eqn:Px; [rewrite le_class in E by assumption; discriminate|].
    now rewrite IH.
  - exact IH.
Qed.

Lemma sort_by_stable l : filter p (sort_by le l) = filter p l.
Proof.
  induction l as [|x l IH]; simpl; [reflexivity|].
  rewrite insert_by_filter. simpl. now rewrite IH.
Qed.
End Stable.

Lemma StronglySorted_impl {A} (R R' : A -> A -> Prop) (l : list A) :
  (forall a b, R a b -> R' a b) -> StronglySorted R l -> StronglySorted R' l.
Proof.
  intros HR. induction 1 as [|x l _ IH Hx]; constructor; [assumption|].
  eapply Forall_impl; [|exact Hx]. auto.
Qed.

(** ** The two sorts of the program *)

(** [sorted(l, key=key)] for an integer key. *)
Definition sorted_by_Z {A} (key : A -> Z) (l : list A) : list A :=
  sort_by (fun x y => (key x <=? key y)%Z) l.

(** [sorted(l, key=key, reverse=True)] for a float key. *)
Definition sorted_by_Q_desc {A} (key : A -> Q) (l : list A) : list A :=
  sort_by (fun x y => qleb (key y) (key x)) l.

Lemma sorted_by_Z_sorted {A} (key : A -> Z) l :
  StronglySorted (fun a b => (key a <= key b)%Z) (sorted_by_Z key l).
Proof.
  eapply StronglySorted_impl; [|apply sort_by_sorted].
  - intros a b H. apply Z.leb_le. exact H.
  - intros x y. rewrite !Z.leb_le. lia.
  - intros x y z. rewrite !Z.leb_le. lia.
Qed.

Lemma sorted_by_Q_desc_sorted {A} (key : A -> Q) l :
  StronglySorted (fun a b => key b <= key a) (sorted_by_Q_desc key l).
Proof.
  eapply StronglySorted_impl; [|apply sort_by_sorted].
  - intros a b H. apply qleb_true. exact H.
  - intros x y. rewrite !qleb_true. lra.
  - intros x y z. rewrite !qleb_true. lra.
Qed.

(** Elements with the same key keep their order. *)
Lemma sorted_by_Q_desc_stable {A} (key : A -> Q) (k : Q) l :
  filter (fun x => qeqb (key x) k) (sorted_by_Q_desc key l)
  = filter (fun x => qeqb (key x) k) l.
Proof.
  apply sort_by_stable. intros x y Hx Hy.
  apply qeqb_true in Hx, Hy. apply qleb_true. lra.
Qed.

Lemma sorted_by_Z_stable {A} (key : A -> Z) (k : Z) l :
  filter (fun x => (key x =? k)%Z) (sorted_by_Z key l)
  = filter (fun x => (key x =? k)%Z) l.
Proof.
  apply sort_by_stable. intros x y Hx Hy.
  apply Z.eqb_eq in Hx, Hy. apply Z.leb_le. lia.
Qed.

(** A list that is already in order is returned as it is. *)
Lemma sort_by_sorted_id {A} (le : A -> A -> bool) l :
  StronglySorted (fun a b => le a b = true) l -> sort_by le l = l.
Proof.
  induction 1 as [|x l Hs IH Hx]; simpl; [reflexivity|].
  rewrite IH. destruct l as [|y l]; [reflexivity|]. simpl.
  inversion Hx; subst. now match goal with H : le x y = true |- _ => rewrite H end.
Qed.
