(* ===== verification/PyStr.v ===== *)
(** * Python strings: the substring test, [upper] and [str] of an [int]

    [sub in s] as the executable [str_in] with its specification by
    concatenation, [s.upper()] on the ASCII letters (a character
    outside [a-z] is left as it is, which is what Python does on ASCII
    text; the market ids of the exchange are ASCII), and [str(n)] with
    [int(s)] as the decimal printer and reader of the Standard Library.
    A text is the sequence of its bytes in UTF-8. *)

From Stdlib Require Import String Ascii.
From Stdlib Require Import Arith ZArith Lia Bool List.
From Stdlib Require Import Decimal DecimalString DecimalZ DecimalPos.
Import ListNotations.
Open Scope string_scope.

(** [sub in s] *)
Fixpoint str_in (sub s : string) : bool :=
  String.prefix sub s
  || match s with
     | EmptyString => false
     | String _ s' => str_in sub s'
     end.

(** [c.upper()] on one ASCII character. *)
Definition upper_ascii (c : ascii) : ascii :=
  let n := nat_of_ascii c in
  if (97 <=? n)%nat && (n <=? 122)%nat then ascii_of_nat (n - 32) else c.

(** [s.upper()] *)
Fixpoint upper (s : string) : string :=
  match s with
  | EmptyString => EmptyString
  | String c s' => String (upper_ascii c) (upper s')
  end.

(** [if s] on an optional text: [None] and the empty text are false. *)
Definition truthy_str (s : option string) : bool :=
  match s with
  | None | Some "" => false
  | Some _ => true
  end.

(** The line feed ["\n"]. *)
Definition nl : string := String (ascii_of_nat 10) EmptyString.

(** [str(n)] on an [int]. *)
Definition str_of_Z (n : Z) : string := NilZero.string_of_int (Z.to_int n).

(** [int(s)] on a decimal numeral; [None] where Python raises. *)
Definition Z_of_str (s : string) : option Z :=
  option_map Z.of_int (NilZero.int_of_string s).

(** [c.isdigit()] on an ASCII character. *)
Definition is_digit (c : ascii) : bool :=
  let n := nat_of_ascii c in (48 <=? n)%nat && (n <=? 57)%nat.

Fixpoint all_digits (s : string) : bool :=
  match s with
  | EmptyString => true
  | String c s' => is_digit c && all_digits s'
  end.

(** ** The substring test *)

Lemma app_assoc_str (a b c : string) : (a ++ b) ++ c = a ++ b ++ c.
Proof. induction a as [|x a IH]; simpl; [reflexivity | now rewrite IH]. Qed.

Lemma app_empty_r (a : string) : a ++ "" = a.
Proof. induction a as [|x a IH]; simpl; [reflexivity | now rewrite IH]. Qed.

Lemma length_app_str (a b : string) :
  String.length (a ++ b) = String.length a + String.length b.
Proof. induction a as [|x a IH]; simpl; [reflexivity | now rewrite IH]. Qed.

Lemma prefix_spec (sub s : string) :
  String.prefix sub s = true <-> exists post, s = sub ++ post.
Proof.
  revert s. induction sub as [|a sub IH]; intros s.
  - split; [intros _; now exists s | now destruct s].
  - destruct s as [|b s]; simpl;
      [split; [discriminate | now intros [post H]]|].
    destruct (Ascii.ascii_dec a b) as [->|Hne].
    + rewrite IH. split; intros [post H]; exists post; congruence.
    + split; [discriminate | intros [post H]; congruence].
Qed.

(** [str_in] is the substring relation: [s] holds [sub] between a part
    before it and a part after it. *)
Lemma str_in_spec (sub s : string) :
  str_in sub s = true <-> exists pre post, s = pre ++ sub ++ post.
Proof.
  induction s as [|c s IH]; cbn [str_in]; rewrite orb_true_iff, prefix_spec.
  - split.
    + intros [[post H]|H]; [now exists "", post | discriminate].
    + intros (pre & post & H). left. exists post.
      destruct pre; [exact H | discriminate].
  - rewrite IH. split.
    + intros [[post H]|(pre & post & H)]; [now exists "", post|].
      exists (String c pre), post. simpl. now rewrite H.
    + intros (pre & post & H). destruct pre as [|c' pre]; simpl in H.
      * left. now exists post.
      * right. exists pre, post. congruence.
Qed.

Lemma str_in_refl (s : string) : str_in s s = true.
Proof. apply str_in_spec. exists "", "". simpl. now rewrite app_empty_r. Qed.

(** A part of a part is a part. *)
Lemma str_in_trans (a b c : string) :
  str_in a b = true -> str_in b c = true -> str_in a c = true.
Proof.
  rewrite !str_in_spec. intros (p1 & q1 & ->) (p2 & q2 & ->).
  exists (p2 ++ p1), (q1 ++ q2). now rewrite !app_assoc_str.
Qed.

Lemma str_in_app (sub pre post : string) :
  str_in sub (pre ++ sub ++ post) = true.
Proof. apply str_in_spec. now exists pre, post. Qed.

(** ** [s[:n]] *)

Lemma substring_length (n : nat) (s : string) :
  String.length (substring 0 n s) = Nat.min n (String.length s).
Proof.
  revert s. induction n as [|n IH]; intros [|c s]; cbn; try reflexivity.
  now rewrite IH.
Qed.

Lemma substring_whole (n : nat) (s : string) :
  (String.length s <= n)%nat -> substring 0 n s = s.
Proof.
  revert s. induction n as [|n IH]; intros [|c s]; cbn; try reflexivity;
    [lia|]. intros H. rewrite IH by lia. reflexivity.
Qed.

Lemma substring_prefix (n : nat) (s : string) :
  String.prefix (substring 0 n s) s = true.
Proof.
  revert s. induction n as [|n IH]; intros [|c s]; cbn; try reflexivity.
  destruct (Ascii.ascii_dec c c); [apply IH | congruence].
Qed.

(** ** [upper] *)

Lemma upper_app (a b : string) : upper (a ++ b) = upper a ++ upper b.
Proof. induction a as [|x a IH]; simpl; [reflexivity | now rewrite IH]. Qed.

Lemma upper_length (s : string) : String.length (upper s) = String.length s.
Proof. induction s as [|c s IH]; simpl; [reflexivity | now rewrite IH]. Qed.

Lemma upper_ascii_idem (c : ascii) : upper_ascii (upper_ascii c) = upper_ascii c.
Proof.
  unfold upper_ascii.
  destruct ((97 <=? nat_of_ascii c)%nat && (nat_of_ascii c <=? 122)%nat) eqn:E.
  - apply andb_true_iff in E as [H1 H2].
    apply Nat.leb_le in H1, H2.
    rewrite nat_ascii_embedding by lia.
    destruct (97 <=? nat_of_ascii c - 32)%nat eqn:E'; [|reflexivity].
    apply Nat.leb_le in E'. lia.
  - now rewrite E.
Qed.

Lemma upper_idem (s : string) : upper (upper s) = upper s.
Proof.
  induction s as [|c s IH]; simpl; [reflexivity|].
  now rewrite upper_ascii_idem, IH.
Qed.

(** [upper] keeps the parts of a text: what [s] holds, [s.upper()] holds
    in capitals. *)
Lemma str_in_upper (sub s : string) :
  str_in sub s = true -> str_in (upper sub) (upper s) = true.
Proof.
  rewrite !str_in_spec. intros (pre & post & ->).
  exists (upper pre), (upper post). now rewrite !upper_app.
Qed.

(** ** [str] and [int] *)

Lemma to_int_proper (n : Z) (d : uint) :
  Z.to_int n = Pos d \/ Z.to_int n = Neg d -> d <> Nil.
Proof.
  destruct n as [|p|p]; cbn; intros [H|H]; try discriminate;
    injection H as <-; try discriminate; apply Unsigned.to_uint_nonnil.
Qed.

(** [int(str(n)) == n] *)
Lemma Z_of_str_of_Z (n : Z) : Z_of_str (str_of_Z n) = Some n.
Proof.
  unfold Z_of_str, str_of_Z. rewrite NilZero.isi.
  - cbn. now rewrite DecimalZ.of_to.
  - intros H. now apply (to_int_proper n Nil); [left|].
  - intros H. now apply (to_int_proper n Nil); [right|].
Qed.

Lemma str_of_Z_inj (n m : Z) : str_of_Z n = str_of_Z m -> n = m.
Proof.
  intros H. apply (f_equal Z_of_str) in H.
  rewrite !Z_of_str_of_Z in H. congruence.
Qed.

Lemma string_of_uint_digits (d : uint) :
  all_digits (NilEmpty.string_of_uint d) = true.
Proof. induction d; cbn; auto. Qed.

(** The numeral of a number that is not negative holds digits only, and
    at least one. *)
Lemma str_of_Z_digits (n : Z) : (0 <= n)%Z -> all_digits (str_of_Z n) = true.
Proof.
  destruct n as [|p|p]; [reflexivity| |lia]. intros _. unfold str_of_Z. cbn.
  unfold NilZero.string_of_uint.
  destruct (Pos.to_uint p); try apply string_of_uint_digits. reflexivity.
Qed.

Lemma str_of_Z_nonempty (n : Z) : str_of_Z n <> "".
Proof.
  destruct n as [|p|p]; unfold str_of_Z; cbn; try discriminate.
  unfold NilZero.string_of_uint. destruct (Pos.to_uint p); discriminate.
Qed.
