(* ===== verification/PyFormat.v ===== *)
(** * Python format specifications of a float

    [format(x, '.2f')], [format(x, '+.2f')] and the percent forms
    [format(x, '.0%')], [format(x, '+.1%')] as the notifier and the entry
    point use them in f-strings.  A float is an exact rational here, so
    the digits are those of the rational rounded to the nearest multiple
    of the last place, ties to the even one; Python rounds the binary
    value of the float in the same way.  The sign is that of the number
    before rounding: a negative number that rounds to zero prints as
    [-0.00].  Infinities and NaN have no rational and are not printed.

    [read_fixed] reads such a text back as [float(s)] does; it models
    the builtin and no function of the repository, and serves to state
    what a printed amount can differ from the amount by. *)

From Stdlib Require Import String Ascii.
From Stdlib Require Import QArith Qround Qabs Lqa Lia ZArith List Bool.
From Stdlib Require Import Morphisms.
From S2P Require Import Prelude PyStr.
Import ListNotations.
Open Scope string_scope.
Open Scope Q_scope.

(** The nearest integer, ties to the even one. *)
Definition round_half_even (x : Q) : Z :=
  let f := Qfloor x in
  let r := x - inject_Z f in
  if qltb r (1#2) then f
  else if qltb (1#2) r then (f + 1)%Z
  else if Z.even f then f else (f + 1)%Z.

(** The decimal digit [n], for [0 <= n <= 9]. *)
Definition digit (n : Z) : ascii := ascii_of_nat (48 + Z.to_nat n).

(** The last [d] decimal digits of [n], padded with zeros. *)
Fixpoint digits_of (d : nat) (n : Z) : string :=
  match d with
  | O => ""
  | S d' => digits_of d' (n / 10) ++ String (digit (n mod 10)) ""
  end.

(** [10 ** d] *)
Definition pow10 (d : nat) : Z := (10 ^ Z.of_nat d)%Z.

(** The digits of [n] units of the place [d]: the whole part, and a
    point with [d] digits after it when [d] is not 0. *)
Definition printed (d : nat) (n : Z) : string :=
  str_of_Z (n / pow10 d)
  ++ match d with
     | O => ""
     | _ => "." ++ digits_of d n
     end.

(** [format(x, '.df')], and [format(x, '+.df')] when [plus] is set. *)
Definition format_f (plus : bool) (d : nat) (x : Q) : string :=
  let n := round_half_even (Qabs x * inject_Z (pow10 d)) in
  let sign := if qltb x 0 then "-" else if plus then "+" else "" in
  sign ++ printed d n.

(** [format(x, '.d%')] and [format(x, '+.d%')] *)
Definition format_pct (plus : bool) (d : nat) (x : Q) : string :=
  format_f plus d (x * 100) ++ "%".

(** ** Reading a printed number *)

(** The value of a text of digits after [acc]; [None] on another
    character. *)
Fixpoint read_digits (s : string) (acc : Z) : option Z :=
  match s with
  | EmptyString => Some acc
  | String c s' =>
      if is_digit c
      then read_digits s' (10 * acc + Z.of_nat (nat_of_ascii c - 48))
      else None
  end.

(** The text before the first point and the text after it. *)
Fixpoint split_point (s : string) : string * option string :=
  match s with
  | EmptyString => (EmptyString, None)
  | String c s' =>
      if Ascii.eqb c "."
      then (EmptyString, Some s')
      else let '(a, b) := split_point s' in (String c a, b)
  end.

(** The sign of a printed number, and the rest of the text. *)
Definition split_sign (s : string) : bool * string :=
  match s with
  | String c s' =>
      if Ascii.eqb c "-" then (true, s')
      else if Ascii.eqb c "+" then (false, s')
      else (false, s)
  | EmptyString => (false, s)
  end.

(** A text without a sign: digits, and digits after a point if there is
    one. *)
Definition read_unsigned (body : string) : option Q :=
  let '(whole, fraction) := split_point body in
  match (if all_digits whole then Z_of_str whole else None), fraction with
  | Some i, None => Some (inject_Z i)
  | Some i, Some f =>
      match read_digits f 0 with
      | Some n =>
          Some (inject_Z i + inject_Z n / inject_Z (pow10 (String.length f)))
      | None => None
      end
  | None, _ => None
  end.

(** [float(s)] on a text in fixed-point notation. *)
Definition read_fixed (s : string) : option Q :=
  let '(negative, body) := split_sign s in
  option_map (fun v => if negative then - v else v) (read_unsigned body).

(** ** Rounding *)

Lemma round_half_even_cases (x : Q) :
  let f := Qfloor x in
  (x - inject_Z f < 1#2 /\ round_half_even x = f) \/
  (1#2 < x - inject_Z f /\ round_half_even x = (f + 1)%Z) \/
  (x - inject_Z f == 1#2 /\
   round_half_even x = if Z.even f then f else (f + 1)%Z).
Proof.
  intros f. unfold round_half_even. fold f.
  destruct (qltb_spec (x - inject_Z f) (1#2)) as [H|H]; [now left|].
  destruct (qltb_spec (1#2) (x - inject_Z f)) as [H'|H']; [now right; left|].
  right; right. split; [lra | reflexivity].
Qed.

Lemma floor_bounds (x : Q) :
  inject_Z (Qfloor x) <= x /\ x < inject_Z (Qfloor x) + 1.
Proof.
  split; [apply Qfloor_le|].
  pose proof (Qlt_floor x) as H. rewrite inject_Z_plus in H. exact H.
Qed.

(** The rounded number is within a half of the number. *)
Lemma round_half_even_near (x : Q) :
  Qabs (inject_Z (round_half_even x) - x) <= 1#2.
Proof.
  pose proof (floor_bounds x) as [Hl Hu].
  apply Qabs_Qle_condition.
  destruct (round_half_even_cases x) as [[H ->]|[[H ->]|[H ->]]];
    [| |destruct (Z.even (Qfloor x))];
    rewrite ?inject_Z_plus; change (inject_Z 1) with 1; lra.
Qed.

(** An integer rounds to itself. *)
Lemma round_half_even_Z (n : Z) : round_half_even (inject_Z n) = n.
Proof.
  unfold round_half_even. rewrite Qfloor_Z.
  destruct (qltb_spec (inject_Z n - inject_Z n) (1#2)) as [H|H];
    [reflexivity | lra].
Qed.

Lemma round_half_even_nonneg (x : Q) : 0 <= x -> (0 <= round_half_even x)%Z.
Proof.
  intros Hx.
  assert (Hf : (0 <= Qfloor x)%Z).
  { change 0%Z with (Qfloor 0). now apply Qfloor_resp_le. }
  destruct (round_half_even_cases x) as [[_ ->]|[[_ ->]|[_ ->]]];
    [| |destruct (Z.even (Qfloor x))]; lia.
Qed.

(** A tie goes to the even neighbour. *)
Lemma round_half_even_tie (n : Z) :
  round_half_even (inject_Z n + (1#2)) = if Z.even n then n else (n + 1)%Z.
Proof.
  assert (Hf : Qfloor (inject_Z n + (1#2)) = n).
  { symmetry. apply Z.le_antisymm.
    - rewrite <- (Qfloor_Z n) at 1. apply Qfloor_resp_le. lra.
    - destruct (Z_le_gt_dec (Qfloor (inject_Z n + (1#2))) n) as [H|H];
        [exact H | exfalso].
      assert (H' : (n + 1 <= Qfloor (inject_Z n + (1#2)))%Z) by lia.
      rewrite Zle_Qle, inject_Z_plus in H'. change (inject_Z 1) with 1 in H'.
      pose proof (Qfloor_le (inject_Z n + (1#2))). lra. }
  destruct (round_half_even_cases (inject_Z n + (1#2))) as [[H _]|[[H _]|[_ H]]];
    rewrite Hf in *; [lra | lra | exact H].
Qed.

(** ** Digits *)

Lemma pow10_pos (d : nat) : (0 < pow10 d)%Z.
Proof. unfold pow10. apply Z.pow_pos_nonneg; lia. Qed.

Lemma pow10_S (d : nat) : pow10 (S d) = (10 * pow10 d)%Z.
Proof. unfold pow10. rewrite Nat2Z.inj_succ, Z.pow_succ_r; lia. Qed.

Lemma digits_of_length (d : nat) (n : Z) : String.length (digits_of d n) = d.
Proof.
  revert n. induction d as [|d IH]; intros n; cbn [digits_of];
    [reflexivity|].
  rewrite length_app_str, IH. cbn. lia.
Qed.

Lemma digit_spec (n : Z) :
  (0 <= n < 10)%Z ->
  is_digit (digit n) = true /\ Z.of_nat (nat_of_ascii (digit n) - 48) = n.
Proof.
  intros H. unfold is_digit, digit.
  rewrite nat_ascii_embedding by lia. split.
  - apply andb_true_iff. split; apply Nat.leb_le; lia.
  - lia.
Qed.

Lemma read_digits_app (a b : string) (acc : Z) :
  read_digits (a ++ b) acc
  = match read_digits a acc with
    | Some v => read_digits b v
    | None => None
    end.
Proof.
  revert acc. induction a as [|c a IH]; intros acc; cbn; [reflexivity|].
  destruct (is_digit c); [apply IH | reflexivity].
Qed.

(** Reading the digits printed gives the number below [10 ** d]. *)
Lemma read_digits_of (d : nat) (n : Z) :
  read_digits (digits_of d n) 0 = Some (n mod pow10 d)%Z.
Proof.
  revert n. induction d as [|d IH]; intros n; cbn [digits_of].
  - cbn. now rewrite Z.mod_1_r.
  - rewrite read_digits_app, IH. cbn [read_digits].
    destruct (digit_spec (n mod 10)%Z) as [-> ->];
      [apply Z.mod_pos_bound; lia|].
    f_equal. rewrite pow10_S, Z.rem_mul_r by (pose proof (pow10_pos d); lia).
    lia.
Qed.

Lemma digit_not_sign (c : ascii) :
  is_digit c = true -> Ascii.eqb c "-" = false /\ Ascii.eqb c "+" = false
                       /\ Ascii.eqb c "." = false.
Proof.
  intros H. repeat split; apply Ascii.eqb_neq; intros ->; discriminate.
Qed.

Lemma split_sign_digits (s rest : string) :
  all_digits s = true -> s <> "" -> split_sign (s ++ rest) = (false, s ++ rest).
Proof.
  destruct s as [|c s]; [congruence|]. cbn. intros H _.
  apply andb_true_iff in H as [Hc _].
  now destruct (digit_not_sign c Hc) as (-> & -> & _).
Qed.

Lemma split_point_digits (s : string) :
  all_digits s = true ->
  split_point s = (s, None) /\
  forall rest, split_point (s ++ String "." rest) = (s, Some rest).
Proof.
  induction s as [|c s IH]; cbn; [now split|]. intros H.
  apply andb_true_iff in H as [Hc Hs].
  destruct (digit_not_sign c Hc) as (_ & _ & ->), (IH Hs) as [-> IH'].
  split; [reflexivity|]. intros rest. now rewrite IH'.
Qed.

(** ** The round trip *)

Lemma scaled_near (a y s : Q) :
  0 < s -> Qabs (a - y * s) <= 1#2 -> Qabs (a / s - y) <= (1#2) / s.
Proof.
  intros Hs H.
  assert (E : a / s - y == (a - y * s) * / s) by (field; lra).
  rewrite E, Qabs_Qmult, (Qabs_pos (/ s)) by (apply Qlt_le_weak, Qinv_lt_0_compat, Hs).
  apply Qmult_le_compat_r; [exact H|].
  apply Qlt_le_weak, Qinv_lt_0_compat, Hs.
Qed.

Lemma inject_pow10_pos (d : nat) : 0 < inject_Z (pow10 d).
Proof.
  change 0 with (inject_Z 0). rewrite <- Zlt_Qlt. apply pow10_pos.
Qed.

(** The whole part and the digits after the point add up to the number
    printed. *)
Lemma whole_and_fraction (d : nat) (n : Z) :
  inject_Z (n / pow10 d) + inject_Z (n mod pow10 d) / inject_Z (pow10 d)
  == inject_Z n / inject_Z (pow10 d).
Proof.
  pose proof (inject_pow10_pos d) as Hs.
  rewrite (Z.div_mod n (pow10 d)) at 3 by (pose proof (pow10_pos d); lia).
  rewrite inject_Z_plus, inject_Z_mult. field. lra.
Qed.

Lemma printed_unsigned (d : nat) (n : Z) :
  (0 <= n)%Z -> split_sign (printed d n) = (false, printed d n).
Proof.
  intros Hn. apply split_sign_digits; [|apply str_of_Z_nonempty].
  apply str_of_Z_digits, Z.div_pos; [exact Hn | apply pow10_pos].
Qed.

(** What the digits printed for [n] at [d] places read as. *)
Lemma read_unsigned_printed (d : nat) (n : Z) :
  (0 <= n)%Z ->
  exists v, read_unsigned (printed d n) = Some v /\
            v == inject_Z n / inject_Z (pow10 d).
Proof.
  intros Hn.
  assert (Hd : all_digits (str_of_Z (n / pow10 d)) = true)
    by (apply str_of_Z_digits, Z.div_pos; [exact Hn | apply pow10_pos]).
  destruct (split_point_digits _ Hd) as [H0 H1].
  unfold printed, read_unsigned. destruct d as [|d].
  - rewrite app_empty_r, H0, Hd, Z_of_str_of_Z. eexists. split; [reflexivity|].
    change (pow10 0) with 1%Z. rewrite Z.div_1_r. field.
  - cbn [append]. rewrite H1, Hd, Z_of_str_of_Z, read_digits_of, digits_of_length.
    eexists. split; [reflexivity | apply whole_and_fraction].
Qed.

(** What a printed number reads as: the rounded number of units of the
    last place, with the sign of the number. *)
Lemma format_f_reads (plus : bool) (d : nat) (x : Q) :
  exists r, read_fixed (format_f plus d x) = Some r /\
            r == (if qltb x 0 then - (1) else 1)
                 * (inject_Z (round_half_even (Qabs x * inject_Z (pow10 d)))
                    / inject_Z (pow10 d)).
Proof.
  set (n := round_half_even (Qabs x * inject_Z (pow10 d))).
  assert (Hn : (0 <= n)%Z).
  { apply round_half_even_nonneg, Qmult_le_0_compat; [apply Qabs_nonneg|].
    apply Qlt_le_weak, inject_pow10_pos. }
  destruct (read_unsigned_printed d n Hn) as (v & Hv & Ev).
  unfold format_f, read_fixed. fold n.
  destruct (qltb x 0); [|destruct plus];
    [| |cbn [append]; rewrite (printed_unsigned d n Hn)];
    cbn [append split_sign Ascii.eqb Bool.eqb]; rewrite Hv; eexists;
    (split; [reflexivity | rewrite Ev; ring]).
Qed.

(** A number printed by [format_f] reads back, as [float(s)] reads
    it, as a number within half a unit of the last place printed. *)
Theorem format_f_roundtrip (plus : bool) (d : nat) (x : Q) :
  exists r, read_fixed (format_f plus d x) = Some r /\
            Qabs (r - x) <= (1#2) / inject_Z (pow10 d).
Proof.
  destruct (format_f_reads plus d x) as (r & Hr & Er).
  exists r. split; [exact Hr|]. rewrite Er.
  pose proof (scaled_near _ _ _ (inject_pow10_pos d)
                (round_half_even_near (Qabs x * inject_Z (pow10 d)))) as Hnear.
  destruct (qltb_spec x 0) as [Hx|Hx].
  - rewrite (Qabs_neg x) in Hnear at 2 by lra. rewrite <- Qabs_opp.
    eapply Qle_trans; [|exact Hnear]. apply Qle_lteq. right.
    apply Qabs_wd. ring.
  - rewrite (Qabs_pos x) in Hnear at 2 by lra.
    eapply Qle_trans; [|exact Hnear]. apply Qle_lteq. right.
    apply Qabs_wd. ring.
Qed.

(** An amount of less than half a cent prints as zero, with its sign. *)
Lemma format_f_under_half_cent (x : Q) :
  Qabs x < 1#200 ->
  format_f true 2 x = if qltb x 0 then "-0.00" else "+0.00".
Proof.
  intros Hx. unfold format_f.
  assert (Hr : round_half_even (Qabs x * inject_Z (pow10 2)) = 0%Z).
  { pose proof (Qabs_nonneg x) as Hnn.
    set (y := Qabs x * inject_Z (pow10 2)).
    assert (Hy : 0 <= y < 1#2) by (unfold y; change (inject_Z (pow10 2)) with 100; lra).
    assert (Hf : Qfloor y = 0%Z).
    { pose proof (Qfloor_le y). pose proof (Qlt_floor y).
      assert (inject_Z (Qfloor y) < inject_Z 1) by (change (inject_Z 1) with 1; lra).
      assert (inject_Z (-1) < inject_Z (Qfloor y)).
      { change (inject_Z (-1)) with (-1). rewrite inject_Z_plus in *.
        change (inject_Z 1) with 1 in *. lra. }
      rewrite <- Zlt_Qlt in *. lia. }
    destruct (round_half_even_cases y) as [[_ ->]|[[H _]|[H _]]];
      [exact Hf | rewrite Hf in H; change (inject_Z 0) with 0 in H; lra ..]. }
  rewrite Hr. now destruct (qltb x 0).
Qed.

Lemma round_half_even_comp (x y : Q) :
  x == y -> round_half_even x = round_half_even y.
Proof.
  intros E. pose proof (Qfloor_comp _ _ E) as Ef.
  destruct (round_half_even_cases x) as [[H ->]|[[H ->]|[H ->]]],
           (round_half_even_cases y) as [[H' ->]|[[H' ->]|[H' ->]]];
    rewrite Ef in *; try reflexivity; lra.
Qed.

#[export] Instance round_half_even_proper : Proper (Qeq ==> eq) round_half_even.
Proof. exact round_half_even_comp. Qed.

(** Equal amounts print alike, whatever fractions denote them. *)
#[export] Instance format_f_proper :
  Proper (eq ==> eq ==> Qeq ==> eq) format_f.
Proof.
  intros plus ? <- d ? <- x y E. unfold format_f. now rewrite E.
Qed.

#[export] Instance format_pct_proper :
  Proper (eq ==> eq ==> Qeq ==> eq) format_pct.
Proof.
  intros plus ? <- d ? <- x y E. unfold format_pct. now rewrite E.
Qed.

(** An amount of whole units of the last place is printed exactly. *)
Theorem format_f_exact (plus : bool) (d : nat) (k : Z) :
  exists r, read_fixed (format_f plus d (inject_Z k / inject_Z (pow10 d)))
            = Some r /\
            r == inject_Z k / inject_Z (pow10 d).
Proof.
  pose proof (inject_pow10_pos d) as Hs.
  set (x := inject_Z k / inject_Z (pow10 d)).
  destruct (format_f_reads plus d x) as (r & Hr & Er).
  exists r. split; [exact Hr|]. rewrite Er. clear Hr Er.
  assert (Ex : x * inject_Z (pow10 d) == inject_Z k) by (unfold x; field; lra).
  destruct (qltb_spec x 0) as [Hx|Hx].
  - rewrite (round_half_even_comp _ (inject_Z (- k))), round_half_even_Z.
    + rewrite inject_Z_opp. unfold x. field. lra.
    + rewrite Qabs_neg, inject_Z_opp by lra. rewrite <- Ex. ring.
  - rewrite (round_half_even_comp _ (inject_Z k)), round_half_even_Z.
    + unfold x. field. lra.
    + rewrite Qabs_pos by lra. exact Ex.
Qed.
