(* ===== verification/Notify.v ===== *)
(** * The notifier (src/src/notifications.py)

    [TelegramNotifier]: the text of each notification and [_send], which
    hands it to the [openclaw] command.  The command is a [Cli]: what the
    n-th run of a command line returns, or the exception
    [subprocess.run] raises for it (the program is missing, the timeout
    expired).  The runs made so far are the list of their command lines;
    every method returns that list as it leaves it.

    A text is the sequence of its bytes: [details[:200]] is the first 200
    characters of a text of ASCII characters.  Amounts are printed by the
    format specifications of [PyFormat]. *)

From Stdlib Require Import String Ascii.
From Stdlib Require Import QArith ZArith List Bool.
From S2P Require Import Prelude PyDict PyStr PyFormat.
Import ListNotations.
Open Scope string_scope.
Open Scope list_scope.
Open Scope py_scope.

(** What [subprocess.run] returns, as far as [_send] reads it. *)
Module Completed.
Record t : Type := mk {
  returncode : Z;
  stderr : string;
}.
End Completed.

(** The answer to the n-th run, of the given command line. *)
Definition Cli : Type := nat -> list string -> result Completed.t.

(** The entry of one strategy in the summary of the day: each key may be
    missing. *)
Module Stats.
Record t : Type := mk {
  pnl : option Q;
  trades : option Z;
}.
End Stats.

Module TelegramNotifier.

Record t : Type := mk {
  enabled : bool;
  _last_daily_summary : option Z;
}.

(** [__init__]; notifications are off unless asked for. *)
Definition init (enabled : bool) : t := mk enabled None.

Definition default : t := init false.

(** The command line of [_send]. *)
Definition command (message : string) : list string :=
  ["openclaw"; "message"; "send"; "-t"; "6640078900"; "-m"; message].

Section Send.
Variable cli : Cli.

(** [_send]: whether the message was sent.  Nothing runs when the
    notifier is off; an exit status other than 0 and every exception of
    the run are a message not sent. *)
Definition _send (self : t) (runs : list (list string)) (message : string)
    : list (list string) * bool :=
  if negb (enabled self) then (runs, false)
  else
    match cli (length runs) (command message) with
    | Ok result =>
        (runs ++ [command message], (Completed.returncode result =? 0)%Z)
    | Err _ => (runs ++ [command message], false)
    end.

Definition mode_of (paper : bool) : string :=
  if paper then "📝 PAPER" else "💰 LIVE".

(** The message of [trade_executed]. *)
Definition trade_executed_message (strategy ticker side : string)
    (price size : Q) (paper : bool) : string :=
  let mode := mode_of paper in
  let emoji := if String.eqb side "yes" then "🟢" else "🔴" in
  (mode ++ " Trade Executed" ++ nl
   ++ emoji ++ " " ++ strategy ++ ": " ++ upper side ++ " " ++ ticker ++ nl
   ++ "Price: " ++ format_pct false 0 price
   ++ " | Size: $" ++ format_f false 2 size)%string.

(** [trade_executed] *)
Definition trade_executed (self : t) (runs : list (list string))
    (strategy ticker side : string) (price size : Q) (paper : bool)
    : list (list string) :=
  fst (_send self runs
         (trade_executed_message strategy ticker side price size paper)).

(** The message of [position_closed]. *)
Definition position_closed_message (strategy ticker : string)
    (pnl pnl_pct : Q) (paper : bool) : string :=
  let mode := mode_of paper in
  let emoji := if qleb 0 pnl then "✅" else "❌" in
  (mode ++ " Position Closed" ++ nl
   ++ emoji ++ " " ++ strategy ++ ": " ++ ticker ++ nl
   ++ "P&L: $" ++ format_f true 2 pnl
   ++ " (" ++ format_pct true 1 pnl_pct ++ ")")%string.

(** [position_closed] *)
Definition position_closed (self : t) (runs : list (list string))
    (strategy ticker : string) (pnl pnl_pct : Q) (paper : bool)
    : list (list string) :=
  fst (_send self runs
         (position_closed_message strategy ticker pnl pnl_pct paper)).

(** The line of one strategy in the summary of the day. *)
Definition strategy_line (item : string * Stats.t) : string :=
  let '(name, stats) := item in
  let pnl := get_default (Stats.pnl stats) 0 in
  let trades := get_default (Stats.trades stats) 0%Z in
  let emoji_s := if qleb 0 pnl then "✅" else "❌" in
  (emoji_s ++ " " ++ name ++ ": $" ++ format_f true 2 pnl
   ++ " (" ++ str_of_Z trades ++ " trades)")%string.

(** The lines of [daily_summary]. *)
Definition daily_summary_lines (total_pnl : Q) (total_trades : Z)
    (win_rate : Q) (strategy_stats : dict string Stats.t) : list string :=
  let emoji := if qleb 0 total_pnl then "📈" else "📉" in
  [ (emoji ++ " Daily Summary")%string;
    ("Total P&L: $" ++ format_f true 2 total_pnl)%string;
    ("Trades: " ++ str_of_Z total_trades
     ++ " | Win Rate: " ++ format_pct false 0 win_rate)%string;
    "" ]
  ++ map strategy_line strategy_stats.

(** [daily_summary] *)
Definition daily_summary (self : t) (runs : list (list string))
    (total_pnl : Q) (total_trades : Z) (win_rate : Q)
    (strategy_stats : dict string Stats.t) : list (list string) :=
  fst (_send self runs
         (String.concat nl
            (daily_summary_lines total_pnl total_trades win_rate
               strategy_stats))).

(** The message of [error]: the details are cut at 200 characters. *)
Definition error_message (error_type details : string) : string :=
  ("⚠️ Bot Error: " ++ error_type ++ nl ++ substring 0 200 details)%string.

(** [error] *)
Definition error (self : t) (runs : list (list string))
    (error_type details : string) : list (list string) :=
  fst (_send self runs (error_message error_type details)).

(** The message of [startup]. *)
Definition startup_message (mode : string) (strategies : list string)
    (capital : Q) : string :=
  ("🤖 Kalshi Bot Started" ++ nl
   ++ "Mode: " ++ mode ++ nl
   ++ "Strategies: " ++ String.concat ", " strategies ++ nl
   ++ "Capital: $" ++ format_f false 2 capital)%string.

(** [startup] *)
Definition startup (self : t) (runs : list (list string)) (mode : string)
    (strategies : list string) (capital : Q) : list (list string) :=
  fst (_send self runs (startup_message mode strategies capital)).

(** The message of [shutdown]. *)
Definition shutdown_message (reason : string) : string :=
  ("🛑 Kalshi Bot Stopped" ++ nl ++ "Reason: " ++ reason)%string.

(** [shutdown]; the reason is ["normal"] when none is given. *)
Definition shutdown (self : t) (runs : list (list string))
    (reason : option string) : list (list string) :=
  fst (_send self runs (shutdown_message (get_default reason "normal"))).

End Send.

End TelegramNotifier.

Module TN := TelegramNotifier.
