(* ===== verification/NotifyProps.v ===== *)
(** * Properties of the notifier

    When [_send] reports a message as sent; that a notifier that is off
    runs no command, whatever it is asked to notify, and one that is on
    runs one command per notification, in their order, each to the one
    recipient; how long the message of an error can be; what the
    message of a closed position shows for a P&L under half a cent; and
    examples of the texts, with the amounts as the format specifications
    print them. *)

From Stdlib Require Import String Ascii.
From Stdlib Require Import QArith Qabs Lqa ZArith List Bool Lia.
From S2P Require Import Prelude PyDict PyStr PyFormat Notify.
Import ListNotations.
Open Scope string_scope.
Open Scope list_scope.
Open Scope py_scope.

(** A call of one of the six methods, and the calls in sequence. *)
Inductive notification : Type :=
| TradeExecuted (strategy ticker side : string) (price size : Q) (paper : bool)
| PositionClosed (strategy ticker : string) (pnl pnl_pct : Q) (paper : bool)
| DailySummary (total_pnl : Q) (total_trades : Z) (win_rate : Q)
               (strategy_stats : dict string Stats.t)
| Error (error_type details : string)
| Startup (mode : string) (strategies : list string) (capital : Q)
| Shutdown (reason : option string).

Definition notify (cli : Cli) (self : TN.t) (runs : list (list string))
    (n : notification) : list (list string) :=
  match n with
  | TradeExecuted strategy ticker side price size paper =>
      TN.trade_executed cli self runs strategy ticker side price size paper
  | PositionClosed strategy ticker pnl pnl_pct paper =>
      TN.position_closed cli self runs strategy ticker pnl pnl_pct paper
  | DailySummary total_pnl total_trades win_rate strategy_stats =>
      TN.daily_summary cli self runs total_pnl total_trades win_rate
        strategy_stats
  | Error error_type details => TN.error cli self runs error_type details
  | Startup mode strategies capital =>
      TN.startup cli self runs mode strategies capital
  | Shutdown reason => TN.shutdown cli self runs reason
  end.

Definition notify_all (cli : Cli) (self : TN.t) (runs : list (list string))
    (ns : list notification) : list (list string) :=
  fold_left (notify cli self) ns runs.

(** The text a notification sends. *)
Definition message_of (n : notification) : string :=
  match n with
  | TradeExecuted strategy ticker side price size paper =>
      TN.trade_executed_message strategy ticker side price size paper
  | PositionClosed strategy ticker pnl pnl_pct paper =>
      TN.position_closed_message strategy ticker pnl pnl_pct paper
  | DailySummary total_pnl total_trades win_rate strategy_stats =>
      String.concat nl
        (TN.daily_summary_lines total_pnl total_trades win_rate strategy_stats)
  | Error error_type details => TN.error_message error_type details
  | Startup mode strategies capital =>
      TN.startup_message mode strategies capital
  | Shutdown reason => TN.shutdown_message (get_default reason "normal")
  end.

(** A failing command line tool: the program is not installed. *)
Definition no_cli : Cli := fun _ _ => Err (FileNotFoundError "openclaw").

(** A tool that sends every message. *)
Definition good_cli : Cli := fun _ _ => Ok (Completed.mk 0 "").

Section Send.
Variables (cli : Cli) (self : TN.t).

(** [_send] reports a message as sent exactly when the notifier is on
    and the command returns with the exit status 0. *)
Theorem send_returns_true runs message :
  snd (TN._send cli self runs message) = true <->
  TN.enabled self = true /\
  exists r, cli (length runs) (TN.command message) = Ok r /\
            Completed.returncode r = 0%Z.
Proof.
  unfold TN._send. destruct (TN.enabled self); cbn [negb snd].
  - destruct (cli _ _) as [r|e]; cbn [snd]; rewrite ?Z.eqb_eq.
    + split; [intros H; split; eauto | intros (_ & r' & [= <-] & H); exact H].
    + split; [discriminate | intros (_ & r' & [=] & _)].
  - split; [discriminate | intros [[=] _]].
Qed.

(** The runs [_send] leaves: one more, of the command for the message,
    when the notifier is on and none when it is off. *)
Lemma send_runs runs message :
  fst (TN._send cli self runs message)
  = runs ++ (if TN.enabled self then [TN.command message] else []).
Proof.
  unfold TN._send. destruct (TN.enabled self); cbn [negb fst].
  - now destruct (cli _ _).
  - now rewrite app_nil_r.
Qed.

Lemma notify_runs runs n :
  notify cli self runs n
  = runs ++ (if TN.enabled self then [TN.command (message_of n)] else []).
Proof. destruct n; apply send_runs. Qed.

Lemma notify_all_from runs ns :
  notify_all cli self runs ns
  = runs ++ (if TN.enabled self
             then map (fun n => TN.command (message_of n)) ns
             else []).
Proof.
  unfold notify_all. revert runs.
  induction ns as [|n ns IH]; intros runs; cbn [fold_left map].
  - destruct (TN.enabled self); now rewrite app_nil_r.
  - rewrite IH, notify_runs. destruct (TN.enabled self);
      now rewrite <- app_assoc.
Qed.

(** The runs of a sequence of notifications: one command per
    notification, in their order and with the message of each, when the
    notifier is on, and nothing when it is off; what the commands return
    does not matter. *)
Theorem notify_all_runs ns :
  notify_all cli self [] ns
  = if TN.enabled self
    then map (fun n => TN.command (message_of n)) ns
    else [].
Proof. apply notify_all_from. Qed.

(** Every command a notifier runs is the [openclaw] command that sends
    one message to the one recipient. *)
Theorem notify_all_recipient ns c :
  In c (notify_all cli self [] ns) ->
  exists message,
    c = ["openclaw"; "message"; "send"; "-t"; "6640078900"; "-m"; message].
Proof.
  rewrite notify_all_from. cbn [app]. destruct (TN.enabled self); [|intros []].
  intros H. apply in_map_iff in H as (n & <- & _). now exists (message_of n).
Qed.

End Send.

(** The notifier [__init__] builds when it is given no argument runs no
    command. *)
Theorem default_notifier_silent cli ns :
  notify_all cli TN.default [] ns = [].
Proof. now rewrite notify_all_from. Qed.

(** ** The message of an error *)

(** The message of an error holds the type of the error in full and at
    most 200 characters of the details, the first ones. *)
Theorem error_message_spec error_type details :
  exists shown,
    TN.error_message error_type details
    = ("⚠️ Bot Error: " ++ error_type ++ nl ++ shown)%string /\
    String.prefix shown details = true /\
    String.length shown = Nat.min 200 (String.length details).
Proof.
  exists (substring 0 200 details).
  split; [reflexivity|]. split; [apply substring_prefix | apply substring_length].
Qed.

(** Details of at most 200 characters are shown in full. *)
Lemma error_message_short error_type details :
  (String.length details <= 200)%nat ->
  TN.error_message error_type details
  = ("⚠️ Bot Error: " ++ error_type ++ nl ++ details)%string.
Proof. intros H. unfold TN.error_message. now rewrite substring_whole. Qed.

(** ** Examples *)

(** A price of 12.5% is printed as 12%, the even neighbour, and a size
    with its cents. *)
Example trade_executed_example :
  TN.trade_executed_message "MeanReversion" "KXTEST" "no" (1#8) (25#2) true
  = ("📝 PAPER Trade Executed" ++ nl
     ++ "🔴 MeanReversion: NO KXTEST" ++ nl
     ++ "Price: 12% | Size: $12.50")%string.
Proof. vm_compute. reflexivity. Qed.

(** A loss of less than half a cent is marked as a loss and printed as
    minus zero. *)
Example position_closed_example :
  TN.position_closed_message "Momentum" "KXTEST" (-1#1000) (-1#1000) false
  = ("💰 LIVE Position Closed" ++ nl
     ++ "❌ Momentum: KXTEST" ++ nl
     ++ "P&L: $-0.00 (-0.1%)")%string.
Proof. vm_compute. reflexivity. Qed.

Example daily_summary_example :
  String.concat nl
    (TN.daily_summary_lines (3#2) 4 (3#4)
       [("MeanReversion", Stats.mk (Some 2) (Some 3%Z));
        ("Momentum", Stats.mk (Some (-1#2)) None)])
  = ("📈 Daily Summary" ++ nl
     ++ "Total P&L: $+1.50" ++ nl
     ++ "Trades: 4 | Win Rate: 75%" ++ nl
     ++ nl
     ++ "✅ MeanReversion: $+2.00 (3 trades)" ++ nl
     ++ "❌ Momentum: $-0.50 (0 trades)")%string.
Proof. vm_compute. reflexivity. Qed.

Example startup_example :
  notify_all good_cli (TN.init true) []
    [Startup "paper" ["MeanReversion"; "Momentum"] 200; Shutdown None]
  = [TN.command ("🤖 Kalshi Bot Started" ++ nl
                 ++ "Mode: paper" ++ nl
                 ++ "Strategies: MeanReversion, Momentum" ++ nl
                 ++ "Capital: $200.00")%string;
     TN.command ("🛑 Kalshi Bot Stopped" ++ nl ++ "Reason: normal")%string].
Proof. vm_compute. reflexivity. Qed.

(** C40. A P&L of less than half a cent either way is reported by
    [position_closed] as a zero amount that keeps its sign: a loss under
    half a cent is marked as a loss and printed as [$-0.00], a P&L of
    zero or a gain under half a cent is marked as a gain and printed as
    [$+0.00]. *)
Theorem position_closed_under_half_cent strategy ticker pnl pnl_pct paper :
  Qabs pnl < 1#200 ->
  let text mark amount :=
    (TN.mode_of paper ++ " Position Closed" ++ nl
     ++ mark ++ " " ++ strategy ++ ": " ++ ticker ++ nl
     ++ "P&L: $" ++ amount ++ " (" ++ format_pct true 1 pnl_pct ++ ")")%string in
  (pnl < 0 ->
   TN.position_closed_message strategy ticker pnl pnl_pct paper
   = text "❌" "-0.00") /\
  (0 <= pnl ->
   TN.position_closed_message strategy ticker pnl pnl_pct paper
   = text "✅" "+0.00").
Proof.
  intros Hx text. unfold TN.position_closed_message, text.
  rewrite (format_f_under_half_cent pnl Hx).
  split; intros Hs; destruct (qleb_spec 0 pnl), (qltb_spec pnl 0);
    try reflexivity; lra.
Qed.

(** ** Witnesses *)

Lemma send_returns_true_witness :
  snd (TN._send good_cli (TN.init true) [] "up") = true.
Proof.
  apply (send_returns_true good_cli (TN.init true) [] "up").
  split; [reflexivity|]. exists (Completed.mk 0 ""). now split.
Defined.

Lemma notify_all_recipient_witness :
  exists message,
    TN.command (message_of (Shutdown None))
    = ["openclaw"; "message"; "send"; "-t"; "6640078900"; "-m"; message].
Proof.
  apply (notify_all_recipient no_cli (TN.init true)
           [Error "down" ""; Shutdown None]).
  vm_compute. right. left. reflexivity.
Defined.

Lemma position_closed_under_half_cent_witness :
  TN.position_closed_message "Momentum" "KXTEST" (-1#1000) (-1#1000) false
  = ("💰 LIVE Position Closed" ++ nl
     ++ "❌ Momentum: KXTEST" ++ nl
     ++ "P&L: $-0.00 (-0.1%)")%string.
Proof.
  apply (proj1 (position_closed_under_half_cent "Momentum" "KXTEST"
                  (-1#1000) (-1#1000) false eq_refl)).
  reflexivity.
Defined.
