(* ===== verification/Client.v ===== *)
(** * The API client (src/src/api/kalshi_client.py)

    [RateLimiter] and [KalshiClient].  The client talks to the exchange
    through [_request]; what the exchange and the clock do is the
    [World]: the time in seconds, and the log of the requests sent with
    the time of each.  The [Server] gives the answer to the n-th request
    of the log, or the exception of the transport.  [asyncio.sleep(d)]
    advances the clock by [d] and nothing else takes time.

    [_request] calls itself on the status 429 with no bound on the number
    of attempts; the model takes the number of attempts it may make as
    fuel and answers [None] when the fuel ends with the exchange still
    refusing.  The interpreter bounds what the code does not: each retry
    is a recursive call, and after about a thousand refusals in a row
    (its recursion limit), a second apart, Python raises
    [RecursionError] out of [_request].  The model has no such limit,
    and the theorems on a request that does not return are about the
    code as written.

    The private key is what signing with it gives, a function from the
    message to the signature in base 64; the random salt of the PSS
    padding is not modelled.  The body of an answer is of a type [B] the
    client passes through unread. *)

From Stdlib Require Import String Ascii.
From Stdlib Require Import QArith ZArith List Bool DecimalString.
From S2P Require Import Prelude PyDict PyStr.
Import ListNotations.
Open Scope string_scope.
Open Scope list_scope.
Open Scope py_scope.

(** The addresses of the two exchanges. *)
Definition SANDBOX_BASE_URL : string := "https://demo-api.kalshi.co/trade-api/v2".
Definition PRODUCTION_BASE_URL : string :=
  "https://api.elections.kalshi.com/trade-api/v2".
Definition SANDBOX_WS_URL : string := "wss://demo-api.kalshi.co/trade-api/ws/v2".
Definition PRODUCTION_WS_URL : string :=
  "wss://api.elections.kalshi.com/trade-api/ws/v2".

(** ** [class RateLimiter] *)
Module RateLimiter.

Record t : Type := mk {
  calls_per_second : Q;
  last_call : Q;
}.

Definition default : t := mk 10 0.

(** [wait] at the time [now]: the limiter after the call and the time at
    which the call returns. *)
Definition wait (self : t) (now : Q) : result (t * Q) :=
  let elapsed := now - last_call self in
  min_interval <- qdiv 1 (calls_per_second self) ;;
  let now' :=
    if qltb elapsed min_interval then now + (min_interval - elapsed)
    else now in
  Ok (mk (calls_per_second self) now', now').

End RateLimiter.

(** A value of a query or of a JSON body. *)
Inductive Param : Type :=
| PStr (s : string)
| PInt (n : Z)
| PBool (b : bool).

(** What [client.request] is called with. *)
Module Request.
Record t : Type := mk {
  method : string;
  url : string;
  headers : dict string string;
  params : option (dict string Param);
  json : option (dict string Param);
}.
End Request.

(** What it answers: the status and [response.json()]. *)
Module Response.
Record t (B : Type) : Type := mk {
  status_code : Z;
  json : result B;
}.
Arguments mk {B}.
Arguments status_code {B}.
Arguments json {B}.

(** [raise_for_status] returns on a status of success, 200 to 299. *)
Definition is_success {B : Type} (r : t B) : bool :=
  (200 <=? status_code r)%Z && (status_code r <=? 299)%Z.
End Response.

(** The clock and the log of the requests sent. *)
Module World.
Record t : Type := mk {
  clock : Q;
  sent : list (Q * Request.t);
}.

Definition at_time (w : t) (now : Q) : t := mk now (sent w).
Definition sleep (w : t) (d : Q) : t := mk (clock w + d) (sent w).
Definition send (w : t) (r : Request.t) : t :=
  mk (clock w) (sent w ++ [(clock w, r)]).
End World.

(** The answer of the exchange to the n-th request of the log. *)
Definition Server (B : Type) : Type :=
  nat -> Request.t -> result (Response.t B).

(** ** [class KalshiClient] *)
Module KalshiClient.

Record t : Type := mk {
  api_key_id : string;
  sandbox : bool;
  base_url : string;
  ws_url : string;
  private_key : string -> string;
  _client : bool;
  rate_limiter : RateLimiter.t;
  _token : option string;
  _token_expiry : option Z;
}.

Definition set_rate_limiter (self : t) (r : RateLimiter.t) : t :=
  mk (api_key_id self) (sandbox self) (base_url self) (ws_url self)
     (private_key self) (_client self) r (_token self) (_token_expiry self).

Definition set_client (self : t) (b : bool) : t :=
  mk (api_key_id self) (sandbox self) (base_url self) (ws_url self)
     (private_key self) b (rate_limiter self) (_token self)
     (_token_expiry self).

(** [_load_private_key]: the key in the file at the path, if there is a
    file. *)
Definition _load_private_key (files : string -> option (string -> string))
    (key_path : string) : result (string -> string) :=
  match files key_path with
  | None => Err (FileNotFoundError key_path)
  | Some private_key => Ok private_key
  end.

(** [__init__] *)
Definition init (files : string -> option (string -> string))
    (api_key_id private_key_path : string) (sandbox : bool) : result t :=
  private_key <- _load_private_key files private_key_path ;;
  Ok {| api_key_id := api_key_id;
        sandbox := sandbox;
        base_url := if sandbox then SANDBOX_BASE_URL else PRODUCTION_BASE_URL;
        ws_url := if sandbox then SANDBOX_WS_URL else PRODUCTION_WS_URL;
        private_key := private_key;
        _client := false;
        rate_limiter := RateLimiter.mk 8 0;
        _token := None;
        _token_expiry := None |}.

(** [path.split('?')[0]] *)
Fixpoint path_without_query (path : string) : string :=
  match path with
  | EmptyString => EmptyString
  | String c rest =>
      if Ascii.eqb c "?" then EmptyString
      else String c (path_without_query rest)
  end.

(** [_sign_request] *)
Definition _sign_request (self : t) (timestamp method path : string) : string :=
  let message := (timestamp ++ method ++ path_without_query path)%string in
  private_key self message.

(** [_get_auth_headers] at the time [now], in seconds. *)
Definition _get_auth_headers (self : t) (now : Q) (method path : string)
    : dict string string :=
  let timestamp := str_of_Z (Qtrunc (now * 1000)) in
  let signature := _sign_request self timestamp (upper method) path in
  [("KALSHI-ACCESS-KEY", api_key_id self);
   ("KALSHI-ACCESS-SIGNATURE", signature);
   ("KALSHI-ACCESS-TIMESTAMP", timestamp);
   ("Content-Type", "application/json")].

(** [_get_client] *)
Definition _get_client (self : t) : t := set_client self true.

Section Requests.
Context {B : Type}.
Variable server : Server B.

(** [_request], with the number of attempts it may make. *)
Fixpoint _request (fuel : nat) (self : t) (w : World.t)
    (method endpoint : string) (params json_data : option (dict string Param))
    : t * World.t * option (result B) :=
  match fuel with
  | O => (self, w, None)
  | S fuel =>
    match RateLimiter.wait (rate_limiter self) (World.clock w) with
    | Err e => (self, w, Some (Err e))
    | Ok (limiter, now) =>
      let self := set_rate_limiter self limiter in
      let w := World.at_time w now in
      let path := ("/trade-api/v2" ++ endpoint)%string in
      let url := (base_url self ++ endpoint)%string in
      let headers := _get_auth_headers self now (upper method) path in
      let self := _get_client self in
      let request := Request.mk method url headers params json_data in
      let answer := server (length (World.sent w)) request in
      let w := World.send w request in
      match answer with
      | Err e => (self, w, Some (Err e))
      | Ok response =>
        if (Response.status_code response =? 429)%Z then
          _request fuel self (World.sleep w 1) method endpoint params json_data
        else if Response.is_success response then
          (self, w, Some (Response.json response))
        else
          (self, w, Some (Err (HTTPStatusError (Response.status_code response))))
      end
    end
  end.

Variable fuel : nat.

(** [params[key] = value] when the optional text is not empty. *)
Definition with_text (params : dict string Param) (key : string)
    (value : option string) : dict string Param :=
  if truthy_str value then dict_set params key (PStr (get_default value ""))
  else params.

(** [get_markets] *)
Definition get_markets (self : t) (w : World.t) (status : string) (limit : Z)
    (cursor series_ticker event_ticker : option string) :=
  let params := [("status", PStr status); ("limit", PInt limit)] in
  let params := with_text params "cursor" cursor in
  let params := with_text params "series_ticker" series_ticker in
  let params := with_text params "event_ticker" event_ticker in
  _request fuel self w "GET" "/markets" (Some params) None.

(** [get_market] *)
Definition get_market (self : t) (w : World.t) (ticker : string) :=
  _request fuel self w "GET" ("/markets/" ++ ticker)%string None None.

(** [get_orderbook] *)
Definition get_orderbook (self : t) (w : World.t) (ticker : string) (depth : Z) :=
  _request fuel self w "GET" ("/markets/" ++ ticker ++ "/orderbook")%string
    (Some [("depth", PInt depth)]) None.

(** [get_trades] *)
Definition get_trades (self : t) (w : World.t) (ticker : string) (limit : Z)
    (cursor : option string) :=
  let params := with_text [("limit", PInt limit)] "cursor" cursor in
  _request fuel self w "GET" ("/markets/" ++ ticker ++ "/trades")%string
    (Some params) None.

(** [get_events] *)
Definition get_events (self : t) (w : World.t) (status : string) (limit : Z)
    (with_nested_markets : bool) :=
  _request fuel self w "GET" "/events"
    (Some [("status", PStr status); ("limit", PInt limit);
           ("with_nested_markets", PBool with_nested_markets)]) None.

(** [get_series] *)
Definition get_series (self : t) (w : World.t) (limit : Z) :=
  _request fuel self w "GET" "/series" (Some [("limit", PInt limit)]) None.

(** [get_balance] *)
Definition get_balance (self : t) (w : World.t) :=
  _request fuel self w "GET" "/portfolio/balance" None None.

(** [get_positions] *)
Definition get_positions (self : t) (w : World.t) (status : string) (limit : Z)
    (cursor event_ticker : option string) :=
  let params := [("limit", PInt limit)] in
  let params := with_text params "settlement_status" (Some status) in
  let params := with_text params "cursor" cursor in
  let params := with_text params "event_ticker" event_ticker in
  _request fuel self w "GET" "/portfolio/positions" (Some params) None.

(** [get_fills] *)
Definition get_fills (self : t) (w : World.t) (limit : Z)
    (cursor ticker : option string) :=
  let params := [("limit", PInt limit)] in
  let params := with_text params "cursor" cursor in
  let params := with_text params "ticker" ticker in
  _request fuel self w "GET" "/portfolio/fills" (Some params) None.

(** The dictionary [create_order] posts: a price is written when it is
    given, the expiration when it is given and not 0, the order id when
    it is given and not empty. *)
Definition order_of (ticker side action : string) (count : Z) (type : string)
    (yes_price no_price expiration_ts : option Z)
    (client_order_id : option string) : dict string Param :=
  let order := [("ticker", PStr ticker); ("side", PStr side);
                ("action", PStr action); ("count", PInt count);
                ("type", PStr type)] in
  let order :=
    match yes_price with
    | Some p => dict_set order "yes_price" (PInt p)
    | None => order
    end in
  let order :=
    match no_price with
    | Some p => dict_set order "no_price" (PInt p)
    | None => order
    end in
  let order :=
    match expiration_ts with
    | Some ts => if (ts =? 0)%Z then order
                 else dict_set order "expiration_ts" (PInt ts)
    | None => order
    end in
  with_text order "client_order_id" client_order_id.

(** [create_order] *)
Definition create_order (self : t) (w : World.t) (ticker side action : string)
    (count : Z) (type : string) (yes_price no_price expiration_ts : option Z)
    (client_order_id : option string) :=
  let order := order_of ticker side action count type yes_price no_price
                 expiration_ts client_order_id in
  _request fuel self w "POST" "/portfolio/orders" None (Some order).

(** [get_orders] *)
Definition get_orders (self : t) (w : World.t) (ticker : option string)
    (status : string) (limit : Z) :=
  let params := [("limit", PInt limit)] in
  let params := with_text params "ticker" ticker in
  let params := with_text params "status" (Some status) in
  _request fuel self w "GET" "/portfolio/orders" (Some params) None.

(** [cancel_order] *)
Definition cancel_order (self : t) (w : World.t) (order_id : string) :=
  _request fuel self w "DELETE" ("/portfolio/orders/" ++ order_id)%string None None.

(** [batch_cancel_orders] *)
Definition batch_cancel_orders (self : t) (w : World.t)
    (ticker : option string) :=
  _request fuel self w "DELETE" "/portfolio/orders"
    (Some (with_text [] "ticker" ticker)) None.

(** [get_exchange_status] *)
Definition get_exchange_status (self : t) (w : World.t) :=
  _request fuel self w "GET" "/exchange/status" None None.

End Requests.

(** [close] *)
Definition close (self : t) : t := set_client self false.

(** [__aenter__] *)
Definition __aenter__ (self : t) : t := self.

(** [__aexit__], whatever the block raised. *)
Definition __aexit__ (self : t) : t := close self.

End KalshiClient.

(** [create_client_from_env]: [api_key] is the value of KALSHI_API_KEY in
    the environment, the key is read at the fixed path under the home
    directory, which [~] stands for. *)
Definition create_client_from_env (api_key : option string)
    (files : string -> option (string -> string)) (sandbox : bool)
    : result KalshiClient.t :=
  if negb (truthy_str api_key) then
    Err (ValueError "KALSHI_API_KEY not found in ~/.openclaw/.env")
  else
    let private_key_path := "~/.openclaw/.secrets/kalshi_private_key.pem" in
    KalshiClient.init files (get_default api_key "") private_key_path sandbox.

Module RL := RateLimiter.
Module KC := KalshiClient.
