(* ===== verification/ClientProps.v ===== *)
(** * Properties of the API client

    The rate limiter spaces the calls; every request of a client goes to
    the exchange the client was built for, and the requests of the log
    are at least the minimum interval apart, so that [j] requests take
    [j / calls_per_second] seconds; a closed client opens again on its
    next request; [_request] returns the first
    answer that is not a 429 and never returns while the exchange keeps
    refusing; the signature does not cover the query; what
    [create_order] posts. *)

From Stdlib Require Import String Ascii.
From Stdlib Require Import QArith Lqa Lia ZArith List Bool.
From S2P Require Import Prelude PyDict PyStr Client.
Import ListNotations.
Open Scope string_scope.
Open Scope list_scope.
Open Scope py_scope.

(** ** The rate limiter *)

Lemma wait_inv self now self' now' :
  RL.wait self now = Ok (self', now') ->
  ~ RL.calls_per_second self == 0
  /\ self' = RL.mk (RL.calls_per_second self) now'
  /\ now' = (if qltb (now - RL.last_call self) (1 / RL.calls_per_second self)
             then now + (1 / RL.calls_per_second self - (now - RL.last_call self))
             else now).
Proof.
  unfold RL.wait. destruct (qdiv 1 _) as [m|e] eqn:E; [|discriminate].
  apply qdiv_ok_inv in E as [Hnz ->]. cbn [bind]. intros H.
  injection H as <- <-. auto.
Qed.

(** [wait] spaces the calls: when it returns, it returns no earlier
    than it was called and no earlier than the minimum interval after
    the call before, it records the time of its return, and it has
    slept for no more than the minimum interval if the clock had not
    run backwards. *)
Theorem wait_spacing self now self' now' :
  0 < RL.calls_per_second self ->
  RL.wait self now = Ok (self', now') ->
  now <= now'
  /\ RL.last_call self + 1 / RL.calls_per_second self <= now'
  /\ RL.last_call self' = now'
  /\ RL.calls_per_second self' = RL.calls_per_second self
  /\ (RL.last_call self <= now -> now' - now <= 1 / RL.calls_per_second self).
Proof.
  intros Hpos H. apply wait_inv in H as (_ & -> & ->). cbn [RL.last_call RL.calls_per_second].
  destruct (qltb_spec (now - RL.last_call self) (1 / RL.calls_per_second self));
    repeat split; try lra.
  intros _. assert (0 < 1 / RL.calls_per_second self); [|lra].
  apply Qlt_shift_div_l; lra.
Qed.

(** [wait] raises exactly on a rate of 0, and leaves the limiter as it
    was. *)
Theorem wait_raises self now :
  RL.calls_per_second self == 0 <-> RL.wait self now = Err ZeroDivisionError.
Proof.
  unfold RL.wait. split.
  - intros H. now rewrite (qdiv_err _ _ H).
  - destruct (qdiv 1 _) as [m|e] eqn:E; [discriminate|]. intros _.
    unfold qdiv in E. destruct (qeqb_spec (RL.calls_per_second self) 0);
      [assumption | discriminate].
Qed.

(** ** The log of requests *)

(** The times of a log are [gap] apart. *)
Fixpoint spaced (gap : Q) (l : list Q) : Prop :=
  match l with
  | [] => True
  | a :: l' => Forall (fun b => a + gap <= b) l' /\ spaced gap l'
  end.

Lemma spaced_snoc gap l x :
  spaced gap l -> Forall (fun a => a + gap <= x) l -> spaced gap (l ++ [x]).
Proof.
  induction l as [|a l IH]; cbn [spaced app]; [now repeat constructor|].
  intros [Hall Hsp] Hx. inversion Hx; subst. split; [|now apply IH].
  apply Forall_app. split; [assumption | now repeat constructor].
Qed.

(** Consecutive times of a spaced log are a gap apart. *)
Lemma spaced_adjacent gap l : spaced gap l -> forall k x y,
  nth_error l k = Some x -> nth_error l (S k) = Some y -> x + gap <= y.
Proof.
  induction l as [|a l IH]; intros Hsp k x y Hx Hy; [now destruct k|].
  destruct Hsp as [Hall Hsp]. destruct k as [|k]; [|exact (IH Hsp k x y Hx Hy)].
  injection Hx as ->. destruct l as [|b l]; [discriminate|].
  injection Hy as ->. now inversion Hall.
Qed.

(** The calls of a spaced log take their time: a call is at least [j]
    gaps after the [j]-th call before it. *)
Lemma spaced_nth gap l : spaced gap l -> forall j i x y,
  nth_error l i = Some x -> nth_error l (i + j) = Some y ->
  x + inject_Z (Z.of_nat j) * gap <= y.
Proof.
  intros Hsp. induction j as [|j IH]; intros i x y Hx Hy.
  - rewrite Nat.add_0_r, Hx in Hy. injection Hy as ->.
    change (inject_Z (Z.of_nat 0)) with 0. lra.
  - rewrite Nat.add_succ_r in Hy.
    destruct (nth_error l (i + j)) as [z|] eqn:Hz.
    + pose proof (IH i x z Hx Hz). pose proof (spaced_adjacent gap l Hsp _ _ _ Hz Hy).
      rewrite Nat2Z.inj_succ, <- Z.add_1_r, inject_Z_plus.
      change (inject_Z 1) with 1. lra.
    + apply nth_error_None in Hz.
      assert (nth_error l (S (i + j)) = None) by (apply nth_error_None; lia).
      congruence.
Qed.

Definition times (w : World.t) : list Q := map fst (World.sent w).

(** The client and the world agree on the pace: the calls of the log are
    the minimum interval apart, none is later than the last call the
    limiter recorded, and the clock is not behind the limiter. *)
Definition paced (self : KC.t) (w : World.t) : Prop :=
  0 < RL.calls_per_second (KC.rate_limiter self)
  /\ spaced (1 / RL.calls_per_second (KC.rate_limiter self)) (times w)
  /\ Forall (fun t => t <= RL.last_call (KC.rate_limiter self)) (times w)
  /\ RL.last_call (KC.rate_limiter self) <= World.clock w.

(** The rate of a paced log: between a request and the [j]-th after it
    at least [j / calls_per_second] seconds pass, so no window of time
    holds more requests than the limiter allows. *)
Theorem paced_rate self w i j x y :
  paced self w ->
  nth_error (times w) i = Some x -> nth_error (times w) (i + j) = Some y ->
  x + inject_Z (Z.of_nat j) / RL.calls_per_second (KC.rate_limiter self) <= y.
Proof.
  intros (_ & Hsp & _) Hx Hy.
  pose proof (spaced_nth _ _ Hsp j i x y Hx Hy) as H.
  unfold Qdiv in *. now rewrite Qmult_1_l in H.
Qed.

(** Every request of the log went to an address under [base]. *)
Definition all_to (base : string) (w : World.t) : Prop :=
  Forall (fun tr => String.prefix base (Request.url (snd tr)) = true)
         (World.sent w).

Lemma prefix_app_self (a b : string) : String.prefix a (a ++ b) = true.
Proof. apply prefix_spec. now exists b. Qed.

Section Requests.
Context {B : Type}.
Variable server : Server B.
Variables (method endpoint : string) (params json_data : option (dict string Param)).

(** One attempt of [_request]: the client and the world once the request
    is sent. *)
Definition attempt (self : KC.t) (w : World.t) (now : Q) : KC.t * World.t :=
  let self1 := KC.set_rate_limiter self (RL.mk (RL.calls_per_second (KC.rate_limiter self)) now) in
  (KC._get_client self1,
   World.send (World.at_time w now)
     (Request.mk method (KC.base_url self ++ endpoint)
        (KC._get_auth_headers self1 now (upper method) ("/trade-api/v2" ++ endpoint))
        params json_data)).

(** The answer to that attempt. *)
Definition answer_to (self : KC.t) (w : World.t) (now : Q)
    : result (Response.t B) :=
  server (length (World.sent w))
    (Request.mk method (KC.base_url self ++ endpoint)
       (KC._get_auth_headers
          (KC.set_rate_limiter self
             (RL.mk (RL.calls_per_second (KC.rate_limiter self)) now))
          now (upper method) ("/trade-api/v2" ++ endpoint))
       params json_data).

(** [_request] unfolded by one attempt. *)
Lemma request_step fuel self w :
  KC._request server (S fuel) self w method endpoint params json_data
  = match RL.wait (KC.rate_limiter self) (World.clock w) with
    | Err e => (self, w, Some (Err e))
    | Ok (_, now) =>
      let '(self1, w1) := attempt self w now in
      match answer_to self w now with
      | Err e => (self1, w1, Some (Err e))
      | Ok response =>
        if (Response.status_code response =? 429)%Z then
          KC._request server fuel self1 (World.sleep w1 1) method endpoint
            params json_data
        else if Response.is_success response then
          (self1, w1, Some (Response.json response))
        else (self1, w1,
              Some (Err (HTTPStatusError (Response.status_code response))))
      end
    end.
Proof.
  cbn [KC._request]. destruct (RL.wait _ _) as [[limiter now]|e] eqn:E;
    [|reflexivity].
  apply wait_inv in E as (_ & -> & _). reflexivity.
Qed.

(** What a property of the client and the world needs to survive
    [_request]: it survives an attempt and the sleep after a refusal. *)
Lemma request_preserves (P : KC.t -> World.t -> Prop) :
  (forall self w limiter now,
     P self w -> RL.wait (KC.rate_limiter self) (World.clock w) = Ok (limiter, now) ->
     P (fst (attempt self w now)) (snd (attempt self w now))
     /\ P (fst (attempt self w now)) (World.sleep (snd (attempt self w now)) 1)) ->
  forall fuel self w,
    P self w ->
    let r := KC._request server fuel self w method endpoint params json_data in
    P (fst (fst r)) (snd (fst r)).
Proof.
  intros Hstep. induction fuel as [|fuel IH]; intros self w HP; [exact HP|].
  cbv zeta. rewrite request_step.
  destruct (RL.wait _ _) as [[limiter now]|e] eqn:E; [|exact HP].
  destruct (Hstep self w limiter now HP E) as [H1 H2].
  destruct (attempt self w now) as [self1 w1]. cbn [fst snd] in *.
  destruct (answer_to self w now) as [response|e]; [|exact H1].
  destruct (_ =? 429)%Z; [now apply IH|].
  now destruct (Response.is_success response).
Qed.

(** The requests of a client go under its base URL, which no request
    changes. *)
Lemma request_all_to base fuel self w :
  KC.base_url self = base -> all_to base w ->
  let r := KC._request server fuel self w method endpoint params json_data in
  all_to base (snd (fst r)) /\ KC.base_url (fst (fst r)) = base.
Proof.
  intros Hbase Hall.
  apply (request_preserves
           (fun c v => all_to base v /\ KC.base_url c = base)); [|now split].
  intros c v limiter now [Hv Hc] _. unfold attempt, all_to in *.
  cbn [fst snd World.sleep World.sent World.send World.at_time KC.base_url
       KC._get_client KC.set_client KC.set_rate_limiter].
  enough (Forall (fun tr => String.prefix base (Request.url (snd tr)) = true)
            (World.sent v ++
               [(now, Request.mk method (KC.base_url c ++ endpoint)
                        (KC._get_auth_headers
                           (KC.set_rate_limiter c
                              (RL.mk (RL.calls_per_second (KC.rate_limiter c)) now))
                           now (upper method) ("/trade-api/v2" ++ endpoint))
                        params json_data)])) by now repeat split.
  apply Forall_app. split; [exact Hv|]. repeat constructor. cbn [snd Request.url].
  rewrite Hc. apply prefix_app_self.
Qed.

(** Every request of a client goes to the exchange it was built
    for: [_request] sends to addresses under the base URL of the client
    only, and leaves the base URL as it is. *)
Theorem request_stays_on_exchange fuel self w :
  all_to (KC.base_url self) w ->
  let r := KC._request server fuel self w method endpoint params json_data in
  all_to (KC.base_url self) (snd (fst r))
  /\ KC.base_url (fst (fst r)) = KC.base_url self.
Proof. now apply request_all_to. Qed.

(** The requests of the log are paced: [_request] keeps the calls
    the minimum interval of the limiter apart, retries included. *)
Theorem request_paced fuel self w :
  paced self w ->
  let r := KC._request server fuel self w method endpoint params json_data in
  paced (fst (fst r)) (snd (fst r)).
Proof.
  apply (request_preserves paced).
  intros c v limiter now (Hpos & Hsp & Hle & Hclock) E.
  destruct (wait_spacing _ _ _ _ Hpos E) as (Hnow & Hgap & _ & _ & _).
  unfold attempt, paced, times in *.
  cbn [fst snd World.sleep World.sent World.send World.at_time World.clock
       KC.rate_limiter KC._get_client KC.set_client KC.set_rate_limiter
       RL.calls_per_second RL.last_call].
  rewrite map_app. cbn [map fst].
  assert (Hs : spaced (1 / RL.calls_per_second (KC.rate_limiter c))
                 (map fst (World.sent v) ++ [now])).
  { apply spaced_snoc; [exact Hsp|].
    eapply Forall_impl; [|exact Hle]. cbv beta. intros t Ht. lra. }
  assert (Hl : Forall (fun t => t <= now) (map fst (World.sent v) ++ [now])).
  { apply Forall_app. split; [|repeat constructor; lra].
    eapply Forall_impl; [|exact Hle]. cbv beta. intros t Ht.
    assert (0 < 1 / RL.calls_per_second (KC.rate_limiter c))
      by (apply Qlt_shift_div_l; lra). lra. }
  repeat split; auto; lra.
Qed.

(** The exchange refuses the n-th request with a 429, or answers it with
    [response], whatever the request. *)
Definition refuses (n : nat) : Prop :=
  forall r, exists response,
    server n r = Ok response /\ Response.status_code response = 429%Z.

Definition answers (n : nat) (response : Response.t B) : Prop :=
  forall r, server n r = Ok response.

(** What [_request] returns for an answer that is not a 429. *)
Definition outcome (response : Response.t B) : result B :=
  if Response.is_success response then Response.json response
  else Err (HTTPStatusError (Response.status_code response)).

Lemma wait_ok self now :
  0 < RL.calls_per_second self ->
  exists now', RL.wait self now
               = Ok (RL.mk (RL.calls_per_second self) now', now')
               /\ now <= now'.
Proof.
  intros Hpos. destruct (RL.wait self now) as [[self' now']|e] eqn:E.
  - exists now'. pose proof (wait_spacing _ _ _ _ Hpos E) as (H & _).
    apply wait_inv in E as (_ & -> & _). now split.
  - exfalso. unfold RL.wait in E. rewrite qdiv_ok in E by lra. discriminate.
Qed.

Lemma attempt_facts self w now :
  let '(self1, w1) := attempt self w now in
  length (World.sent w1) = S (length (World.sent w))
  /\ World.clock w1 = now
  /\ RL.calls_per_second (KC.rate_limiter self1)
     = RL.calls_per_second (KC.rate_limiter self).
Proof.
  unfold attempt. cbn. rewrite length_app. cbn. split; [lia | now split].
Qed.

(** A refused attempt leads to the next one, a second later. *)
Lemma request_refused fuel self w :
  0 < RL.calls_per_second (KC.rate_limiter self) ->
  refuses (length (World.sent w)) ->
  exists self1 w1,
    KC._request server (S fuel) self w method endpoint params json_data
    = KC._request server fuel self1 w1 method endpoint params json_data
    /\ length (World.sent w1) = S (length (World.sent w))
    /\ World.clock w + 1 <= World.clock w1
    /\ RL.calls_per_second (KC.rate_limiter self1)
       = RL.calls_per_second (KC.rate_limiter self).
Proof.
  intros Hpos Href. rewrite request_step.
  destruct (wait_ok _ (World.clock w) Hpos) as (now & -> & Hnow).
  pose proof (attempt_facts self w now) as Hat.
  destruct (attempt self w now) as [self1 w1]. destruct Hat as (Hlen & Hck & Hcps).
  destruct (Href (Request.mk method (KC.base_url self ++ endpoint)
       (KC._get_auth_headers
          (KC.set_rate_limiter self
             (RL.mk (RL.calls_per_second (KC.rate_limiter self)) now))
          now (upper method) ("/trade-api/v2" ++ endpoint))
       params json_data)) as (response & Hans & Hst).
  unfold answer_to. rewrite Hans, Hst. cbn [Z.eqb Pos.eqb].
  exists self1, (World.sleep w1 1). cbn [World.sleep World.sent World.clock].
  split; [reflexivity|]. split; [exact Hlen|].
  split; [rewrite Hck; lra | exact Hcps].
Qed.

(** An attempt that is answered returns the answer. *)
Lemma request_answered fuel self w response :
  0 < RL.calls_per_second (KC.rate_limiter self) ->
  answers (length (World.sent w)) response ->
  Response.status_code response <> 429%Z ->
  let r := KC._request server (S fuel) self w method endpoint params json_data in
  snd r = Some (outcome response)
  /\ length (World.sent (snd (fst r))) = S (length (World.sent w))
  /\ World.clock w <= World.clock (snd (fst r)).
Proof.
  intros Hpos Hans Hst. cbv zeta. rewrite request_step.
  destruct (wait_ok _ (World.clock w) Hpos) as (now & -> & Hnow).
  pose proof (attempt_facts self w now) as Hat.
  destruct (attempt self w now) as [self1 w1]. destruct Hat as (Hlen & Hck & _).
  unfold answer_to. rewrite Hans.
  apply Z.eqb_neq in Hst. rewrite Hst. unfold outcome.
  destruct (Response.is_success response); cbn [fst snd]; rewrite Hck; auto.
Qed.

(** C22. [_request] returns the first answer that is not a 429: when the
    exchange refuses the next [k] requests and answers the one after,
    any fuel above [k] gives that answer (its body on a status of
    success, the status error otherwise) after [k + 1] requests and at
    least [k] seconds. *)
Theorem request_returns_first_answer k response : forall fuel self w,
  0 < RL.calls_per_second (KC.rate_limiter self) ->
  (forall i, (i < k)%nat -> refuses (length (World.sent w) + i)) ->
  answers (length (World.sent w) + k) response ->
  Response.status_code response <> 429%Z ->
  (k < fuel)%nat ->
  let r := KC._request server fuel self w method endpoint params json_data in
  snd r = Some (outcome response)
  /\ length (World.sent (snd (fst r))) = (length (World.sent w) + k + 1)%nat
  /\ World.clock w + inject_Z (Z.of_nat k) <= World.clock (snd (fst r)).
Proof.
  induction k as [|k IH]; intros [|fuel] self w Hpos Href Hans Hst Hk; try lia.
  - rewrite Nat.add_0_r in Hans.
    destruct (request_answered fuel self w response Hpos Hans Hst) as (H1 & H2 & H3).
    cbv zeta. rewrite H1, H2. repeat split; [lia|].
    change (inject_Z (Z.of_nat 0)) with 0. lra.
  - assert (H0 : refuses (length (World.sent w)))
      by (rewrite <- (Nat.add_0_r (length _)); apply Href; lia).
    destruct (request_refused fuel self w Hpos H0)
      as (self1 & w1 & -> & Hlen & Hck & Hcps).
    destruct (IH fuel self1 w1) as (H1 & H2 & H3); try lia.
    + now rewrite Hcps.
    + intros i Hi. rewrite Hlen. replace (S (length (World.sent w)) + i)%nat
        with (length (World.sent w) + S i)%nat by lia. apply Href. lia.
    + rewrite Hlen. now replace (S (length (World.sent w)) + k)%nat
        with (length (World.sent w) + S k)%nat by lia.
    + cbv zeta. rewrite H1, H2, Hlen. repeat split; [lia|].
      rewrite inject_Z_S. lra.
Qed.

(** A request leaves the rate of the limiter as it is. *)
Lemma request_rate fuel self w :
  let r := KC._request server fuel self w method endpoint params json_data in
  RL.calls_per_second (KC.rate_limiter (fst (fst r)))
  = RL.calls_per_second (KC.rate_limiter self).
Proof.
  apply (request_preserves
           (fun c _ => RL.calls_per_second (KC.rate_limiter c)
                       = RL.calls_per_second (KC.rate_limiter self)));
    [|reflexivity].
  intros c v limiter now H _. unfold attempt. now split.
Qed.

(** The clock does not run backwards through a request, and the rate
    of the limiter stays as it is. *)
Lemma request_clock t0 fuel self w :
  0 < RL.calls_per_second (KC.rate_limiter self) -> t0 <= World.clock w ->
  let r := KC._request server fuel self w method endpoint params json_data in
  0 < RL.calls_per_second (KC.rate_limiter (fst (fst r)))
  /\ t0 <= World.clock (snd (fst r)).
Proof.
  intros Hpos Ht.
  apply (request_preserves
           (fun c v => 0 < RL.calls_per_second (KC.rate_limiter c)
                       /\ t0 <= World.clock v)); [|now split].
  intros c v limiter now [Hc Hv] E.
  destruct (wait_spacing _ _ _ _ Hc E) as (Hnow & _).
  unfold attempt.
  cbn [fst snd World.sleep World.send World.at_time World.clock
       KC.rate_limiter KC._get_client KC.set_client KC.set_rate_limiter
       RL.calls_per_second].
  repeat split; lra.
Qed.

(** [close] is not final: [_get_client] opens the connection again, so
    a request of a closed client sends what the request of the open one
    sends, returns what it returns and, once the limiter has let it
    through, leaves the same client. *)
Theorem request_after_close fuel self w :
  let r := KC._request server (S fuel) (KC.close self) w method endpoint
             params json_data in
  let r' := KC._request server (S fuel) self w method endpoint params
              json_data in
  snd r = snd r' /\ snd (fst r) = snd (fst r')
  /\ (0 < RL.calls_per_second (KC.rate_limiter self) -> r = r').
Proof.
  cbv zeta. rewrite !request_step. destruct self as [k s b pk c cl rl t te].
  cbn [KC.close KC.set_client KC.rate_limiter].
  destruct (RL.wait rl (World.clock w)) as [[limiter now]|e] eqn:E.
  - now repeat split.
  - repeat split. intros Hpos.
    destruct (wait_ok rl (World.clock w) Hpos) as (now & H & _).
    rewrite H in E. discriminate.
Qed.

(** C37. [_request] has no bound on its attempts: while the exchange
    keeps refusing, no amount of fuel makes it return, and every unit of
    fuel is one more request sent. *)
Theorem request_starves : forall fuel self w,
  0 < RL.calls_per_second (KC.rate_limiter self) ->
  (forall n, refuses n) ->
  let r := KC._request server fuel self w method endpoint params json_data in
  snd r = None
  /\ length (World.sent (snd (fst r))) = (length (World.sent w) + fuel)%nat.
Proof.
  induction fuel as [|fuel IH]; intros self w Hpos Href; [cbn; split; [reflexivity | lia]|].
  destruct (request_refused fuel self w Hpos (Href _))
    as (self1 & w1 & -> & Hlen & _ & Hcps).
  destruct (IH self1 w1) as [H1 H2]; [now rewrite Hcps | exact Href|].
  cbv zeta. rewrite H1, H2, Hlen. split; [reflexivity | lia].
Qed.

End Requests.

(** ** The signature *)

Lemma path_without_query_app path query :
  str_in "?" path = false ->
  KC.path_without_query (path ++ "?" ++ query) = path.
Proof.
  induction path as [|c path IH]; [reflexivity|].
  cbn [str_in String.prefix append KC.path_without_query].
  destruct (Ascii.ascii_dec "?" c) as [<-|Hne].
  - now destruct path.
  - cbn [orb]. intros H. destruct (Ascii.eqb_spec c "?"); [congruence|].
    f_equal. now apply IH.
Qed.

(** The signature does not cover the query: a path signs as the
    part of it before the first question mark. *)
Theorem signature_ignores_query self timestamp method path query :
  str_in "?" path = false ->
  KC._sign_request self timestamp method (path ++ "?" ++ query)
  = KC.private_key self (timestamp ++ method ++ path).
Proof.
  intros H. unfold KC._sign_request. now rewrite path_without_query_app.
Qed.

(** ** The order posted *)

(** What [create_order] posts: the five keys of every order, a price
    when one is given (0 included), the expiration when it is given and
    not 0, the client's order id when it is given and not empty. *)
Theorem order_of_spec ticker side action count type yes_price no_price
    expiration_ts client_order_id :
  let order := KC.order_of ticker side action count type yes_price no_price
                 expiration_ts client_order_id in
  dict_get order "ticker" = Some (PStr ticker)
  /\ dict_get order "side" = Some (PStr side)
  /\ dict_get order "action" = Some (PStr action)
  /\ dict_get order "count" = Some (PInt count)
  /\ dict_get order "type" = Some (PStr type)
  /\ dict_get order "yes_price" = option_map PInt yes_price
  /\ dict_get order "no_price" = option_map PInt no_price
  /\ dict_get order "expiration_ts"
     = match expiration_ts with
       | Some ts => if (ts =? 0)%Z then None else Some (PInt ts)
       | None => None
       end
  /\ dict_get order "client_order_id"
     = (if truthy_str client_order_id then option_map PStr client_order_id
        else None).
Proof.
  unfold KC.order_of, KC.with_text.
  destruct yes_price, no_price, expiration_ts as [ts|],
    client_order_id as [[|c s]|]; try destruct (ts =? 0)%Z;
    cbn; repeat split; reflexivity.
Qed.

(** ** Witnesses *)

Definition demo_limiter : RL.t := RL.mk 8 0.

Definition demo_wait : RL.t * Q :=
  match RL.wait demo_limiter 0.05 with
  | Ok r => r
  | Err _ => (demo_limiter, 0)
  end.

(** A sandbox client whose key signs a message with itself, an exchange
    that refuses the first two requests, and one that refuses all. *)
Definition demo_client : KC.t :=
  match create_client_from_env (Some "key-id") (fun _ => Some (fun m => m)) true with
  | Ok c => c
  | Err _ => KC.mk "" true "" "" (fun m => m) false demo_limiter None None
  end.

Definition demo_world : World.t := World.mk 0 [].

Definition demo_server : Server nat :=
  fun n _ => Ok (Response.mk (if (n <? 2)%nat then 429%Z else 200%Z) (Ok n)).

Definition busy_server : Server nat :=
  fun n _ => Ok (Response.mk 429%Z (Ok n)).

Lemma demo_client_paced : paced demo_client demo_world.
Proof. repeat split; [constructor | discriminate]. Defined.

Lemma wait_spacing_witness :
  0.05 <= snd demo_wait
  /\ 0 + 1 / 8 <= snd demo_wait
  /\ RL.last_call (fst demo_wait) = snd demo_wait
  /\ RL.calls_per_second (fst demo_wait) = 8
  /\ (0 <= 0.05 -> snd demo_wait - 0.05 <= 1 / 8).
Proof.
  apply (wait_spacing demo_limiter 0.05 (fst demo_wait) (snd demo_wait));
    reflexivity.
Defined.

Lemma request_stays_on_exchange_witness :
  let r := KC.get_balance demo_server 5 demo_client demo_world in
  all_to SANDBOX_BASE_URL (snd (fst r))
  /\ KC.base_url (fst (fst r)) = SANDBOX_BASE_URL.
Proof.
  apply (request_stays_on_exchange demo_server "GET" "/portfolio/balance"
           None None 5 demo_client demo_world).
  constructor.
Defined.

Lemma request_paced_witness :
  let r := KC.get_balance demo_server 5 demo_client demo_world in
  paced (fst (fst r)) (snd (fst r)).
Proof.
  apply (request_paced demo_server "GET" "/portfolio/balance" None None 5
           demo_client demo_world demo_client_paced).
Defined.

Lemma request_returns_first_answer_witness :
  let r := KC.get_balance demo_server 5 demo_client demo_world in
  snd r = Some (Ok 2%nat)
  /\ length (World.sent (snd (fst r))) = 3%nat
  /\ 0 + 2 <= World.clock (snd (fst r)).
Proof.
  apply (request_returns_first_answer demo_server "GET" "/portfolio/balance"
           None None 2 (Response.mk 200%Z (Ok 2%nat)) 5 demo_client demo_world).
  - reflexivity.
  - intros [|[|i]] Hi r; [| |lia]; eexists; split; reflexivity.
  - intros r. reflexivity.
  - discriminate.
  - lia.
Defined.

Lemma request_starves_witness :
  let r := KC.get_balance busy_server 5 demo_client demo_world in
  snd r = None /\ length (World.sent (snd (fst r))) = 5%nat.
Proof.
  apply (request_starves busy_server "GET" "/portfolio/balance" None None 5
           demo_client demo_world).
  - reflexivity.
  - intros n r. eexists. split; reflexivity.
Defined.

Lemma signature_ignores_query_witness :
  KC._sign_request demo_client "1700" "GET" "/trade-api/v2/markets?limit=100"
  = "1700GET/trade-api/v2/markets".
Proof.
  apply (signature_ignores_query demo_client "1700" "GET"
           "/trade-api/v2/markets" "limit=100").
  reflexivity.
Defined.
