(* ===== verification/Config.v ===== *)
(** * Configuration (src/src/config.py)

    The dataclasses of the configuration with their default values, the
    container [Config], and the loader [Config.load] as a function of the
    parsed YAML document: module [Yaml] holds the document as records of
    optional keys, one record per nested dictionary, so that every
    [data.get(key, default)] of the loader is a [get_default].  A key
    holds a value of the type the program expects of it or is absent:
    [sandbox] and [force_sandbox] are an optional boolean, so a document
    in which one of them is present with the value null or with a value
    that is not a boolean, which the loader would store or test for
    truth as it is, has no counterpart in [Yaml.t].  Reading the file
    and the environment themselves is outside the model: [get_api_key]
    takes what [os.getenv] returned. *)

From Stdlib Require Import String.
From Stdlib Require Import QArith ZArith List.
From S2P Require Import Prelude PyDict.
Import ListNotations.
Open Scope string_scope.

(** [class RiskConfig] *)
Module RiskConfig.
Record t : Type := mk {
  max_total_capital : Q;
  max_position_size : Q;
  max_daily_loss : Q;
  max_concurrent_positions : Z;
  max_exposure_pct : Q;
}.
Definition default : t :=
  {| max_total_capital := 200;
     max_position_size := 10;
     max_daily_loss := 20;
     max_concurrent_positions := 10;
     max_exposure_pct := 0.20 |}.
End RiskConfig.

(** [class StrategyConfig] *)
Module StrategyConfig.
Record t : Type := mk {
  name : string;
  enabled : bool;
  initial_capital : Q;
  max_position_size : Q;
  params : dict string PyVal;
}.
Definition default (name : string) : t :=
  {| name := name;
     enabled := true;
     initial_capital := 50;
     max_position_size := 10;
     params := [] |}.
End StrategyConfig.

(** [class ScannerConfig] *)
Module ScannerConfig.
Record t : Type := mk {
  poll_interval_seconds : Q;
  min_volume : Z;
  min_liquidity : Q;
  market_status : string;
  max_markets : Z;
}.
Definition default : t :=
  {| poll_interval_seconds := 30;
     min_volume := 100;
     min_liquidity := 50;
     market_status := "open";
     max_markets := 500 |}.
End ScannerConfig.

(** [class PerformanceConfig] *)
Module PerformanceConfig.
Record t : Type := mk {
  db_path : string;
  rolling_window_days : Z;
  min_trades_for_ranking : Z;
}.
Definition default : t :=
  {| db_path := "data/performance.db";
     rolling_window_days := 30;
     min_trades_for_ranking := 5 |}.
End PerformanceConfig.

(** [class AllocatorConfig] *)
Module AllocatorConfig.
Record t : Type := mk {
  rebalance_interval_hours : Q;
  min_sharpe_ratio : Q;
  performance_weight : Q;
  risk_weight : Q;
}.
Definition default : t :=
  {| rebalance_interval_hours := 24;
     min_sharpe_ratio := 0.5;
     performance_weight := 0.7;
     risk_weight := 0.3 |}.
End AllocatorConfig.

(** The parsed YAML document [Config.load] reads: every key may be
    absent. *)
Module Yaml.

Record RiskData : Type := mkRisk {
  max_total_capital : option Q;
  risk_max_position_size : option Q;
  max_daily_loss : option Q;
  max_concurrent_positions : option Z;
  max_exposure_pct : option Q;
}.

Record ScannerData : Type := mkScanner {
  poll_interval_seconds : option Q;
  min_volume : option Z;
  min_liquidity : option Q;
  market_status : option string;
}.

Record PerformanceData : Type := mkPerformance {
  db_path : option string;
  rolling_window_days : option Z;
  min_trades_for_ranking : option Z;
}.

Record AllocatorData : Type := mkAllocator {
  rebalance_interval_hours : option Q;
  min_sharpe_ratio : option Q;
  performance_weight : option Q;
  risk_weight : option Q;
}.

Record StrategyData : Type := mkStrategy {
  enabled : option bool;
  initial_capital : option Q;
  max_position_size : option Q;
  params : option (dict string PyVal);
}.

Record t : Type := mk {
  sandbox : option bool;
  api_key_env_var : option string;
  private_key_path : option string;
  force_sandbox : option bool;
  risk : option RiskData;
  scanner : option ScannerData;
  performance : option PerformanceData;
  allocator : option AllocatorData;
  strategies : option (dict string StrategyData);
  log_level : option string;
  log_file : option (option string);
}.

(** The empty dictionaries: [{}] and what a missing file yields. *)
Definition no_risk : RiskData := mkRisk None None None None None.
Definition no_scanner : ScannerData := mkScanner None None None None.
Definition no_performance : PerformanceData := mkPerformance None None None.
Definition no_allocator : AllocatorData := mkAllocator None None None None.
Definition empty : t :=
  mk None None None None None None None None None None None.

End Yaml.

(** [class Config] *)
Module Config.

Record t : Type := mk {
  sandbox : bool;
  api_key_env_var : string;
  private_key_path : string;
  risk : RiskConfig.t;
  scanner : ScannerConfig.t;
  performance : PerformanceConfig.t;
  allocator : AllocatorConfig.t;
  strategies : dict string StrategyConfig.t;
  log_level : string;
  log_file : option string;
}.

(** [Config()], which is also [get_default_config()]. *)
Definition default : t :=
  {| sandbox := true;
     api_key_env_var := "KALSHI_API_KEY";
     private_key_path := "~/.openclaw/.secrets/kalshi_private_key.pem";
     risk := RiskConfig.default;
     scanner := ScannerConfig.default;
     performance := PerformanceConfig.default;
     allocator := AllocatorConfig.default;
     strategies := [];
     log_level := "INFO";
     log_file := Some "logs/trading.log" |}.

Definition set_sandbox (config : t) (b : bool) : t :=
  mk b (api_key_env_var config) (private_key_path config) (risk config)
     (scanner config) (performance config) (allocator config)
     (strategies config) (log_level config) (log_file config).

(** The strategies [load] installs when the document names none. *)
Definition default_strategies : dict string StrategyConfig.t :=
  [("MeanReversion",
    {| StrategyConfig.name := "MeanReversion";
       StrategyConfig.enabled := true;
       StrategyConfig.initial_capital := 66;
       StrategyConfig.max_position_size := 10;
       StrategyConfig.params :=
         [("extreme_threshold", VNum 0.95); ("min_threshold", VNum 0.05);
          ("exit_target", VNum 0.50); ("base_position_size", VNum 5)] |});
   ("Momentum",
    {| StrategyConfig.name := "Momentum";
       StrategyConfig.enabled := true;
       StrategyConfig.initial_capital := 66;
       StrategyConfig.max_position_size := 10;
       StrategyConfig.params :=
         [("short_ma", VNum 5); ("long_ma", VNum 20);
          ("momentum_threshold", VNum 0.02); ("position_size", VNum 5)] |});
   ("MarketMaking",
    {| StrategyConfig.name := "MarketMaking";
       StrategyConfig.enabled := true;
       StrategyConfig.initial_capital := 66;
       StrategyConfig.max_position_size := 10;
       StrategyConfig.params :=
         [("min_spread", VNum 0.05); ("position_size", VNum 5)] |})].

(** The loop of [load] over [strategies_data.items()]. *)
Definition load_strategy (acc : dict string StrategyConfig.t)
    (item : string * Yaml.StrategyData) : dict string StrategyConfig.t :=
  let '(name, strat_data) := item in
  dict_set acc name
    {| StrategyConfig.name := name;
       StrategyConfig.enabled := get_default (Yaml.enabled strat_data) true;
       StrategyConfig.initial_capital :=
         get_default (Yaml.initial_capital strat_data) 50;
       StrategyConfig.max_position_size :=
         get_default (Yaml.max_position_size strat_data) 10;
       StrategyConfig.params := get_default (Yaml.params strat_data) [] |}.

(** [load], from the parsed document on. *)
Definition load (data : Yaml.t) : t :=
  let sandbox := get_default (Yaml.sandbox data) true in
  let sandbox :=
    if get_default (Yaml.force_sandbox data) true then true else sandbox in
  let risk_data := get_default (Yaml.risk data) Yaml.no_risk in
  let scanner_data := get_default (Yaml.scanner data) Yaml.no_scanner in
  let perf_data := get_default (Yaml.performance data) Yaml.no_performance in
  let alloc_data := get_default (Yaml.allocator data) Yaml.no_allocator in
  let strategies_data := get_default (Yaml.strategies data) [] in
  let strategies := fold_left load_strategy (dict_items strategies_data) [] in
  {| sandbox := sandbox;
     api_key_env_var := get_default (Yaml.api_key_env_var data) "KALSHI_API_KEY";
     private_key_path :=
       get_default (Yaml.private_key_path data)
                  "~/.openclaw/.secrets/kalshi_private_key.pem";
     risk :=
       {| RiskConfig.max_total_capital :=
            get_default (Yaml.max_total_capital risk_data) 200;
          RiskConfig.max_position_size :=
            get_default (Yaml.risk_max_position_size risk_data) 10;
          RiskConfig.max_daily_loss :=
            get_default (Yaml.max_daily_loss risk_data) 20;
          RiskConfig.max_concurrent_positions :=
            get_default (Yaml.max_concurrent_positions risk_data) 10%Z;
          RiskConfig.max_exposure_pct :=
            get_default (Yaml.max_exposure_pct risk_data) 0.20 |};
     scanner :=
       {| ScannerConfig.poll_interval_seconds :=
            get_default (Yaml.poll_interval_seconds scanner_data) 30;
          ScannerConfig.min_volume :=
            get_default (Yaml.min_volume scanner_data) 100%Z;
          ScannerConfig.min_liquidity :=
            get_default (Yaml.min_liquidity scanner_data) 50;
          ScannerConfig.market_status :=
            get_default (Yaml.market_status scanner_data) "open";
          ScannerConfig.max_markets := 500%Z |};
     performance :=
       {| PerformanceConfig.db_path :=
            get_default (Yaml.db_path perf_data) "data/performance.db";
          PerformanceConfig.rolling_window_days :=
            get_default (Yaml.rolling_window_days perf_data) 30%Z;
          PerformanceConfig.min_trades_for_ranking :=
            get_default (Yaml.min_trades_for_ranking perf_data) 5%Z |};
     allocator :=
       {| AllocatorConfig.rebalance_interval_hours :=
            get_default (Yaml.rebalance_interval_hours alloc_data) 24;
          AllocatorConfig.min_sharpe_ratio :=
            get_default (Yaml.min_sharpe_ratio alloc_data) 0.5;
          AllocatorConfig.performance_weight :=
            get_default (Yaml.performance_weight alloc_data) 0.7;
          AllocatorConfig.risk_weight :=
            get_default (Yaml.risk_weight alloc_data) 0.3 |};
     strategies :=
       match strategies with
       | [] => default_strategies
       | _ => strategies
       end;
     log_level := get_default (Yaml.log_level data) "INFO";
     log_file := get_default (Yaml.log_file data) (Some "logs/trading.log") |}.

(** [get_api_key]: [env] is what [os.getenv(self.api_key_env_var)]
    returned. *)
Definition get_api_key (config : t) (env : option string) : result string :=
  match env with
  | None | Some "" =>
    Err (ValueError (api_key_env_var config ++ " not set in environment"))
  | Some key => Ok key
  end.

End Config.

(** [get_default_config] *)
Definition get_default_config : Config.t := Config.default.
