(* ===== verification/Strategy.v ===== *)
(** * The strategy interface (src/src/strategies/base.py)

    What the ledger and the scanner exchange with a strategy: the [Signal]
    a strategy emits, the dictionaries it receives (a market snapshot, the
    reduced view of a position, its configuration), and the abstract class
    [BaseStrategy] as a record of operations over the strategy's own
    state. *)

From Stdlib Require Import String.
From Stdlib Require Import QArith ZArith List.
From S2P Require Import Prelude PyDict.
Import ListNotations.
Open Scope string_scope.

(** [class Signal].  [timestamp] is a point in time in microseconds;
    [metadata] is [Optional[Dict]]. *)
Module Signal.
Record t : Type := mk {
  market_id : string;
  side : string;
  confidence : Q;
  size : Q;
  strategy_name : string;
  timestamp : Z;
  metadata : option (dict string PyVal);
}.
End Signal.

(** The order-book dictionary of a market snapshot: the five keys
    [_parse_orderbook] of the scanner writes, none of which the empty
    dictionary of a market without a book holds.  A level of the book is
    the pair of a price in cents and a number of contracts. *)
Module OrderBook.
Definition level : Type := (Q * Q)%type.
Record t : Type := mk {
  best_bid : option Q;
  best_ask : option Q;
  yes_bids : option (list level);
  no_bids : option (list level);
  spread : option Q;
}.
Definition empty : t := mk None None None None None.
End OrderBook.

(** The market dictionary a strategy receives, with the twelve keys of
    [MarketData.to_dict].  The code reads it with [market_data.get(key)]
    or [market_data.get(key, default)], so each key may be absent.
    [last_updated] is the time the ISO text of the dictionary denotes. *)
Module MarketDict.
Record t : Type := mk {
  market_id : option string;
  ticker : option string;
  title : option string;
  yes_price : option Q;
  no_price : option Q;
  volume : option Z;
  volume_24h : option Z;
  open_interest : option Z;
  status : option string;
  close_in_hours : option Q;
  order_book : option OrderBook.t;
  last_updated : option Z;
}.
Definition empty : t :=
  mk None None None None None None None None None None None None.
End MarketDict.

(** [market_data.get("market_id")] where a [str] is required.
    [Signal.market_id] is declared [str] and the dictionaries the scanner
    builds always hold the key; on a dictionary without it Python would
    store [None] in the signal, where the model reads the empty string. *)
Definition market_id_str (market_data : MarketDict.t) : string :=
  get_default (MarketDict.market_id market_data) "".

(** The configuration dictionary a strategy is built from: the keys the
    three strategies read, each of which may be absent. *)
Module StrategyParams.
Record t : Type := mk {
  extreme_threshold : option Q;
  min_threshold : option Q;
  exit_target : option Q;
  base_position_size : option Q;
  max_position_size : option Q;
  min_spread : option Q;
  position_size : option Q;
  short_ma : option nat;
  long_ma : option nat;
  momentum_threshold : option Q;
}.
Definition empty : t :=
  mk None None None None None None None None None None.

(** The number under a key of a free-form dictionary. *)
Definition num (d : dict string PyVal) (k : string) : option Q :=
  match dict_get d k with
  | Some (VNum q) => Some q
  | _ => None
  end.

(** The count under a key: the periods of the moving averages are
    [int]s.  A number that is negative or has a fraction, on which the
    momentum strategy raises when it creates its [deque], is read as its
    truncation, 0 when it is negative. *)
Definition count (d : dict string PyVal) (k : string) : option nat :=
  option_map (fun q => Z.to_nat (Qtrunc q)) (num d k).

(** The keys the strategies read, out of the [params] dictionary of a
    [StrategyConfig]; a value that is not a number is outside the
    model and reads as an absent key. *)
Definition of_dict (d : dict string PyVal) : t :=
  {| extreme_threshold := num d "extreme_threshold";
     min_threshold := num d "min_threshold";
     exit_target := num d "exit_target";
     base_position_size := num d "base_position_size";
     max_position_size := num d "max_position_size";
     min_spread := num d "min_spread";
     position_size := num d "position_size";
     short_ma := count d "short_ma";
     long_ma := count d "long_ma";
     momentum_threshold := num d "momentum_threshold" |}.
End StrategyParams.

(** The dictionary [check_exits] builds from a position for
    [should_exit]: [entry_price], [side], [metadata]. *)
Module PosDict.
Record t : Type := mk {
  entry_price : option Q;
  side : option string;
  metadata : option (dict string PyVal);
}.
End PosDict.

(** [class BaseStrategy(ABC)]: the attributes set by [__init__] and the two
    abstract methods over the state [S] of the concrete strategy.
    [analyze] may update the state (the momentum strategy records prices)
    and reads the clock for the timestamp of the signal; both methods may
    raise, and the state [analyze] returns is the one the object is left
    in, also when it raises. *)
Module BaseStrategy.
Record t (S : Type) : Type := mk {
  name : S -> string;
  active : S -> bool;
  paper_mode : S -> bool;
  analyze : S -> MarketDict.t -> Z -> S * result (option Signal.t);
  should_exit : S -> PosDict.t -> MarketDict.t -> result bool;
  enable_paper_mode : S -> S;
  disable_paper_mode : S -> S;
}.
Arguments mk {S}.
Arguments name {S}.
Arguments active {S}.
Arguments paper_mode {S}.
Arguments analyze {S}.
Arguments should_exit {S}.
Arguments enable_paper_mode {S}.
Arguments disable_paper_mode {S}.
End BaseStrategy.

(** What the scanner and the orchestrator rely on from a strategy class:
    [analyze] changes neither the name nor the flags of the instance, a
    signal carries the name of its strategy and the market id of the
    snapshot, its side is one of the three the ledger and the
    orchestrator tell apart, and [enable_paper_mode] sets the flag and
    nothing else they read. *)
Class Lawful {S : Type} (c : BaseStrategy.t S) : Prop := {
  analyze_name : forall s md now,
    BaseStrategy.name c (fst (BaseStrategy.analyze c s md now))
    = BaseStrategy.name c s;
  analyze_active : forall s md now,
    BaseStrategy.active c (fst (BaseStrategy.analyze c s md now))
    = BaseStrategy.active c s;
  analyze_paper_mode : forall s md now,
    BaseStrategy.paper_mode c (fst (BaseStrategy.analyze c s md now))
    = BaseStrategy.paper_mode c s;
  signal_name : forall s md now sig,
    snd (BaseStrategy.analyze c s md now) = Ok (Some sig) ->
    Signal.strategy_name sig = BaseStrategy.name c s;
  signal_market : forall s md now sig,
    snd (BaseStrategy.analyze c s md now) = Ok (Some sig) ->
    Signal.market_id sig = market_id_str md;
  signal_side : forall s md now sig,
    snd (BaseStrategy.analyze c s md now) = Ok (Some sig) ->
    In (Signal.side sig) ["yes"; "no"; "both"];
  enable_paper_mode_on : forall s,
    BaseStrategy.paper_mode c (BaseStrategy.enable_paper_mode c s) = true;
  enable_paper_mode_name : forall s,
    BaseStrategy.name c (BaseStrategy.enable_paper_mode c s)
    = BaseStrategy.name c s;
}.

(** A strategy object, as the lists of the scanner and of the orchestrator
    hold it: the state of an instance together with the methods of its
    class.  Each method call goes to the class and, where the method
    updates the instance, leaves the new state in the object. *)
Module Strategy.
Record t : Type := mk {
  state : Type;
  cls : BaseStrategy.t state;
  self : state;
}.

Definition name (s : t) : string := BaseStrategy.name (cls s) (self s).
Definition active (s : t) : bool := BaseStrategy.active (cls s) (self s).
Definition paper_mode (s : t) : bool :=
  BaseStrategy.paper_mode (cls s) (self s).

Definition analyze (s : t) (market_data : MarketDict.t) (now : Z)
    : t * result (option Signal.t) :=
  let '(self', r) := BaseStrategy.analyze (cls s) (self s) market_data now in
  (mk (state s) (cls s) self', r).

Definition should_exit (s : t) (position : PosDict.t)
    (market_data : MarketDict.t) : result bool :=
  BaseStrategy.should_exit (cls s) (self s) position market_data.

Definition enable_paper_mode (s : t) : t :=
  mk (state s) (cls s) (BaseStrategy.enable_paper_mode (cls s) (self s)).

Definition disable_paper_mode (s : t) : t :=
  mk (state s) (cls s) (BaseStrategy.disable_paper_mode (cls s) (self s)).

(** The object is of a lawful class. *)
Definition lawful (s : t) : Prop := Lawful (cls s).
End Strategy.
