(* ===== verification/Ledger.v ===== *)
(** * The paper-trading ledger (src/src/paper_trader.py)

    [PaperPosition], [StrategyPortfolio] and [PaperTrader] with every
    method of the class as a function on the trader's state.  A method that
    mutates [self] returns the new state beside its result.  What Python
    takes from the environment is a parameter: the identifier that
    [uuid.uuid4()] draws ([new_id]) and the time [datetime.now()] reads
    ([now], in microseconds).

    The mutable objects of the code are shared between the dictionary of
    portfolios and the local variables that name them; the model writes
    each mutation back under the key the object is stored at, which keeps
    the position of the key in the dictionary, as the in-place update
    does.  [to_dict] gives the dictionary of a position as the list of
    its sixteen typed fields, which determines the position.

    The theorems at the end state what [execute_signal] and
    [close_position] return and leave on the fields of the records,
    without the helper definitions the operations are composed of:
    when they return a position, which one, and the state after. *)

From Stdlib Require Import String.
From Stdlib Require Import QArith Lqa Lia ZArith List Bool.
From S2P Require Import Prelude PyDict Config Strategy.
Import ListNotations.
Open Scope string_scope.
Open Scope list_scope.

(** [class PositionStatus(Enum)] *)
Inductive PositionStatus : Type :=
| OPEN
| CLOSED
| EXPIRED.

Definition status_eqb (a b : PositionStatus) : bool :=
  match a, b with
  | OPEN, OPEN | CLOSED, CLOSED | EXPIRED, EXPIRED => true
  | _, _ => false
  end.

(** [position.status.value] *)
Definition status_value (s : PositionStatus) : string :=
  match s with
  | OPEN => "open"
  | CLOSED => "closed"
  | EXPIRED => "expired"
  end.

(** [class PaperPosition] *)
Module PaperPosition.
Record t : Type := mk {
  id : string;
  strategy_name : string;
  market_id : string;
  ticker : string;
  side : string;
  quantity : Z;
  entry_price : Q;
  entry_time : Z;
  entry_cost : Q;
  exit_price : option Q;
  exit_time : option Z;
  exit_value : option Q;
  status : PositionStatus;
  metadata : dict string PyVal;
}.

(** [@property pnl] *)
Definition pnl (p : t) : Q :=
  if status_eqb (status p) OPEN then 0
  else match exit_value p with
       | Some v => v - entry_cost p
       | None => 0
       end.

(** [@property pnl_pct] *)
Definition pnl_pct (p : t) : Q :=
  if qeqb (entry_cost p) 0 then 0
  else (pnl p / entry_cost p) * 100.

(** [to_dict]: the fields in the order of the literal, the two times as
    their ISO texts, the status as its value, and the two properties. *)
Definition to_dict (p : t) : dict string Field :=
  [("id", FStr (id p));
   ("strategy_name", FStr (strategy_name p));
   ("market_id", FStr (market_id p));
   ("ticker", FStr (ticker p));
   ("side", FStr (side p));
   ("quantity", FInt (quantity p));
   ("entry_price", FNum (entry_price p));
   ("entry_time", FTime (entry_time p));
   ("entry_cost", FNum (entry_cost p));
   ("exit_price", field_opt FNum (exit_price p));
   ("exit_time", field_opt FTime (exit_time p));
   ("exit_value", field_opt FNum (exit_value p));
   ("status", FStr (status_value (status p)));
   ("pnl", FNum (pnl p));
   ("pnl_pct", FNum (pnl_pct p));
   ("metadata", FDict (metadata p))].
End PaperPosition.

(** [class StrategyPortfolio] *)
Module StrategyPortfolio.
Record t : Type := mk {
  strategy_name : string;
  initial_capital : Q;
  current_capital : Q;
  positions : dict string PaperPosition.t;
  closed_positions : list PaperPosition.t;
}.

(** [@property open_positions] *)
Definition open_positions (pf : t) : list PaperPosition.t :=
  filter (fun p => status_eqb (PaperPosition.status p) OPEN)
         (dict_values (positions pf)).

(** [@property total_exposure] *)
Definition total_exposure (pf : t) : Q :=
  py_sum (map PaperPosition.entry_cost (open_positions pf)).

(** [@property available_capital] *)
Definition available_capital (pf : t) : Q :=
  current_capital pf - total_exposure pf.

(** [@property total_pnl] *)
Definition total_pnl (pf : t) : Q :=
  py_sum (map PaperPosition.pnl (closed_positions pf)).

(** [@property total_trades] *)
Definition total_trades (pf : t) : nat := length (closed_positions pf).

(** [@property winning_trades] *)
Definition winning_trades (pf : t) : nat :=
  length (filter (fun p => qltb 0 (PaperPosition.pnl p)) (closed_positions pf)).

(** [@property win_rate] *)
Definition win_rate (pf : t) : Q :=
  if Nat.eqb (total_trades pf) 0 then 0
  else (inject_Z (Z.of_nat (winning_trades pf))
        / inject_Z (Z.of_nat (total_trades pf))) * 100.

Definition set_positions (pf : t) (ps : dict string PaperPosition.t) : t :=
  mk (strategy_name pf) (initial_capital pf) (current_capital pf) ps
     (closed_positions pf).
End StrategyPortfolio.

(** What [_check_risk_limits] logs before it returns: the limit that
    rejected the signal, or none. *)
Inductive RiskVerdict : Type :=
| Passed
| InsufficientCapital
| PositionTooLarge
| WouldExceedMaxExposure
| MaxPositionsReached
| DailyLossLimitReached.

(** The summary of one strategy in [get_summary]. *)
Module StrategySummary.
Record t : Type := mk {
  capital : Q;
  available : Q;
  exposure : Q;
  open_positions : nat;
  total_trades : nat;
  win_rate : Q;
  total_pnl : Q;
}.
End StrategySummary.

(** The dictionary [get_summary] returns. *)
Module Summary.
Record t : Type := mk {
  total_capital : Q;
  total_pnl : Q;
  daily_pnl : Q;
  strategies : dict string StrategySummary.t;
}.
End Summary.

(** [class PaperTrader] *)
Module PaperTrader.
Record t : Type := mk {
  risk_config : RiskConfig.t;
  portfolios : dict string StrategyPortfolio.t;
  _daily_pnl : Q;
  _daily_start_date : option Z;
}.

(** [__init__] *)
Definition init (risk : RiskConfig.t) : t :=
  {| risk_config := risk; portfolios := []; _daily_pnl := 0;
     _daily_start_date := None |}.

Definition set_portfolios (T : t) (d : dict string StrategyPortfolio.t) : t :=
  mk (risk_config T) d (_daily_pnl T) (_daily_start_date T).

(** [initialize_portfolio] *)
Definition initialize_portfolio (T : t) (strategy_name : string) (capital : Q) : t :=
  set_portfolios T
    (dict_set (portfolios T) strategy_name
       {| StrategyPortfolio.strategy_name := strategy_name;
          StrategyPortfolio.initial_capital := capital;
          StrategyPortfolio.current_capital := capital;
          StrategyPortfolio.positions := [];
          StrategyPortfolio.closed_positions := [] |}).

(** [get_portfolio] *)
Definition get_portfolio (T : t) (strategy_name : string)
  : option StrategyPortfolio.t :=
  dict_get (portfolios T) strategy_name.

(** The sum of the exposures of all portfolios. *)
Definition all_exposure (T : t) : Q :=
  py_sum (map StrategyPortfolio.total_exposure (dict_values (portfolios T))).

(** The number of open positions of all portfolios. *)
Definition all_open_count (T : t) : Z :=
  py_sumZ
    (map (fun p => Z.of_nat (length (StrategyPortfolio.open_positions p)))
         (dict_values (portfolios T))).

(** The checks of [_check_risk_limits], in the order of the code, with the
    limit that fails. *)
Definition risk_verdict (T : t) (signal : Signal.t) (portfolio : StrategyPortfolio.t)
  : RiskVerdict :=
  let risk := risk_config T in
  if qltb (StrategyPortfolio.available_capital portfolio) (Signal.size signal)
  then InsufficientCapital
  else if qltb (RiskConfig.max_position_size risk) (Signal.size signal)
  then PositionTooLarge
  else
    let total_exposure := all_exposure T in
    let max_exposure :=
      RiskConfig.max_total_capital risk * RiskConfig.max_exposure_pct risk in
    if qltb max_exposure (total_exposure + Signal.size signal)
    then WouldExceedMaxExposure
    else
      let total_positions := all_open_count T in
      if (RiskConfig.max_concurrent_positions risk <=? total_positions)%Z
      then MaxPositionsReached
      else if qltb (_daily_pnl T) (- RiskConfig.max_daily_loss risk)
      then DailyLossLimitReached
      else Passed.

(** [_check_risk_limits] *)
Definition _check_risk_limits (T : t) (signal : Signal.t)
    (portfolio : StrategyPortfolio.t) : bool :=
  match risk_verdict T signal portfolio with
  | Passed => true
  | _ => false
  end.

(** The price of a contract of [side] when the YES price is
    [market_price]: [market_price if side == "yes" else (1.0 - market_price)],
    which [execute_signal] and [close_position] both compute. *)
Definition contract_price (side : string) (market_price : Q) : Q :=
  if String.eqb side "yes" then market_price else 1 - market_price.

(** [int(signal.size / price) if price > 0 else 0] *)
Definition contracts_for (size price : Q) : Z :=
  if qltb 0 price then Qtrunc (size / price) else 0%Z.

(** The [PaperPosition(...)] that [execute_signal] constructs. *)
Definition new_position (signal : Signal.t) (price : Q) (quantity : Z)
    (new_id : string) (now : Z) : PaperPosition.t :=
  {| PaperPosition.id := new_id;
     PaperPosition.strategy_name := Signal.strategy_name signal;
     PaperPosition.market_id := Signal.market_id signal;
     PaperPosition.ticker := Signal.market_id signal;
     PaperPosition.side := Signal.side signal;
     PaperPosition.quantity := quantity;
     PaperPosition.entry_price := price;
     PaperPosition.entry_time := now;
     PaperPosition.entry_cost := inject_Z quantity * price;
     PaperPosition.exit_price := None;
     PaperPosition.exit_time := None;
     PaperPosition.exit_value := None;
     PaperPosition.status := OPEN;
     PaperPosition.metadata := get_default (Signal.metadata signal) [] |}.

(** [portfolio.positions[position.id] = position], written back into the
    trader. *)
Definition add_position (T : t) (portfolio : StrategyPortfolio.t)
    (position : PaperPosition.t) : t :=
  set_portfolios T
    (dict_set (portfolios T) (PaperPosition.strategy_name position)
       (StrategyPortfolio.set_positions portfolio
          (dict_set (StrategyPortfolio.positions portfolio)
             (PaperPosition.id position) position))).

(** [execute_signal] *)
Definition execute_signal (T : t) (signal : Signal.t) (market_price : Q)
    (new_id : string) (now : Z) : t * option PaperPosition.t :=
  match dict_get (portfolios T) (Signal.strategy_name signal) with
  | None => (T, None)
  | Some portfolio =>
    if negb (_check_risk_limits T signal portfolio) then (T, None)
    else
      let price := contract_price (Signal.side signal) market_price in
      let quantity := contracts_for (Signal.size signal) price in
      if (quantity <=? 0)%Z then (T, None)
      else
        let position := new_position signal price quantity new_id now in
        (add_position T portfolio position, Some position)
  end.

(** The loop of [close_position]: the first portfolio, in the order of the
    dictionary, whose open positions hold the id. *)
Fixpoint find_holder (items : list (string * StrategyPortfolio.t))
    (position_id : string)
  : option (string * StrategyPortfolio.t * PaperPosition.t) :=
  match items with
  | [] => None
  | (name, portfolio) :: rest =>
    match dict_get (StrategyPortfolio.positions portfolio) position_id with
    | Some position => Some (name, portfolio, position)
    | None => find_holder rest position_id
    end
  end.

(** The position as [close_position] leaves it. *)
Definition closed_at (position : PaperPosition.t) (exit_price : Q)
    (reason : string) (now : Z) : PaperPosition.t :=
  let price := contract_price (PaperPosition.side position) exit_price in
  let exit_value := inject_Z (PaperPosition.quantity position) * price in
  {| PaperPosition.id := PaperPosition.id position;
     PaperPosition.strategy_name := PaperPosition.strategy_name position;
     PaperPosition.market_id := PaperPosition.market_id position;
     PaperPosition.ticker := PaperPosition.ticker position;
     PaperPosition.side := PaperPosition.side position;
     PaperPosition.quantity := PaperPosition.quantity position;
     PaperPosition.entry_price := PaperPosition.entry_price position;
     PaperPosition.entry_time := PaperPosition.entry_time position;
     PaperPosition.entry_cost := PaperPosition.entry_cost position;
     PaperPosition.exit_price := Some price;
     PaperPosition.exit_time := Some now;
     PaperPosition.exit_value := Some exit_value;
     PaperPosition.status := CLOSED;
     PaperPosition.metadata :=
       dict_set (PaperPosition.metadata position) "close_reason" (VStr reason) |}.

(** The portfolio as [close_position] leaves it: the profit is added to the
    capital, the position appended to the closed list and deleted from the
    open ones. *)
Definition portfolio_after_close (portfolio : StrategyPortfolio.t)
    (position_id : string) (position' : PaperPosition.t) : StrategyPortfolio.t :=
  {| StrategyPortfolio.strategy_name := StrategyPortfolio.strategy_name portfolio;
     StrategyPortfolio.initial_capital := StrategyPortfolio.initial_capital portfolio;
     StrategyPortfolio.current_capital :=
       StrategyPortfolio.current_capital portfolio + PaperPosition.pnl position';
     StrategyPortfolio.positions :=
       dict_del (StrategyPortfolio.positions portfolio) position_id;
     StrategyPortfolio.closed_positions :=
       StrategyPortfolio.closed_positions portfolio ++ [position'] |}.

(** [close_position] *)
Definition close_position(T : t) (position_id : string) (exit_price : Q)
    (reason : string) (now : Z) : t * option PaperPosition.t :=
  match find_holder (dict_items (portfolios T)) position_id with
  | None => (T, None)
  | Some (name, portfolio, position) =>
    let position' := closed_at position exit_price reason now in
    let portfolio' := portfolio_after_close portfolio position_id position' in
    ({| risk_config := risk_config T;
        portfolios := dict_set (portfolios T) name portfolio';
        _daily_pnl := _daily_pnl T + PaperPosition.pnl position';
        _daily_start_date := _daily_start_date T |},
     Some position')
  end.

(** The dictionary [check_exits] passes to [should_exit]. *)
Definition pos_dict (position : PaperPosition.t) : PosDict.t :=
  {| PosDict.entry_price := Some (PaperPosition.entry_price position);
     PosDict.side := Some (PaperPosition.side position);
     PosDict.metadata := Some (PaperPosition.metadata position) |}.

(** [position.ticker != market_data.get("market_id")] *)
Definition ticker_differs (position : PaperPosition.t) (market_data : MarketDict.t)
  : bool :=
  match MarketDict.market_id market_data with
  | Some m => negb (String.eqb (PaperPosition.ticker position) m)
  | None => true
  end.

(** The loop of [check_exits] over the positions that were open when it
    started.  An exception of [should_exit] ends it; the positions closed
    before stay closed. *)
Fixpoint check_exit_loop (should_exit : PosDict.t -> MarketDict.t -> result bool)
    (market_data : MarketDict.t) (now : Z) (positions : list PaperPosition.t)
    (T : t) (closed : list PaperPosition.t)
  : t * result (list PaperPosition.t) :=
  match positions with
  | [] => (T, Ok closed)
  | position :: rest =>
    if ticker_differs position market_data then
      check_exit_loop should_exit market_data now rest T closed
    else
      match should_exit (pos_dict position) market_data with
      | Err e => (T, Err e)
      | Ok true =>
        let '(T', result) :=
          close_position T (PaperPosition.id position)
            (get_default (MarketDict.yes_price market_data) 0.5)
            "strategy_exit" now in
        check_exit_loop should_exit market_data now rest T'
          match result with
          | Some r => closed ++ [r]
          | None => closed
          end
      | Ok false => check_exit_loop should_exit market_data now rest T closed
      end
  end.

(** [check_exits]: the portfolio is the one under [strategy.name], the
    exit rule the method of [strategy] in its current state. *)
Definition check_exits (T : t) (strategy : Strategy.t)
    (market_data : MarketDict.t) (now : Z) : t * result (list PaperPosition.t) :=
  match dict_get (portfolios T) (Strategy.name strategy) with
  | None => (T, Ok [])
  | Some portfolio =>
    check_exit_loop (Strategy.should_exit strategy) market_data now
      (StrategyPortfolio.open_positions portfolio) T []
  end.

(** [reset_daily_stats]: the date is the day number of [now]. *)
Definition reset_daily_stats (T : t) (now : Z) : t :=
  {| risk_config := risk_config T;
     portfolios := portfolios T;
     _daily_pnl := 0;
     _daily_start_date := Some (now / 86400000000)%Z |}.

(** [get_summary] *)
Definition get_summary (T : t) : Summary.t :=
  {| Summary.total_capital :=
       py_sum (map StrategyPortfolio.current_capital (dict_values (portfolios T)));
     Summary.total_pnl :=
       py_sum (map StrategyPortfolio.total_pnl (dict_values (portfolios T)));
     Summary.daily_pnl := _daily_pnl T;
     Summary.strategies :=
       fold_left
         (fun acc '(name, portfolio) =>
            dict_set acc name
              {| StrategySummary.capital := StrategyPortfolio.current_capital portfolio;
                 StrategySummary.available := StrategyPortfolio.available_capital portfolio;
                 StrategySummary.exposure := StrategyPortfolio.total_exposure portfolio;
                 StrategySummary.open_positions :=
                   length (StrategyPortfolio.open_positions portfolio);
                 StrategySummary.total_trades := StrategyPortfolio.total_trades portfolio;
                 StrategySummary.win_rate := StrategyPortfolio.win_rate portfolio;
                 StrategySummary.total_pnl := StrategyPortfolio.total_pnl portfolio |})
         (dict_items (portfolios T)) [] |}.

(** [get_all_positions] *)
Definition get_all_positions (T : t) (status : string) : list PaperPosition.t :=
  fold_left
    (fun positions portfolio =>
       if String.eqb status "open" then
         positions ++ StrategyPortfolio.open_positions portfolio
       else if String.eqb status "closed" then
         positions ++ StrategyPortfolio.closed_positions portfolio
       else
         (positions ++ dict_values (StrategyPortfolio.positions portfolio))
           ++ StrategyPortfolio.closed_positions portfolio)
    (dict_values (portfolios T)) [].

End PaperTrader.

Module PT := PaperTrader.
Module SP := StrategyPortfolio.
Module PP := PaperPosition.

(** * The dictionary of a position *)

Lemma status_value_inj a b : status_value a = status_value b -> a = b.
Proof. now destruct a, b. Qed.

(** The dictionary has the sixteen keys of the literal, each once. *)
Lemma position_to_dict_wf p : dict_wf (PP.to_dict p).
Proof.
  unfold dict_wf. cbn.
  repeat (constructor; [cbn; intuition discriminate|]). constructor.
Qed.

(** The P&L the dictionary shows for a position that is not open is its
    exit value less its entry cost, and 0 for an open one. *)
Lemma position_to_dict_pnl p :
  dict_get (PP.to_dict p) "pnl"
  = Some (FNum (match PP.status p, PP.exit_value p with
                | OPEN, _ | _, None => 0
                | _, Some v => v - PP.entry_cost p
                end)).
Proof.
  cbn. unfold PP.pnl. now destruct (PP.status p), (PP.exit_value p).
Qed.

(** [to_dict] loses no field: positions with the same dictionary are the
    same position. *)
Theorem position_to_dict_inj p q : PP.to_dict p = PP.to_dict q -> p = q.
Proof.
  destruct p, q. unfold PP.to_dict. cbn.
  intros [= -> -> -> -> -> -> -> -> -> Hp Ht Hv Hs _ _ ->].
  apply (field_opt_inj FNum FNum_inj) in Hp, Hv; [|discriminate..].
  apply (field_opt_inj FTime FTime_inj) in Ht; [|discriminate].
  apply status_value_inj in Hs. now subst.
Qed.

(** * Functional behaviour of the operations *)

(** ** The risk checks *)

Lemma check_risk_limits_true T s pf :
  PT._check_risk_limits T s pf = true <-> PT.risk_verdict T s pf = Passed.
Proof.
  unfold PT._check_risk_limits. destruct (PT.risk_verdict T s pf); split; congruence.
Qed.

(** The verdict is [Passed] exactly when none of the five limits is
    exceeded. *)
Lemma risk_verdict_passed T s pf :
  PT.risk_verdict T s pf = Passed <->
  Signal.size s <= SP.available_capital pf /\
  Signal.size s <= RiskConfig.max_position_size (PT.risk_config T) /\
  PT.all_exposure T + Signal.size s
    <= RiskConfig.max_total_capital (PT.risk_config T)
       * RiskConfig.max_exposure_pct (PT.risk_config T) /\
  (PT.all_open_count T < RiskConfig.max_concurrent_positions (PT.risk_config T))%Z /\
  - RiskConfig.max_daily_loss (PT.risk_config T) <= PT._daily_pnl T.
Proof.
  unfold PT.risk_verdict.
  destruct (Z.leb_spec (RiskConfig.max_concurrent_positions (PT.risk_config T))
                       (PT.all_open_count T));
  qcases; split; try discriminate; try (intros (? & ? & ? & ? & ?); lra || lia);
  intros _; repeat split; lra || lia.
Qed.

(** The checks are tried in the order of the code: a signal larger than
    the available capital is reported as such whatever the other limits. *)
Lemma risk_verdict_insufficient T s pf :
  SP.available_capital pf < Signal.size s ->
  PT.risk_verdict T s pf = InsufficientCapital.
Proof. unfold PT.risk_verdict; intros; qsolve. Qed.

Lemma risk_verdict_too_large T s pf :
  Signal.size s <= SP.available_capital pf ->
  RiskConfig.max_position_size (PT.risk_config T) < Signal.size s ->
  PT.risk_verdict T s pf = PositionTooLarge.
Proof. unfold PT.risk_verdict; intros; qsolve. Qed.

(** ** The number of contracts and their cost *)

Lemma contracts_for_pos size price :
  (0 < PT.contracts_for size price)%Z ->
  0 < price /\ PT.contracts_for size price = Qtrunc (size / price).
Proof. unfold PT.contracts_for. qcases; [auto | lia]. Qed.

Lemma contracts_cost size price :
  0 < price -> (1 <= Qtrunc (size / price))%Z ->
  0 < inject_Z (Qtrunc (size / price)) * price <= size.
Proof.
  intros Hp Hq.
  assert (Hnn : 0 <= size / price).
  { destruct (Qlt_le_dec (size / price) 0) as [Hneg|]; [|assumption].
    assert (Hle0 : size / price <= 0) by lra.
    apply Qtrunc_nonpos in Hle0. lia. }
  pose proof (Qtrunc_le _ Hnn) as Hle.
  assert (Hone : 1 <= inject_Z (Qtrunc (size / price))).
  { change 1 with (inject_Z 1). rewrite <- Zle_Qle. exact Hq. }
  assert (Hsz : size / price * price == size) by (field; lra).
  set (x := size / price) in *. split; nra.
Qed.

(** A size buys at least one contract exactly when the price is positive
    and at most the size. *)
Lemma contracts_for_pos_iff size price :
  (0 < PT.contracts_for size price)%Z <-> 0 < price <= size.
Proof.
  unfold PT.contracts_for. qcases; [|split; [lia | lra]].
  assert (Hsz : size / price * price == size) by (field; lra).
  destruct (Qlt_le_dec (size / price) 0) as [Hneg|Hnn].
  - assert (Hle0 : size / price <= 0) by lra.
    apply Qtrunc_nonpos in Hle0. split; [lia | nra].
  - pose proof (Qtrunc_le _ Hnn) as Hle. pose proof (Qtrunc_lt _ Hnn) as Hlt.
    set (x := size / price) in *. set (n := Qtrunc x) in *. split.
    + intros Hq. assert (1 <= inject_Z n) by (change 1 with (inject_Z 1); rewrite <- Zle_Qle; lia).
      split; [assumption | nra].
    + intros [_ Hps]. assert (Hx : 1 <= x) by nra.
      assert (Hq : inject_Z 0 < inject_Z n) by (change (inject_Z 0) with 0; lra).
      now rewrite <- Zlt_Qlt in Hq.
Qed.

(** The number of contracts is the largest whose cost the size covers. *)
Lemma contracts_for_floor size price :
  0 < price <= size ->
  inject_Z (PT.contracts_for size price) * price <= size
    < (inject_Z (PT.contracts_for size price) + 1) * price.
Proof.
  intros [Hp Hle]. unfold PT.contracts_for. qcases; [|lra].
  assert (Hsz : size / price * price == size) by (field; lra).
  assert (Hnn : 0 <= size / price) by (apply Qle_shift_div_l; lra).
  pose proof (Qtrunc_le _ Hnn). pose proof (Qtrunc_lt _ Hnn).
  set (x := size / price) in *. split; nra.
Qed.

(** ** [execute_signal] *)

(** The conditions under which [execute_signal] opens position [p] and
    returns state [T']. *)
Definition opens (T : PT.t) (s : Signal.t) (mp : Q) (nid : string) (now : Z)
    (T' : PT.t) (p : PP.t) : Prop :=
  exists pf,
    dict_get (PT.portfolios T) (Signal.strategy_name s) = Some pf /\
    PT.risk_verdict T s pf = Passed /\
    (0 < PT.contracts_for (Signal.size s) (PT.contract_price (Signal.side s) mp))%Z /\
    p = PT.new_position s (PT.contract_price (Signal.side s) mp)
          (PT.contracts_for (Signal.size s) (PT.contract_price (Signal.side s) mp))
          nid now /\
    T' = PT.add_position T pf p.

Lemma execute_signal_some T s mp nid now T' p :
  PT.execute_signal T s mp nid now = (T', Some p) -> opens T s mp nid now T' p.
Proof.
  unfold PT.execute_signal, opens.
  destruct (dict_get (PT.portfolios T) (Signal.strategy_name s)) as [pf|];
    [|discriminate].
  destruct (PT._check_risk_limits T s pf) eqn:Hc; simpl; [|discriminate].
  apply check_risk_limits_true in Hc.
  destruct (Z.leb_spec (PT.contracts_for (Signal.size s)
                          (PT.contract_price (Signal.side s) mp)) 0);
    [discriminate|].
  intros Heq; inversion Heq; subst. exists pf. auto.
Qed.

Lemma execute_signal_accepts T s mp nid now T' p :
  opens T s mp nid now T' p -> PT.execute_signal T s mp nid now = (T', Some p).
Proof.
  intros (pf & Hpf & Hv & Hq & -> & ->). unfold PT.execute_signal. rewrite Hpf.
  apply check_risk_limits_true in Hv. rewrite Hv. simpl.
  destruct (Z.leb_spec (PT.contracts_for (Signal.size s)
                          (PT.contract_price (Signal.side s) mp)) 0);
    [lia | reflexivity].
Qed.

(** When [execute_signal] returns [None] the state it returns is the
    state it was given. *)
Lemma execute_signal_none T s mp nid now :
  snd (PT.execute_signal T s mp nid now) = None ->
  fst (PT.execute_signal T s mp nid now) = T.
Proof.
  unfold PT.execute_signal.
  destruct (dict_get _ _); [|reflexivity].
  destruct (negb _); [reflexivity|].
  destruct (_ <=? _)%Z; [reflexivity | discriminate].
Qed.

(** What [add_position] leaves in the dictionary of portfolios. *)
Lemma add_position_lookup T pf p :
  dict_get (PT.portfolios (PT.add_position T pf p)) (PP.strategy_name p)
    = Some (SP.set_positions pf (dict_set (SP.positions pf) (PP.id p) p)) /\
  forall name, name <> PP.strategy_name p ->
    dict_get (PT.portfolios (PT.add_position T pf p)) name
    = dict_get (PT.portfolios T) name.
Proof.
  split; [apply dict_get_set_same|].
  intros name Hne. apply dict_get_set_diff. congruence.
Qed.

Lemma execute_signal_returns T s mp nid now :
  (exists T' p, PT.execute_signal T s mp nid now = (T', Some p)) <->
  exists pf,
    dict_get (PT.portfolios T) (Signal.strategy_name s) = Some pf /\
    PT.risk_verdict T s pf = Passed /\
    0 < PT.contract_price (Signal.side s) mp <= Signal.size s.
Proof.
  split.
  - intros (T' & p & E). apply execute_signal_some in E as (pf & Hpf & Hv & Hq & _).
    exists pf. now rewrite <- contracts_for_pos_iff.
  - intros (pf & Hpf & Hv & Hq). apply contracts_for_pos_iff in Hq.
    eexists _, _. apply execute_signal_accepts. exists pf. eauto.
Qed.

(** The state [execute_signal] returns with a position. *)
Lemma execute_signal_state T s mp nid now T' p :
  PT.execute_signal T s mp nid now = (T', Some p) ->
  PT.risk_config T' = PT.risk_config T /\
  PT._daily_pnl T' = PT._daily_pnl T /\
  PT._daily_start_date T' = PT._daily_start_date T /\
  (forall name, name <> Signal.strategy_name s ->
     dict_get (PT.portfolios T') name = dict_get (PT.portfolios T) name) /\
  exists pf pf',
    dict_get (PT.portfolios T) (Signal.strategy_name s) = Some pf /\
    dict_get (PT.portfolios T') (Signal.strategy_name s) = Some pf' /\
    SP.strategy_name pf' = SP.strategy_name pf /\
    SP.initial_capital pf' = SP.initial_capital pf /\
    SP.current_capital pf' = SP.current_capital pf /\
    SP.closed_positions pf' = SP.closed_positions pf /\
    dict_get (SP.positions pf') nid = Some p /\
    forall id, id <> nid ->
      dict_get (SP.positions pf') id = dict_get (SP.positions pf) id.
Proof.
  intros E. apply execute_signal_some in E as (pf & Hpf & _ & _ & -> & ->).
  destruct (add_position_lookup T pf
              (PT.new_position s (PT.contract_price (Signal.side s) mp)
                 (PT.contracts_for (Signal.size s)
                    (PT.contract_price (Signal.side s) mp)) nid now))
    as [Hsame Hdiff].
  repeat (split; [reflexivity || exact Hdiff|]).
  eexists pf, _. split; [exact Hpf|]. split; [exact Hsame|].
  repeat (split; [reflexivity|]). split; [apply dict_get_set_same|].
  intros id Hne. apply dict_get_set_diff. simpl. congruence.
Qed.

(** The position [execute_signal] returns. *)
Lemma execute_signal_position T s mp nid now T' p :
  PT.execute_signal T s mp nid now = (T', Some p) ->
  let price := PT.contract_price (Signal.side s) mp in
  p = {| PP.id := nid;
         PP.strategy_name := Signal.strategy_name s;
         PP.market_id := Signal.market_id s;
         PP.ticker := Signal.market_id s;
         PP.side := Signal.side s;
         PP.quantity := PP.quantity p;
         PP.entry_price := price;
         PP.entry_time := now;
         PP.entry_cost := inject_Z (PP.quantity p) * price;
         PP.exit_price := None;
         PP.exit_time := None;
         PP.exit_value := None;
         PP.status := OPEN;
         PP.metadata := get_default (Signal.metadata s) [] |} /\
  inject_Z (PP.quantity p) * price <= Signal.size s
    < (inject_Z (PP.quantity p) + 1) * price.
Proof.
  intros E. apply execute_signal_some in E as (pf & _ & _ & Hq & -> & _).
  split; [reflexivity|]. apply contracts_for_floor. now apply contracts_for_pos_iff.
Qed.

(** The position [new_position] builds for a size that buys at least one
    contract costs more than nothing and at most the size. *)
Lemma new_position_cost s price nid now :
  (0 < PT.contracts_for (Signal.size s) price)%Z ->
  0 < PP.entry_cost
        (PT.new_position s price (PT.contracts_for (Signal.size s) price) nid now)
    <= Signal.size s.
Proof.
  intros Hq. apply contracts_for_pos in Hq as Hq'. destruct Hq' as [Hprice Heq].
  simpl. rewrite Heq in *. apply contracts_cost; [assumption | lia].
Qed.

(** ** [close_position] *)

Lemma find_holder_some items id name pf p :
  PT.find_holder items id = Some (name, pf, p) ->
  In (name, pf) items /\ dict_get (SP.positions pf) id = Some p.
Proof.
  induction items as [|[n q] items IH]; simpl; [discriminate|].
  destruct (dict_get (SP.positions q) id) eqn:E.
  - intros Heq; inversion Heq; subst. auto.
  - intros Hf. destruct (IH Hf). auto.
Qed.

Lemma find_holder_none items id :
  PT.find_holder items id = None <->
  forall name pf, In (name, pf) items -> dict_get (SP.positions pf) id = None.
Proof.
  induction items as [|[n q] items IH]; simpl; [tauto|].
  destruct (dict_get (SP.positions q) id) eqn:E.
  - split; [discriminate|]. intros Hall.
    specialize (Hall n q (or_introl eq_refl)). congruence.
  - rewrite IH. split.
    + intros Hall name pf [Heq|Hin]; [inversion Heq; subst; assumption | eauto].
    + intros Hall name pf Hin. eauto.
Qed.

Lemma find_holder_get T id name pf p :
  dict_wf (PT.portfolios T) ->
  PT.find_holder (dict_items (PT.portfolios T)) id = Some (name, pf, p) ->
  dict_get (PT.portfolios T) name = Some pf /\ dict_get (SP.positions pf) id = Some p.
Proof.
  intros Hwf Hf. apply find_holder_some in Hf as [Hin Hg]. split; [|assumption].
  now apply dict_In_get.
Qed.

(** The conditions under which [close_position] closes a position as [p']
    and returns state [T']. *)
Definition closes (T : PT.t) (id : string) (price : Q) (reason : string) (now : Z)
    (T' : PT.t) (p' : PP.t) : Prop :=
  exists name pf p,
    PT.find_holder (dict_items (PT.portfolios T)) id = Some (name, pf, p) /\
    p' = PT.closed_at p price reason now /\
    T' = {| PT.risk_config := PT.risk_config T;
            PT.portfolios :=
              dict_set (PT.portfolios T) name (PT.portfolio_after_close pf id p');
            PT._daily_pnl := PT._daily_pnl T + PP.pnl p';
            PT._daily_start_date := PT._daily_start_date T |}.

Lemma close_position_some T id price reason now T' p' :
  PT.close_position T id price reason now = (T', Some p') ->
  closes T id price reason now T' p'.
Proof.
  unfold PT.close_position, closes.
  destruct (PT.find_holder _ _) as [[[n pf] p]|]; [|discriminate].
  intros Heq; inversion Heq; subst. exists n, pf, p. auto.
Qed.

Lemma close_position_closes T id price reason now T' p' :
  closes T id price reason now T' p' ->
  PT.close_position T id price reason now = (T', Some p').
Proof.
  intros (n & pf & p & Hf & -> & ->). unfold PT.close_position. now rewrite Hf.
Qed.

(** When [close_position] returns [None] nothing has changed. *)
Lemma close_position_none T id price reason now :
  snd (PT.close_position T id price reason now) = None ->
  PT.close_position T id price reason now = (T, None).
Proof.
  unfold PT.close_position.
  destruct (PT.find_holder _ _) as [[[n pf] p]|]; [discriminate | reflexivity].
Qed.

(** [find_holder] returns the first portfolio, in the order of the
    dictionary, that holds the id. *)
Lemma find_holder_first items id name pf p :
  PT.find_holder items id = Some (name, pf, p) <->
  exists before after,
    items = before ++ (name, pf) :: after /\
    (forall n q, In (n, q) before -> dict_get (SP.positions q) id = None) /\
    dict_get (SP.positions pf) id = Some p.
Proof.
  revert name pf p. induction items as [|[n0 q0] items IH]; intros name pf p; simpl.
  - split; [discriminate|]. intros ([|] & after & Heq & _); discriminate.
  - destruct (dict_get (SP.positions q0) id) as [p0|] eqn:E0; split.
    + intros Heq. inversion Heq; subst. exists [], items. simpl. tauto.
    + intros ([|[n1 q1] before] & after & Heq & Hnone & Hp); inversion Heq; subst.
      * congruence.
      * specialize (Hnone n1 q1 (or_introl eq_refl)). congruence.
    + intros Hf. apply IH in Hf as (before & after & -> & Hnone & Hp).
      exists ((n0, q0) :: before), after. split; [reflexivity|]. split; [|exact Hp].
      intros n q [Heq|Hin]; [inversion Heq; subst; exact E0 | eauto].
    + intros ([|[n1 q1] before] & after & Heq & Hnone & Hp); inversion Heq; subst.
      * congruence.
      * apply IH. exists before, after. split; [reflexivity|]. split; [|exact Hp].
        intros n q Hin. apply (Hnone n q). now right.
Qed.

(** [close_position] returns a position exactly when a portfolio holds
    the id. *)
Lemma close_position_returns T id price reason now :
  (exists T' p', PT.close_position T id price reason now = (T', Some p')) <->
  exists name pf,
    In (name, pf) (dict_items (PT.portfolios T)) /\
    dict_mem id (SP.positions pf) = true.
Proof.
  unfold PT.close_position, dict_mem.
  destruct (PT.find_holder _ _) as [[[n pf] p]|] eqn:Hf.
  - apply find_holder_some in Hf as [Hin Hp]. split; [|eauto].
    intros _. exists n, pf. now rewrite Hp.
  - split; [intros (? & ? & ?); discriminate|]. intros (n & pf & Hin & Hmem).
    rewrite find_holder_none in Hf. now rewrite (Hf n pf Hin) in Hmem.
Qed.

(** The profit of a closed position is its exit value less its cost. *)
Lemma closed_at_pnl p price reason now :
  PP.pnl (PT.closed_at p price reason now)
  = inject_Z (PP.quantity p) * PT.contract_price (PP.side p) price - PP.entry_cost p.
Proof. reflexivity. Qed.

Lemma execute_signal_not_passed T s mp nid now pf :
  dict_get (PT.portfolios T) (Signal.strategy_name s) = Some pf ->
  PT.risk_verdict T s pf <> Passed ->
  PT.execute_signal T s mp nid now = (T, None).
Proof.
  intros Hpf Hv. unfold PT.execute_signal. rewrite Hpf.
  destruct (PT._check_risk_limits T s pf) eqn:Hc; [|reflexivity].
  apply check_risk_limits_true in Hc. contradiction.
Qed.

(** * A concrete run *)

(** The default configuration, one portfolio of 66 dollars, and the
    signal of the specification's example: 5 dollars on YES at 0.20. *)
Definition demo_trader : PT.t :=
  PT.initialize_portfolio (PT.init RiskConfig.default) "MeanReversion" 66.

Definition demo_portfolio : SP.t :=
  {| SP.strategy_name := "MeanReversion"; SP.initial_capital := 66;
     SP.current_capital := 66; SP.positions := []; SP.closed_positions := [] |}.

Definition demo_signal : Signal.t :=
  {| Signal.market_id := "KXUFCFIGHT-1"; Signal.side := "yes";
     Signal.confidence := 0.8; Signal.size := 5;
     Signal.strategy_name := "MeanReversion"; Signal.timestamp := 0;
     Signal.metadata := None |}.

Definition demo_position : PP.t := PT.new_position demo_signal 0.20 25 "id-1" 10.

Definition demo_opened : PT.t :=
  PT.add_position demo_trader demo_portfolio demo_position.

Lemma demo_execute :
  PT.execute_signal demo_trader demo_signal 0.20 "id-1" 10
  = (demo_opened, Some demo_position).
Proof. reflexivity. Defined.

(** * The operations, as specified *)

(** C6. [execute_signal] returns a position exactly when the strategy has a
    portfolio, none of the five risk limits is exceeded, and the price of
    the signal's side (the market price for YES, one minus it otherwise)
    is positive and at most the size.  The position it returns has the new
    id, the strategy, market and side of the signal, the market id as its
    ticker, that price as entry price, the largest number of contracts
    whose cost the size covers, their cost as entry cost, the current time,
    status OPEN, no exit fields and the metadata of the signal.  The state
    it returns has that position under its id in the strategy's portfolio
    and is otherwise the state it was given: the other positions of the
    portfolio, its capital and closed list, the other portfolios, the
    configuration and the daily P&L.  When it returns [None] the state is
    the one it was given. *)
Theorem execute_signal_spec T s mp nid now :
  let price := if String.eqb (Signal.side s) "yes" then mp else 1 - mp in
  let risk := PT.risk_config T in
  ((exists T' p, PT.execute_signal T s mp nid now = (T', Some p)) <->
   exists pf,
     dict_get (PT.portfolios T) (Signal.strategy_name s) = Some pf /\
     Signal.size s <= SP.available_capital pf /\
     Signal.size s <= RiskConfig.max_position_size risk /\
     PT.all_exposure T + Signal.size s
       <= RiskConfig.max_total_capital risk * RiskConfig.max_exposure_pct risk /\
     (PT.all_open_count T < RiskConfig.max_concurrent_positions risk)%Z /\
     - RiskConfig.max_daily_loss risk <= PT._daily_pnl T /\
     0 < price <= Signal.size s) /\
  (forall T' p, PT.execute_signal T s mp nid now = (T', Some p) ->
     (p = {| PP.id := nid;
             PP.strategy_name := Signal.strategy_name s;
             PP.market_id := Signal.market_id s;
             PP.ticker := Signal.market_id s;
             PP.side := Signal.side s;
             PP.quantity := PP.quantity p;
             PP.entry_price := price;
             PP.entry_time := now;
             PP.entry_cost := inject_Z (PP.quantity p) * price;
             PP.exit_price := None;
             PP.exit_time := None;
             PP.exit_value := None;
             PP.status := OPEN;
             PP.metadata := get_default (Signal.metadata s) [] |} /\
      inject_Z (PP.quantity p) * price <= Signal.size s
        < (inject_Z (PP.quantity p) + 1) * price) /\
     PT.risk_config T' = PT.risk_config T /\
     PT._daily_pnl T' = PT._daily_pnl T /\
     PT._daily_start_date T' = PT._daily_start_date T /\
     (forall name, name <> Signal.strategy_name s ->
        dict_get (PT.portfolios T') name = dict_get (PT.portfolios T) name) /\
     exists pf pf',
       dict_get (PT.portfolios T) (Signal.strategy_name s) = Some pf /\
       dict_get (PT.portfolios T') (Signal.strategy_name s) = Some pf' /\
       SP.strategy_name pf' = SP.strategy_name pf /\
       SP.initial_capital pf' = SP.initial_capital pf /\
       SP.current_capital pf' = SP.current_capital pf /\
       SP.closed_positions pf' = SP.closed_positions pf /\
       dict_get (SP.positions pf') nid = Some p /\
       forall id, id <> nid ->
         dict_get (SP.positions pf') id = dict_get (SP.positions pf) id) /\
  (forall T', PT.execute_signal T s mp nid now = (T', None) -> T' = T).
Proof.
  intros price risk. split; [|split].
  - rewrite execute_signal_returns.
    split; intros (pf & Hpf & H); exists pf; (split; [exact Hpf|]).
    + destruct H as [Hv Hq]. apply risk_verdict_passed in Hv. tauto.
    + rewrite risk_verdict_passed. tauto.
  - intros T' p E.
    split; [exact (execute_signal_position _ _ _ _ _ _ _ E)
           | exact (execute_signal_state _ _ _ _ _ _ _ E)].
  - intros T' E. pose proof (execute_signal_none T s mp nid now) as Hn.
    rewrite E in Hn. exact (Hn eq_refl).
Qed.

Lemma execute_signal_spec_witness :
  exists T' p,
    PT.execute_signal demo_trader demo_signal 0.20 "id-1" 10 = (T', Some p).
Proof.
  apply (proj1 (execute_signal_spec demo_trader demo_signal 0.20 "id-1" 10)).
  exists demo_portfolio. vm_compute. repeat split; discriminate.
Defined.

(** C10. The position a signal opens is priced at the market price for YES
    and at one minus it for any other side, holds [int(size / price)]
    contracts, costs its quantity times its price, and that cost is more
    than nothing and at most the size of the signal. *)
Theorem execute_signal_cost T s mp nid now T' p :
  PT.execute_signal T s mp nid now = (T', Some p) ->
  PP.entry_price p = PT.contract_price (Signal.side s) mp /\
  PP.quantity p = Qtrunc (Signal.size s / PP.entry_price p) /\
  PP.entry_cost p == inject_Z (PP.quantity p) * PP.entry_price p /\
  0 < PP.entry_cost p <= Signal.size s.
Proof.
  intros E. apply execute_signal_some in E as (pf & _ & _ & Hq & -> & _).
  split; [reflexivity|]. split; [apply (contracts_for_pos _ _ Hq)|].
  split; [reflexivity|]. now apply new_position_cost.
Qed.

Lemma execute_signal_cost_witness :
  PP.entry_price demo_position = PT.contract_price (Signal.side demo_signal) 0.20 /\
  PP.quantity demo_position
    = Qtrunc (Signal.size demo_signal / PP.entry_price demo_position) /\
  PP.entry_cost demo_position
    == inject_Z (PP.quantity demo_position) * PP.entry_price demo_position /\
  0 < PP.entry_cost demo_position <= Signal.size demo_signal.
Proof.
  exact (execute_signal_cost demo_trader demo_signal 0.20 "id-1" 10
           demo_opened demo_position demo_execute).
Defined.

(** C7. [_check_risk_limits] accepts a signal exactly when its size is at
    most the portfolio's available capital and the maximum position size,
    the exposure of all portfolios plus the size stays within
    [max_total_capital * max_exposure_pct], fewer than
    [max_concurrent_positions] positions are open over all portfolios, and
    the daily P&L is not below [-max_daily_loss]. *)
Theorem check_risk_limits_spec T s pf :
  PT._check_risk_limits T s pf = true <->
  Signal.size s <= SP.available_capital pf /\
  Signal.size s <= RiskConfig.max_position_size (PT.risk_config T) /\
  PT.all_exposure T + Signal.size s
    <= RiskConfig.max_total_capital (PT.risk_config T)
       * RiskConfig.max_exposure_pct (PT.risk_config T) /\
  (PT.all_open_count T < RiskConfig.max_concurrent_positions (PT.risk_config T))%Z /\
  - RiskConfig.max_daily_loss (PT.risk_config T) <= PT._daily_pnl T.
Proof. rewrite check_risk_limits_true. apply risk_verdict_passed. Qed.

(** A signal is rejected without any change of state when its strategy
    has no portfolio, when a risk limit fails, or when its size buys no
    contract. *)
Theorem execute_signal_rejects T s mp nid now :
  (forall pf, dict_get (PT.portfolios T) (Signal.strategy_name s) = Some pf ->
     PT.risk_verdict T s pf <> Passed \/
     (PT.contracts_for (Signal.size s) (PT.contract_price (Signal.side s) mp) <= 0)%Z) ->
  PT.execute_signal T s mp nid now = (T, None).
Proof.
  intros H. destruct (dict_get (PT.portfolios T) (Signal.strategy_name s)) as [pf|] eqn:Hpf.
  - destruct (H pf eq_refl) as [Hv|Hq]; [now apply (execute_signal_not_passed _ _ _ _ _ pf)|].
    unfold PT.execute_signal. rewrite Hpf. destruct (negb _); [reflexivity|].
    now apply Z.leb_le in Hq as ->.
  - unfold PT.execute_signal. now rewrite Hpf.
Qed.

(** The example of the specification: 5 dollars asked of a portfolio with
    3 dollars available. *)
Definition poor_trader : PT.t :=
  PT.initialize_portfolio (PT.init RiskConfig.default) "MeanReversion" 3.

Lemma execute_signal_rejects_witness :
  PT.execute_signal poor_trader demo_signal 0.20 "id-1" 10 = (poor_trader, None).
Proof.
  apply (execute_signal_rejects poor_trader demo_signal 0.20 "id-1" 10).
  intros pf Hpf. left. inversion Hpf; subst. vm_compute. discriminate.
Defined.

(** Once the daily P&L is below [-max_daily_loss] every signal is
    rejected and leaves the state unchanged, until the daily statistics are
    reset. *)
Theorem daily_loss_breaker T s mp nid now :
  PT._daily_pnl T < - RiskConfig.max_daily_loss (PT.risk_config T) ->
  PT.execute_signal T s mp nid now = (T, None).
Proof.
  intros Hloss. destruct (dict_get (PT.portfolios T) (Signal.strategy_name s)) as [pf|] eqn:Hpf.
  - apply (execute_signal_not_passed _ _ _ _ _ pf Hpf).
    intros Hv. apply risk_verdict_passed in Hv. lra.
  - unfold PT.execute_signal. now rewrite Hpf.
Qed.

Definition losing_trader : PT.t :=
  {| PT.risk_config := RiskConfig.default; PT.portfolios := PT.portfolios demo_trader;
     PT._daily_pnl := -21; PT._daily_start_date := None |}.

Lemma daily_loss_breaker_witness :
  PT.execute_signal losing_trader demo_signal 0.20 "id-1" 10 = (losing_trader, None).
Proof.
  apply (daily_loss_breaker losing_trader demo_signal 0.20 "id-1" 10).
  simpl. lra.
Defined.

(** C8. [close_position] returns a position exactly when some portfolio
    holds the id.  In a dictionary of portfolios with distinct keys it is
    the position [p] of the first portfolio, in the order of the
    dictionary, that holds the id, returned with the price of its side as
    exit price, the current time as exit time, its quantity times that
    price as exit value, status CLOSED and the reason under
    ["close_reason"] in its metadata; its P&L is the exit value less the
    entry cost.  In the state returned that portfolio, in its place, has
    its capital increased by the P&L, the id deleted from its positions
    and the closed position appended to its closed list; the daily P&L is
    increased by the P&L; nothing else has changed.  When it returns
    [None] the state is the one it was given. *)
Theorem close_position_spec T id exit_price reason now :
  ((exists T' p', PT.close_position T id exit_price reason now = (T', Some p')) <->
   exists name pf,
     In (name, pf) (dict_items (PT.portfolios T)) /\
     dict_mem id (SP.positions pf) = true) /\
  (forall T' p',
     dict_wf (PT.portfolios T) ->
     PT.close_position T id exit_price reason now = (T', Some p') ->
     exists before name pf after p,
       PT.portfolios T = before ++ (name, pf) :: after /\
       (forall n q, In (n, q) before -> dict_get (SP.positions q) id = None) /\
       dict_get (SP.positions pf) id = Some p /\
       let price :=
         if String.eqb (PP.side p) "yes" then exit_price else 1 - exit_price in
       let profit := inject_Z (PP.quantity p) * price - PP.entry_cost p in
       p' = {| PP.id := PP.id p;
               PP.strategy_name := PP.strategy_name p;
               PP.market_id := PP.market_id p;
               PP.ticker := PP.ticker p;
               PP.side := PP.side p;
               PP.quantity := PP.quantity p;
               PP.entry_price := PP.entry_price p;
               PP.entry_time := PP.entry_time p;
               PP.entry_cost := PP.entry_cost p;
               PP.exit_price := Some price;
               PP.exit_time := Some now;
               PP.exit_value := Some (inject_Z (PP.quantity p) * price);
               PP.status := CLOSED;
               PP.metadata :=
                 dict_set (PP.metadata p) "close_reason" (VStr reason) |} /\
       PP.pnl p' = profit /\
       T' = {| PT.risk_config := PT.risk_config T;
               PT.portfolios :=
                 before
                 ++ (name,
                     {| SP.strategy_name := SP.strategy_name pf;
                        SP.initial_capital := SP.initial_capital pf;
                        SP.current_capital := SP.current_capital pf + profit;
                        SP.positions := dict_del (SP.positions pf) id;
                        SP.closed_positions :=
                          SP.closed_positions pf ++ [p'] |})
                 :: after;
               PT._daily_pnl := PT._daily_pnl T + profit;
               PT._daily_start_date := PT._daily_start_date T |}) /\
  (forall T', PT.close_position T id exit_price reason now = (T', None) -> T' = T).
Proof.
  split; [apply close_position_returns | split].
  - intros T' p' Hwf E. apply close_position_some in E as (name & pf & p & Hf & -> & ->).
    apply find_holder_first in Hf as (before & after & Heq & Hnone & Hp).
    unfold dict_items in Heq. exists before, name, pf, after, p.
    repeat (split; [assumption || reflexivity|]).
    rewrite Heq, dict_set_middle; [reflexivity|].
    rewrite Heq in Hwf. exact (dict_wf_middle _ _ _ _ Hwf).
  - intros T' E. pose proof (close_position_none T id exit_price reason now) as Hn.
    rewrite E in Hn. specialize (Hn eq_refl). congruence.
Qed.

(** The position of the concrete run, closed at a YES price of 0.30. *)
Definition demo_taken_position : PP.t :=
  PT.closed_at demo_position 0.30 "take_profit" 20.

Definition demo_taken : PT.t :=
  fst (PT.close_position demo_opened "id-1" 0.30 "take_profit" 20).

Lemma demo_opened_wf : dict_wf (PT.portfolios demo_opened).
Proof. repeat constructor. simpl. tauto. Defined.

Lemma demo_take_profit :
  PT.close_position demo_opened "id-1" 0.30 "take_profit" 20
  = (demo_taken, Some demo_taken_position).
Proof. reflexivity. Defined.

Lemma close_position_spec_witness :
  exists before name pf after p,
    PT.portfolios demo_opened = before ++ (name, pf) :: after /\
    dict_get (SP.positions pf) "id-1" = Some p /\
    PP.pnl demo_taken_position
    = inject_Z (PP.quantity p)
      * (if String.eqb (PP.side p) "yes" then 0.30 else 1 - 0.30)
      - PP.entry_cost p.
Proof.
  destruct (proj1 (proj2 (close_position_spec demo_opened "id-1" 0.30
                            "take_profit" 20))
              _ _ demo_opened_wf demo_take_profit)
    as (before & name & pf & after & p & Hat & _ & Hp & Hrest).
  cbv zeta in Hrest. destruct Hrest as (_ & Hpnl & _).
  exists before, name, pf, after, p. auto.
Defined.

(** Closing an id that no portfolio holds among its open positions
    returns [None] and leaves the state as it was. *)
Theorem close_position_not_found T id price reason now :
  (forall name pf, In (name, pf) (dict_items (PT.portfolios T)) ->
                   dict_get (SP.positions pf) id = None) ->
  PT.close_position T id price reason now = (T, None).
Proof.
  intros H. apply find_holder_none in H. unfold PT.close_position. now rewrite H.
Qed.

Lemma close_position_not_found_witness :
  PT.close_position demo_opened "id-2" 0.5 "signal" 20 = (demo_opened, None).
Proof.
  apply (close_position_not_found demo_opened "id-2" 0.5 "signal" 20).
  intros name pf [Heq|[]]. inversion Heq; subst. reflexivity.
Defined.
