(* ===== verification/LedgerInv.v ===== *)
(** * Invariants of the ledger

    The well-formedness of the trader's state ([trader_ok]): unique keys,
    every open position stored under its id with its cost equal to
    quantity times price, closed positions with their exit fields set, and
    no id open in two portfolios.  The lemmas say how the exposure and the
    count of open positions change when one portfolio is written back, and
    that [execute_signal] preserves well-formedness; the other operations
    and the reachable states are in [LedgerSteps]. *)

From Stdlib Require Import String.
From Stdlib Require Import QArith Lqa Lia ZArith List Bool Permutation.
From S2P Require Import Prelude PyDict Config Strategy Ledger.
Import ListNotations.
Open Scope string_scope.
Open Scope list_scope.

(** ** Well-formed states *)

(** An open position stored under key [k]. *)
Definition position_ok (k : string) (p : PP.t) : Prop :=
  PP.id p = k /\ PP.status p = OPEN /\ PP.exit_value p = None /\
  (1 <= PP.quantity p)%Z /\ 0 < PP.entry_price p /\
  PP.entry_cost p == inject_Z (PP.quantity p) * PP.entry_price p.

(** A position of the closed list. *)
Definition closed_ok (p : PP.t) : Prop :=
  PP.status p = CLOSED /\
  PP.exit_value p = Some (inject_Z (PP.quantity p) * get_default (PP.exit_price p) 0) /\
  PP.exit_price p <> None /\ PP.exit_time p <> None.

(** The portfolio stored under key [name]. *)
Definition portfolio_ok (name : string) (pf : SP.t) : Prop :=
  SP.strategy_name pf = name /\
  dict_wf (SP.positions pf) /\
  (forall k p, dict_get (SP.positions pf) k = Some p ->
               position_ok k p /\ PP.strategy_name p = name) /\
  Forall closed_ok (SP.closed_positions pf).

(** An id is open in one portfolio at most. *)
Definition ids_disjoint (T : PT.t) : Prop :=
  forall n1 n2 pf1 pf2 id p1 p2,
    dict_get (PT.portfolios T) n1 = Some pf1 ->
    dict_get (PT.portfolios T) n2 = Some pf2 ->
    dict_get (SP.positions pf1) id = Some p1 ->
    dict_get (SP.positions pf2) id = Some p2 -> n1 = n2.

Definition trader_ok (T : PT.t) : Prop :=
  dict_wf (PT.portfolios T) /\
  (forall name pf, dict_get (PT.portfolios T) name = Some pf -> portfolio_ok name pf) /\
  ids_disjoint T.

(** No open position of the trader has the identifier: what
    [uuid.uuid4()] is trusted to give. *)
Definition fresh_id (T : PT.t) (id : string) : bool :=
  match PT.find_holder (dict_items (PT.portfolios T)) id with
  | None => true
  | Some _ => false
  end.

Lemma fresh_id_spec T id :
  dict_wf (PT.portfolios T) ->
  fresh_id T id = true <->
  forall name pf, dict_get (PT.portfolios T) name = Some pf ->
                  dict_get (SP.positions pf) id = None.
Proof.
  intros Hwf. unfold fresh_id.
  destruct (PT.find_holder _ _) as [[[n q] p]|] eqn:E.
  - split; [discriminate|]. intros Hall. apply find_holder_some in E as [Hin Hg].
    apply (dict_In_get _ _ _ Hwf) in Hin. rewrite (Hall _ _ Hin) in Hg. discriminate.
  - split; [intros _|reflexivity]. intros name pf Hg.
    eapply find_holder_none; [exact E|]. apply dict_get_In. exact Hg.
Qed.

Lemma position_ok_cost k p : position_ok k p -> 0 < PP.entry_cost p.
Proof.
  intros (_ & _ & _ & Hq & Hp & Hc). rewrite Hc.
  assert (1 <= inject_Z (PP.quantity p))
    by (change 1 with (inject_Z 1); now rewrite <- Zle_Qle).
  nra.
Qed.

Lemma new_position_ok s price q nid now :
  0 < price -> (1 <= q)%Z -> position_ok nid (PT.new_position s price q nid now).
Proof. intros; repeat split; simpl; auto; reflexivity. Qed.

Lemma closed_at_ok p price reason now : closed_ok (PT.closed_at p price reason now).
Proof. repeat split; simpl; discriminate. Qed.

(** The open positions of a well-formed portfolio are all its positions. *)
Lemma open_positions_ok name pf :
  portfolio_ok name pf -> SP.open_positions pf = dict_values (SP.positions pf).
Proof.
  intros (_ & Hwf & Hpos & _). unfold SP.open_positions.
  apply forallb_filter_id. apply forallb_forall. intros p Hin.
  destruct (dict_values_get _ _ Hwf Hin) as (k & Hk).
  destruct (Hpos k p Hk) as ((_ & -> & _) & _). reflexivity.
Qed.

(** ** Exposure and counts under updates *)

Lemma exposure_Qsum pf :
  SP.total_exposure pf == Qsum (map PP.entry_cost (SP.open_positions pf)).
Proof. apply py_sum_Qsum. Qed.

Lemma exposure_nonneg name pf : portfolio_ok name pf -> 0 <= SP.total_exposure pf.
Proof.
  intros Hok. rewrite exposure_Qsum, (open_positions_ok _ _ Hok).
  apply Qsum_nonneg, Forall_forall. intros c Hin.
  apply in_map_iff in Hin as (p & <- & Hin).
  destruct Hok as (_ & Hwf & Hpos & _).
  destruct (dict_values_get _ _ Hwf Hin) as (k & Hk).
  apply Qlt_le_weak, (position_ok_cost k), Hpos, Hk.
Qed.

Lemma exposure_add pf k p :
  dict_get (SP.positions pf) k = None -> PP.status p = OPEN ->
  SP.total_exposure (SP.set_positions pf (dict_set (SP.positions pf) k p))
  == SP.total_exposure pf + PP.entry_cost p.
Proof.
  intros Hg Hs. rewrite !exposure_Qsum. unfold SP.open_positions; simpl.
  rewrite filter_values_set_fresh by assumption. rewrite Hs; simpl.
  rewrite map_app, Qsum_app. simpl. lra.
Qed.

Lemma open_count_add pf k p :
  dict_get (SP.positions pf) k = None -> PP.status p = OPEN ->
  length (SP.open_positions (SP.set_positions pf (dict_set (SP.positions pf) k p)))
  = S (length (SP.open_positions pf)).
Proof.
  intros Hg Hs. unfold SP.open_positions; simpl.
  rewrite filter_values_set_fresh by assumption. rewrite Hs; simpl.
  rewrite length_app. simpl. lia.
Qed.

Lemma exposure_del pf k p p' :
  dict_get (SP.positions pf) k = Some p -> PP.status p = OPEN ->
  SP.total_exposure (PT.portfolio_after_close pf k p')
  == SP.total_exposure pf - PP.entry_cost p.
Proof.
  intros Hg Hs. rewrite !exposure_Qsum. unfold SP.open_positions; simpl.
  rewrite (Permutation_map PP.entry_cost (filter_values_del _ _ _ _ Hg)).
  rewrite Hs; simpl. lra.
Qed.

Lemma open_count_del pf k p p' :
  dict_get (SP.positions pf) k = Some p -> PP.status p = OPEN ->
  S (length (SP.open_positions (PT.portfolio_after_close pf k p')))
  = length (SP.open_positions pf).
Proof.
  intros Hg Hs. unfold SP.open_positions; simpl.
  rewrite (Permutation_length (filter_values_del _ _ _ _ Hg)).
  rewrite Hs; reflexivity.
Qed.

Lemma all_exposure_Qsum T :
  PT.all_exposure T == Qsum (map SP.total_exposure (dict_values (PT.portfolios T))).
Proof. apply py_sum_Qsum. Qed.

(** ** Writing a portfolio back under its key *)

Section WriteBack.
Variables (T T' : PT.t) (name : string) (pf pf' : SP.t).
Hypothesis Hget : dict_get (PT.portfolios T) name = Some pf.
Hypothesis Hset : PT.portfolios T' = dict_set (PT.portfolios T) name pf'.

Lemma write_back_get n :
  dict_get (PT.portfolios T') n
  = if eq_dec name n then Some pf' else dict_get (PT.portfolios T) n.
Proof. rewrite Hset. apply dict_get_set. Qed.

Lemma write_back_exposure :
  PT.all_exposure T' == PT.all_exposure T - SP.total_exposure pf + SP.total_exposure pf'.
Proof. rewrite !all_exposure_Qsum, Hset. now apply Qsum_values_set_present. Qed.

Lemma write_back_open_count :
  PT.all_open_count T'
  = (PT.all_open_count T - Z.of_nat (length (SP.open_positions pf))
     + Z.of_nat (length (SP.open_positions pf')))%Z.
Proof.
  unfold PT.all_open_count. rewrite !py_sumZ_Zsum, Hset.
  now apply (Zsum_values_set_present
               (fun p => Z.of_nat (length (SP.open_positions p)))).
Qed.

Lemma write_back_ok :
  trader_ok T -> portfolio_ok name pf' ->
  (forall id p', dict_get (SP.positions pf') id = Some p' ->
     (exists p, dict_get (SP.positions pf) id = Some p) \/ fresh_id T id = true) ->
  trader_ok T'.
Proof.
  intros (Hwf & Hpf & Hdis) Hok Hids. split; [|split].
  - rewrite Hset. now apply dict_set_wf.
  - intros n q. rewrite write_back_get. destruct (eq_dec name n) as [<-|Hne]; [|auto].
    intros Heq; inversion Heq; subst; assumption.
  - intros n1 n2 q1 q2 id p1 p2. rewrite !write_back_get.
    destruct (eq_dec name n1) as [<-|H1], (eq_dec name n2) as [<-|H2]; auto.
    + intros Heq Hg2 Hp1 Hp2; inversion Heq; subst.
      destruct (Hids _ _ Hp1) as [(p & Hp)|Hfr]; [eapply Hdis; eassumption|].
      rewrite (proj1 (fresh_id_spec T id Hwf) Hfr _ _ Hg2) in Hp2. discriminate.
    + intros Hg1 Heq Hp1 Hp2; inversion Heq; subst.
      destruct (Hids _ _ Hp2) as [(p & Hp)|Hfr]; [eapply Hdis; eassumption|].
      rewrite (proj1 (fresh_id_spec T id Hwf) Hfr _ _ Hg1) in Hp1. discriminate.
    + apply Hdis.
Qed.
End WriteBack.

(** ** [execute_signal] preserves well-formedness *)

Lemma add_position_portfolios T pf p :
  PT.portfolios (PT.add_position T pf p)
  = dict_set (PT.portfolios T) (PP.strategy_name p)
      (SP.set_positions pf (dict_set (SP.positions pf) (PP.id p) p)).
Proof. reflexivity. Qed.

Lemma portfolio_ok_add name pf nid p :
  portfolio_ok name pf -> position_ok nid p -> PP.strategy_name p = name ->
  portfolio_ok name (SP.set_positions pf (dict_set (SP.positions pf) nid p)).
Proof.
  intros (Hn & Hwf & Hpos & Hcl) Hp Hs.
  split; [exact Hn|]. split; [simpl; auto with py|]. split; [|exact Hcl].
  simpl. intros k q. rewrite dict_get_set. destruct (eq_dec nid k) as [<-|Hne].
  - intros Heq; inversion Heq; subst. auto.
  - apply Hpos.
Qed.

Lemma execute_signal_ok T s mp nid now :
  trader_ok T -> fresh_id T nid = true ->
  trader_ok (fst (PT.execute_signal T s mp nid now)).
Proof.
  intros Hok Hfr. destruct (PT.execute_signal T s mp nid now) as [T' [p|]] eqn:E.
  2:{ pose proof (execute_signal_none T s mp nid now) as Hn. rewrite E in Hn.
      simpl in *. now rewrite Hn. }
  apply execute_signal_some in E as (pf & Hpf & Hv & Hq & -> & ->). simpl.
  apply contracts_for_pos in Hq as Hq'. destruct Hq' as [Hprice _].
  eapply write_back_ok; [exact Hpf | apply add_position_portfolios | exact Hok | |].
  - apply portfolio_ok_add;
      [now apply Hok | apply new_position_ok; [assumption|lia] | reflexivity].
  - simpl. intros id p'. rewrite dict_get_set.
    destruct (eq_dec nid id) as [<-|Hne]; eauto.
Qed.
