(* ===== verification/LedgerSteps.v ===== *)
(** * The ledger as a state machine

    The effect of [execute_signal] and [close_position] on capital,
    exposure and the daily P&L; the operations of [PaperTrader] as the
    steps of a state machine ([op], [run_op]); and the properties of every
    state the steps can reach from [PaperTrader.__init__]: the exposure
    cap, the limit on open positions, solvency of each portfolio, the
    balance of its books, the status of its positions.

    The steps are run under [op_valid], which states what the code trusts
    its environment for: a capital that is not negative, an identifier from
    [uuid.uuid4()] that no open position has, and a market price between 0
    and 1.  Rebalancing by the allocator is not a step of this machine: it
    overwrites capital, and the file of the allocator shows what it keeps.
    *)

From Stdlib Require Import String.
From Stdlib Require Import QArith Lqa Lia ZArith List Bool Permutation.
From S2P Require Import Prelude PyDict Config Strategy Ledger LedgerInv.
Import ListNotations.
Open Scope string_scope.
Open Scope list_scope.

(** ** The effect of opening and closing *)

Lemma execute_signal_effect T s mp nid now T' p :
  trader_ok T -> fresh_id T nid = true ->
  PT.execute_signal T s mp nid now = (T', Some p) ->
  exists pf pf',
    dict_get (PT.portfolios T) (Signal.strategy_name s) = Some pf /\
    PT.portfolios T' = dict_set (PT.portfolios T) (Signal.strategy_name s) pf' /\
    PT.risk_verdict T s pf = Passed /\
    0 < PP.entry_cost p <= Signal.size s /\
    SP.current_capital pf' = SP.current_capital pf /\
    SP.initial_capital pf' = SP.initial_capital pf /\
    SP.closed_positions pf' = SP.closed_positions pf /\
    SP.total_exposure pf' == SP.total_exposure pf + PP.entry_cost p /\
    PT.all_exposure T' == PT.all_exposure T + PP.entry_cost p /\
    PT.all_open_count T' = (PT.all_open_count T + 1)%Z /\
    PT._daily_pnl T' = PT._daily_pnl T /\
    PT.risk_config T' = PT.risk_config T.
Proof.
  intros Hok Hfr E. apply execute_signal_some in E as (pf & Hpf & Hv & Hq & Hp & ->).
  assert (Hnone : dict_get (SP.positions pf) nid = None)
    by (eapply fresh_id_spec; [apply Hok | exact Hfr | exact Hpf]).
  assert (Hst : PP.status p = OPEN) by (subst p; reflexivity).
  assert (Hid : PP.id p = nid) by (subst p; reflexivity).
  assert (Hsn : PP.strategy_name p = Signal.strategy_name s) by (subst p; reflexivity).
  exists pf, (SP.set_positions pf (dict_set (SP.positions pf) nid p)).
  pose proof (add_position_portfolios T pf p) as Hset. rewrite Hid, Hsn in Hset.
  pose proof (exposure_add pf nid p Hnone Hst) as Hexp.
  assert (Hcost : 0 < PP.entry_cost p <= Signal.size s)
    by (subst p; now apply new_position_cost).
  repeat split; auto; try apply Hcost.
  - rewrite (write_back_exposure _ _ _ _ _ Hpf Hset), Hexp. lra.
  - rewrite (write_back_open_count _ _ _ _ _ Hpf Hset), (open_count_add _ _ _ Hnone Hst). lia.
Qed.

Lemma portfolio_ok_close name pf id p price reason now :
  portfolio_ok name pf ->
  portfolio_ok name (PT.portfolio_after_close pf id (PT.closed_at p price reason now)).
Proof.
  intros (Hn & Hwf & Hpos & Hcl).
  split; [exact Hn|]. split; [simpl; auto with py|]. split.
  - simpl. intros k q. rewrite dict_get_del by assumption.
    destruct (eq_dec id k); [discriminate | apply Hpos].
  - simpl. apply Forall_app. split; [assumption|]. constructor; [apply closed_at_ok | constructor].
Qed.

Lemma close_position_ok T id price reason now :
  trader_ok T -> trader_ok (fst (PT.close_position T id price reason now)).
Proof.
  intros Hok. destruct (PT.close_position T id price reason now) as [T' [p'|]] eqn:E.
  2:{ pose proof (close_position_none T id price reason now) as Hn.
      rewrite E in Hn. specialize (Hn eq_refl). inversion Hn; subst. exact Hok. }
  apply close_position_some in E as (name & pf & p & Hf & -> & ->). simpl.
  apply find_holder_get in Hf as [Hpf Hp]; [|apply Hok].
  eapply write_back_ok; [exact Hpf | reflexivity | exact Hok | |].
  - apply portfolio_ok_close. now apply Hok.
  - simpl. intros k q. destruct Hok as (_ & Hall & _). destruct (Hall _ _ Hpf) as (_ & Hwf & _).
    rewrite dict_get_del by assumption. destruct (eq_dec id k); [discriminate|eauto].
Qed.

Lemma close_position_effect T id price reason now T' p' :
  trader_ok T ->
  PT.close_position T id price reason now = (T', Some p') ->
  exists name pf p,
    dict_get (PT.portfolios T) name = Some pf /\
    dict_get (SP.positions pf) id = Some p /\
    p' = PT.closed_at p price reason now /\
    PT.portfolios T' = dict_set (PT.portfolios T) name (PT.portfolio_after_close pf id p') /\
    SP.total_exposure (PT.portfolio_after_close pf id p')
      == SP.total_exposure pf - PP.entry_cost p /\
    PT.all_exposure T' == PT.all_exposure T - PP.entry_cost p /\
    PT.all_open_count T' = (PT.all_open_count T - 1)%Z /\
    PT._daily_pnl T' = PT._daily_pnl T + PP.pnl p' /\
    PT.risk_config T' = PT.risk_config T.
Proof.
  intros Hok E. apply close_position_some in E as (name & pf & p & Hf & -> & ->).
  apply find_holder_get in Hf as [Hpf Hp]; [|apply Hok].
  assert (Hst : PP.status p = OPEN).
  { destruct Hok as (_ & Hall & _). destruct (Hall _ _ Hpf) as (_ & _ & Hpos & _).
    apply (Hpos id p Hp). }
  exists name, pf, p. simpl.
  pose proof (exposure_del pf id p (PT.closed_at p price reason now) Hp Hst) as Hexp.
  repeat split; auto.
  - erewrite write_back_exposure; [|exact Hpf|reflexivity]. rewrite Hexp. lra.
  - erewrite write_back_open_count; [|exact Hpf|reflexivity].
    pose proof (open_count_del pf id p (PT.closed_at p price reason now) Hp Hst). lia.
Qed.

(** After a position is closed no portfolio holds its id. *)
Lemma close_position_fresh T id price reason now T' p' :
  trader_ok T ->
  PT.close_position T id price reason now = (T', Some p') ->
  fresh_id T' id = true.
Proof.
  intros Hok E.
  assert (Hok' : trader_ok T').
  { pose proof (close_position_ok T id price reason now Hok) as H. now rewrite E in H. }
  apply close_position_some in E as (name & pf & p & Hf & -> & ->).
  apply find_holder_get in Hf as [Hpf Hp]; [|apply Hok].
  apply fresh_id_spec; [apply Hok'|]. simpl. intros n q.
  rewrite dict_get_set. destruct (eq_dec name n) as [<-|Hne].
  - intros Heq; inversion Heq; subst. simpl. apply dict_get_del_same.
    destruct Hok as (_ & Hall & _). now apply (Hall _ _ Hpf).
  - intros Hq. destruct (dict_get (SP.positions q) id) as [p2|] eqn:E2; [|reflexivity].
    destruct Hok as (_ & _ & Hdis). elim Hne. eapply Hdis; eassumption.
Qed.

(** Closing is safe to repeat: once [close_position] has closed an id,
    closing the same id again returns [None] and changes nothing, so the
    profit is applied once. *)
Theorem close_position_twice T id price reason now T' p' price2 reason2 now2 :
  trader_ok T ->
  PT.close_position T id price reason now = (T', Some p') ->
  PT.close_position T' id price2 reason2 now2 = (T', None).
Proof.
  intros Hok E. apply close_position_fresh in E; [|assumption].
  unfold fresh_id in E. unfold PT.close_position.
  destruct (PT.find_holder _ _); [discriminate | reflexivity].
Qed.

(** C9. When [close_position] closes a position of a well-formed trader,
    the capital of the portfolio that held it grows by the position's
    profit, its exposure falls by the position's cost, its available
    capital grows by the exit value, the daily P&L grows by the profit and
    the other portfolios are untouched. *)
Theorem close_position_accounting T id price reason now T' p' :
  trader_ok T ->
  PT.close_position T id price reason now = (T', Some p') ->
  exists name pf pf',
    PT.get_portfolio T name = Some pf /\ PT.get_portfolio T' name = Some pf' /\
    SP.current_capital pf' == SP.current_capital pf + PP.pnl p' /\
    SP.total_exposure pf' == SP.total_exposure pf - PP.entry_cost p' /\
    SP.available_capital pf' ==
      SP.available_capital pf + get_default (PP.exit_value p') 0 /\
    PT._daily_pnl T' == PT._daily_pnl T + PP.pnl p' /\
    (forall n, n <> name -> PT.get_portfolio T' n = PT.get_portfolio T n).
Proof.
  intros Hok E.
  destruct (close_position_effect _ _ _ _ _ _ _ Hok E)
    as (name & pf & p & Hpf & Hp & -> & Hset & Hexp & _ & _ & Hd & _).
  exists name, pf, (PT.portfolio_after_close pf id (PT.closed_at p price reason now)).
  unfold PT.get_portfolio. rewrite Hset, dict_get_set_same.
  repeat split; auto; try reflexivity.
  - unfold SP.available_capital. rewrite Hexp. simpl. rewrite closed_at_pnl. lra.
  - now rewrite Hd.
  - intros n Hn. now apply dict_get_set_diff.
Qed.

(** * Reachable states of the ledger *)

(** ** The properties kept *)

(** The exposure of all portfolios is within
    [max_total_capital * max_exposure_pct]. *)
Definition within_exposure_cap (T : PT.t) : Prop :=
  PT.all_exposure T
  <= RiskConfig.max_total_capital (PT.risk_config T)
     * RiskConfig.max_exposure_pct (PT.risk_config T).

(** At most [max_concurrent_positions] positions are open. *)
Definition within_position_limit (T : PT.t) : Prop :=
  (PT.all_open_count T <= RiskConfig.max_concurrent_positions (PT.risk_config T))%Z.

(** No portfolio has committed more than its capital. *)
Definition solvent (T : PT.t) : Prop :=
  forall name pf, dict_get (PT.portfolios T) name = Some pf ->
                  0 <= SP.available_capital pf.

(** The capital of a portfolio is its initial capital plus the profit of
    its closed positions. *)
Definition books_balance (T : PT.t) : Prop :=
  forall name pf, dict_get (PT.portfolios T) name = Some pf ->
                  SP.current_capital pf == SP.initial_capital pf + SP.total_pnl pf.

Definition ledger_inv (T : PT.t) : Prop :=
  trader_ok T /\ within_exposure_cap T /\ within_position_limit T /\
  solvent T /\ books_balance T.

(** What the invariants ask of the configuration. *)
Definition risk_ok (risk : RiskConfig.t) : Prop :=
  0 <= RiskConfig.max_total_capital risk * RiskConfig.max_exposure_pct risk /\
  (0 <= RiskConfig.max_concurrent_positions risk)%Z.

Lemma init_inv risk : risk_ok risk -> ledger_inv (PT.init risk).
Proof.
  intros [Hcap Hlim]. repeat split; simpl; try discriminate; try assumption.
  constructor.
Qed.

(** ** [execute_signal] *)

Lemma execute_signal_inv T s mp nid now :
  ledger_inv T -> fresh_id T nid = true ->
  ledger_inv (fst (PT.execute_signal T s mp nid now)).
Proof.
  intros Hinv Hfr. pose proof Hinv as (Hok & Hcap & Hlim & Hsol & Hbal).
  pose proof (execute_signal_ok T s mp nid now Hok Hfr) as Hok'.
  destruct (PT.execute_signal T s mp nid now) as [T' [p|]] eqn:E.
  2:{ pose proof (execute_signal_none T s mp nid now) as Hn. rewrite E in Hn.
      simpl in *. now rewrite Hn. }
  destruct (execute_signal_effect _ _ _ _ _ _ _ Hok Hfr E)
    as (pf & pf' & Hpf & Hset & Hv & Hcost & Hcur & Hini & Hcl & Hexp & Hall & Hcnt
        & _ & Hrisk).
  apply risk_verdict_passed in Hv as (Hv1 & _ & Hv3 & Hv4 & _).
  simpl in *. split; [exact Hok'|]. unfold within_exposure_cap, within_position_limit in *.
  rewrite Hrisk, Hall, Hcnt. split; [lra|]. split; [lia|]. split.
  - intros n q. rewrite (write_back_get _ _ _ _ Hset).
    destruct (eq_dec (Signal.strategy_name s) n); [|apply Hsol].
    intros Heq; inversion Heq; subst. unfold SP.available_capital in *.
    rewrite Hexp, Hcur. lra.
  - intros n q. rewrite (write_back_get _ _ _ _ Hset).
    destruct (eq_dec (Signal.strategy_name s) n); [|apply Hbal].
    intros Heq; inversion Heq; subst. unfold SP.total_pnl.
    rewrite Hcur, Hini, Hcl. now apply (Hbal (Signal.strategy_name s)).
Qed.

(** ** [close_position] *)

Lemma contract_price_nonneg side price : 0 <= price <= 1 -> 0 <= PT.contract_price side price.
Proof. unfold PT.contract_price. destruct (String.eqb side "yes"); lra. Qed.

Lemma close_position_inv T id price reason now :
  ledger_inv T -> 0 <= price <= 1 ->
  ledger_inv (fst (PT.close_position T id price reason now)).
Proof.
  intros Hinv Hprice. pose proof Hinv as (Hok & Hcap & Hlim & Hsol & Hbal).
  pose proof (close_position_ok T id price reason now Hok) as Hok'.
  destruct (PT.close_position T id price reason now) as [T' [p'|]] eqn:E.
  2:{ pose proof (close_position_none T id price reason now) as Hn.
      rewrite E in Hn. specialize (Hn eq_refl). inversion Hn; subst. exact Hinv. }
  destruct (close_position_effect _ _ _ _ _ _ _ Hok E)
    as (name & pf & p & Hpf & Hp & -> & Hset & Hexp & Hall & Hcnt & _ & Hrisk).
  assert (Hpok : position_ok id p).
  { destruct Hok as (_ & Hpfs & _). destruct (Hpfs _ _ Hpf) as (_ & _ & Hpos & _).
    apply (Hpos id p Hp). }
  pose proof (position_ok_cost _ _ Hpok) as Hcost.
  simpl in *. split; [exact Hok'|]. unfold within_exposure_cap, within_position_limit in *.
  rewrite Hrisk, Hall, Hcnt. split; [lra|]. split; [lia|]. split.
  - intros n q. rewrite (write_back_get _ _ _ _ Hset).
    destruct (eq_dec name n); [|apply Hsol].
    intros Heq; inversion Heq; subst. specialize (Hsol _ _ Hpf).
    unfold SP.available_capital in *. rewrite Hexp. simpl. rewrite closed_at_pnl.
    destruct Hpok as (_ & _ & _ & Hq & _).
    assert (1 <= inject_Z (PP.quantity p))
      by (change 1 with (inject_Z 1); now rewrite <- Zle_Qle).
    pose proof (contract_price_nonneg (PP.side p) price Hprice). nra.
  - intros n q. rewrite (write_back_get _ _ _ _ Hset).
    destruct (eq_dec name n); [|apply Hbal].
    intros Heq; inversion Heq; subst. specialize (Hbal _ _ Hpf).
    unfold SP.total_pnl in *. simpl. rewrite map_app, py_sum_app, Hbal.
    simpl. rewrite py_sum_cons, py_sum_nil. lra.
Qed.

(** ** [initialize_portfolio] *)

Lemma initialize_portfolio_get T name capital n :
  dict_get (PT.portfolios (PT.initialize_portfolio T name capital)) n
  = if eq_dec name n
    then Some (SP.mk name capital capital [] [])
    else dict_get (PT.portfolios T) n.
Proof. apply dict_get_set. Qed.

Lemma initialize_portfolio_ok T name capital :
  trader_ok T -> trader_ok (PT.initialize_portfolio T name capital).
Proof.
  intros (Hwf & Hpf & Hdis). split; [|split].
  - simpl. now apply dict_set_wf.
  - intros n q. rewrite initialize_portfolio_get.
    destruct (eq_dec name n) as [<-|]; [|apply Hpf].
    intros Heq; inversion Heq; subst. repeat split; simpl; try discriminate; constructor.
  - intros n1 n2 q1 q2 id p1 p2. rewrite !initialize_portfolio_get.
    destruct (eq_dec name n1), (eq_dec name n2); try congruence.
    + intros Heq _ Hp; inversion Heq; subst; discriminate.
    + intros _ Heq _ Hp; inversion Heq; subst; discriminate.
    + apply Hdis.
Qed.

Lemma initialize_portfolio_sums T name capital :
  trader_ok T ->
  PT.all_exposure (PT.initialize_portfolio T name capital) <= PT.all_exposure T /\
  (PT.all_open_count (PT.initialize_portfolio T name capital) <= PT.all_open_count T)%Z.
Proof.
  intros Hok. set (new := SP.mk name capital capital [] []).
  assert (He : SP.total_exposure new == 0) by reflexivity.
  destruct (dict_get (PT.portfolios T) name) as [pf|] eqn:Hg.
  - pose proof (exposure_nonneg name pf (proj1 (proj2 Hok) _ _ Hg)) as Hnn.
    rewrite (write_back_exposure T (PT.initialize_portfolio T name capital) name pf new Hg eq_refl).
    rewrite (write_back_open_count T (PT.initialize_portfolio T name capital) name pf new Hg eq_refl).
    rewrite He. simpl. split; [lra | lia].
  - unfold PT.all_open_count. rewrite !all_exposure_Qsum, !py_sumZ_Zsum. simpl.
    rewrite Qsum_values_set_fresh, Zsum_values_set_fresh by assumption.
    fold new. rewrite He. simpl. split; [lra | lia].
Qed.

Lemma initialize_portfolio_inv T name capital :
  ledger_inv T -> 0 <= capital ->
  ledger_inv (PT.initialize_portfolio T name capital).
Proof.
  unfold ledger_inv, within_exposure_cap, within_position_limit.
  intros (Hok & Hcap & Hlim & Hsol & Hbal) Hc.
  destruct (initialize_portfolio_sums T name capital Hok) as [He Hn].
  split; [now apply initialize_portfolio_ok|].
  change (PT.risk_config (PT.initialize_portfolio T name capital))
    with (PT.risk_config T).
  split; [lra|]. split; [lia|]. split.
  - intros n q. rewrite initialize_portfolio_get.
    destruct (eq_dec name n); [|apply Hsol].
    intros Heq; inversion Heq; subst. unfold SP.available_capital, SP.total_exposure.
    simpl. rewrite py_sum_nil. lra.
  - intros n q. rewrite initialize_portfolio_get.
    destruct (eq_dec name n); [|apply Hbal].
    intros Heq; inversion Heq; subst. unfold SP.total_pnl. simpl.
    rewrite py_sum_nil. lra.
Qed.

(** ** [check_exits] *)

(** What [close_position] preserves, the loop of [check_exits]
    preserves, whether it returns or raises. *)
Lemma check_exit_loop_preserves (P : PT.t -> Prop) should_exit md now :
  (forall T id, P T ->
     P (fst (PT.close_position T id (get_default (MarketDict.yes_price md) 0.5)
               "strategy_exit" now))) ->
  forall l T closed, P T ->
    P (fst (PT.check_exit_loop should_exit md now l T closed)).
Proof.
  intros Hclose. induction l as [|p l IH]; intros T closed HT; [exact HT|].
  cbn [PT.check_exit_loop]. destruct (PT.ticker_differs p md); [now apply IH|].
  destruct (should_exit _ _) as [[|]|e]; [|now apply IH|exact HT].
  specialize (Hclose T (PP.id p) HT).
  destruct (PT.close_position _ _ _ _ _) as [T' r]. now apply IH.
Qed.

Lemma check_exits_preserves (P : PT.t -> Prop) strategy md now :
  (forall T id, P T ->
     P (fst (PT.close_position T id (get_default (MarketDict.yes_price md) 0.5)
               "strategy_exit" now))) ->
  forall T, P T -> P (fst (PT.check_exits T strategy md now)).
Proof.
  intros Hclose T HT. unfold PT.check_exits.
  destruct (dict_get _ _) as [pf|]; [|exact HT].
  now apply check_exit_loop_preserves.
Qed.

Lemma check_exits_inv T strategy md now :
  ledger_inv T -> 0 <= get_default (MarketDict.yes_price md) 0.5 <= 1 ->
  ledger_inv (fst (PT.check_exits T strategy md now)).
Proof.
  intros Hinv Hprice. apply check_exits_preserves; [|exact Hinv].
  intros T0 id H0. now apply close_position_inv.
Qed.

Lemma reset_daily_stats_inv T now :
  ledger_inv T -> ledger_inv (PT.reset_daily_stats T now).
Proof. intros Hinv. exact Hinv. Qed.

(** ** The operations as steps *)

(** A call of a method of [PaperTrader] that changes the state, with its
    arguments and what it takes from the environment. *)
Inductive op : Type :=
| OpInitialize (name : string) (capital : Q)
| OpExecute (signal : Signal.t) (market_price : Q) (new_id : string) (now : Z)
| OpClose (position_id : string) (exit_price : Q) (reason : string) (now : Z)
| OpCheckExits (strategy : Strategy.t) (market_data : MarketDict.t) (now : Z)
| OpResetDaily (now : Z).

Definition run_op (T : PT.t) (o : op) : PT.t :=
  match o with
  | OpInitialize name capital => PT.initialize_portfolio T name capital
  | OpExecute s mp nid now => fst (PT.execute_signal T s mp nid now)
  | OpClose id price reason now => fst (PT.close_position T id price reason now)
  | OpCheckExits strategy md now => fst (PT.check_exits T strategy md now)
  | OpResetDaily now => PT.reset_daily_stats T now
  end.

(** What the environment is trusted for: capital is not negative, a new
    identifier is new, and a market price is between 0 and 1. *)
Definition op_valid (T : PT.t) (o : op) : Prop :=
  match o with
  | OpInitialize _ capital => 0 <= capital
  | OpExecute _ _ nid _ => fresh_id T nid = true
  | OpClose _ price _ _ => 0 <= price <= 1
  | OpCheckExits _ md _ => 0 <= get_default (MarketDict.yes_price md) 0.5 <= 1
  | OpResetDaily _ => True
  end.

Inductive reachable (risk : RiskConfig.t) : PT.t -> Prop :=
| reach_init : reachable risk (PT.init risk)
| reach_step T o : reachable risk T -> op_valid T o -> reachable risk (run_op T o).

Lemma run_op_inv T o : ledger_inv T -> op_valid T o -> ledger_inv (run_op T o).
Proof.
  destruct o; simpl; intros Hinv Hv.
  - now apply initialize_portfolio_inv.
  - now apply execute_signal_inv.
  - now apply close_position_inv.
  - now apply check_exits_inv.
  - now apply reset_daily_stats_inv.
Qed.

Theorem reachable_inv risk T : risk_ok risk -> reachable risk T -> ledger_inv T.
Proof.
  intros Hrisk. induction 1 as [|T o _ IH Hv]; [now apply init_inv | now apply run_op_inv].
Qed.

Lemma reachable_inv_ok risk T : risk_ok risk -> reachable risk T -> trader_ok T.
Proof. intros Hr H. apply (reachable_inv risk T Hr H). Qed.

(** The operations never change the risk configuration. *)
Lemma run_op_risk_config T o : PT.risk_config (run_op T o) = PT.risk_config T.
Proof.
  destruct o as [name capital|s mp nid now|id price reason now|sx md now|now]; simpl.
  - reflexivity.
  - unfold PT.execute_signal. destruct (dict_get _ _); [|reflexivity].
    destruct (negb _); [reflexivity|]. destruct (_ <=? _)%Z; reflexivity.
  - unfold PT.close_position. destruct (PT.find_holder _ _) as [[[n q] p]|]; reflexivity.
  - apply (check_exits_preserves (fun T' => PT.risk_config T' = PT.risk_config T));
      [|reflexivity].
    intros T0 id H0. unfold PT.close_position.
    destruct (PT.find_holder _ _) as [[[n q] p]|]; assumption.
  - reflexivity.
Qed.

Lemma reachable_risk_config risk T : reachable risk T -> PT.risk_config T = risk.
Proof.
  induction 1 as [|T o _ IH _]; [reflexivity | now rewrite run_op_risk_config].
Qed.

(** ** What holds in every reachable state *)

Section Reachable.
Variables (risk : RiskConfig.t) (T : PT.t).
Hypothesis Hrisk : risk_ok risk.
Hypothesis Hreach : reachable risk T.

(** C5. Every reachable state is well formed: the dictionaries hold each key
    once, a portfolio is stored under its strategy's name, an open position
    under its id with status OPEN, at least one contract, a positive price
    and a cost of quantity times price, and no id is open in two
    portfolios. *)
Theorem reachable_wellformed : trader_ok T.
Proof. apply (reachable_inv risk T Hrisk Hreach). Qed.

(** C1. In every state the operations can reach, the cost of all open
    positions of all portfolios is at most
    [max_total_capital * max_exposure_pct]. *)
Theorem reachable_exposure_cap :
  PT.all_exposure T
  <= RiskConfig.max_total_capital risk * RiskConfig.max_exposure_pct risk.
Proof.
  destruct (reachable_inv risk T Hrisk Hreach) as (_ & Hcap & _).
  unfold within_exposure_cap in Hcap. now rewrite (reachable_risk_config risk T Hreach) in Hcap.
Qed.

(** C4. In every reachable state at most [max_concurrent_positions]
    positions are open over all portfolios. *)
Theorem reachable_position_limit :
  (PT.all_open_count T <= RiskConfig.max_concurrent_positions risk)%Z.
Proof.
  destruct (reachable_inv risk T Hrisk Hreach) as (_ & _ & Hlim & _).
  unfold within_position_limit in Hlim.
  now rewrite (reachable_risk_config risk T Hreach) in Hlim.
Qed.

(** C2. In every reachable state the available capital of every
    portfolio, its capital less the cost of its open positions, is not
    negative. *)
Theorem reachable_solvent name pf :
  PT.get_portfolio T name = Some pf -> 0 <= SP.available_capital pf.
Proof. apply (reachable_inv risk T Hrisk Hreach). Qed.

(** C3. In every reachable state the capital of a portfolio is its initial
    capital plus the realized profit of its closed positions: capital
    changes only when a position is closed, and then by its profit. *)
Theorem reachable_books_balance name pf :
  PT.get_portfolio T name = Some pf ->
  SP.current_capital pf == SP.initial_capital pf + SP.total_pnl pf.
Proof. apply (reachable_inv risk T Hrisk Hreach). Qed.

(** In every reachable state the positions of a portfolio's open
    dictionary are OPEN and those of its closed list are CLOSED with an
    exit value: no operation produces an EXPIRED position. *)
Theorem reachable_status name pf :
  PT.get_portfolio T name = Some pf ->
  Forall (fun p => PP.status p = OPEN) (dict_values (SP.positions pf)) /\
  Forall (fun p => PP.status p = CLOSED /\ PP.exit_value p <> None)
         (SP.closed_positions pf).
Proof.
  intros Hg. destruct (reachable_inv risk T Hrisk Hreach) as ((_ & Hpf & _) & _).
  destruct (Hpf _ _ Hg) as (_ & Hwf & Hpos & Hcl). split.
  - apply Forall_forall. intros p Hin.
    destruct (dict_values_get _ _ Hwf Hin) as (k & Hk). apply (Hpos k p Hk).
  - eapply Forall_impl; [|exact Hcl]. intros p (Hs & Hv & _). split; [exact Hs|].
    rewrite Hv. discriminate.
Qed.

End Reachable.

(** ** A run of the ledger *)

Definition run_ops (T : PT.t) (ops : list op) : PT.t := fold_left run_op ops T.

(** Every operation of the list is valid in the state it is run in. *)
Fixpoint ops_valid (T : PT.t) (ops : list op) : Prop :=
  match ops with
  | [] => True
  | o :: ops' => op_valid T o /\ ops_valid (run_op T o) ops'
  end.

Lemma run_ops_reachable risk T ops :
  reachable risk T -> ops_valid T ops -> reachable risk (run_ops T ops).
Proof.
  revert T; induction ops as [|o ops IH]; intros T HT Hv; [exact HT|].
  destruct Hv as [Ho Hv]. apply IH; [now apply reach_step | exact Hv].
Qed.

(** Well-formedness alone is kept by every valid step, also from a state
    the machine does not reach. *)
Lemma run_op_ok T o : trader_ok T -> op_valid T o -> trader_ok (run_op T o).
Proof.
  destruct o; simpl; intros Hok Hv.
  - now apply initialize_portfolio_ok.
  - now apply execute_signal_ok.
  - now apply close_position_ok.
  - apply check_exits_preserves; [intros; now apply close_position_ok|exact Hok].
  - exact Hok.
Qed.

Lemma run_ops_ok ops : forall T,
  trader_ok T -> ops_valid T ops -> trader_ok (run_ops T ops).
Proof.
  induction ops as [|o ops IH]; intros T HT Hv; [exact HT|].
  destruct Hv as [Ho Hv]. apply IH; [now apply run_op_ok | exact Hv].
Qed.

Definition demo_ops : list op :=
  [ OpInitialize "MeanReversion" 66;
    OpExecute demo_signal 0.20 "id-1" 10;
    OpClose "id-1" 0.5 "signal" 20 ].

Definition demo_closed : PT.t := run_ops (PT.init RiskConfig.default) demo_ops.

Definition demo_closed_portfolio : SP.t :=
  PT.portfolio_after_close
    (SP.set_positions demo_portfolio [("id-1", demo_position)]) "id-1"
    (PT.closed_at demo_position 0.5 "signal" 20).

Lemma demo_risk_ok : risk_ok RiskConfig.default.
Proof. split; simpl; [lra | lia]. Defined.

Lemma demo_opened_reachable : reachable RiskConfig.default demo_opened.
Proof.
  change demo_opened
    with (run_ops (PT.init RiskConfig.default)
            [OpInitialize "MeanReversion" 66; OpExecute demo_signal 0.20 "id-1" 10]).
  apply run_ops_reachable; [apply reach_init|].
  simpl. repeat split; try reflexivity; lra.
Defined.

Lemma demo_closed_reachable : reachable RiskConfig.default demo_closed.
Proof.
  apply run_ops_reachable; [apply reach_init|].
  simpl. repeat split; try reflexivity; lra.
Defined.

Lemma demo_closed_get :
  PT.get_portfolio demo_closed "MeanReversion" = Some demo_closed_portfolio.
Proof. reflexivity. Defined.

Lemma demo_close :
  PT.close_position demo_opened "id-1" 0.5 "signal" 20
  = (demo_closed, Some (PT.closed_at demo_position 0.5 "signal" 20)).
Proof. reflexivity. Defined.

Lemma reachable_wellformed_witness : trader_ok demo_closed.
Proof. exact (reachable_wellformed _ _ demo_risk_ok demo_closed_reachable). Defined.

Lemma reachable_exposure_cap_witness :
  PT.all_exposure demo_opened
  <= RiskConfig.max_total_capital RiskConfig.default
     * RiskConfig.max_exposure_pct RiskConfig.default.
Proof. exact (reachable_exposure_cap _ _ demo_risk_ok demo_opened_reachable). Defined.

Lemma reachable_position_limit_witness :
  (PT.all_open_count demo_opened
   <= RiskConfig.max_concurrent_positions RiskConfig.default)%Z.
Proof. exact (reachable_position_limit _ _ demo_risk_ok demo_opened_reachable). Defined.

Lemma reachable_solvent_witness : 0 <= SP.available_capital demo_closed_portfolio.
Proof.
  exact (reachable_solvent _ _ demo_risk_ok demo_closed_reachable
           "MeanReversion" demo_closed_portfolio demo_closed_get).
Defined.

Lemma reachable_books_balance_witness :
  SP.current_capital demo_closed_portfolio
  == SP.initial_capital demo_closed_portfolio + SP.total_pnl demo_closed_portfolio.
Proof.
  exact (reachable_books_balance _ _ demo_risk_ok demo_closed_reachable
           "MeanReversion" demo_closed_portfolio demo_closed_get).
Defined.

Lemma reachable_status_witness :
  Forall (fun p => PP.status p = OPEN)
         (dict_values (SP.positions demo_closed_portfolio)) /\
  Forall (fun p => PP.status p = CLOSED /\ PP.exit_value p <> None)
         (SP.closed_positions demo_closed_portfolio).
Proof.
  exact (reachable_status _ _ demo_risk_ok demo_closed_reachable
           "MeanReversion" demo_closed_portfolio demo_closed_get).
Defined.

Lemma close_position_twice_witness :
  PT.close_position demo_closed "id-1" 0.6 "again" 30 = (demo_closed, None).
Proof.
  exact (close_position_twice demo_opened "id-1" 0.5 "signal" 20 demo_closed
           (PT.closed_at demo_position 0.5 "signal" 20) 0.6 "again" 30
           (reachable_inv_ok _ _ demo_risk_ok demo_opened_reachable) demo_close).
Defined.

Lemma close_position_accounting_witness :
  exists name pf pf',
    PT.get_portfolio demo_opened name = Some pf /\
    PT.get_portfolio demo_closed name = Some pf' /\
    SP.current_capital pf'
      == SP.current_capital pf + PP.pnl (PT.closed_at demo_position 0.5 "signal" 20) /\
    SP.total_exposure pf'
      == SP.total_exposure pf
         - PP.entry_cost (PT.closed_at demo_position 0.5 "signal" 20) /\
    SP.available_capital pf' ==
      SP.available_capital pf
      + get_default (PP.exit_value (PT.closed_at demo_position 0.5 "signal" 20)) 0 /\
    PT._daily_pnl demo_closed
      == PT._daily_pnl demo_opened + PP.pnl (PT.closed_at demo_position 0.5 "signal" 20) /\
    (forall n, n <> name ->
       PT.get_portfolio demo_closed n = PT.get_portfolio demo_opened n).
Proof.
  exact (close_position_accounting demo_opened "id-1" 0.5 "signal" 20 demo_closed
           (PT.closed_at demo_position 0.5 "signal" 20)
           (reachable_inv_ok _ _ demo_risk_ok demo_opened_reachable) demo_close).
Defined.
