(* ===== verification/Metrics.v ===== *)
(** * Performance statistics (src/src/performance.py)

    [StrategyMetrics] and the in-memory part of [PerformanceTracker]: the
    cache of metrics, the capital history, [calculate_metrics] with the
    Sharpe ratio, the Sortino ratio and the maximum drawdown, and the
    leaderboard.  The SQLite tables the class also writes
    ([_init_db], [record_trade], [save_daily_metrics], the insert of
    [record_capital_snapshot], the query of [get_rolling_metrics]) are
    in [Persistence].

    A division whose divisor is not tested in the same expression is
    [qdiv], so [calculate_metrics] returns a [result]; the theorems say
    exactly when it raises.  A method that updates the tracker returns the
    new tracker beside its result.  [math.sqrt] is the operation of the
    class [Sqrt].  [StrategyMetrics.to_dict] gives the eighteen typed
    fields [get_status] reports. *)

From Stdlib Require Import String.
From Stdlib Require Import QArith Qabs Lqa Lia ZArith List Bool.
From Stdlib Require Import Permutation Sorted.
From S2P Require Import Prelude PyDict PySort Config Strategy Ledger.
Import ListNotations.
Open Scope string_scope.
Open Scope list_scope.
Open Scope py_scope.

(** [class StrategyMetrics].  The two ratios that the code may set to
    [float('inf')] are extended floats. *)
Module StrategyMetrics.
Record t : Type := mk {
  strategy_name : string;
  total_return : Q;
  total_return_pct : Q;
  sharpe_ratio : Q;
  sortino_ratio : xfloat;
  max_drawdown : Q;
  total_trades : nat;
  winning_trades : nat;
  losing_trades : nat;
  win_rate : Q;
  average_win : Q;
  average_loss : Q;
  profit_factor : xfloat;
  expectancy : Q;
  average_hold_time_hours : Q;
  current_capital : Q;
  peak_capital : Q;
  last_updated : Z;
}.

(** [StrategyMetrics(strategy_name=name)]: every statistic at its default;
    [now] is what the default factory of [last_updated] reads. *)
Definition init (name : string) (now : Z) : t :=
  {| strategy_name := name;
     total_return := 0; total_return_pct := 0;
     sharpe_ratio := 0; sortino_ratio := Fin 0; max_drawdown := 0;
     total_trades := 0; winning_trades := 0; losing_trades := 0;
     win_rate := 0; average_win := 0; average_loss := 0;
     profit_factor := Fin 0; expectancy := 0;
     average_hold_time_hours := 0;
     current_capital := 0; peak_capital := 0;
     last_updated := now |}.

(** [metrics.current_capital = c] *)
Definition set_current_capital (m : t) (c : Q) : t :=
  mk (strategy_name m) (total_return m) (total_return_pct m) (sharpe_ratio m)
     (sortino_ratio m) (max_drawdown m) (total_trades m) (winning_trades m)
     (losing_trades m) (win_rate m) (average_win m) (average_loss m)
     (profit_factor m) (expectancy m) (average_hold_time_hours m)
     c (peak_capital m) (last_updated m).

(** [to_dict]: the eighteen fields in the order of the literal, the time
    as its ISO text. *)
Definition to_dict (m : t) : dict string Field :=
  [("strategy_name", FStr (strategy_name m));
   ("total_return", FNum (total_return m));
   ("total_return_pct", FNum (total_return_pct m));
   ("sharpe_ratio", FNum (sharpe_ratio m));
   ("sortino_ratio", FFloat (sortino_ratio m));
   ("max_drawdown", FNum (max_drawdown m));
   ("total_trades", FInt (Z.of_nat (total_trades m)));
   ("winning_trades", FInt (Z.of_nat (winning_trades m)));
   ("losing_trades", FInt (Z.of_nat (losing_trades m)));
   ("win_rate", FNum (win_rate m));
   ("average_win", FNum (average_win m));
   ("average_loss", FNum (average_loss m));
   ("profit_factor", FFloat (profit_factor m));
   ("expectancy", FNum (expectancy m));
   ("average_hold_time_hours", FNum (average_hold_time_hours m));
   ("current_capital", FNum (current_capital m));
   ("peak_capital", FNum (peak_capital m));
   ("last_updated", FTime (last_updated m))].
End StrategyMetrics.

Module PerformanceTracker.
Import StrategyPortfolio.

(** The in-memory state of the tracker. *)
Record t : Type := mk {
  config : PerformanceConfig.t;
  _metrics : dict string StrategyMetrics.t;
  _capital_history : dict string (list Q);
}.

(** [__init__] *)
Definition init (config : PerformanceConfig.t) : t := mk config [] [].

Definition set_metrics (T : t) (ms : dict string StrategyMetrics.t) : t :=
  mk (config T) ms (_capital_history T).

(** [record_capital_snapshot] *)
Definition record_capital_snapshot (T : t) (strategy_name : string)
    (capital : Q) : t :=
  let history := get_default (dict_get (_capital_history T) strategy_name) [] in
  mk (config T) (_metrics T)
     (dict_set (_capital_history T) strategy_name (history ++ [capital])).

(** [x ** 2] *)
Definition sq (x : Q) : Q := x * x.

(** [[t.pnl / initial_capital for t in trades]] *)
Definition returns_of (trades : list PaperPosition.t) (initial_capital : Q)
    : result (list Q) :=
  mapM (fun t => qdiv (PaperPosition.pnl t) initial_capital) trades.

Definition trades_per_year : Q := 2500.

(** [_calculate_sharpe] *)
Definition _calculate_sharpe {SQ : Sqrt} (trades : list PaperPosition.t)
    (initial_capital : Q) (risk_free_rate : Q) : result Q :=
  if (length trades <? 2)%nat then Ok 0
  else
    returns <- returns_of trades initial_capital ;;
    mean_return <- qdiv (py_sum returns) (qlen returns) ;;
    variance <- qdiv (py_sum (map (fun r => sq (r - mean_return)) returns))
                     (qlen returns) ;;
    let std_return := if qltb 0 variance then qsqrt variance else 0 in
    if qeqb std_return 0 then Ok 0
    else
      let annualized_return := mean_return * trades_per_year in
      let annualized_std := std_return * qsqrt trades_per_year in
      qdiv (annualized_return - risk_free_rate) annualized_std.

(** [_calculate_sortino] *)
Definition _calculate_sortino {SQ : Sqrt} (trades : list PaperPosition.t)
    (initial_capital : Q) (risk_free_rate : Q) : result xfloat :=
  if (length trades <? 2)%nat then Ok (Fin 0)
  else
    returns <- returns_of trades initial_capital ;;
    mean_return <- qdiv (py_sum returns) (qlen returns) ;;
    let negative_returns := filter (fun r => qltb r 0) returns in
    match negative_returns with
    | [] => Ok PInf
    | _ :: _ =>
      downside_variance <- qdiv (py_sum (map sq negative_returns))
                                (qlen returns) ;;
      let downside_std := qsqrt downside_variance in
      if qeqb downside_std 0 then Ok (Fin 0)
      else
        let annualized_return := mean_return * trades_per_year in
        let annualized_downside := downside_std * qsqrt trades_per_year in
        r <- qdiv (annualized_return - risk_free_rate) annualized_downside ;;
        Ok (Fin r)
    end.

(** The key of the sort in [_calculate_max_drawdown]:
    [t.exit_time or t.entry_time]. *)
Definition trade_time (t : PaperPosition.t) : Z :=
  match PaperPosition.exit_time t with
  | Some e => e
  | None => PaperPosition.entry_time t
  end.

(** The capital after each trade of a list, starting from [capital]. *)
Fixpoint capital_curve (capital : Q) (trades : list PaperPosition.t)
    : list Q :=
  match trades with
  | [] => []
  | trade :: rest =>
    let capital := capital + PaperPosition.pnl trade in
    capital :: capital_curve capital rest
  end.

(** The history [_calculate_max_drawdown] walks: the recorded snapshots,
    or, when there are none, the curve rebuilt from the closed trades in
    the order of their exit times. *)
Definition drawdown_history (T : t) (strategy_name : string)
    (portfolio : StrategyPortfolio.t) : list Q :=
  match get_default (dict_get (_capital_history T) strategy_name) [] with
  | [] =>
    initial_capital portfolio
    :: capital_curve (initial_capital portfolio)
                     (sorted_by_Z trade_time (closed_positions portfolio))
  | history => history
  end.

(** One turn of the loop of [_calculate_max_drawdown] on the pair
    [(peak, max_dd)]. *)
Definition drawdown_step (st : Q * Q) (capital : Q) : Q * Q :=
  let '(peak, max_dd) := st in
  let peak := if qltb peak capital then capital else peak in
  let drawdown := if qltb 0 peak then (peak - capital) / peak else 0 in
  (peak, py_max max_dd drawdown).

(** The loop on a history, in percent. *)
Definition max_drawdown_of (history : list Q) : Q :=
  match history with
  | [] | [_] => 0
  | first :: _ => snd (fold_left drawdown_step history (first, 0)) * 100
  end.

(** [_calculate_max_drawdown] *)
Definition _calculate_max_drawdown (T : t) (strategy_name : string)
    (portfolio : StrategyPortfolio.t) : Q :=
  max_drawdown_of (drawdown_history T strategy_name portfolio).

(** The hold times of [calculate_metrics], in hours; times are in
    microseconds. *)
Definition hold_times (trades : list PaperPosition.t) : list Q :=
  flat_map (fun t =>
    match PaperPosition.exit_time t with
    | Some e => [inject_Z (e - PaperPosition.entry_time t) / 1000000 / 3600]
    | None => []
    end) trades.

(** [sum(l) / len(l) if l else default] *)
Definition mean_or (default : Q) (l : list Q) : result Q :=
  match l with
  | [] => Ok default
  | _ :: _ => qdiv (py_sum l) (qlen l)
  end.

Definition is_win (t : PaperPosition.t) : bool := qltb 0 (PaperPosition.pnl t).
Definition is_loss (t : PaperPosition.t) : bool := qleb (PaperPosition.pnl t) 0.

(** The profit factor of [calculate_metrics]. *)
Definition profit_factor_of (wins losses : list PaperPosition.t) : xfloat :=
  let gross_profit :=
    match wins with [] => 0 | _ => py_sum (map PaperPosition.pnl wins) end in
  let gross_loss :=
    match losses with
    | [] => 0
    | _ => Qabs (py_sum (map PaperPosition.pnl losses))
    end in
  if qltb 0 gross_loss then Fin (gross_profit / gross_loss) else PInf.

(** [calculate_metrics].  With no closed trade the metrics are returned
    and not cached. *)
Definition calculate_metrics {SQ : Sqrt} (T : t)
    (portfolio : StrategyPortfolio.t) (now : Z)
    : result (t * StrategyMetrics.t) :=
  let strategy_name := strategy_name portfolio in
  let trades := closed_positions portfolio in
  let metrics :=
    StrategyMetrics.set_current_capital
      (StrategyMetrics.init strategy_name now) (current_capital portfolio) in
  match trades with
  | [] => Ok (T, metrics)
  | _ :: _ =>
    let total_trades := length trades in
    let total_return := py_sum (map PaperPosition.pnl trades) in
    ret <- qdiv total_return (initial_capital portfolio) ;;
    let total_return_pct := ret * 100 in
    let wins := filter is_win trades in
    let losses := filter is_loss trades in
    wr <- qdiv (qlen wins) (qlen trades) ;;
    let win_rate := wr * 100 in
    average_win <- mean_or 0 (map PaperPosition.pnl wins) ;;
    average_loss <- mean_or 0 (map PaperPosition.pnl losses) ;;
    let profit_factor := profit_factor_of wins losses in
    expectancy <- qdiv total_return (qlen trades) ;;
    average_hold_time_hours <- mean_or 0 (hold_times trades) ;;
    sharpe_ratio <- _calculate_sharpe trades (initial_capital portfolio) 0.05 ;;
    sortino_ratio <- _calculate_sortino trades (initial_capital portfolio) 0.05 ;;
    let max_drawdown := _calculate_max_drawdown T strategy_name portfolio in
    peak_capital <-
      py_max_list (get_default (dict_get (_capital_history T) strategy_name)
                               [initial_capital portfolio]) ;;
    let metrics :=
      {| StrategyMetrics.strategy_name := strategy_name;
         StrategyMetrics.total_return := total_return;
         StrategyMetrics.total_return_pct := total_return_pct;
         StrategyMetrics.sharpe_ratio := sharpe_ratio;
         StrategyMetrics.sortino_ratio := sortino_ratio;
         StrategyMetrics.max_drawdown := max_drawdown;
         StrategyMetrics.total_trades := total_trades;
         StrategyMetrics.winning_trades := length wins;
         StrategyMetrics.losing_trades := length losses;
         StrategyMetrics.win_rate := win_rate;
         StrategyMetrics.average_win := average_win;
         StrategyMetrics.average_loss := average_loss;
         StrategyMetrics.profit_factor := profit_factor;
         StrategyMetrics.expectancy := expectancy;
         StrategyMetrics.average_hold_time_hours := average_hold_time_hours;
         StrategyMetrics.current_capital := current_capital portfolio;
         StrategyMetrics.peak_capital := peak_capital;
         StrategyMetrics.last_updated := now |} in
    Ok (set_metrics T (dict_set (_metrics T) strategy_name metrics), metrics)
  end.

(** [get_metrics] *)
Definition get_metrics (T : t) (strategy_name : string)
    : option StrategyMetrics.t :=
  dict_get (_metrics T) strategy_name.

(** [get_all_metrics] *)
Definition get_all_metrics (T : t) : dict string StrategyMetrics.t :=
  _metrics T.

(** [get_rolling_metrics]: the rows it queries are not used; it returns
    the cached metrics or fresh defaults. *)
Definition get_rolling_metrics (T : t) (strategy_name : string) (now : Z)
    : StrategyMetrics.t :=
  get_default (dict_get (_metrics T) strategy_name)
              (StrategyMetrics.init strategy_name now).

(** [get_leaderboard] *)
Definition get_leaderboard (T : t) : list StrategyMetrics.t :=
  let metrics_list := dict_values (_metrics T) in
  let qualified :=
    filter (fun m =>
              (PerformanceConfig.min_trades_for_ranking (config T)
               <=? Z.of_nat (StrategyMetrics.total_trades m))%Z)
           metrics_list in
  sorted_by_Q_desc StrategyMetrics.sharpe_ratio qualified.

End PerformanceTracker.

Module PTr := PerformanceTracker.
Module SM := StrategyMetrics.

(** ** A worked example: three trades with P&L +10, -4, +6 *)

Definition trade (name id : string) (entry_cost exit_value : Q)
    (entry exit : Z) : PaperPosition.t :=
  {| PP.id := id; PP.strategy_name := name; PP.market_id := "MKT";
     PP.ticker := "MKT"; PP.side := "yes"; PP.quantity := 10;
     PP.entry_price := entry_cost / 10; PP.entry_time := entry;
     PP.entry_cost := entry_cost; PP.exit_price := Some (exit_value / 10);
     PP.exit_time := Some exit; PP.exit_value := Some exit_value;
     PP.status := CLOSED; PP.metadata := [] |}.

Definition three_trades : list PaperPosition.t :=
  [ trade "alpha" "t1" 5 15 0 3600000000;
    trade "alpha" "t2" 5 1 10 7200000010;
    trade "alpha" "t3" 4 10 20 3600000020 ].

Definition three_portfolio : StrategyPortfolio.t :=
  {| SP.strategy_name := "alpha"; SP.initial_capital := 100;
     SP.current_capital := 112; SP.positions := [];
     SP.closed_positions := three_trades |}.

Definition tracker0 : PTr.t := PTr.init PerformanceConfig.default.

(** ** The statistics the code computes, as definitions on lists *)

Definition mean (l : list Q) : Q := Qsum l / qlen l.

Definition variance (l : list Q) : Q :=
  Qsum (map (fun r => PTr.sq (r - mean l)) l) / qlen l.

Definition downside_variance (l : list Q) : Q :=
  Qsum (map PTr.sq (filter (fun r => qltb r 0) l)) / qlen l.

Definition annualized {SQ : Sqrt} (mean_return deviation rf : Q) : Q :=
  (mean_return * 2500 - rf) / (deviation * qsqrt 2500).

(** The Sharpe ratio of a list of returns. *)
Definition sharpe_spec {SQ : Sqrt} (returns : list Q) (rf : Q) : Q :=
  if qltb 0 (variance returns)
  then annualized (mean returns) (qsqrt (variance returns)) rf
  else 0.

(** The Sortino ratio of a list of returns. *)
Definition sortino_spec {SQ : Sqrt} (returns : list Q) (rf : Q) : xfloat :=
  if qltb 0 (downside_variance returns)
  then Fin (annualized (mean returns) (qsqrt (downside_variance returns)) rf)
  else PInf.

(** The returns of a list of trades on a capital. *)
Definition returns (trades : list PaperPosition.t) (c : Q) : list Q :=
  map (fun t => PP.pnl t / c) trades.

(** Every recorded capital history holds a snapshot. *)
Definition tracker_ok (T : PTr.t) : Prop :=
  dict_wf (PTr._metrics T) /\ dict_wf (PTr._capital_history T) /\
  Forall (fun h => h <> []) (dict_values (PTr._capital_history T)).

(** ** Lemmas on the helpers *)

Lemma returns_of_ok trades c :
  ~ c == 0 -> PTr.returns_of trades c = Ok (returns trades c).
Proof.
  intros Hc. unfold PTr.returns_of, returns.
  induction trades as [|t ts IH]; simpl; [reflexivity|].
  rewrite (qdiv_ok _ _ Hc). simpl. now rewrite IH.
Qed.

Lemma returns_of_err trades c :
  c == 0 -> trades <> [] -> PTr.returns_of trades c = Err ZeroDivisionError.
Proof.
  intros Hc Hne. destruct trades; [congruence|].
  unfold PTr.returns_of; simpl. now rewrite (qdiv_err _ _ Hc).
Qed.

Lemma qlen_nonzero {A} (l : list A) : l <> [] -> ~ qlen l == 0.
Proof. intros H. pose proof (qlen_pos l H). lra. Qed.

Lemma qdiv_qlen {A} x (l : list A) : l <> [] -> qdiv x (qlen l) = Ok (x / qlen l).
Proof. intros H. apply qdiv_ok, qlen_nonzero, H. Qed.

Lemma mean_or_ok d l :
  PTr.mean_or d l = Ok (match l with [] => d | _ => py_sum l / qlen l end).
Proof. destruct l; [reflexivity|]. apply qdiv_qlen. discriminate. Qed.

Lemma long_nonempty {A} (l : list A) : (length l <? 2)%nat = false -> l <> [].
Proof. destruct l; [discriminate | discriminate]. Qed.

Lemma qlen_map {A B} (f : A -> B) l : qlen (map f l) = qlen l.
Proof. unfold qlen. now rewrite length_map. Qed.

Lemma sq_nonneg x : 0 <= PTr.sq x.
Proof. unfold PTr.sq. nra. Qed.

Lemma sq_pos x : ~ x == 0 -> 0 < PTr.sq x.
Proof. unfold PTr.sq. intros H. nra. Qed.

#[export] Instance sq_proper : Proper (Qeq ==> Qeq) PTr.sq.
Proof. intros x y H. unfold PTr.sq. now rewrite H. Qed.

Lemma div_nonneg x y : 0 <= x -> 0 < y -> 0 <= x / y.
Proof.
  intros Hx Hy. unfold Qdiv. apply Qmult_le_0_compat; [exact Hx|].
  apply Qlt_le_weak, Qinv_lt_0_compat, Hy.
Qed.

Lemma div_pos x y : 0 < x -> 0 < y -> 0 < x / y.
Proof.
  intros Hx Hy. unfold Qdiv. apply Qmult_lt_0_compat; [exact Hx|].
  apply Qinv_lt_0_compat, Hy.
Qed.

Lemma variance_nonneg l : l <> [] -> 0 <= variance l.
Proof.
  intros H. apply div_nonneg; [|apply qlen_pos, H].
  apply Qsum_nonneg, Forall_map, Forall_forall. intros; apply sq_nonneg.
Qed.

Lemma downside_variance_nonneg l : l <> [] -> 0 <= downside_variance l.
Proof.
  intros H. apply div_nonneg; [|apply qlen_pos, H].
  apply Qsum_nonneg, Forall_map, Forall_forall. intros; apply sq_nonneg.
Qed.

(** The downside variance is positive exactly when a return is negative. *)
Lemma downside_variance_pos l :
  l <> [] -> (0 < downside_variance l <-> Exists (fun r => r < 0) l).
Proof.
  intros Hl. unfold downside_variance. split.
  - intros H. destruct (filter (fun r => qltb r 0) l) as [|r rs] eqn:E.
    + simpl in H. unfold Qdiv in H. lra.
    + apply Exists_exists. exists r.
      assert (Hin : In r (filter (fun r => qltb r 0) l)) by (rewrite E; now left).
      apply filter_In in Hin. destruct Hin as [Hin Hr].
      split; [exact Hin | now apply qltb_true].
  - intros H. apply div_pos; [|apply qlen_pos, Hl].
    apply Exists_exists in H. destruct H as (r & Hin & Hr).
    apply Qsum_pos.
    + intros E. apply map_eq_nil in E.
      assert (Hf : In r (filter (fun r => qltb r 0) l))
        by (apply filter_In; split; [exact Hin | now apply qltb_true]).
      rewrite E in Hf. destruct Hf.
    + apply Forall_map, Forall_forall. intros x Hx.
      apply filter_In in Hx. destruct Hx as [_ Hx].
      apply qltb_true in Hx. apply sq_pos. lra.
Qed.

Section SharpeSortino.
Context {SQ : Sqrt}.

Lemma sqrt_year_pos : 0 < qsqrt PTr.trades_per_year.
Proof. apply qsqrt_pos. unfold PTr.trades_per_year. lra. Qed.

Lemma py_mean l : py_sum l / qlen l == mean l.
Proof. unfold mean. now rewrite py_sum_Qsum. Qed.

Lemma py_variance l m :
  m == mean l ->
  py_sum (map (fun r => PTr.sq (r - m)) l) / qlen l == variance l.
Proof.
  intros Hm. unfold variance. rewrite py_sum_Qsum.
  apply Qdiv_comp; [|reflexivity].
  apply Qsum_map_ext. intros x. now rewrite Hm.
Qed.

Lemma py_downside_variance l :
  py_sum (map PTr.sq (filter (fun r => qltb r 0) l)) / qlen l
  == downside_variance l.
Proof. unfold downside_variance. now rewrite py_sum_Qsum. Qed.

#[export] Instance annualized_proper :
  Proper (Qeq ==> Qeq ==> Qeq ==> Qeq) annualized.
Proof. intros a a' Ha b b' Hb c c' Hc. unfold annualized. now rewrite Ha, Hb, Hc. Qed.

(** With fewer than two trades both ratios are 0, whatever the capital. *)
Lemma calculate_sharpe_short trades c rf :
  (length trades < 2)%nat -> PTr._calculate_sharpe trades c rf = Ok 0.
Proof.
  intros H. unfold PTr._calculate_sharpe.
  now apply Nat.ltb_lt in H; rewrite H.
Qed.

Lemma calculate_sortino_short trades c rf :
  (length trades < 2)%nat -> PTr._calculate_sortino trades c rf = Ok (Fin 0).
Proof.
  intros H. unfold PTr._calculate_sortino.
  now apply Nat.ltb_lt in H; rewrite H.
Qed.

(** On a capital that is not 0 the Sharpe ratio is computed without error,
    and it is the Sharpe ratio of the returns. *)
Lemma calculate_sharpe_ok trades c rf :
  (2 <= length trades)%nat -> ~ c == 0 ->
  exists s, PTr._calculate_sharpe trades c rf = Ok s
            /\ s == sharpe_spec (returns trades c) rf.
Proof.
  intros Hlen Hc. unfold PTr._calculate_sharpe.
  apply Nat.ltb_ge in Hlen. rewrite Hlen, (returns_of_ok _ _ Hc). cbn [bind].
  assert (Hne : returns trades c <> []).
  { unfold returns. intros E. apply map_eq_nil in E. subst. discriminate. }
  repeat (rewrite (qdiv_qlen _ _ Hne); cbn [bind]).
  match goal with |- context [qltb 0 ?x] => set (v := x) end.
  assert (Hv : v == variance (returns trades c)) by (apply py_variance, py_mean).
  unfold sharpe_spec.
  replace (qltb 0 (variance (returns trades c))) with (qltb 0 v)
    by now rewrite Hv.
  destruct (qltb_spec 0 v) as [Hpos|Hnp].
  - pose proof (qsqrt_pos v Hpos) as Hs. pose proof sqrt_year_pos as Hy.
    destruct (qeqb_spec (qsqrt v) 0) as [E|_]; [lra|].
    rewrite qdiv_ok by (unfold PTr.trades_per_year in *; nra).
    eexists; split; [reflexivity|].
    unfold annualized, PTr.trades_per_year. now rewrite py_mean, Hv.
  - destruct (qeqb_spec 0 0) as [_|E]; [|now destruct E].
    eexists; split; reflexivity.
Qed.

Lemma calculate_sharpe_err trades c rf :
  (2 <= length trades)%nat -> c == 0 ->
  PTr._calculate_sharpe trades c rf = Err ZeroDivisionError.
Proof.
  intros Hlen Hc. unfold PTr._calculate_sharpe.
  pose proof Hlen as Hl. apply Nat.ltb_ge in Hl. rewrite Hl.
  rewrite returns_of_err; [reflexivity | exact Hc |].
  intros E; subst; simpl in Hlen; lia.
Qed.

(** The same for the Sortino ratio. *)
Lemma negative_return_in l r rs :
  filter (fun r => qltb r 0) l = r :: rs -> Exists (fun r => r < 0) l.
Proof.
  intros E. apply Exists_exists. exists r.
  assert (Hin : In r (filter (fun r => qltb r 0) l)) by (rewrite E; now left).
  apply filter_In in Hin. split; [tauto | now apply qltb_true].
Qed.

Lemma no_negative_return l :
  filter (fun r => qltb r 0) l = [] -> ~ Exists (fun r => r < 0) l.
Proof.
  intros E H. apply Exists_exists in H. destruct H as (x & Hin & Hx).
  assert (Hf : In x (filter (fun r => qltb r 0) l))
    by (apply filter_In; split; [exact Hin | now apply qltb_true]).
  rewrite E in Hf. destruct Hf.
Qed.

Lemma calculate_sortino_ok trades c rf :
  (2 <= length trades)%nat -> ~ c == 0 ->
  exists s, PTr._calculate_sortino trades c rf = Ok s
            /\ xeq s (sortino_spec (returns trades c) rf).
Proof.
  intros Hlen Hc. unfold PTr._calculate_sortino.
  apply Nat.ltb_ge in Hlen. rewrite Hlen, (returns_of_ok _ _ Hc). cbn [bind].
  assert (Hne : returns trades c <> []).
  { unfold returns. intros E. apply map_eq_nil in E. subst. discriminate. }
  repeat (rewrite (qdiv_qlen _ _ Hne); cbn [bind]).
  pose proof (downside_variance_pos _ Hne) as Hpos.
  unfold sortino_spec.
  destruct (filter (fun r => qltb r 0) (returns trades c)) as [|r rs] eqn:E;
    [|cbv beta iota; rewrite <- E].
  - exists PInf. split; [reflexivity|].
    destruct (qltb_spec 0 (downside_variance (returns trades c))) as [H|_];
      [|exact I].
    apply Hpos in H. now apply no_negative_return in E.
  - pose proof (py_downside_variance (returns trades c)) as Hv.
    match goal with |- context [qsqrt ?x] => set (v := x) in * end.
    assert (Hvpos : 0 < v).
    { rewrite Hv. apply Hpos. eapply negative_return_in, E. }
    pose proof (qsqrt_pos v Hvpos) as Hs. pose proof sqrt_year_pos as Hy.
    destruct (qeqb_spec (qsqrt v) 0) as [E0|_]; [lra|].
    rewrite qdiv_ok by (unfold PTr.trades_per_year in *; nra).
    eexists; split; [reflexivity|].
    replace (qltb 0 (downside_variance (returns trades c))) with (qltb 0 v)
      by now rewrite Hv.
    apply qltb_true in Hvpos. rewrite Hvpos. simpl.
    unfold annualized, PTr.trades_per_year. now rewrite py_mean, Hv.
Qed.

Lemma calculate_sortino_err trades c rf :
  (2 <= length trades)%nat -> c == 0 ->
  PTr._calculate_sortino trades c rf = Err ZeroDivisionError.
Proof.
  intros Hlen Hc. unfold PTr._calculate_sortino.
  pose proof Hlen as Hl. apply Nat.ltb_ge in Hl. rewrite Hl.
  rewrite returns_of_err; [reflexivity | exact Hc |].
  intros E; subst; simpl in Hlen; lia.
Qed.

End SharpeSortino.

(** ** The drawdown loop *)

(** The decline from a peak to a capital, as a fraction of the peak. *)
Definition decline (peak capital : Q) : Q :=
  if qltb 0 peak then (peak - capital) / peak else 0.

Lemma drawdown_step_eq peak m c :
  PTr.drawdown_step (peak, m) c
  = (py_max peak c, py_max m (decline (py_max peak c) c)).
Proof. reflexivity. Qed.

Lemma decline_nonneg peak c : c <= peak -> 0 <= decline peak c.
Proof.
  intros H. unfold decline. destruct (qltb_spec 0 peak); [|lra].
  apply div_nonneg; lra.
Qed.

Lemma decline_le_1 peak c : 0 <= c -> decline peak c <= 1.
Proof.
  intros H. unfold decline. destruct (qltb_spec 0 peak) as [Hp|]; [|lra].
  apply Qle_shift_div_r; lra.
Qed.

Lemma decline_zero peak c : peak == c -> decline peak c == 0.
Proof.
  intros H. unfold decline. destruct (qltb_spec 0 peak); [|reflexivity].
  rewrite H. unfold Qdiv. ring.
Qed.

(** A decline measured from a lower peak is smaller. *)
Lemma decline_mono a peak c :
  0 < a -> a <= peak -> 0 <= c -> (a - c) / a <= decline peak c.
Proof.
  intros Ha Hp Hc. unfold decline.
  destruct (qltb_spec 0 peak) as [Hpos|]; [|lra].
  apply Qle_shift_div_l; [exact Hpos|].
  setoid_replace ((a - c) / a * peak) with (peak - c * (peak / a)) by (field; lra).
  assert (1 <= peak / a) by (apply Qle_shift_div_l; lra).
  nra.
Qed.

Section DrawdownLoop.
Variables (l : list Q).

Lemma drawdown_fold_ge : forall peak m,
  m <= snd (fold_left PTr.drawdown_step l (peak, m)).
Proof.
  induction l as [|c l' IH]; intros peak m; cbn [fold_left]; [simpl; lra|].
  rewrite drawdown_step_eq. eapply Qle_trans; [|apply IH]. apply py_max_ge_l.
Qed.

Lemma drawdown_fold_le_1 : forall peak m,
  Forall (fun c => 0 <= c) l -> m <= 1 ->
  snd (fold_left PTr.drawdown_step l (peak, m)) <= 1.
Proof.
  induction l as [|c l' IH]; intros peak m Hl Hm; cbn [fold_left]; [exact Hm|].
  inversion Hl; subst. rewrite drawdown_step_eq. apply IH; [assumption|].
  destruct (py_max_spec m (decline (py_max peak c) c)) as [[_ ->]|[_ ->]];
    [now apply decline_le_1 | exact Hm].
Qed.

Lemma drawdown_fold_sorted : forall peak m,
  StronglySorted Qle l -> Forall (fun c => peak <= c) l -> m == 0 ->
  snd (fold_left PTr.drawdown_step l (peak, m)) == 0.
Proof.
  induction l as [|c l' IH]; intros peak m Hs Hl Hm; cbn [fold_left];
    [exact Hm|].
  inversion Hs; subst. inversion Hl; subst. rewrite drawdown_step_eq.
  cbv beta in *.
  assert (Hpk : py_max peak c == c)
    by (destruct (py_max_spec peak c) as [[_ ->]|[? ->]]; lra).
  apply IH; [assumption | |].
  - eapply Forall_impl; [|exact H2]. cbv beta. intros; lra.
  - pose proof (decline_zero _ _ Hpk) as Hz.
    destruct (py_max_spec m (decline (py_max peak c) c)) as [[_ ->]|[_ ->]];
      assumption.
Qed.

End DrawdownLoop.

(** The loop dominates every decline from an earlier capital (or from the
    starting peak) to a later one. *)
Lemma drawdown_fold_dominates l1 : forall l2 peak m a c,
  0 < a -> 0 <= c -> a <= peak \/ In a l1 ->
  (a - c) / a
  <= snd (fold_left PTr.drawdown_step (l1 ++ c :: l2) (peak, m)).
Proof.
  induction l1 as [|x l1 IH]; intros l2 peak m a c Ha Hc Hin;
    cbn [app fold_left]; rewrite drawdown_step_eq.
  - destruct Hin as [Hin|[]].
    eapply Qle_trans; [|apply drawdown_fold_ge].
    eapply Qle_trans; [|apply py_max_ge_r].
    apply decline_mono; auto. pose proof (py_max_ge_l peak c). lra.
  - apply IH; auto.
    destruct Hin as [Hin|[<-|Hin]]; [left|left|now right].
    + pose proof (py_max_ge_l peak x). lra.
    + apply py_max_ge_r.
Qed.

Lemma max_drawdown_of_eq first rest :
  rest <> [] ->
  PTr.max_drawdown_of (first :: rest)
  = snd (fold_left PTr.drawdown_step (first :: rest) (first, 0)) * 100.
Proof. destruct rest; [congruence | reflexivity]. Qed.

(** ** [calculate_metrics] *)

Section CalculateMetrics.
Context {SQ : Sqrt}.

Lemma calculate_sharpe_total trades c rf :
  ~ c == 0 -> exists s, PTr._calculate_sharpe trades c rf = Ok s.
Proof.
  intros Hc. destruct (Nat.lt_ge_cases (length trades) 2) as [H|H].
  - eexists. now apply calculate_sharpe_short.
  - destruct (calculate_sharpe_ok trades c rf H Hc) as (s & Hs & _). eauto.
Qed.

Lemma calculate_sortino_total trades c rf :
  ~ c == 0 -> exists s, PTr._calculate_sortino trades c rf = Ok s.
Proof.
  intros Hc. destruct (Nat.lt_ge_cases (length trades) 2) as [H|H].
  - eexists. now apply calculate_sortino_short.
  - destruct (calculate_sortino_ok trades c rf H Hc) as (s & Hs & _). eauto.
Qed.

Lemma history_nonempty T name d :
  tracker_ok T -> d <> [] ->
  get_default (dict_get (PTr._capital_history T) name) d <> [].
Proof.
  intros (_ & _ & Hh) Hd.
  destruct (dict_get (PTr._capital_history T) name) as [h|] eqn:E; [|exact Hd].
  simpl. rewrite Forall_forall in Hh. eapply Hh, dict_get_values, E.
Qed.

Lemma py_max_list_ok l : l <> [] -> exists p, py_max_list l = Ok p.
Proof. destruct l; [congruence|]. simpl; eauto. Qed.

(** What [calculate_metrics] returns when there are closed trades: each
    field of the metrics, and the tracker with the metrics cached. *)
Record metrics_of (T : PTr.t) (pf : SP.t) (now : Z) (m : SM.t) : Prop := {
  mo_name : SM.strategy_name m = SP.strategy_name pf;
  mo_total_trades : SM.total_trades m = length (SP.closed_positions pf);
  mo_total_return :
    SM.total_return m = py_sum (map PP.pnl (SP.closed_positions pf));
  mo_total_return_pct :
    SM.total_return_pct m = SM.total_return m / SP.initial_capital pf * 100;
  mo_winning :
    SM.winning_trades m = length (filter PTr.is_win (SP.closed_positions pf));
  mo_losing :
    SM.losing_trades m = length (filter PTr.is_loss (SP.closed_positions pf));
  mo_win_rate :
    SM.win_rate m
    = qlen (filter PTr.is_win (SP.closed_positions pf))
      / qlen (SP.closed_positions pf) * 100;
  mo_average_win :
    PTr.mean_or 0 (map PP.pnl (filter PTr.is_win (SP.closed_positions pf)))
    = Ok (SM.average_win m);
  mo_average_loss :
    PTr.mean_or 0 (map PP.pnl (filter PTr.is_loss (SP.closed_positions pf)))
    = Ok (SM.average_loss m);
  mo_profit_factor :
    SM.profit_factor m
    = PTr.profit_factor_of (filter PTr.is_win (SP.closed_positions pf))
                           (filter PTr.is_loss (SP.closed_positions pf));
  mo_expectancy :
    SM.expectancy m = SM.total_return m / qlen (SP.closed_positions pf);
  mo_hold :
    PTr.mean_or 0 (PTr.hold_times (SP.closed_positions pf))
    = Ok (SM.average_hold_time_hours m);
  mo_sharpe :
    PTr._calculate_sharpe (SP.closed_positions pf) (SP.initial_capital pf) 0.05
    = Ok (SM.sharpe_ratio m);
  mo_sortino :
    PTr._calculate_sortino (SP.closed_positions pf) (SP.initial_capital pf) 0.05
    = Ok (SM.sortino_ratio m);
  mo_max_drawdown :
    SM.max_drawdown m
    = PTr._calculate_max_drawdown T (SP.strategy_name pf) pf;
  mo_peak :
    py_max_list (get_default (dict_get (PTr._capital_history T)
                                       (SP.strategy_name pf))
                             [SP.initial_capital pf])
    = Ok (SM.peak_capital m);
  mo_current : SM.current_capital m = SP.current_capital pf;
  mo_updated : SM.last_updated m = now;
}.

Lemma calculate_metrics_inv T pf now T' m :
  SP.closed_positions pf <> [] ->
  PTr.calculate_metrics T pf now = Ok (T', m) ->
  ~ SP.initial_capital pf == 0
  /\ T' = PTr.set_metrics T (dict_set (PTr._metrics T) (SP.strategy_name pf) m)
  /\ metrics_of T pf now m.
Proof.
  intros Hne H. unfold PTr.calculate_metrics in H.
  destruct (SP.closed_positions pf) as [|t ts] eqn:E; [congruence|].
  rewrite <- E in *. clear E.
  inv_bind H. apply qdiv_ok_inv in Hbind. destruct Hbind as [Hc ->].
  inv_bind H. apply qdiv_ok_inv in Hbind. destruct Hbind as [_ ->].
  inv_bind H. inv_bind H. inv_bind H.
  apply qdiv_ok_inv in Hbind1. destruct Hbind1 as [_ ->].
  do 4 inv_bind H. inversion H; subst; clear H.
  split; [exact Hc|]. split; [reflexivity|].
  constructor; simpl; auto.
Qed.

Lemma calculate_metrics_ok T pf now :
  SP.closed_positions pf <> [] -> ~ SP.initial_capital pf == 0 ->
  tracker_ok T ->
  exists m, PTr.calculate_metrics T pf now
            = Ok (PTr.set_metrics T (dict_set (PTr._metrics T)
                                              (SP.strategy_name pf) m), m).
Proof.
  intros Hne Hc HT. unfold PTr.calculate_metrics.
  destruct (SP.closed_positions pf) as [|t ts] eqn:E; [congruence|].
  rewrite <- E in *. clear E.
  rewrite (qdiv_ok _ _ Hc). cbn [bind].
  repeat (rewrite (qdiv_qlen _ _ Hne) || rewrite mean_or_ok; cbn [bind]).
  destruct (calculate_sharpe_total (SP.closed_positions pf) _ 0.05 Hc) as [s ->].
  destruct (calculate_sortino_total (SP.closed_positions pf) _ 0.05 Hc) as [s' ->].
  cbn [bind].
  destruct (py_max_list_ok _ (history_nonempty T (SP.strategy_name pf)
              [SP.initial_capital pf] HT ltac:(discriminate))) as [p ->].
  cbn [bind]. eauto.
Qed.

Lemma calculate_metrics_err T pf now :
  SP.closed_positions pf <> [] -> SP.initial_capital pf == 0 ->
  PTr.calculate_metrics T pf now = Err ZeroDivisionError.
Proof.
  intros Hne Hc. unfold PTr.calculate_metrics.
  destruct (SP.closed_positions pf); [congruence|].
  now rewrite (qdiv_err _ _ Hc).
Qed.

Lemma calculate_metrics_empty T pf now :
  SP.closed_positions pf = [] ->
  PTr.calculate_metrics T pf now
  = Ok (T, SM.set_current_capital (SM.init (SP.strategy_name pf) now)
                                  (SP.current_capital pf)).
Proof. intros E. unfold PTr.calculate_metrics. now rewrite E. Qed.

End CalculateMetrics.

(** [calculate_metrics] keeps the tracker well formed and touches neither
    the configuration nor the capital history. *)
Lemma calculate_metrics_tracker {SQ : Sqrt} T pf now T' m :
  PTr.calculate_metrics T pf now = Ok (T', m) ->
  PTr.config T' = PTr.config T /\
  PTr._capital_history T' = PTr._capital_history T /\
  (tracker_ok T -> tracker_ok T').
Proof.
  intros H. destruct (SP.closed_positions pf) as [|t ts] eqn:E.
  - rewrite calculate_metrics_empty in H by exact E. inversion H; subst. tauto.
  - apply calculate_metrics_inv in H; [|rewrite E; discriminate].
    destruct H as (_ & -> & _). repeat split; try apply H.
    simpl. now apply dict_set_wf, H.
Qed.
