(* ===== verification/MetricsProps.v ===== *)
(** * Theorems on the performance statistics

    What [calculate_metrics] returns and when it raises, the ratios
    against their definitions on lists, the maximum drawdown as the
    greatest peak-to-trough decline, the leaderboard, and the link between
    the statistics and the ledger's books. *)

From Stdlib Require Import String.
From Stdlib Require Import QArith Qabs Lqa Lia ZArith List Bool.
From Stdlib Require Import Permutation Sorted.
From S2P Require Import Prelude PyDict PySort Config Strategy Ledger.
From S2P Require Import LedgerInv LedgerSteps Metrics.
Import ListNotations.
Open Scope string_scope.
Open Scope list_scope.
Open Scope py_scope.

(** ** Demonstration data *)

Definition breakeven_portfolio : SP.t :=
  {| SP.strategy_name := "flat"; SP.initial_capital := 100;
     SP.current_capital := 100; SP.positions := [];
     SP.closed_positions := [trade "flat" "b1" 5 5 0 10] |}.

Definition zero_capital_portfolio : SP.t :=
  {| SP.strategy_name := "alpha"; SP.initial_capital := 0;
     SP.current_capital := 12; SP.positions := [];
     SP.closed_positions := three_trades |}.

Definition empty_portfolio : SP.t :=
  {| SP.strategy_name := "idle"; SP.initial_capital := 0;
     SP.current_capital := 0; SP.positions := [];
     SP.closed_positions := [] |}.

Lemma tracker0_ok : tracker_ok tracker0.
Proof. repeat split; constructor. Defined.

(** ** When [calculate_metrics] raises *)

Section Totality.
Context {SQ : Sqrt}.

(** C26. [calculate_metrics] returns metrics exactly when the portfolio has
    no closed trade or its initial capital is not 0; with closed trades on
    an initial capital of 0 it raises. *)
Theorem calculate_metrics_returns_iff T pf now :
  tracker_ok T ->
  (is_ok (PTr.calculate_metrics T pf now) = true
   <-> SP.closed_positions pf = [] \/ ~ SP.initial_capital pf == 0).
Proof.
  intros HT. split.
  - intros H. destruct (SP.closed_positions pf) as [|t ts] eqn:E; [now left|].
    right. intros Hc. rewrite calculate_metrics_err in H; [discriminate| |exact Hc].
    rewrite E; discriminate.
  - intros [E|Hc].
    + now rewrite calculate_metrics_empty.
    + destruct (SP.closed_positions pf) as [|t ts] eqn:E.
      * now rewrite calculate_metrics_empty.
      * destruct (calculate_metrics_ok T pf now) as [m ->]; auto.
        rewrite E; discriminate.
Qed.

(** With closed trades and an initial capital of 0,
    [calculate_metrics] raises ZeroDivisionError and caches nothing. *)
Theorem calculate_metrics_zero_capital T pf now :
  SP.closed_positions pf <> [] -> SP.initial_capital pf == 0 ->
  PTr.calculate_metrics T pf now = Err ZeroDivisionError.
Proof. apply calculate_metrics_err. Qed.

(** With no closed trade [calculate_metrics] returns the default
    metrics with the portfolio's capital, and the tracker is unchanged:
    the metrics are not cached. *)
Theorem calculate_metrics_no_trades T pf now T' m :
  SP.closed_positions pf = [] ->
  PTr.calculate_metrics T pf now = Ok (T', m) ->
  T' = T /\ SM.total_trades m = 0%nat /\ SM.total_return m = 0 /\
  SM.sharpe_ratio m = 0 /\ SM.profit_factor m = Fin 0 /\
  SM.max_drawdown m = 0 /\ SM.current_capital m = SP.current_capital pf.
Proof.
  intros E H. rewrite calculate_metrics_empty in H by exact E.
  inversion H; subst. repeat split.
Qed.

(** With closed trades the metrics returned are cached under the
    strategy's name, the cached metrics of other strategies are kept, and
    the capital history is untouched. *)
Theorem calculate_metrics_caches T pf now T' m :
  SP.closed_positions pf <> [] ->
  PTr.calculate_metrics T pf now = Ok (T', m) ->
  PTr.get_metrics T' (SP.strategy_name pf) = Some m /\
  (forall name, name <> SP.strategy_name pf ->
                PTr.get_metrics T' name = PTr.get_metrics T name) /\
  PTr._capital_history T' = PTr._capital_history T.
Proof.
  intros Hne H. apply calculate_metrics_inv in H; [|exact Hne].
  destruct H as (_ & -> & _). unfold PTr.get_metrics; simpl.
  split; [apply dict_get_set_same|]. split; [|reflexivity].
  intros name Hn. apply dict_get_set_diff. congruence.
Qed.

End Totality.

Lemma calculate_metrics_returns_iff_witness :
  is_ok (PTr.calculate_metrics tracker0 three_portfolio 0) = true
  <-> SP.closed_positions three_portfolio = []
      \/ ~ SP.initial_capital three_portfolio == 0.
Proof. exact (calculate_metrics_returns_iff tracker0 three_portfolio 0%Z tracker0_ok). Defined.

Lemma calculate_metrics_zero_capital_witness :
  PTr.calculate_metrics tracker0 zero_capital_portfolio 0 = Err ZeroDivisionError.
Proof.
  apply calculate_metrics_zero_capital; [discriminate | reflexivity].
Defined.

Lemma calculate_metrics_no_trades_witness :
  exists m, PTr.calculate_metrics tracker0 empty_portfolio 0 = Ok (tracker0, m)
            /\ SM.total_trades m = 0%nat.
Proof.
  eexists. split; [reflexivity|].
  eapply (calculate_metrics_no_trades tracker0 empty_portfolio 0%Z);
    reflexivity.
Defined.

Lemma calculate_metrics_caches_witness :
  exists T' m, PTr.calculate_metrics tracker0 three_portfolio 0 = Ok (T', m)
               /\ PTr.get_metrics T' "alpha" = Some m.
Proof.
  eexists; eexists. split; [vm_compute; reflexivity|].
  eapply (calculate_metrics_caches tracker0 three_portfolio 0%Z);
    [discriminate | vm_compute; reflexivity].
Defined.

(** ** Wins, losses and the profit factor *)

Lemma is_win_loss t : PTr.is_loss t = negb (PTr.is_win t).
Proof. unfold PTr.is_loss, PTr.is_win. qcases; try reflexivity; lra. Qed.

Lemma filter_length_negb {A} (p : A -> bool) l :
  (length (filter p l) + length (filter (fun x => negb (p x)) l))%nat = length l.
Proof. induction l as [|x l IH]; simpl; [reflexivity|]. destruct (p x); simpl; lia. Qed.

Lemma wins_losses_length trades :
  (length (filter PTr.is_win trades) + length (filter PTr.is_loss trades))%nat
  = length trades.
Proof.
  rewrite <- (filter_length_negb PTr.is_win trades). f_equal.
  f_equal. apply filter_ext. intros; apply is_win_loss.
Qed.

Lemma Qsum_losses_nonpos trades :
  Qsum (map PP.pnl (filter PTr.is_loss trades)) <= 0.
Proof.
  apply Qsum_nonpos, Forall_map, Forall_forall. intros t Ht.
  apply filter_In in Ht. now apply qleb_true.
Qed.

(** The losses add up to 0 exactly when no trade lost money. *)
Lemma Qsum_losses_zero trades :
  Qsum (map PP.pnl (filter PTr.is_loss trades)) == 0
  <-> Forall (fun t => 0 <= PP.pnl t) trades.
Proof.
  induction trades as [|t ts IH]; simpl; [split; [constructor|reflexivity]|].
  pose proof (Qsum_losses_nonpos ts) as Hs. unfold PTr.is_loss at 1.
  destruct (qleb_spec (PP.pnl t) 0) as [Hl|Hl]; simpl; split; intros H.
  - constructor; [lra|apply IH; lra].
  - inversion H; subst. apply IH in H3. lra.
  - constructor; [lra|now apply IH].
  - inversion H; subst. now apply IH.
Qed.

(** The profit factor is infinite exactly when no closed trade has a
    negative P&L, whether or not a trade won: a portfolio of break-even
    trades has an infinite profit factor. *)
Theorem profit_factor_inf_iff trades :
  PTr.profit_factor_of (filter PTr.is_win trades) (filter PTr.is_loss trades)
  = PInf
  <-> Forall (fun t => 0 <= PP.pnl t) trades.
Proof.
  rewrite <- Qsum_losses_zero. unfold PTr.profit_factor_of.
  pose proof (Qsum_losses_nonpos trades) as Hs.
  destruct (filter PTr.is_loss trades) as [|l ls] eqn:E.
  - simpl. split; [reflexivity|]. intros _. now destruct (qltb_spec 0 0); [lra|].
  - rewrite py_sum_Qsum.
    set (s := Qsum (map PP.pnl (l :: ls))) in *.
    pose proof (Qle_Qabs s) as H1. pose proof (Qle_Qabs (- s)) as H2.
    rewrite Qabs_opp in H2.
    destruct (qltb_spec 0 (Qabs s)) as [H|H].
    + split; [discriminate|]. intros Hz.
      assert (Qabs s == 0) by (rewrite Hz; reflexivity). lra.
    + split; [intros _; lra | reflexivity].
Qed.

(** A finite profit factor is the gross profit over the gross loss,
    and it is not negative. *)
Theorem profit_factor_finite trades f :
  PTr.profit_factor_of (filter PTr.is_win trades) (filter PTr.is_loss trades)
  = Fin f ->
  0 <= f /\
  f * - Qsum (map PP.pnl (filter PTr.is_loss trades))
  == Qsum (map PP.pnl (filter PTr.is_win trades)).
Proof.
  unfold PTr.profit_factor_of. intros H.
  pose proof (Qsum_losses_nonpos trades) as Hs.
  assert (Hw : 0 <= Qsum (map PP.pnl (filter PTr.is_win trades))).
  { apply Qsum_nonneg, Forall_map, Forall_forall. intros t Ht.
    apply filter_In in Ht. destruct Ht as [_ Ht]. apply qltb_true in Ht. lra. }
  destruct (filter PTr.is_loss trades) as [|l ls] eqn:E;
    [destruct (qltb_spec 0 0); [lra | discriminate]|].
  set (s := py_sum (map PP.pnl (l :: ls))) in *.
  assert (Hsp : Qsum (map PP.pnl (l :: ls)) == s)
    by (symmetry; apply py_sum_Qsum).
  rewrite Hsp in Hs |- *.
  destruct (qltb_spec 0 (Qabs s)) as [Hpos|]; [|discriminate].
  assert (Habs : Qabs s == - s) by (rewrite <- Qabs_opp; apply Qabs_pos; lra).
  assert (Hg : (match filter PTr.is_win trades with
                | [] => 0 | _ => py_sum (map PP.pnl (filter PTr.is_win trades))
                end) == Qsum (map PP.pnl (filter PTr.is_win trades)))
    by (destruct (filter PTr.is_win trades); [reflexivity | apply py_sum_Qsum]).
  injection H as <-. rewrite Hg, Habs. rewrite Habs in Hpos.
  split; [apply div_nonneg; lra | field; lra].
Qed.

Lemma profit_factor_finite_witness :
  exists f, PTr.profit_factor_of (filter PTr.is_win three_trades)
                                 (filter PTr.is_loss three_trades) = Fin f
            /\ 0 <= f.
Proof.
  eexists. split; [vm_compute; reflexivity|].
  eapply (profit_factor_finite three_trades). vm_compute; reflexivity.
Defined.

(** ** The metrics of a portfolio with closed trades *)

Section Ratios.
Context {SQ : Sqrt}.
Variables (T T' : PTr.t) (pf : SP.t) (now : Z) (m : SM.t).
Hypothesis Hcalc : PTr.calculate_metrics T pf now = Ok (T', m).

Local Abbreviation trades := (SP.closed_positions pf).

(** C34. With two closed trades or more the Sharpe ratio of the metrics is
    the annualised mean of the per-trade returns less the risk-free rate
    over their annualised standard deviation, and 0 when the returns do not
    vary. *)
Theorem sharpe_ratio_spec :
  (2 <= length trades)%nat ->
  SM.sharpe_ratio m
  == sharpe_spec (returns trades (SP.initial_capital pf)) 0.05.
Proof.
  intros Hlen. assert (Hne : trades <> []) by (intros E; rewrite E in Hlen; simpl in Hlen; lia).
  destruct (calculate_metrics_inv _ _ _ _ _ Hne Hcalc) as (Hc & _ & Hm).
  destruct (calculate_sharpe_ok trades _ 0.05 Hlen Hc) as (s & Hs & Hspec).
  pose proof (mo_sharpe _ _ _ _ Hm) as H. congruence.
Qed.

(** With two closed trades or more the Sortino ratio is infinite
    exactly when no trade has a negative return; otherwise it is the
    annualised excess return over the annualised downside deviation. *)
Theorem sortino_ratio_spec :
  (2 <= length trades)%nat ->
  xeq (SM.sortino_ratio m)
      (sortino_spec (returns trades (SP.initial_capital pf)) 0.05)
  /\ (SM.sortino_ratio m = PInf
      <-> Forall (fun r => 0 <= r) (returns trades (SP.initial_capital pf))).
Proof.
  intros Hlen. assert (Hne : trades <> []) by (intros E; rewrite E in Hlen; simpl in Hlen; lia).
  destruct (calculate_metrics_inv _ _ _ _ _ Hne Hcalc) as (Hc & _ & Hm).
  destruct (calculate_sortino_ok trades _ 0.05 Hlen Hc) as (s & Hs & Hspec).
  pose proof (mo_sortino _ _ _ _ Hm) as H.
  assert (s = SM.sortino_ratio m) as <- by congruence. split; [exact Hspec|].
  assert (Hr : returns trades (SP.initial_capital pf) <> [])
    by (unfold returns; intros E; apply map_eq_nil in E; auto).
  pose proof (downside_variance_pos _ Hr) as Hpos.
  unfold sortino_spec in Hspec.
  destruct (qltb_spec 0 (downside_variance (returns trades (SP.initial_capital pf))))
    as [Hd|Hd]; destruct s; simpl in Hspec; try tauto; split; try discriminate;
    try reflexivity; intros Hall.
  - apply Hpos, Exists_exists in Hd. destruct Hd as (r & Hin & Hr').
    rewrite Forall_forall in Hall. apply Hall in Hin. lra.
  - apply Forall_forall. intros r Hin.
    destruct (Qlt_le_dec r 0) as [Hneg|]; [|assumption].
    exfalso. apply Hd, Hpos, Exists_exists. eauto.
Qed.

(** The winners and the losers partition the closed trades, and the
    win rate is a percentage. *)
Theorem win_loss_partition :
  trades <> [] ->
  (SM.winning_trades m + SM.losing_trades m)%nat = SM.total_trades m /\
  SM.total_trades m = length trades /\
  0 <= SM.win_rate m <= 100 /\
  SM.win_rate m * qlen trades == 100 * inject_Z (Z.of_nat (SM.winning_trades m)).
Proof.
  intros Hne.
  destruct (calculate_metrics_inv _ _ _ _ _ Hne Hcalc) as (Hc & _ & Hm).
  rewrite (mo_winning _ _ _ _ Hm), (mo_losing _ _ _ _ Hm),
    (mo_total_trades _ _ _ _ Hm), (mo_win_rate _ _ _ _ Hm).
  pose proof (wins_losses_length trades) as Hp.
  pose proof (qlen_pos trades Hne) as Hl.
  pose proof (qlen_nonneg (filter PTr.is_win trades)) as Hw.
  assert (Hle : qlen (filter PTr.is_win trades) <= qlen trades).
  { unfold qlen. rewrite <- Zle_Qle. lia. }
  split; [exact Hp|]. split; [reflexivity|]. split; [split|].
  - assert (0 <= qlen (filter PTr.is_win trades) / qlen trades)
      by (apply div_nonneg; lra). lra.
  - assert (qlen (filter PTr.is_win trades) / qlen trades <= 1)
      by (apply Qle_shift_div_r; lra). lra.
  - unfold qlen in *. field. lra.
Qed.

(** The total return is the sum of the P&L of the closed trades; the
    expectancy is that sum per trade, and the percentage return is the sum
    over the initial capital. *)
Theorem total_return_spec :
  trades <> [] ->
  SM.total_return m == Qsum (map PP.pnl trades) /\
  SM.expectancy m * qlen trades == SM.total_return m /\
  SM.total_return_pct m * SP.initial_capital pf == 100 * SM.total_return m /\
  SM.total_return m
  == Qsum (map PP.pnl (filter PTr.is_win trades))
     + Qsum (map PP.pnl (filter PTr.is_loss trades)).
Proof.
  intros Hne.
  destruct (calculate_metrics_inv _ _ _ _ _ Hne Hcalc) as (Hc & _ & Hm).
  pose proof (qlen_pos trades Hne) as Hl.
  rewrite (mo_expectancy _ _ _ _ Hm), (mo_total_return_pct _ _ _ _ Hm),
    (mo_total_return _ _ _ _ Hm), py_sum_Qsum.
  split; [reflexivity|]. split; [field; lra|]. split; [field; exact Hc|].
  rewrite (Qsum_filter_split PTr.is_win). apply Qplus_comp; [reflexivity|].
  erewrite filter_ext; [reflexivity|]. intros; symmetry; apply is_win_loss.
Qed.

End Ratios.

Definition three_tracker : PTr.t :=
  match PTr.calculate_metrics tracker0 three_portfolio 0 with
  | Ok (T, _) => T
  | Err _ => tracker0
  end.

Definition three_metrics : SM.t :=
  match PTr.calculate_metrics tracker0 three_portfolio 0 with
  | Ok (_, m) => m
  | Err _ => SM.init "" 0
  end.

Lemma three_calc :
  PTr.calculate_metrics tracker0 three_portfolio 0
  = Ok (three_tracker, three_metrics).
Proof. vm_compute. reflexivity. Defined.

Lemma sharpe_ratio_spec_witness :
  SM.sharpe_ratio three_metrics == sharpe_spec (returns three_trades 100) 0.05.
Proof.
  apply (sharpe_ratio_spec tracker0 three_tracker three_portfolio 0%Z
           three_metrics three_calc).
  simpl; lia.
Defined.

Lemma sortino_ratio_spec_witness :
  SM.sortino_ratio three_metrics = PInf
  <-> Forall (fun r => 0 <= r) (returns three_trades 100).
Proof.
  apply (sortino_ratio_spec tracker0 three_tracker three_portfolio 0%Z
           three_metrics three_calc).
  simpl; lia.
Defined.

Lemma win_loss_partition_witness :
  (SM.winning_trades three_metrics + SM.losing_trades three_metrics)%nat
  = SM.total_trades three_metrics.
Proof.
  apply (win_loss_partition tracker0 three_tracker three_portfolio 0%Z
           three_metrics three_calc).
  discriminate.
Defined.

Lemma total_return_spec_witness :
  SM.total_return three_metrics == Qsum (map PP.pnl three_trades).
Proof.
  apply (total_return_spec tracker0 three_tracker three_portfolio 0%Z
           three_metrics three_calc).
  discriminate.
Defined.

(** ** The maximum drawdown *)

(** C35. On a history of capitals that are not negative the maximum
    drawdown is between 0 and 100 percent. *)
Theorem max_drawdown_bounds history :
  Forall (fun c => 0 <= c) history ->
  0 <= PTr.max_drawdown_of history <= 100.
Proof.
  intros Hh. destruct history as [|first [|c rest]]; [simpl; lra..|].
  rewrite max_drawdown_of_eq by discriminate.
  pose proof (drawdown_fold_ge (first :: c :: rest) first 0).
  pose proof (drawdown_fold_le_1 (first :: c :: rest) first 0 Hh).
  lra.
Qed.

Lemma max_drawdown_dominates_split history l a b l3 :
  history = l ++ b :: l3 -> In a l -> 0 < a -> 0 <= b ->
  (a - b) / a * 100 <= PTr.max_drawdown_of history.
Proof.
  intros E Hin Ha Hb.
  destruct history as [|first [|c rest]].
  - now destruct l.
  - apply (f_equal (@length Q)) in E. rewrite length_app in E.
    destruct l; [destruct Hin | simpl in E; lia].
  - rewrite max_drawdown_of_eq by discriminate. rewrite E.
    pose proof (drawdown_fold_dominates l l3 first 0 a b Ha Hb (or_intror Hin)).
    lra.
Qed.

(** The maximum drawdown is at least the decline, in percent, from
    any capital of the history that is positive to any later capital: it
    is an upper bound of every peak-to-trough loss. *)
Theorem max_drawdown_dominates l1 a l2 b l3 :
  Forall (fun c => 0 <= c) (l1 ++ a :: l2 ++ b :: l3) -> 0 < a ->
  (a - b) / a * 100 <= PTr.max_drawdown_of (l1 ++ a :: l2 ++ b :: l3).
Proof.
  intros Hh Ha.
  apply (max_drawdown_dominates_split _ (l1 ++ a :: l2) a b l3); auto.
  - now rewrite <- app_assoc.
  - rewrite in_app_iff. right. now left.
  - rewrite Forall_forall in Hh. apply Hh. rewrite in_app_iff. right. right.
    rewrite in_app_iff. right. now left.
Qed.

(** A history that never falls has a maximum drawdown of 0. *)
Theorem max_drawdown_monotone history :
  StronglySorted Qle history -> PTr.max_drawdown_of history == 0.
Proof.
  intros Hs. destruct history as [|first [|c rest]]; [reflexivity..|].
  rewrite max_drawdown_of_eq by discriminate.
  rewrite (drawdown_fold_sorted (first :: c :: rest) first 0 Hs); [lra| |reflexivity].
  inversion Hs; subst. constructor; [lra|assumption].
Qed.

Lemma max_drawdown_bounds_witness :
  0 <= PTr.max_drawdown_of [100; 110; 116; 112] <= 100.
Proof.
  apply max_drawdown_bounds. repeat constructor; discriminate.
Defined.

Lemma max_drawdown_dominates_witness :
  (116 - 112) / 116 * 100 <= PTr.max_drawdown_of [100; 110; 116; 112].
Proof.
  apply (max_drawdown_dominates [100; 110] 116 [] 112 []); [|reflexivity].
  repeat constructor; discriminate.
Defined.

Lemma max_drawdown_monotone_witness :
  PTr.max_drawdown_of [100; 110; 116] == 0.
Proof.
  apply max_drawdown_monotone. repeat constructor; discriminate.
Defined.

(** ** The statistics and the ledger *)

(** For a portfolio of a reachable ledger the total return of the
    metrics is the change of its capital since it was initialised. *)
Theorem total_return_matches_books {SQ : Sqrt} risk T name pf Tr Tr' now m :
  risk_ok risk -> reachable risk T ->
  PT.get_portfolio T name = Some pf -> SP.closed_positions pf <> [] ->
  PTr.calculate_metrics Tr pf now = Ok (Tr', m) ->
  SM.total_return m == SP.current_capital pf - SP.initial_capital pf.
Proof.
  intros Hrisk Hreach Hget Hne Hcalc.
  destruct (calculate_metrics_inv _ _ _ _ _ Hne Hcalc) as (_ & _ & Hm).
  rewrite (mo_total_return _ _ _ _ Hm).
  assert (Hb : books_balance T) by apply (reachable_inv risk T Hrisk Hreach).
  specialize (Hb name pf Hget). unfold SP.total_pnl in Hb. lra.
Qed.

(** ** The capital history *)

Lemma capital_curve_last c trades d :
  last (c :: PTr.capital_curve c trades) d == c + Qsum (map PP.pnl trades).
Proof.
  revert c; induction trades as [|t ts IH]; intros c; [simpl; lra|].
  change (last (c :: PTr.capital_curve c (t :: ts)) d)
    with (last ((c + PP.pnl t) :: PTr.capital_curve (c + PP.pnl t) ts) d).
  rewrite IH. simpl. lra.
Qed.

(** With no recorded snapshot the history walked for the drawdown
    starts at the initial capital and ends at the initial capital plus the
    total P&L, whatever the order of the closed trades. *)
Theorem rebuilt_history_ends T pf :
  dict_get (PTr._capital_history T) (SP.strategy_name pf) = None ->
  hd 0 (PTr.drawdown_history T (SP.strategy_name pf) pf)
  = SP.initial_capital pf /\
  last (PTr.drawdown_history T (SP.strategy_name pf) pf) 0
  == SP.initial_capital pf + SP.total_pnl pf.
Proof.
  intros E. unfold PTr.drawdown_history. rewrite E. cbn [get_default].
  split; [reflexivity|]. rewrite capital_curve_last.
  unfold SP.total_pnl. rewrite py_sum_Qsum.
  apply Qplus_comp; [reflexivity|]. apply Qsum_perm_proper, Permutation_map.
  symmetry. apply sort_by_perm.
Qed.

(** [record_capital_snapshot] appends the capital to the history of
    the strategy, leaves the other histories and the cache as they are,
    and keeps every history non-empty. *)
Theorem record_capital_snapshot_spec T name capital :
  tracker_ok T ->
  let T' := PTr.record_capital_snapshot T name capital in
  tracker_ok T' /\
  dict_get (PTr._capital_history T') name
  = Some (get_default (dict_get (PTr._capital_history T) name) [] ++ [capital]) /\
  (forall other, other <> name ->
     dict_get (PTr._capital_history T') other
     = dict_get (PTr._capital_history T) other) /\
  PTr._metrics T' = PTr._metrics T.
Proof.
  intros (Hm & Hh & Hne) T'. unfold T', PTr.record_capital_snapshot, tracker_ok.
  cbn [PTr._capital_history PTr._metrics].
  split; [|split; [apply dict_get_set_same|split; [|reflexivity]]].
  - split; [exact Hm|]. split; [now apply dict_set_wf|].
    apply Forall_forall. intros h Hin.
    apply dict_values_get in Hin; [|now apply dict_set_wf].
    destruct Hin as (k & Hk). rewrite dict_get_set in Hk. destruct (eq_dec name k).
    + injection Hk as <-. now destruct (get_default _ _).
    + rewrite Forall_forall in Hne. eapply Hne, dict_get_values, Hk.
  - intros other Ho. apply dict_get_set_diff. congruence.
Qed.

(** The peak capital of the metrics is at least every snapshot
    recorded for the strategy, and it is the initial capital when none was
    recorded. *)
Theorem peak_capital_spec {SQ : Sqrt} T pf now T' m :
  SP.closed_positions pf <> [] ->
  PTr.calculate_metrics T pf now = Ok (T', m) ->
  match dict_get (PTr._capital_history T) (SP.strategy_name pf) with
  | Some history => Forall (fun c => c <= SM.peak_capital m) history
  | None => SM.peak_capital m = SP.initial_capital pf
  end.
Proof.
  intros Hne H. apply calculate_metrics_inv in H; [|exact Hne].
  destruct H as (_ & _ & Hm). pose proof (mo_peak _ _ _ _ Hm) as Hp.
  destruct (dict_get _ _) as [[|c h]|]; simpl in Hp; try discriminate.
  - injection Hp as <-. constructor; [apply fold_py_max_ge|apply fold_py_max_upper].
  - now injection Hp.
Qed.

(** ** The leaderboard *)

(** The leaderboard holds exactly the cached metrics with the minimum
    number of trades, in the order of their Sharpe ratios from the
    greatest, and metrics of equal Sharpe ratio keep the order of the
    cache. *)
Theorem get_leaderboard_spec T :
  let qualified m :=
    (PerformanceConfig.min_trades_for_ranking (PTr.config T)
     <=? Z.of_nat (SM.total_trades m))%Z in
  StronglySorted (fun a b => SM.sharpe_ratio b <= SM.sharpe_ratio a)
                 (PTr.get_leaderboard T) /\
  Permutation (filter qualified (dict_values (PTr._metrics T)))
              (PTr.get_leaderboard T) /\
  forall k, filter (fun m => qeqb (SM.sharpe_ratio m) k) (PTr.get_leaderboard T)
            = filter (fun m => qeqb (SM.sharpe_ratio m) k)
                     (filter qualified (dict_values (PTr._metrics T))).
Proof.
  intros qualified. unfold PTr.get_leaderboard. fold qualified.
  split; [apply sorted_by_Q_desc_sorted|].
  split; [apply sort_by_perm|]. intros k. apply sorted_by_Q_desc_stable.
Qed.

(** ** Witnesses on the demonstration ledger *)

Definition demo_metrics : SM.t :=
  match PTr.calculate_metrics tracker0 demo_closed_portfolio 30 with
  | Ok (_, m) => m
  | Err _ => SM.init "" 0
  end.

Definition demo_tracker : PTr.t :=
  match PTr.calculate_metrics tracker0 demo_closed_portfolio 30 with
  | Ok (T, _) => T
  | Err _ => tracker0
  end.

Lemma demo_calc :
  PTr.calculate_metrics tracker0 demo_closed_portfolio 30
  = Ok (demo_tracker, demo_metrics).
Proof. vm_compute. reflexivity. Defined.

Lemma total_return_matches_books_witness :
  SM.total_return demo_metrics
  == SP.current_capital demo_closed_portfolio
     - SP.initial_capital demo_closed_portfolio.
Proof.
  apply (total_return_matches_books RiskConfig.default demo_closed
           "MeanReversion" demo_closed_portfolio tracker0 demo_tracker 30%Z
           demo_metrics demo_risk_ok demo_closed_reachable demo_closed_get);
    [discriminate | exact demo_calc].
Defined.

Lemma rebuilt_history_ends_witness :
  last (PTr.drawdown_history tracker0 "alpha" three_portfolio) 0
  == SP.initial_capital three_portfolio + SP.total_pnl three_portfolio.
Proof. apply (rebuilt_history_ends tracker0 three_portfolio). reflexivity. Defined.

Lemma record_capital_snapshot_spec_witness :
  tracker_ok (PTr.record_capital_snapshot tracker0 "alpha" 100).
Proof. apply (record_capital_snapshot_spec tracker0 "alpha" 100 tracker0_ok). Defined.

Lemma peak_capital_spec_witness :
  SM.peak_capital three_metrics = SP.initial_capital three_portfolio.
Proof.
  apply (peak_capital_spec tracker0 three_portfolio 0%Z three_tracker
           three_metrics); [discriminate | exact three_calc].
Defined.

(** ** The dictionary of the metrics *)

(** The dictionary has the eighteen keys of the literal, each once. *)
Lemma metrics_to_dict_wf m : dict_wf (SM.to_dict m).
Proof.
  unfold dict_wf. cbn.
  repeat (constructor; [cbn; intuition discriminate|]). constructor.
Qed.

(** [to_dict] loses no field: metrics with the same dictionary are the
    same metrics. *)
Theorem metrics_to_dict_inj m n : SM.to_dict m = SM.to_dict n -> m = n.
Proof.
  destruct m, n. unfold SM.to_dict, FNum. cbn.
  intros [= -> -> -> -> -> -> Ht Hw Hl -> -> -> -> -> -> -> -> ->].
  apply Nat2Z.inj in Ht, Hw, Hl. now subst.
Qed.
