(* ===== verification/Allocator.v ===== *)
(** * The capital allocator (src/src/allocator.py)

    [AllocationResult] and [CapitalAllocator]: the composite score, the
    ranking, the allocation of the total capital, and the rebalance that
    writes the allocations into the ledger.

    The allocator of the code holds references to the performance tracker
    and to the paper trader, which the orchestrator holds too; the state of
    the model carries both, and an operation that mutates one of them
    returns the allocator with the new tracker or trader in it.  Every
    call of [datetime.now()] in one operation reads the parameter [now].
    An interval of [h] hours is [h * 3600 * 10^6] microseconds, without
    the rounding of [timedelta] to a whole microsecond. *)

From Stdlib Require Import String.
From Stdlib Require Import QArith Qabs Lqa Lia ZArith List Bool.
From Stdlib Require Import Permutation Sorted.
From S2P Require Import Prelude PyDict PySort Config Strategy Ledger Metrics.
Import ListNotations.
Open Scope string_scope.
Open Scope list_scope.
Open Scope py_scope.

(** [class AllocationResult] *)
Module AllocationResult.
Record t : Type := mk {
  strategy_name : string;
  current_capital : Q;
  new_allocation : Q;
  allocation_change : Q;
  rank : nat;
  score : Q;
  reason : string;
}.

(** [r.new_allocation *= scale; r.allocation_change = r.new_allocation -
    r.current_capital] *)
Definition rescale (scale : Q) (r : t) : t :=
  let new_allocation := new_allocation r * scale in
  mk (strategy_name r) (current_capital r) new_allocation
     (new_allocation - current_capital r) (rank r) (score r) (reason r).
End AllocationResult.

(** [enumerate(l, start)] *)
Fixpoint enumerate {A : Type} (start : nat) (l : list A) : list (nat * A) :=
  match l with
  | [] => []
  | x :: l' => (start, x) :: enumerate (S start) l'
  end.

(** An entry of the ranking: [(strategy_name, score, metrics)]. *)
Definition ranking : Type := string * Q * StrategyMetrics.t.
Definition ranking_name (r : ranking) : string := fst (fst r).
Definition ranking_score (r : ranking) : Q := snd (fst r).
Definition ranking_metrics (r : ranking) : StrategyMetrics.t := snd r.

Module CapitalAllocator.

Record t : Type := mk {
  config : AllocatorConfig.t;
  performance_tracker : PerformanceTracker.t;
  paper_trader : PaperTrader.t;
  total_capital : Q;
  _last_rebalance : option Z;
  _allocation_history : list (Z * list AllocationResult.t);
}.

(** [__init__] *)
Definition init (config : AllocatorConfig.t)
    (performance_tracker : PerformanceTracker.t)
    (paper_trader : PaperTrader.t) (total_capital : Q) : t :=
  mk config performance_tracker paper_trader total_capital None [].

Definition set_tracker (A : t) (Tr : PerformanceTracker.t) : t :=
  mk (config A) Tr (paper_trader A) (total_capital A) (_last_rebalance A)
     (_allocation_history A).

(** [calculate_strategy_score] *)
Definition calculate_strategy_score (A : t) (metrics : StrategyMetrics.t) : Q :=
  if (StrategyMetrics.total_trades metrics <? 3)%nat then 0
  else
    let sharpe_score :=
      py_max 0 (py_min 1 (StrategyMetrics.sharpe_ratio metrics / 2)) in
    let win_rate_score := StrategyMetrics.win_rate metrics / 100 in
    let profit_factor_score :=
      py_max 0 (xmin_l 1 (xdiv_pos
                            (xsub (StrategyMetrics.profit_factor metrics) 1) 2)) in
    let drawdown_penalty :=
      py_min 1 (StrategyMetrics.max_drawdown metrics / 20) in
    let performance_score :=
      0.4 * sharpe_score + 0.3 * win_rate_score + 0.3 * profit_factor_score in
    let score :=
      AllocatorConfig.performance_weight (config A) * performance_score
      - AllocatorConfig.risk_weight (config A) * drawdown_penalty in
    py_max 0 score.

(** The body of the loop of [rank_strategies]: fresh metrics of one
    portfolio, which updates the tracker, and its score. *)
Definition rank_one {SQ : Sqrt} (now : Z)
    (st : t * list ranking) (item : string * StrategyPortfolio.t)
    : result (t * list ranking) :=
  let '(A, rankings) := st in
  let '(name, portfolio) := item in
  r <- PerformanceTracker.calculate_metrics (performance_tracker A) portfolio now ;;
  let '(Tr, metrics) := r in
  let score := calculate_strategy_score A metrics in
  Ok (set_tracker A Tr, rankings ++ [(name, score, metrics)]).

(** [rank_strategies] *)
Definition rank_strategies {SQ : Sqrt} (A : t) (now : Z)
    : result (t * list ranking) :=
  r <- foldM (rank_one now)
             (dict_items (PaperTrader.portfolios (paper_trader A))) (A, []) ;;
  let '(A, rankings) := r in
  Ok (A, sorted_by_Q_desc ranking_score rankings).

(** [portfolio.current_capital if portfolio else 0] *)
Definition current_of (A : t) (name : string) : Q :=
  match PaperTrader.get_portfolio (paper_trader A) name with
  | Some portfolio => StrategyPortfolio.current_capital portfolio
  | None => 0
  end.

(** The entry of the equal allocation. *)
Definition equal_result (A : t) (per_strategy : Q) (e : nat * ranking)
    : AllocationResult.t :=
  let '(rank, (name, score, metrics)) := e in
  {| AllocationResult.strategy_name := name;
     AllocationResult.current_capital := current_of A name;
     AllocationResult.new_allocation := per_strategy;
     AllocationResult.allocation_change := per_strategy - current_of A name;
     AllocationResult.rank := rank;
     AllocationResult.score := score;
     AllocationResult.reason := "equal_allocation_no_qualified" |}.

Definition reason_of (score : Q) (metrics : StrategyMetrics.t) : string :=
  if qleb 0.5 score then "high_performer"
  else if qleb 0.25 score then "moderate_performer"
  else if (StrategyMetrics.total_trades metrics <? 5)%nat
       then "insufficient_history"
       else "low_performer".

(** The entry of a qualified strategy: its share of the capital in
    proportion to its score, not under the minimum and not over half of
    the capital.  [equal_share] is [total_capital / len(qualified)]. *)
Definition qualified_result (A : t) (total_score equal_share min_allocation : Q)
    (e : nat * ranking) : AllocationResult.t :=
  let '(rank, (name, score, metrics)) := e in
  let current := current_of A name in
  let base_allocation :=
    if qltb 0 total_score then (score / total_score) * total_capital A
    else equal_share in
  let new_allocation := py_max min_allocation base_allocation in
  let new_allocation := py_min new_allocation (total_capital A * 0.5) in
  {| AllocationResult.strategy_name := name;
     AllocationResult.current_capital := current;
     AllocationResult.new_allocation := new_allocation;
     AllocationResult.allocation_change := new_allocation - current;
     AllocationResult.rank := rank;
     AllocationResult.score := score;
     AllocationResult.reason := reason_of score metrics |}.

(** The filter of [calculate_allocations]. *)
Definition is_qualified (A : t) (r : ranking) : bool :=
  qltb 0 (ranking_score r)
  || (Z.of_nat (StrategyMetrics.total_trades (ranking_metrics r))
      <? PerformanceConfig.min_trades_for_ranking
           (PerformanceTracker.config (performance_tracker A)))%Z.

(** The normalisation at the end of [calculate_allocations]. *)
Definition normalize (total_capital : Q) (results : list AllocationResult.t)
    : result (list AllocationResult.t) :=
  let total_allocated := py_sum (map AllocationResult.new_allocation results) in
  if qltb total_capital total_allocated then
    scale <- qdiv total_capital total_allocated ;;
    Ok (map (AllocationResult.rescale scale) results)
  else Ok results.

(** The allocations of a ranking. *)
Definition allocate (A : t) (rankings : list ranking)
    : result (list AllocationResult.t) :=
  match rankings with
  | [] => Ok []
  | _ :: _ =>
    match filter (is_qualified A) rankings with
    | [] =>
      per_strategy <- qdiv (total_capital A) (qlen rankings) ;;
      Ok (map (equal_result A per_strategy) (enumerate 1 rankings))
    | (_ :: _) as qualified =>
      let total_score := py_sum (map ranking_score qualified) in
      equal_share <- qdiv (total_capital A) (qlen qualified) ;;
      let min_allocation := equal_share * 0.1 in
      normalize (total_capital A)
        (map (qualified_result A total_score equal_share min_allocation)
             (enumerate 1 qualified))
    end
  end.

(** [calculate_allocations] *)
Definition calculate_allocations {SQ : Sqrt} (A : t) (now : Z)
    : result (t * list AllocationResult.t) :=
  r <- rank_strategies A now ;;
  let '(A, rankings) := r in
  results <- allocate A rankings ;;
  Ok (A, results).

(** [should_rebalance] *)
Definition should_rebalance (A : t) (now : Z) : bool :=
  match _last_rebalance A with
  | None => true
  | Some last =>
    let elapsed := inject_Z (now - last) in
    let interval :=
      AllocatorConfig.rebalance_interval_hours (config A) * 3600 * 1000000 in
    qleb interval elapsed
  end.

(** The body of the loop of [rebalance]: the capital and the baseline of
    the portfolio become the allocation. *)
Definition apply_allocation (T : PaperTrader.t) (alloc : AllocationResult.t)
    : PaperTrader.t :=
  match PaperTrader.get_portfolio T (AllocationResult.strategy_name alloc) with
  | Some portfolio =>
    PaperTrader.set_portfolios T
      (dict_set (PaperTrader.portfolios T)
         (AllocationResult.strategy_name alloc)
         {| StrategyPortfolio.strategy_name :=
              StrategyPortfolio.strategy_name portfolio;
            StrategyPortfolio.initial_capital :=
              AllocationResult.new_allocation alloc;
            StrategyPortfolio.current_capital :=
              AllocationResult.new_allocation alloc;
            StrategyPortfolio.positions := StrategyPortfolio.positions portfolio;
            StrategyPortfolio.closed_positions :=
              StrategyPortfolio.closed_positions portfolio |})
  | None => T
  end.

(** [rebalance] *)
Definition rebalance {SQ : Sqrt} (A : t) (now : Z)
    : result (t * list AllocationResult.t) :=
  if negb (should_rebalance A now) then Ok (A, [])
  else
    r <- calculate_allocations A now ;;
    let '(A, allocations) := r in
    let trader := fold_left apply_allocation allocations (paper_trader A) in
    Ok (mk (config A) (performance_tracker A) trader (total_capital A)
           (Some now) (_allocation_history A ++ [(now, allocations)]),
        allocations).

(** An entry of the list [strategies] of [get_allocation_summary]. *)
Module SummaryRow.
Record t : Type := mk {
  name : string;
  allocation : Q;
  allocation_pct : Q;
  rank : nat;
  score : Q;
  reason : string;
}.
End SummaryRow.

Definition summary_row (total_capital : Q) (a : AllocationResult.t)
    : result SummaryRow.t :=
  q <- qdiv (AllocationResult.new_allocation a) total_capital ;;
  Ok {| SummaryRow.name := AllocationResult.strategy_name a;
        SummaryRow.allocation := AllocationResult.new_allocation a;
        SummaryRow.allocation_pct := q * 100;
        SummaryRow.rank := AllocationResult.rank a;
        SummaryRow.score := AllocationResult.score a;
        SummaryRow.reason := AllocationResult.reason a |}.

(** [get_allocation_summary]: the total capital, the time of the last
    rebalance and the rows. *)
Definition get_allocation_summary {SQ : Sqrt} (A : t) (now : Z)
    : result (t * (Q * option Z * list SummaryRow.t)) :=
  r <- calculate_allocations A now ;;
  let '(A, allocations) := r in
  rows <- mapM (summary_row (total_capital A)) allocations ;;
  Ok (A, (total_capital A, _last_rebalance A, rows)).

End CapitalAllocator.

Module CA := CapitalAllocator.
Module AR := AllocationResult.

(** ** Lemmas on the helpers *)

Lemma enumerate_length {A} (l : list A) n : length (enumerate n l) = length l.
Proof. revert n; induction l; simpl; auto. Qed.

Lemma enumerate_snd {A} (l : list A) n : map snd (enumerate n l) = l.
Proof. revert n; induction l as [|x l IH]; intros n; simpl; [|rewrite IH]; reflexivity. Qed.

Lemma enumerate_fst {A} (l : list A) n : map fst (enumerate n l) = seq n (length l).
Proof. revert n; induction l as [|x l IH]; intros n; simpl; [|rewrite IH]; reflexivity. Qed.

Lemma qlen_enumerate {A} (l : list A) n : qlen (enumerate n l) = qlen l.
Proof. unfold qlen. now rewrite enumerate_length. Qed.

Lemma equal_result_allocation A per e :
  AR.new_allocation (CA.equal_result A per e) = per.
Proof. destruct e as [rank [[name score] metrics]]. reflexivity. Qed.

Lemma equal_result_name A per e :
  AR.strategy_name (CA.equal_result A per e) = ranking_name (snd e).
Proof. destruct e as [rank [[name score] metrics]]. reflexivity. Qed.

Lemma qualified_result_name A ts es ma e :
  AR.strategy_name (CA.qualified_result A ts es ma e) = ranking_name (snd e).
Proof. destruct e as [rank [[name score] metrics]]. reflexivity. Qed.

Lemma qualified_result_rank A ts es ma e :
  AR.rank (CA.qualified_result A ts es ma e) = fst e.
Proof. destruct e as [rank [[name score] metrics]]. reflexivity. Qed.

Lemma equal_result_rank A per e : AR.rank (CA.equal_result A per e) = fst e.
Proof. destruct e as [rank [[name score] metrics]]. reflexivity. Qed.

(** A qualified strategy gets at most half of the capital, and at least
    the smaller of the minimum and half of the capital. *)
Lemma qualified_result_bounds A ts es ma e :
  let a := AR.new_allocation (CA.qualified_result A ts es ma e) in
  a <= CA.total_capital A * 0.5 /\
  (ma <= CA.total_capital A * 0.5 -> ma <= a).
Proof.
  destruct e as [rank [[name score] metrics]]. simpl.
  set (base := if qltb 0 ts then _ else _).
  pose proof (py_max_ge_l ma base).
  destruct (py_min_spec (py_max ma base) (CA.total_capital A * 0.5))
    as [[? ->]|[? ->]]; split; intros; lra.
Qed.

Lemma rescale_allocation scale r :
  AR.new_allocation (AR.rescale scale r) = AR.new_allocation r * scale.
Proof. reflexivity. Qed.

Lemma Qsum_rescale scale rs :
  Qsum (map AR.new_allocation (map (AR.rescale scale) rs))
  == scale * Qsum (map AR.new_allocation rs).
Proof.
  rewrite map_map.
  rewrite (Qsum_map_ext _ (fun r => AR.new_allocation r * scale))
    by (intros; apply Qeq_refl).
  rewrite Qsum_map_scale. ring.
Qed.

(** ** The normalisation *)

Lemma normalize_inv total rs rs' :
  CA.normalize total rs = Ok rs' ->
  (Qsum (map AR.new_allocation rs) <= total /\ rs' = rs) \/
  (total < Qsum (map AR.new_allocation rs) /\
   ~ Qsum (map AR.new_allocation rs) == 0 /\
   rs' = map (AR.rescale (total / py_sum (map AR.new_allocation rs))) rs).
Proof.
  unfold CA.normalize. intros H.
  pose proof (py_sum_Qsum (map AR.new_allocation rs)) as Hs.
  destruct (qltb_spec total (py_sum (map AR.new_allocation rs))) as [Hlt|Hge].
  - right. inv_bind H. apply qdiv_ok_inv in Hbind. destruct Hbind as [Hnz ->].
    inversion H; subst. repeat split; [lra | lra].
  - left. inversion H; subst. split; [lra | reflexivity].
Qed.

Lemma normalize_sum total rs rs' :
  CA.normalize total rs = Ok rs' ->
  Qsum (map AR.new_allocation rs') <= total.
Proof.
  intros H. apply normalize_inv in H.
  destruct H as [[Hle ->]|(Hlt & Hnz & ->)]; [exact Hle|].
  rewrite Qsum_rescale, py_sum_Qsum.
  setoid_replace (total / Qsum (map AR.new_allocation rs)
                  * Qsum (map AR.new_allocation rs)) with total
    by (field; exact Hnz).
  lra.
Qed.

(** The normalisation raises only on a negative capital with allocations
    that add up to 0. *)
Lemma normalize_ok total rs :
  (total < 0 -> Qsum (map AR.new_allocation rs) < 0) ->
  exists rs', CA.normalize total rs = Ok rs'.
Proof.
  intros Hneg. unfold CA.normalize.
  pose proof (py_sum_Qsum (map AR.new_allocation rs)) as Hs.
  destruct (qltb_spec total (py_sum (map AR.new_allocation rs))) as [Hlt|Hge];
    [|eauto].
  rewrite qdiv_ok; [simpl; eauto|].
  destruct (Qlt_le_dec total 0) as [Ht|Ht]; [apply Hneg in Ht|]; lra.
Qed.

(** ** The allocation of a ranking *)

Lemma Qsum_le_const l c : Forall (fun x => x <= c) l -> Qsum l <= qlen l * c.
Proof.
  induction 1 as [|x l Hx _ IH];
    [change (qlen (@nil Q)) with 0; simpl; lra|].
  rewrite qlen_cons. simpl. lra.
Qed.

(** The three cases of [calculate_allocations]. *)
Inductive allocate_case (A : CA.t) (rankings : list ranking)
    (rs : list AR.t) : Prop :=
| alloc_none : rankings = [] -> rs = [] -> allocate_case A rankings rs
| alloc_equal :
    rankings <> [] -> filter (CA.is_qualified A) rankings = [] ->
    rs = map (CA.equal_result A (CA.total_capital A / qlen rankings))
             (enumerate 1 rankings) ->
    allocate_case A rankings rs
| alloc_qualified :
    let qualified := filter (CA.is_qualified A) rankings in
    let equal_share := CA.total_capital A / qlen qualified in
    qualified <> [] ->
    CA.normalize (CA.total_capital A)
      (map (CA.qualified_result A (py_sum (map ranking_score qualified))
                                equal_share (equal_share * 0.1))
           (enumerate 1 qualified)) = Ok rs ->
    allocate_case A rankings rs.

Lemma allocate_inv A rankings rs :
  CA.allocate A rankings = Ok rs -> allocate_case A rankings rs.
Proof.
  unfold CA.allocate. intros H.
  destruct rankings as [|r rankings']; [inversion H; now apply alloc_none|].
  set (rankings := r :: rankings') in *.
  destruct (filter (CA.is_qualified A) rankings) as [|q qs] eqn:E.
  - inv_bind H. apply qdiv_ok_inv in Hbind. destruct Hbind as [_ ->].
    inversion H. apply alloc_equal; auto. discriminate.
  - inv_bind H. apply qdiv_ok_inv in Hbind. destruct Hbind as [_ ->].
    apply alloc_qualified; rewrite E; [discriminate | exact H].
Qed.

Lemma min_allocation_le total n :
  0 <= total -> 1 <= n -> 0 <= total / n * 0.1 <= total * 0.5.
Proof.
  intros Ht Hn. assert (0 <= total / n) by (apply div_nonneg; lra).
  assert (total / n <= total) by (apply Qle_shift_div_r; nra).
  lra.
Qed.

Lemma qlen_ge_1 {A} (l : list A) : l <> [] -> 1 <= qlen l.
Proof.
  destruct l; [congruence|]. intros _. rewrite qlen_cons.
  pose proof (qlen_nonneg l). lra.
Qed.

(** Before the normalisation the allocation of each qualified strategy is
    between 0 and half of the capital, when the capital is not negative. *)
Lemma qualified_results_bounds A ts (l : list (nat * ranking)) n :
  0 <= CA.total_capital A -> 1 <= n ->
  Forall (fun r => 0 <= AR.new_allocation r <= CA.total_capital A * 0.5)
    (map (CA.qualified_result A ts (CA.total_capital A / n)
                              (CA.total_capital A / n * 0.1)) l).
Proof.
  intros Ht Hn. apply Forall_map, Forall_forall. intros e _.
  pose proof (min_allocation_le _ _ Ht Hn).
  destruct (qualified_result_bounds A ts (CA.total_capital A / n)
              (CA.total_capital A / n * 0.1) e) as [Hhi Hlo].
  split; [lra | exact Hhi].
Qed.

Lemma qualified_results_negative A ts es ma (l : list (nat * ranking)) :
  l <> [] -> CA.total_capital A < 0 ->
  Qsum (map AR.new_allocation (map (CA.qualified_result A ts es ma) l)) < 0.
Proof.
  intros Hl Ht.
  eapply Qle_lt_trans; [apply (Qsum_le_const _ (CA.total_capital A * 0.5))|].
  - apply Forall_map, Forall_map, Forall_forall. intros e _.
    apply qualified_result_bounds.
  - rewrite !qlen_map. pose proof (qlen_ge_1 l Hl). nra.
Qed.

(** [calculate_allocations] does not raise once the ranking is there. *)
Lemma allocate_ok A rankings : exists rs, CA.allocate A rankings = Ok rs.
Proof.
  unfold CA.allocate. destruct rankings as [|r rankings']; [eauto|].
  set (rankings := r :: rankings').
  destruct (filter (CA.is_qualified A) rankings) as [|q qs] eqn:E.
  - rewrite qdiv_qlen by discriminate. simpl; eauto.
  - rewrite qdiv_qlen by discriminate. cbn [bind].
    apply normalize_ok. intros Ht. apply qualified_results_negative; [|exact Ht].
    discriminate.
Qed.

Lemma rescale_bounds scale hi r :
  0 <= scale <= 1 -> 0 <= AR.new_allocation r <= hi ->
  0 <= AR.new_allocation (AR.rescale scale r) <= hi.
Proof. intros Hs Hr. rewrite rescale_allocation. nra. Qed.

Lemma normalize_bounds total hi rs rs' :
  0 <= total ->
  Forall (fun r => 0 <= AR.new_allocation r <= hi) rs ->
  CA.normalize total rs = Ok rs' ->
  Forall (fun r => 0 <= AR.new_allocation r <= hi) rs'.
Proof.
  intros Ht Hrs H. apply normalize_inv in H.
  destruct H as [[_ ->]|(Hlt & Hnz & ->)]; [exact Hrs|].
  apply Forall_map. eapply Forall_impl; [|exact Hrs]. cbv beta.
  intros r Hr. apply rescale_bounds; [|exact Hr].
  rewrite py_sum_Qsum. split; [apply div_nonneg; lra|].
  apply Qle_shift_div_r; lra.
Qed.

Lemma normalize_names total rs rs' :
  CA.normalize total rs = Ok rs' ->
  map AR.strategy_name rs' = map AR.strategy_name rs /\
  map AR.rank rs' = map AR.rank rs.
Proof.
  intros H. apply normalize_inv in H.
  destruct H as [[_ ->]|(_ & _ & ->)]; [split; reflexivity|].
  rewrite !map_map. split; reflexivity.
Qed.

(** ** The ranking *)

(** Two allocators that differ in the metrics cache of the tracker only:
    what [rank_strategies] changes. *)
Definition same_but_cache (A A' : CA.t) : Prop :=
  CA.config A' = CA.config A /\ CA.paper_trader A' = CA.paper_trader A /\
  CA.total_capital A' = CA.total_capital A /\
  CA._last_rebalance A' = CA._last_rebalance A /\
  CA._allocation_history A' = CA._allocation_history A /\
  PTr.config (CA.performance_tracker A') = PTr.config (CA.performance_tracker A) /\
  PTr._capital_history (CA.performance_tracker A')
  = PTr._capital_history (CA.performance_tracker A) /\
  (tracker_ok (CA.performance_tracker A) -> tracker_ok (CA.performance_tracker A')).

Lemma same_but_cache_refl A : same_but_cache A A.
Proof. unfold same_but_cache; tauto. Qed.

Lemma same_but_cache_trans A B C :
  same_but_cache A B -> same_but_cache B C -> same_but_cache A C.
Proof. unfold same_but_cache. intuition congruence. Qed.

Lemma score_same_config A A' m :
  CA.config A' = CA.config A ->
  CA.calculate_strategy_score A' m = CA.calculate_strategy_score A m.
Proof. intros H. unfold CA.calculate_strategy_score. now rewrite H. Qed.

Section Ranking.
Context {SQ : Sqrt}.
Variable now : Z.

Lemma rank_one_inv A acc name pf A' rankings :
  CA.rank_one now (A, acc) (name, pf) = Ok (A', rankings) ->
  same_but_cache A A' /\
  exists m, rankings = acc ++ [(name, CA.calculate_strategy_score A m, m)].
Proof.
  unfold CA.rank_one. intros H. inv_bind H. destruct a as [Tr m].
  inversion H; subst; clear H.
  apply calculate_metrics_tracker in Hbind. destruct Hbind as (Hc & Hh & Hok).
  split; [unfold same_but_cache; simpl; tauto | eauto].
Qed.

Lemma rank_fold_inv items : forall A acc A' rankings,
  foldM (CA.rank_one now) items (A, acc) = Ok (A', rankings) ->
  same_but_cache A A' /\
  map ranking_name rankings = map ranking_name acc ++ map fst items /\
  (Forall (fun r => ranking_score r
                    = CA.calculate_strategy_score A (ranking_metrics r)) acc ->
   Forall (fun r => ranking_score r
                    = CA.calculate_strategy_score A (ranking_metrics r)) rankings).
Proof.
  induction items as [|[name pf] items IH]; intros A acc A' rankings H.
  - inversion H; subst. split; [apply same_but_cache_refl|].
    split; [now rewrite app_nil_r | auto].
  - cbn [foldM] in H. inv_bind H. destruct a as [A1 acc1].
    apply rank_one_inv in Hbind. destruct Hbind as (Hs1 & m & ->).
    apply IH in H. destruct H as (Hs2 & Hn & Hsc).
    split; [eapply same_but_cache_trans; eassumption|]. split.
    + rewrite Hn, map_app, <- app_assoc. reflexivity.
    + intros Hacc.
      assert (Hcfg : CA.config A1 = CA.config A) by apply Hs1.
      eapply Forall_impl; [|apply Hsc].
      * intros r Hr. now rewrite <- (score_same_config A A1).
      * apply Forall_app. split.
        -- eapply Forall_impl; [|exact Hacc].
           intros r Hr. now rewrite (score_same_config A A1).
        -- constructor; [|constructor]. symmetry.
           now apply score_same_config.
Qed.

Lemma rank_strategies_inv A A' rankings :
  CA.rank_strategies A now = Ok (A', rankings) ->
  same_but_cache A A' /\
  Permutation (dict_keys (PT.portfolios (CA.paper_trader A)))
              (map ranking_name rankings) /\
  StronglySorted (fun a b => ranking_score b <= ranking_score a) rankings /\
  Forall (fun r => ranking_score r
                   = CA.calculate_strategy_score A (ranking_metrics r)) rankings.
Proof.
  unfold CA.rank_strategies. intros H. inv_bind H. destruct a as [A1 rs].
  inversion H; subst; clear H. apply rank_fold_inv in Hbind.
  destruct Hbind as (Hs & Hn & Hsc). split; [exact Hs|]. split; [|split].
  - simpl in Hn. unfold dict_keys, dict_items in *. rewrite <- Hn.
    apply Permutation_map, sort_by_perm.
  - apply sorted_by_Q_desc_sorted.
  - apply Forall_forall. intros r Hr. apply sort_by_In in Hr.
    specialize (Hsc (Forall_nil _)). rewrite Forall_forall in Hsc. auto.
Qed.

(** The ranking is computed without error when every portfolio with a
    closed trade has an initial capital that is not 0. *)
Lemma rank_fold_ok items : forall A acc,
  tracker_ok (CA.performance_tracker A) ->
  Forall (fun item => SP.closed_positions (snd item) = []
                      \/ ~ SP.initial_capital (snd item) == 0) items ->
  exists r, foldM (CA.rank_one now) items (A, acc) = Ok r.
Proof.
  induction items as [|[name pf] items IH]; intros A acc HT Hall; [simpl; eauto|].
  inversion Hall as [|? ? Hpf Hrest]; subst. cbn [foldM]. cbn [snd] in Hpf.
  assert (Hm : exists r, PTr.calculate_metrics (CA.performance_tracker A) pf now
                         = Ok r).
  { destruct (SP.closed_positions pf) as [|t ts] eqn:E.
    - rewrite calculate_metrics_empty by exact E. eauto.
    - destruct Hpf as [Hpf|Hpf]; [congruence|].
      destruct (calculate_metrics_ok (CA.performance_tracker A) pf now)
        as [m ->]; eauto. rewrite E; discriminate. }
  destruct Hm as [[Tr m] Hm]. unfold CA.rank_one at 1. rewrite Hm. cbn [bind].
  apply IH; [|exact Hrest]. simpl.
  now apply (calculate_metrics_tracker _ _ _ _ _ Hm).
Qed.

End Ranking.

(** ** The rebalance *)

(** A portfolio after the rebalance wrote [c] in it. *)
Definition rebased (pf : SP.t) (c : Q) : SP.t :=
  {| SP.strategy_name := SP.strategy_name pf;
     SP.initial_capital := c;
     SP.current_capital := c;
     SP.positions := SP.positions pf;
     SP.closed_positions := SP.closed_positions pf |}.

Lemma apply_allocation_get T alloc name :
  dict_get (PT.portfolios (CA.apply_allocation T alloc)) name
  = if eq_dec (AR.strategy_name alloc) name
    then option_map (fun pf => rebased pf (AR.new_allocation alloc))
                    (dict_get (PT.portfolios T) name)
    else dict_get (PT.portfolios T) name.
Proof.
  unfold CA.apply_allocation, PT.get_portfolio.
  destruct (eq_dec (AR.strategy_name alloc) name) as [<-|Hne].
  - destruct (dict_get (PT.portfolios T) (AR.strategy_name alloc)) as [pf|] eqn:E;
      simpl; [apply dict_get_set_same | exact E].
  - destruct (dict_get (PT.portfolios T) (AR.strategy_name alloc)) as [pf|];
      simpl; [now apply dict_get_set_diff | reflexivity].
Qed.

Lemma apply_allocations_other allocs : forall T name,
  ~ In name (map AR.strategy_name allocs) ->
  dict_get (PT.portfolios (fold_left CA.apply_allocation allocs T)) name
  = dict_get (PT.portfolios T) name.
Proof.
  induction allocs as [|a allocs IH]; intros T name Hn; [reflexivity|].
  cbn [fold_left]. simpl in Hn. rewrite IH by tauto.
  rewrite apply_allocation_get. destruct (eq_dec _ _); [tauto | reflexivity].
Qed.

Lemma apply_allocations_get allocs : forall T alloc pf,
  NoDup (map AR.strategy_name allocs) -> In alloc allocs ->
  dict_get (PT.portfolios T) (AR.strategy_name alloc) = Some pf ->
  dict_get (PT.portfolios (fold_left CA.apply_allocation allocs T))
           (AR.strategy_name alloc)
  = Some (rebased pf (AR.new_allocation alloc)).
Proof.
  induction allocs as [|a allocs IH]; intros T alloc pf Hnd Hin Hget;
    [destruct Hin|].
  cbn [fold_left]. inversion Hnd as [|? ? Hni Hnd']; subst.
  destruct Hin as [->|Hin].
  - rewrite apply_allocations_other by exact Hni.
    rewrite apply_allocation_get. destruct (eq_dec _ _); [|congruence].
    now rewrite Hget.
  - apply IH; auto. rewrite apply_allocation_get.
    destruct (eq_dec _ _) as [E|]; [|exact Hget].
    exfalso. apply Hni. rewrite E. now apply in_map.
Qed.

(** The ranks of the allocations are 1, 2, ... and their names are those
    of the strategies allocated to. *)
Lemma allocate_names A rankings rs :
  CA.allocate A rankings = Ok rs ->
  map AR.rank rs = seq 1 (length rs) /\
  map AR.strategy_name rs
  = map ranking_name
        (match filter (CA.is_qualified A) rankings with
         | [] => rankings
         | qualified => qualified
         end).
Proof.
  intros H. apply allocate_inv in H. destruct H as [-> ->|Hne Hq ->|q es Hne H].
  - split; reflexivity.
  - rewrite Hq, !map_map, length_map, enumerate_length. split.
    + rewrite <- enumerate_fst. apply map_ext. intros; apply equal_result_rank.
    + rewrite <- (enumerate_snd rankings 1) at 2. rewrite map_map.
      apply map_ext. intros; apply equal_result_name.
  - apply normalize_names in H. destruct H as [Hn Hr].
    assert (Hlen : length rs = length q).
    { rewrite <- (length_map AR.rank), Hr, !length_map. apply enumerate_length. }
    fold q. destruct q as [|q0 q'] eqn:E; [congruence|]. rewrite <- E in *.
    rewrite Hn, Hr, Hlen, !map_map. split.
    + rewrite <- enumerate_fst. apply map_ext. intros; apply qualified_result_rank.
    + rewrite <- (enumerate_snd q 1) at 2. rewrite map_map.
      apply map_ext. intros; apply qualified_result_name.
Qed.
