(* ===== verification/AllocatorProps.v ===== *)
(** * Theorems on the capital allocator

    The bounds of the score, the ranking, that the allocations never
    exceed the total capital and fall short of it when one strategy
    dominates the scores, when the allocation raises, and what the
    rebalance writes into the ledger, with the books of a portfolio before
    and after it.  The file ends with the example of the specification
    (three scores on a capital of 200). *)

From Stdlib Require Import String.
From Stdlib Require Import QArith Qabs Lqa Lia ZArith List Bool.
From Stdlib Require Import Permutation Sorted.
From S2P Require Import Prelude PyDict PySort Config Strategy Ledger.
From S2P Require Import LedgerInv LedgerSteps Metrics MetricsProps Allocator.
Import ListNotations.
Open Scope string_scope.
Open Scope list_scope.
Open Scope py_scope.

(** ** Demonstration data: the demonstration ledger under an allocator
    with 200 of capital *)

Definition demo_allocator : CA.t :=
  CA.init AllocatorConfig.default tracker0 demo_closed 200.

Definition demo_rebalance : result (CA.t * list AR.t) :=
  CA.rebalance demo_allocator 1000.

Definition demo_rebalanced : CA.t :=
  match demo_rebalance with Ok (A, _) => A | Err _ => demo_allocator end.

Definition demo_allocations : list AR.t :=
  match demo_rebalance with Ok (_, rs) => rs | Err _ => [] end.

Lemma demo_rebalance_ok :
  CA.rebalance demo_allocator 1000 = Ok (demo_rebalanced, demo_allocations).
Proof. vm_compute. reflexivity. Defined.

(** ** The score *)

(** The score of a strategy is never negative, it is 0 with fewer
    than three trades, and with weights that are not negative and a win
    rate of at most 100 it is at most the performance weight. *)
Theorem calculate_strategy_score_bounds A m :
  0 <= CA.calculate_strategy_score A m /\
  ((SM.total_trades m < 3)%nat -> CA.calculate_strategy_score A m = 0) /\
  (0 <= AllocatorConfig.performance_weight (CA.config A) ->
   0 <= AllocatorConfig.risk_weight (CA.config A) ->
   SM.win_rate m <= 100 -> 0 <= SM.max_drawdown m ->
   CA.calculate_strategy_score A m
   <= AllocatorConfig.performance_weight (CA.config A)).
Proof.
  unfold CA.calculate_strategy_score. split; [|split].
  - destruct (_ <? _)%nat; [lra | apply py_max_ge_l].
  - intros H. apply Nat.ltb_lt in H. now rewrite H.
  - intros Hp Hr Hw Hd. destruct (_ <? _)%nat; [exact Hp|].
    set (s := py_max 0 (py_min 1 (SM.sharpe_ratio m / 2))).
    set (f := py_max 0 (xmin_l 1 _)).
    set (d := py_min 1 (SM.max_drawdown m / 20)).
    assert (Hs : s <= 1)
      by (unfold s; pose proof (py_min_le_l 1 (SM.sharpe_ratio m / 2));
          destruct (py_max_spec 0 (py_min 1 (SM.sharpe_ratio m / 2)))
            as [[_ ->]|[_ ->]]; lra).
    assert (Hf : f <= 1).
    { unfold f. match goal with |- py_max 0 ?x <= 1 =>
        pose proof (xmin_l_le 1 (xdiv_pos (xsub (SM.profit_factor m) 1) 2));
        destruct (py_max_spec 0 x) as [[_ ->]|[_ ->]] end; lra. }
    assert (Hd0 : 0 <= d)
      by (unfold d; pose proof (div_nonneg (SM.max_drawdown m) 20 Hd eq_refl);
          destruct (py_min_spec 1 (SM.max_drawdown m / 20))
            as [[_ ->]|[_ ->]]; lra).
    assert (Hw1 : SM.win_rate m / 100 <= 1) by (apply Qle_shift_div_r; lra).
    set (w := SM.win_rate m / 100) in *.
    assert (Hrd : 0 <= AllocatorConfig.risk_weight (CA.config A) * d) by nra.
    destruct (py_max_spec 0
      (AllocatorConfig.performance_weight (CA.config A)
         * (0.4 * s + 0.3 * w + 0.3 * f)
       - AllocatorConfig.risk_weight (CA.config A) * d)) as [[_ ->]|[_ ->]];
      [nra | exact Hp].
Qed.

Lemma calculate_strategy_score_bounds_witness :
  CA.calculate_strategy_score demo_allocator three_metrics <= 0.7.
Proof.
  apply (calculate_strategy_score_bounds demo_allocator three_metrics);
    vm_compute; discriminate.
Defined.

(** ** The ranking *)

Section WithSqrt.
Context {SQ : Sqrt}.

(** C36. The ranking lists every portfolio of the ledger once, with the
    score of its fresh metrics, from the greatest score to the smallest;
    only the metrics cache of the tracker changes. *)
Theorem rank_strategies_spec A now A' rankings :
  CA.rank_strategies A now = Ok (A', rankings) ->
  Permutation (dict_keys (PT.portfolios (CA.paper_trader A)))
              (map ranking_name rankings) /\
  StronglySorted (fun a b => ranking_score b <= ranking_score a) rankings /\
  Forall (fun r => ranking_score r
                   = CA.calculate_strategy_score A (ranking_metrics r)) rankings /\
  CA.paper_trader A' = CA.paper_trader A /\
  CA.total_capital A' = CA.total_capital A.
Proof.
  intros H. apply rank_strategies_inv in H.
  destruct H as (Hs & Hp & Hsort & Hsc). repeat split; auto; apply Hs.
Qed.

(** ** The allocations *)

(** C25. With a capital that is not negative the allocations are not
    negative and add up to at most the total capital. *)
Theorem allocations_within_capital A now A' rs :
  CA.calculate_allocations A now = Ok (A', rs) ->
  0 <= CA.total_capital A ->
  Forall (fun r => 0 <= AR.new_allocation r) rs /\
  Qsum (map AR.new_allocation rs) <= CA.total_capital A.
Proof.
  unfold CA.calculate_allocations. intros H Ht. inv_bind H.
  destruct a as [A1 rankings]. apply rank_strategies_inv in Hbind.
  assert (Hc : CA.total_capital A1 = CA.total_capital A) by apply Hbind.
  inv_bind H. inversion H; subst; clear H. rewrite <- Hc in *.
  apply allocate_inv in Hbind0.
  destruct Hbind0 as [-> ->|Hne Hq ->|q es Hqne Hn].
  - split; [constructor | simpl; lra].
  - pose proof (qlen_pos rankings Hne) as Hl. split.
    + apply Forall_map, Forall_forall. intros e _.
      rewrite equal_result_allocation. apply div_nonneg; lra.
    + rewrite map_map.
      rewrite (Qsum_map_ext _ (fun _ => CA.total_capital A' / qlen rankings))
        by (intros; rewrite equal_result_allocation; reflexivity).
      rewrite Qsum_map_const, enumerate_length. fold (qlen rankings).
      apply Qle_lteq. right. field. lra.
  - split; [|eapply normalize_sum, Hn].
    eapply Forall_impl;
      [|eapply (normalize_bounds _ (CA.total_capital A' * 0.5)); [exact Ht| |exact Hn]].
    + cbv beta. tauto.
    + apply qualified_results_bounds; [exact Ht | now apply qlen_ge_1].
Qed.

(** [calculate_allocations] returns when every portfolio with a
    closed trade has an initial capital that is not 0: no other division
    of the ranking or of the allocation can fail. *)
Theorem calculate_allocations_returns A now :
  tracker_ok (CA.performance_tracker A) ->
  Forall (fun pf => SP.closed_positions pf = [] \/ ~ SP.initial_capital pf == 0)
         (dict_values (PT.portfolios (CA.paper_trader A))) ->
  exists A' rs, CA.calculate_allocations A now = Ok (A', rs).
Proof.
  intros HT Hall. unfold CA.calculate_allocations, CA.rank_strategies.
  destruct (rank_fold_ok now (dict_items (PT.portfolios (CA.paper_trader A)))
              A [] HT) as [[A1 rankings] ->].
  - unfold dict_values in Hall. now apply Forall_map in Hall.
  - cbn [bind].
    destruct (allocate_ok A1 (sorted_by_Q_desc ranking_score rankings)) as [rs ->].
    cbn [bind]. eauto.
Qed.

(** When no strategy qualifies the capital is split equally over all
    the strategies of the ranking. *)
Theorem equal_allocation_when_none_qualified A rankings rs :
  CA.allocate A rankings = Ok rs ->
  rankings <> [] -> filter (CA.is_qualified A) rankings = [] ->
  length rs = length rankings /\
  Forall (fun r => AR.new_allocation r = CA.total_capital A / qlen rankings
                   /\ AR.reason r = "equal_allocation_no_qualified") rs.
Proof.
  intros H Hne Hq. apply allocate_inv in H.
  destruct H as [-> _|_ _ ->|q es Hqne _]; [congruence| |now unfold q in Hqne].
  rewrite length_map, enumerate_length. split; [reflexivity|].
  apply Forall_map, Forall_forall. intros [rank [[name score] m]] _.
  split; reflexivity.
Qed.

(** When a strategy qualifies only the qualified strategies are
    allocated to, each gets at most half of the capital, and the ranks
    count from 1. *)
Theorem qualified_allocation_cap A rankings rs :
  CA.allocate A rankings = Ok rs ->
  0 <= CA.total_capital A -> filter (CA.is_qualified A) rankings <> [] ->
  map AR.strategy_name rs
  = map ranking_name (filter (CA.is_qualified A) rankings) /\
  map AR.rank rs = seq 1 (length rs) /\
  Forall (fun r => AR.new_allocation r <= CA.total_capital A * 0.5) rs.
Proof.
  intros H Ht Hq. pose proof (allocate_names _ _ _ H) as [Hr Hn].
  destruct (filter (CA.is_qualified A) rankings) as [|q0 q'] eqn:E;
    [congruence|]. rewrite <- E in *. split; [exact Hn|]. split; [exact Hr|].
  apply allocate_inv in H. destruct H as [-> _|_ Hq' _|q es Hqne Hnorm];
    [discriminate | congruence |].
  eapply Forall_impl;
    [|eapply (normalize_bounds _ (CA.total_capital A * 0.5)); [exact Ht| |exact Hnorm]].
  - cbv beta. tauto.
  - apply qualified_results_bounds; [exact Ht | now apply qlen_ge_1].
Qed.

End WithSqrt.

(** ** Capital the cap leaves unallocated *)

(** With a positive total score the allocation of a qualified strategy is
    its share of the capital, raised to the minimum and cut at half of
    the capital. *)
Lemma qualified_result_allocation A ts es ma e :
  0 < ts ->
  AR.new_allocation (CA.qualified_result A ts es ma e)
  = py_min (py_max ma (ranking_score (snd e) / ts * CA.total_capital A))
           (CA.total_capital A * 0.5).
Proof.
  destruct e as [rank [[name score] metrics]]. intros Hts. cbn.
  destruct (qltb_spec 0 ts); [reflexivity | lra].
Qed.

Section Unallocated.
Variables (A : CA.t) (q : list ranking) (r : ranking).
Let C := CA.total_capital A.
Let S := Qsum (map ranking_score q).
Let m := C / qlen q * 0.1.
Hypothesis HC : 0 < C.
Hypothesis Hpos : Forall (fun x => 0 <= ranking_score x) q.
Hypothesis Hin : In r q.
Hypothesis Hshare : 0.6 * S < ranking_score r.

Lemma dominant_total_positive : 0 < S.
Proof.
  assert (ranking_score r <= S)
    by (apply Qsum_ge_In; [apply Forall_map; exact Hpos | now apply in_map]).
  lra.
Qed.

Lemma dominant_minimum : 0 < m /\ qlen q * m == C * 0.1.
Proof.
  assert (Hq : q <> []) by (intros Hnil; rewrite Hnil in Hin; destruct Hin).
  pose proof (qlen_ge_1 q Hq) as Hn. unfold m. split; [|field; lra].
  assert (0 < C / qlen q) by (apply Qlt_shift_div_l; lra). lra.
Qed.

(** The minimum and the shares add up to the capital and a tenth. *)
Lemma dominant_shares_sum :
  Qsum (map (fun x => m + ranking_score x / S * C) q) == C * 0.1 + C.
Proof.
  pose proof dominant_total_positive as HS. destruct dominant_minimum as [_ Hm].
  rewrite (Qsum_map_add (fun _ => m) (fun x => ranking_score x / S * C)).
  rewrite Qsum_map_const. fold (qlen q).
  rewrite (Qsum_map_ext _ (fun x => ranking_score x * (/ S * C)))
    by (intros; field; lra).
  rewrite Qsum_map_scale. fold S. rewrite Qmult_comm in Hm. rewrite Qmult_comm, Hm.
  field. lra.
Qed.

(** The allocations before the normalisation add up to less than the
    capital. *)
Lemma dominant_sum_below t :
  t == S ->
  Qsum (map AR.new_allocation
          (map (CA.qualified_result A t (C / qlen q) m) (enumerate 1 q))) < C.
Proof.
  intros Ht. pose proof dominant_total_positive as HS.
  destruct dominant_minimum as [Hm _].
  set (h := fun x => py_min (py_max m (ranking_score x / t * C)) (C * 0.5)).
  rewrite map_map,
    (Qsum_map_ext _ (fun e => h (snd e)))
      by (intros; rewrite qualified_result_allocation by lra; reflexivity).
  rewrite <- (map_map snd h), enumerate_snd.
  assert (Hshare' : 0.6 < ranking_score r / S) by (apply Qlt_shift_div_l; lra).
  eapply Qle_lt_trans.
  - apply (Qsum_map_le_at h (fun x => m + ranking_score x / S * C) q r
             (m + ranking_score r / S * C - C * 0.5) Hin).
    + intros x Hx. unfold h. rewrite Ht.
      assert (0 <= ranking_score x / S * C).
      { rewrite Forall_forall in Hpos. specialize (Hpos x Hx).
        assert (0 <= ranking_score x / S) by (apply div_nonneg; lra). nra. }
      pose proof (py_min_le_l (py_max m (ranking_score x / S * C)) (C * 0.5)).
      destruct (py_max_spec m (ranking_score x / S * C)) as [[_ E]|[_ E]];
        rewrite E in *; lra.
    + unfold h. pose proof (py_min_le_r (py_max m (ranking_score r / t * C)) (C * 0.5)).
      lra.
  - rewrite dominant_shares_sum. nra.
Qed.

(** The dominant strategy is cut at half of the capital. *)
Lemma dominant_gets_half t rank :
  t == S ->
  AR.new_allocation (CA.qualified_result A t (C / qlen q) m (rank, r)) = C * 0.5.
Proof.
  intros Ht. pose proof dominant_total_positive as HS.
  rewrite qualified_result_allocation by lra. cbn [snd]. fold C.
  assert (0.6 < ranking_score r / t) by (apply Qlt_shift_div_l; lra).
  pose proof (py_max_ge_r m (ranking_score r / t * C)).
  destruct (py_min_spec (py_max m (ranking_score r / t * C)) (C * 0.5))
    as [[_ E]|[Hle _]]; [exact E | nra].
Qed.
End Unallocated.

Lemma enumerate_In {X} (l : list X) x : forall n,
  In x l -> exists i, In (i, x) (enumerate n l).
Proof.
  induction l as [|y l IH]; intros n Hin; [destruct Hin|].
  cbn [enumerate]. destruct Hin as [->|Hin].
  - exists n. now left.
  - destruct (IH (Datatypes.S n) Hin) as [i Hi]. exists i. now right.
Qed.

(** C28. The cap at half of the capital leaves capital unallocated: when
    the capital is positive, no score is negative and one strategy has
    more than 60% of the total score of the qualified strategies, that
    strategy is allocated exactly half of the capital and the allocations
    [calculate_allocations] computes add up to less than the total
    capital; the normalisation, which only scales down, does not make up
    for it. *)
Theorem dominant_score_leaves_capital A rankings rs r :
  CA.allocate A rankings = Ok rs ->
  0 < CA.total_capital A ->
  Forall (fun x => 0 <= ranking_score x) rankings ->
  In r rankings ->
  0.6 * py_sum (map ranking_score (filter (CA.is_qualified A) rankings))
    < ranking_score r ->
  Exists (fun a => AR.strategy_name a = ranking_name r /\
                   AR.new_allocation a = CA.total_capital A * 0.5) rs /\
  py_sum (map AR.new_allocation rs) < CA.total_capital A.
Proof.
  intros H HC Hpos Hin Hshare.
  set (q := filter (CA.is_qualified A) rankings) in *.
  pose proof (py_sum_Qsum (map ranking_score q)) as Hs. rewrite Hs in Hshare.
  assert (Hq : Forall (fun x => 0 <= ranking_score x) q).
  { apply Forall_forall. intros x Hx. apply filter_In in Hx as [Hx _].
    now apply (proj1 (Forall_forall _ _) Hpos). }
  assert (Hrq : In r q).
  { apply filter_In. split; [exact Hin|]. unfold CA.is_qualified.
    assert (0 <= Qsum (map ranking_score q)) by (apply Qsum_nonneg, Forall_map; exact Hq).
    destruct (qltb_spec 0 (ranking_score r)); [reflexivity | lra]. }
  pose proof (dominant_sum_below A q r HC Hq Hrq Hshare _ Hs) as Hsum.
  apply allocate_inv in H. destruct H as [-> _|_ Hnone _|q' es _ Hn].
  - destruct Hin.
  - unfold q in Hrq. rewrite Hnone in Hrq. destruct Hrq.
  - apply normalize_inv in Hn. destruct Hn as [[_ ->]|[Hlt _]]; [|fold q in q'; subst q' es; lra].
    split; [|now rewrite py_sum_Qsum].
    destruct (enumerate_In q r 1 Hrq) as [i Hi]. apply Exists_exists.
    eexists. split; [apply in_map, Hi|]. split; [apply qualified_result_name|].
    now apply (dominant_gets_half A q r HC Hq Hrq Hshare).
Qed.

(** ** The rebalance *)

Section Rebalance.
Context {SQ : Sqrt}.

(** [should_rebalance] holds before the first rebalance and afterwards
    once the interval of the configuration has elapsed. *)
Theorem should_rebalance_spec A now :
  CA.should_rebalance A now = true
  <-> CA._last_rebalance A = None
      \/ exists last, CA._last_rebalance A = Some last /\
           AllocatorConfig.rebalance_interval_hours (CA.config A) * 3600 * 1000000
           <= inject_Z (now - last).
Proof.
  unfold CA.should_rebalance. destruct (CA._last_rebalance A) as [last|].
  - rewrite qleb_true. split; [eauto|].
    intros [H|(l & H & Hle)]; [discriminate | now injection H as <-].
  - split; auto.
Qed.

(** A rebalance that is not due changes nothing and returns no
    allocation. *)
Theorem rebalance_not_due A now :
  CA.should_rebalance A now = false -> CA.rebalance A now = Ok (A, []).
Proof. intros H. unfold CA.rebalance. now rewrite H. Qed.

Lemma rebalance_inv A now A' allocations :
  CA.should_rebalance A now = true ->
  CA.rebalance A now = Ok (A', allocations) ->
  exists A1, CA.calculate_allocations A now = Ok (A1, allocations) /\
    A' = CA.mk (CA.config A1) (CA.performance_tracker A1)
           (fold_left CA.apply_allocation allocations (CA.paper_trader A1))
           (CA.total_capital A1) (Some now)
           (CA._allocation_history A1 ++ [(now, allocations)]).
Proof.
  intros Hdue H. unfold CA.rebalance in H. rewrite Hdue in H. cbn [negb] in H.
  inv_bind H. destruct a as [A1 rs]. inversion H; subst. eauto.
Qed.

Lemma calculate_allocations_inv A now A1 rs :
  CA.calculate_allocations A now = Ok (A1, rs) ->
  exists rankings, CA.rank_strategies A now = Ok (A1, rankings)
                   /\ CA.allocate A1 rankings = Ok rs.
Proof.
  unfold CA.calculate_allocations. intros H. inv_bind H.
  destruct a as [A2 rankings]. inv_bind H. inversion H; subst. eauto.
Qed.

Lemma NoDup_map_filter {X Y} (f : X -> Y) (p : X -> bool) l :
  NoDup (map f l) -> NoDup (map f (filter p l)).
Proof.
  induction l as [|x l IH]; simpl; intros Hnd; [constructor|].
  inversion Hnd as [|? ? Hni Hnd']; subst.
  destruct (p x); simpl; auto. constructor; auto.
  rewrite in_map_iff in *. intros (y & Hy & Hin).
  apply filter_In in Hin. apply Hni. exists y. tauto.
Qed.

(** The allocations name distinct strategies, all of the ledger. *)
Lemma calculate_allocations_names A now A1 rs :
  dict_wf (PT.portfolios (CA.paper_trader A)) ->
  CA.calculate_allocations A now = Ok (A1, rs) ->
  NoDup (map AR.strategy_name rs) /\
  CA.paper_trader A1 = CA.paper_trader A /\
  CA.total_capital A1 = CA.total_capital A /\
  CA._allocation_history A1 = CA._allocation_history A.
Proof.
  intros Hwf H. apply calculate_allocations_inv in H.
  destruct H as (rankings & Hrank & Halloc).
  apply rank_strategies_inv in Hrank. destruct Hrank as (Hs & Hp & _ & _).
  split; [|repeat split; apply Hs].
  apply allocate_names in Halloc. destruct Halloc as [_ ->].
  assert (Hnd : NoDup (map ranking_name rankings))
    by (eapply Permutation_NoDup; [exact Hp | exact Hwf]).
  destruct (filter (CA.is_qualified A1) rankings) as [|q qs] eqn:E; [exact Hnd|].
  rewrite <- E. now apply NoDup_map_filter.
Qed.

(** A rebalance that is due writes each allocation into the portfolio
    it names, as its capital and as its baseline, leaves its positions and
    closed trades alone, and records the time. *)
Theorem rebalance_applies A now A' allocations alloc pf :
  dict_wf (PT.portfolios (CA.paper_trader A)) ->
  CA.should_rebalance A now = true ->
  CA.rebalance A now = Ok (A', allocations) ->
  In alloc allocations ->
  PT.get_portfolio (CA.paper_trader A) (AR.strategy_name alloc) = Some pf ->
  PT.get_portfolio (CA.paper_trader A') (AR.strategy_name alloc)
  = Some (rebased pf (AR.new_allocation alloc)) /\
  CA._last_rebalance A' = Some now /\
  CA._allocation_history A' = CA._allocation_history A ++ [(now, allocations)].
Proof.
  intros Hwf Hdue H Hin Hget. apply rebalance_inv in H; [|exact Hdue].
  destruct H as (A1 & Hcalc & ->).
  apply calculate_allocations_names in Hcalc; [|exact Hwf].
  destruct Hcalc as (Hnd & Ht & _ & Hh). cbn. rewrite Ht, Hh.
  split; [|split; reflexivity].
  unfold PT.get_portfolio. now apply apply_allocations_get.
Qed.

(** A portfolio that no allocation names is not touched by the
    rebalance. *)
Theorem rebalance_frame A now A' allocations name :
  dict_wf (PT.portfolios (CA.paper_trader A)) ->
  CA.rebalance A now = Ok (A', allocations) ->
  ~ In name (map AR.strategy_name allocations) ->
  PT.get_portfolio (CA.paper_trader A') name
  = PT.get_portfolio (CA.paper_trader A) name.
Proof.
  intros Hwf H Hn. destruct (CA.should_rebalance A now) eqn:Hdue.
  - apply rebalance_inv in H; [|exact Hdue]. destruct H as (A1 & Hcalc & ->).
    apply calculate_allocations_names in Hcalc; [|exact Hwf].
    destruct Hcalc as (_ & Ht & _). cbn. rewrite <- Ht.
    unfold PT.get_portfolio. now apply apply_allocations_other.
  - unfold CA.rebalance in H. rewrite Hdue in H. now inversion H.
Qed.

End Rebalance.

(** ** The rebalance and the invariants of the ledger *)

(** C27. The rebalance does not keep the books of the ledger: a portfolio
    with a realised profit or loss that is allocated to no longer has its
    capital equal to its baseline plus the profit of its closed trades. *)
Theorem rebalance_breaks_books {SQ : Sqrt} A now A' allocations alloc pf :
  dict_wf (PT.portfolios (CA.paper_trader A)) ->
  CA.should_rebalance A now = true ->
  CA.rebalance A now = Ok (A', allocations) ->
  In alloc allocations ->
  PT.get_portfolio (CA.paper_trader A) (AR.strategy_name alloc) = Some pf ->
  ~ SP.total_pnl pf == 0 ->
  ~ books_balance (CA.paper_trader A').
Proof.
  intros Hwf Hdue H Hin Hget Hpnl Hbooks. apply rebalance_inv in H; [|exact Hdue].
  destruct H as (A1 & Hcalc & ->).
  apply calculate_allocations_names in Hcalc; [|exact Hwf].
  destruct Hcalc as (Hnd & Ht & _). rewrite <- Ht in Hget.
  pose proof (apply_allocations_get allocations _ alloc pf Hnd Hin Hget) as Hg.
  apply Hbooks in Hg. unfold SP.total_pnl in *. simpl in Hg. lra.
Qed.

(** The demonstration ledger with its position still open, under an
    allocator with less capital than the position cost. *)
Definition small_allocator : CA.t :=
  CA.init AllocatorConfig.default tracker0 demo_opened 1.

Definition small_rebalanced : CA.t :=
  match CA.rebalance small_allocator 1000 with
  | Ok (A, _) => A
  | Err _ => small_allocator
  end.

(** The rebalance does not keep a portfolio solvent: on a reachable
    ledger with an open position it can set the capital below the cost of
    the position, which leaves the available capital negative. *)
Theorem rebalance_breaks_solvency :
  reachable RiskConfig.default (CA.paper_trader small_allocator) /\
  is_ok (CA.rebalance small_allocator 1000) = true /\
  ~ solvent (CA.paper_trader small_rebalanced).
Proof.
  split; [exact demo_opened_reachable|]. split; [vm_compute; reflexivity|].
  intros H.
  assert (Hget : exists pf,
            dict_get (PT.portfolios (CA.paper_trader small_rebalanced))
                     "MeanReversion" = Some pf
            /\ SP.available_capital pf < 0).
  { eexists. split; [vm_compute; reflexivity | vm_compute; reflexivity]. }
  destruct Hget as (pf & Hget & Hneg). apply H in Hget. lra.
Qed.

(** ** [get_allocation_summary] *)

(** With a total capital of 0 and a portfolio in the ledger
    [get_allocation_summary] raises ZeroDivisionError on the percentage of
    the first allocation. *)
Theorem get_allocation_summary_zero_capital {SQ : Sqrt} A now A' rs :
  CA.calculate_allocations A now = Ok (A', rs) ->
  rs <> [] -> CA.total_capital A == 0 ->
  CA.get_allocation_summary A now = Err ZeroDivisionError.
Proof.
  intros H Hne Hz. unfold CA.get_allocation_summary. rewrite H. cbn [bind].
  assert (Hc : CA.total_capital A' = CA.total_capital A).
  { apply calculate_allocations_inv in H. destruct H as (rk & Hr & _).
    apply rank_strategies_inv in Hr. apply Hr. }
  destruct rs as [|r rs]; [congruence|]. cbn [mapM]. unfold CA.summary_row at 1.
  rewrite qdiv_err by (rewrite Hc; exact Hz). reflexivity.
Qed.

(** ** Witnesses *)

Definition demo_ranked : result (CA.t * list ranking) :=
  CA.rank_strategies demo_allocator 1000.

Definition demo_ranking : list ranking :=
  match demo_ranked with Ok (_, rs) => rs | Err _ => [] end.

Definition demo_ranked_allocator : CA.t :=
  match demo_ranked with Ok (A, _) => A | Err _ => demo_allocator end.

Lemma demo_ranked_ok :
  CA.rank_strategies demo_allocator 1000 = Ok (demo_ranked_allocator, demo_ranking).
Proof. vm_compute. reflexivity. Defined.

Lemma demo_calculated :
  CA.calculate_allocations demo_allocator 1000
  = Ok (demo_ranked_allocator, demo_allocations).
Proof. vm_compute. reflexivity. Defined.

Lemma demo_wf : dict_wf (PT.portfolios (CA.paper_trader demo_allocator)).
Proof. repeat constructor. simpl. tauto. Defined.

Lemma rank_strategies_spec_witness :
  Permutation (dict_keys (PT.portfolios demo_closed))
              (map ranking_name demo_ranking).
Proof. apply (rank_strategies_spec demo_allocator 1000%Z _ _ demo_ranked_ok). Defined.

Lemma allocations_within_capital_witness :
  Qsum (map AR.new_allocation demo_allocations) <= 200.
Proof.
  apply (allocations_within_capital demo_allocator 1000%Z _ _ demo_calculated).
  discriminate.
Defined.

Lemma calculate_allocations_returns_witness :
  exists A' rs, CA.calculate_allocations demo_allocator 1000 = Ok (A', rs).
Proof.
  apply calculate_allocations_returns; [exact tracker0_ok|].
  apply Forall_forall. intros pf Hin. right.
  vm_compute in Hin. destruct Hin as [<-|[]].
  intros H. vm_compute in H. discriminate H.
Defined.

Lemma rebalance_not_due_witness :
  CA.rebalance demo_rebalanced 2000 = Ok (demo_rebalanced, []).
Proof. apply rebalance_not_due. reflexivity. Defined.

Definition demo_alloc : AR.t := hd (AR.mk "" 0 0 0 0 0 "") demo_allocations.

Lemma demo_alloc_in : In demo_alloc demo_allocations.
Proof. vm_compute. left. reflexivity. Defined.

Lemma rebalance_applies_witness :
  PT.get_portfolio (CA.paper_trader demo_rebalanced) "MeanReversion"
  = Some (rebased demo_closed_portfolio (AR.new_allocation demo_alloc)).
Proof.
  apply (rebalance_applies demo_allocator 1000%Z demo_rebalanced
           demo_allocations demo_alloc demo_closed_portfolio demo_wf eq_refl
           demo_rebalance_ok); [exact demo_alloc_in | reflexivity].
Defined.

Lemma rebalance_frame_witness :
  PT.get_portfolio (CA.paper_trader demo_rebalanced) "Momentum"
  = PT.get_portfolio (CA.paper_trader demo_allocator) "Momentum".
Proof.
  apply (rebalance_frame demo_allocator 1000%Z demo_rebalanced demo_allocations
           "Momentum" demo_wf demo_rebalance_ok).
  vm_compute. intros [H|[]]. discriminate.
Defined.

Lemma rebalance_breaks_books_witness :
  ~ books_balance (CA.paper_trader demo_rebalanced).
Proof.
  apply (rebalance_breaks_books demo_allocator 1000%Z demo_rebalanced
           demo_allocations demo_alloc demo_closed_portfolio demo_wf eq_refl
           demo_rebalance_ok); [exact demo_alloc_in | reflexivity |].
  vm_compute. discriminate.
Defined.

Definition zero_allocator : CA.t :=
  CA.init AllocatorConfig.default tracker0 demo_closed 0.

Lemma get_allocation_summary_zero_capital_witness :
  CA.get_allocation_summary zero_allocator 1000 = Err ZeroDivisionError.
Proof.
  eapply (get_allocation_summary_zero_capital zero_allocator 1000%Z);
    [vm_compute; reflexivity | discriminate | reflexivity].
Defined.

Lemma qualified_allocation_cap_witness :
  Forall (fun r => AR.new_allocation r <= 200 * 0.5) demo_allocations.
Proof.
  apply (qualified_allocation_cap demo_ranked_allocator demo_ranking
           demo_allocations); [reflexivity | discriminate | discriminate].
Defined.

(** A ranking in which no strategy qualifies: five trades and a score
    of 0. *)
Definition stale_metrics : SM.t :=
  {| SM.strategy_name := "Stale";
     SM.total_return := -5; SM.total_return_pct := -5;
     SM.sharpe_ratio := -1; SM.sortino_ratio := Fin (-1);
     SM.max_drawdown := 5;
     SM.total_trades := 5; SM.winning_trades := 0; SM.losing_trades := 5;
     SM.win_rate := 0; SM.average_win := 0; SM.average_loss := -1;
     SM.profit_factor := Fin 0; SM.expectancy := -1;
     SM.average_hold_time_hours := 1;
     SM.current_capital := 95; SM.peak_capital := 100;
     SM.last_updated := 0 |}.

Definition stale_ranking : list ranking :=
  [("Stale", CA.calculate_strategy_score demo_allocator stale_metrics,
    stale_metrics)].

Definition stale_allocations : list AR.t :=
  match CA.allocate demo_allocator stale_ranking with
  | Ok rs => rs
  | Err _ => []
  end.

Lemma equal_allocation_when_none_qualified_witness :
  length stale_allocations = length stale_ranking.
Proof.
  apply (equal_allocation_when_none_qualified demo_allocator stale_ranking
           stale_allocations); [reflexivity | discriminate | reflexivity].
Defined.

(** ** The example of the specification: three scores on a capital of 200 *)

(** The three scores of the example; the third strategy has two trades,
    fewer than the five the ranking asks for. *)
Definition with_trades (name : string) (n : nat) : StrategyMetrics.t :=
  let m := StrategyMetrics.init name 0 in
  StrategyMetrics.mk name (StrategyMetrics.total_return m) (StrategyMetrics.total_return_pct m) (StrategyMetrics.sharpe_ratio m)
    (StrategyMetrics.sortino_ratio m) (StrategyMetrics.max_drawdown m) n (StrategyMetrics.winning_trades m)
    (StrategyMetrics.losing_trades m) (StrategyMetrics.win_rate m) (StrategyMetrics.average_win m)
    (StrategyMetrics.average_loss m) (StrategyMetrics.profit_factor m) (StrategyMetrics.expectancy m)
    (StrategyMetrics.average_hold_time_hours m) (StrategyMetrics.current_capital m) (StrategyMetrics.peak_capital m)
    (StrategyMetrics.last_updated m).

Definition three_scores : list ranking :=
  [("A", 0.6, with_trades "A" 6); ("B", 0.3, with_trades "B" 6);
   ("C", 0, with_trades "C" 2)].

Definition allocator_of_200 : CA.t :=
  CA.init AllocatorConfig.default (PerformanceTracker.init PerformanceConfig.default)
    (PT.init RiskConfig.default) 200.

Definition three_scores_results : list AR.t :=
  match CA.allocate allocator_of_200 three_scores with
  | Ok rs => rs
  | Err _ => []
  end.

Lemma three_scores_allocated :
  CA.allocate allocator_of_200 three_scores = Ok three_scores_results.
Proof. vm_compute. reflexivity. Defined.

Lemma three_scores_nonneg :
  Forall (fun x => 0 <= ranking_score x) three_scores.
Proof. repeat constructor; vm_compute; discriminate. Defined.

Lemma dominant_score_leaves_capital_witness :
  Exists (fun a => AR.strategy_name a = "A" /\
                   AR.new_allocation a = CA.total_capital allocator_of_200 * 0.5)
    three_scores_results /\
  py_sum (map AR.new_allocation three_scores_results)
    < CA.total_capital allocator_of_200.
Proof.
  apply (dominant_score_leaves_capital allocator_of_200 three_scores
           three_scores_results ("A", 0.6, with_trades "A" 6)
           three_scores_allocated).
  - vm_compute. reflexivity.
  - exact three_scores_nonneg.
  - now left.
  - vm_compute. reflexivity.
Defined.
