(* ===== verification/Strategies.v ===== *)
(** * The three strategies (src/src/strategies/mean_reversion.py,
    market_making.py, momentum.py)

    Each class is a module with the record of its attributes, [init] for
    [__init__], and its methods; [strategy] packs the methods as the
    [BaseStrategy] interface.  [now] is what [datetime.now()] reads.  The
    momentum strategy keeps the last [long_ma] prices of every market it
    has seen; its two methods divide by the periods of the moving averages
    and raise when a period is 0.  The periods are natural numbers
    ([StrategyParams.short_ma], [long_ma]): a configured period that is
    negative or not a whole number, for which [deque(maxlen=...)] raises
    [ValueError] or [TypeError] on the first snapshot, is read as its
    truncation, 0 when it is negative. *)

From Stdlib Require Import String.
From Stdlib Require Import QArith Qabs Lqa Lia ZArith List Bool.
From S2P Require Import Prelude PyDict Strategy.
Import ListNotations.
Open Scope string_scope.
Open Scope list_scope.
Open Scope py_scope.

(** ** [class MeanReversionStrategy] *)
Module MeanReversionStrategy.

Record t : Type := mk {
  name : string;
  config : StrategyParams.t;
  active : bool;
  paper_mode : bool;
  extreme_threshold : Q;
  min_threshold : Q;
  exit_target : Q;
}.

(** [__init__] *)
Definition init (config : StrategyParams.t) : t :=
  {| name := "MeanReversion"; config := config;
     active := true; paper_mode := true;
     extreme_threshold :=
       get_default (StrategyParams.extreme_threshold config) 0.95;
     min_threshold := get_default (StrategyParams.min_threshold config) 0.05;
     exit_target := get_default (StrategyParams.exit_target config) 0.50 |}.

Definition set_paper_mode (self : t) (b : bool) : t :=
  mk (name self) (config self) (active self) b (extreme_threshold self)
     (min_threshold self) (exit_target self).

(** [_calculate_position_size] *)
Definition _calculate_position_size (self : t) (price : Q) : Q :=
  let distance_from_50 := Qabs (price - 0.5) in
  let base_size :=
    get_default (StrategyParams.base_position_size (config self)) 5 in
  let multiplier := 1 + distance_from_50 * 2 in
  py_min (base_size * multiplier)
         (get_default (StrategyParams.max_position_size (config self)) 10).

(** [analyze] *)
Definition analyze (self : t) (market_data : MarketDict.t) (now : Z)
    : option Signal.t :=
  let market_id := market_id_str market_data in
  let yes_price := get_default (MarketDict.yes_price market_data) 0.5 in
  if qleb (extreme_threshold self) yes_price then
    Some {| Signal.market_id := market_id;
            Signal.side := "no";
            Signal.confidence := py_min 0.95 yes_price;
            Signal.size := _calculate_position_size self yes_price;
            Signal.strategy_name := name self;
            Signal.timestamp := now;
            Signal.metadata :=
              Some [("reason", VStr "extreme_yes_price");
                    ("price", VNum yes_price)] |}
  else if qleb yes_price (min_threshold self) then
    Some {| Signal.market_id := market_id;
            Signal.side := "yes";
            Signal.confidence := py_min 0.95 (1 - yes_price);
            Signal.size := _calculate_position_size self yes_price;
            Signal.strategy_name := name self;
            Signal.timestamp := now;
            Signal.metadata :=
              Some [("reason", VStr "extreme_no_price");
                    ("price", VNum yes_price)] |}
  else None.

(** [should_exit] *)
Definition should_exit (self : t) (position : PosDict.t)
    (market_data : MarketDict.t) : bool :=
  let entry_price := get_default (PosDict.entry_price position) 0.5 in
  let current_price := get_default (MarketDict.yes_price market_data) 0.5 in
  if qltb 0.5 entry_price && qleb current_price (exit_target self) then true
  else if qltb entry_price 0.5 && qleb (exit_target self) current_price then true
  else if qltb (get_default (MarketDict.close_in_hours market_data) 24) 1
       then true
       else false.

Definition strategy : BaseStrategy.t t :=
  {| BaseStrategy.name := name;
     BaseStrategy.active := active;
     BaseStrategy.paper_mode := paper_mode;
     BaseStrategy.analyze := fun self md now => (self, Ok (analyze self md now));
     BaseStrategy.should_exit := fun self pos md => Ok (should_exit self pos md);
     BaseStrategy.enable_paper_mode := fun self => set_paper_mode self true;
     BaseStrategy.disable_paper_mode := fun self => set_paper_mode self false |}.

End MeanReversionStrategy.

(** ** [class MarketMakingStrategy] *)
Module MarketMakingStrategy.

Record t : Type := mk {
  name : string;
  config : StrategyParams.t;
  active : bool;
  paper_mode : bool;
  min_spread : Q;
}.

(** [__init__] *)
Definition init (config : StrategyParams.t) : t :=
  {| name := "MarketMaking"; config := config;
     active := true; paper_mode := true;
     min_spread := get_default (StrategyParams.min_spread config) 0.05 |}.

Definition set_paper_mode (self : t) (b : bool) : t :=
  mk (name self) (config self) (active self) b (min_spread self).

(** [analyze] *)
Definition analyze (self : t) (market_data : MarketDict.t) (now : Z)
    : option Signal.t :=
  let market_id := market_id_str market_data in
  let order_book :=
    get_default (MarketDict.order_book market_data) OrderBook.empty in
  let best_bid := get_default (OrderBook.best_bid order_book) 0 in
  let best_ask := get_default (OrderBook.best_ask order_book) 1 in
  let spread := best_ask - best_bid in
  if qltb spread (min_spread self) || qeqb best_bid 0 then None
  else
    Some {| Signal.market_id := market_id;
            Signal.side := "both";
            Signal.confidence := spread;
            Signal.size :=
              get_default (StrategyParams.position_size (config self)) 5;
            Signal.strategy_name := name self;
            Signal.timestamp := now;
            Signal.metadata :=
              Some [("spread", VNum spread);
                    ("mid", VNum ((best_bid + best_ask) / 2))] |}.

(** [should_exit] *)
Definition should_exit (self : t) (position : PosDict.t)
    (market_data : MarketDict.t) : bool := false.

Definition strategy : BaseStrategy.t t :=
  {| BaseStrategy.name := name;
     BaseStrategy.active := active;
     BaseStrategy.paper_mode := paper_mode;
     BaseStrategy.analyze := fun self md now => (self, Ok (analyze self md now));
     BaseStrategy.should_exit := fun self pos md => Ok (should_exit self pos md);
     BaseStrategy.enable_paper_mode := fun self => set_paper_mode self true;
     BaseStrategy.disable_paper_mode := fun self => set_paper_mode self false |}.

End MarketMakingStrategy.

(** Keys of the price history: [market_data.get("market_id")], which is
    [None] when the key is absent. *)
#[export] Instance option_string_EqDec : EqDec (option string).
Proof. intros x y. decide equality. apply string_dec. Defined.

(** [deque(maxlen=n).append(x)]: the oldest element leaves a full deque. *)
Definition deque_append (maxlen : nat) (d : list Q) (x : Q) : list Q :=
  let d' := d ++ [x] in
  skipn (length d' - maxlen) d'.

(** [prices[-n:]]: the last [n] elements, and the whole list when [n] is 0
    or exceeds the length. *)
Definition last_n (n : nat) (prices : list Q) : list Q :=
  if (n =? 0)%nat then prices else skipn (length prices - n) prices.

(** ** [class MomentumStrategy] *)
Module MomentumStrategy.

Record t : Type := mk {
  name : string;
  config : StrategyParams.t;
  active : bool;
  paper_mode : bool;
  short_ma_period : nat;
  long_ma_period : nat;
  momentum_threshold : Q;
  price_history : dict (option string) (list Q);
}.

(** [__init__] *)
Definition init (config : StrategyParams.t) : t :=
  {| name := "Momentum"; config := config;
     active := true; paper_mode := true;
     short_ma_period := get_default (StrategyParams.short_ma config) 5%nat;
     long_ma_period := get_default (StrategyParams.long_ma config) 20%nat;
     momentum_threshold :=
       get_default (StrategyParams.momentum_threshold config) 0.02;
     price_history := [] |}.

Definition set_paper_mode (self : t) (b : bool) : t :=
  mk (name self) (config self) (active self) b (short_ma_period self)
     (long_ma_period self) (momentum_threshold self) (price_history self).

Definition set_price_history (self : t)
    (h : dict (option string) (list Q)) : t :=
  mk (name self) (config self) (active self) (paper_mode self)
     (short_ma_period self) (long_ma_period self) (momentum_threshold self) h.

(** The two moving averages of [analyze] and [should_exit]. *)
Definition moving_averages (self : t) (prices : list Q) : result (Q * Q) :=
  short_ma <- qdiv (py_sum (last_n (short_ma_period self) prices))
                   (inject_Z (Z.of_nat (short_ma_period self))) ;;
  long_ma <- qdiv (py_sum prices)
                  (inject_Z (Z.of_nat (long_ma_period self))) ;;
  Ok (short_ma, long_ma).

Definition momentum_signal (self : t) (market_id side reason : string)
    (short_ma long_ma momentum : Q) (now : Z) : Signal.t :=
  {| Signal.market_id := market_id;
     Signal.side := side;
     Signal.confidence := py_min 0.9 (0.5 + Qabs momentum);
     Signal.size := get_default (StrategyParams.position_size (config self)) 5;
     Signal.strategy_name := name self;
     Signal.timestamp := now;
     Signal.metadata :=
       Some [("reason", VStr reason); ("short_ma", VNum short_ma);
             ("long_ma", VNum long_ma); ("momentum", VNum momentum)] |}.

(** [analyze]: the price is recorded before anything can raise, so the
    state returned holds it also when the averages raise. *)
Definition analyze (self : t) (market_data : MarketDict.t) (now : Z)
    : t * result (option Signal.t) :=
  let market_id := MarketDict.market_id market_data in
  match MarketDict.yes_price market_data with
  | None => (self, Ok None)
  | Some yes_price =>
    let history := get_default (dict_get (price_history self) market_id) [] in
    let prices := deque_append (long_ma_period self) history yes_price in
    let self := set_price_history self
                  (dict_set (price_history self) market_id prices) in
    (self,
     if (length prices <? long_ma_period self)%nat then Ok None
     else
       mas <- moving_averages self prices ;;
       let '(short_ma, long_ma) := mas in
       let momentum := short_ma - long_ma in
       if qltb (momentum_threshold self) momentum && qltb short_ma yes_price then
         Ok (Some (momentum_signal self (market_id_str market_data) "yes"
                     "upward_momentum" short_ma long_ma momentum now))
       else if qltb momentum (- momentum_threshold self)
               && qltb yes_price short_ma then
         Ok (Some (momentum_signal self (market_id_str market_data) "no"
                     "downward_momentum" short_ma long_ma momentum now))
       else Ok None)
  end.

(** [should_exit] *)
Definition should_exit (self : t) (position : PosDict.t)
    (market_data : MarketDict.t) : result bool :=
  let market_id := MarketDict.market_id market_data in
  let entry_momentum :=
    get_num (get_default (PosDict.metadata position) []) "momentum" 0 in
  match dict_get (price_history self) market_id with
  | None => Ok false
  | Some prices =>
    if (length prices <? long_ma_period self)%nat then Ok false
    else
      mas <- moving_averages self prices ;;
      let '(short_ma, long_ma) := mas in
      let current_momentum := short_ma - long_ma in
      if qltb 0 entry_momentum && qltb current_momentum 0 then Ok true
      else if qltb entry_momentum 0 && qltb 0 current_momentum then Ok true
      else if qltb (get_default (MarketDict.close_in_hours market_data) 24) 2
           then Ok true
           else Ok false
  end.

Definition strategy : BaseStrategy.t t :=
  {| BaseStrategy.name := name;
     BaseStrategy.active := active;
     BaseStrategy.paper_mode := paper_mode;
     BaseStrategy.analyze := analyze;
     BaseStrategy.should_exit := should_exit;
     BaseStrategy.enable_paper_mode := fun self => set_paper_mode self true;
     BaseStrategy.disable_paper_mode := fun self => set_paper_mode self false |}.

End MomentumStrategy.

Module MR := MeanReversionStrategy.
Module MM := MarketMakingStrategy.
Module Mom := MomentumStrategy.
