(* ===== verification/UfcStrategies.v ===== *)
(** * The UFC strategies (src/src/strategies/ufc_strategies.py)

    The four classes for markets on UFC fights, one Module each with the
    record of its attributes, [init] for [__init__], [analyze],
    [should_exit] and its instance of the [BaseStrategy] interface.  A
    strategy picks its markets by a part of the market id
    ([KXUFCFIGHT], [KXUFCROUNDS], [KXUFCMOV]) and buys YES only.  The
    configuration is the dictionary the class receives; [now] is what
    [datetime.now()] reads.  None of the four keeps state between calls
    and none raises. *)

From Stdlib Require Import String.
From Stdlib Require Import QArith ZArith List Bool.
From S2P Require Import Prelude PyDict PyStr Strategy.
Import ListNotations.
Open Scope string_scope.
Open Scope list_scope.
Open Scope py_scope.

(** The signal the four classes build: YES on the market, at the size of
    the strategy. *)
Definition yes_signal (market_id name : string) (confidence size : Q)
    (now : Z) (metadata : dict string PyVal) : Signal.t :=
  {| Signal.market_id := market_id;
     Signal.side := "yes";
     Signal.confidence := confidence;
     Signal.size := size;
     Signal.strategy_name := name;
     Signal.timestamp := now;
     Signal.metadata := Some metadata |}.

(** ** [class FavoriteBackerStrategy] *)
Module FavoriteBackerStrategy.

Record t : Type := mk {
  name : string;
  config : dict string PyVal;
  active : bool;
  paper_mode : bool;
  min_favorite_price : Q;
  max_favorite_price : Q;
  position_size : Q;
}.

(** [__init__] *)
Definition init (config : dict string PyVal) : t :=
  {| name := "FavoriteBacker"; config := config;
     active := true; paper_mode := true;
     min_favorite_price := get_num config "min_favorite_price" 0.70;
     max_favorite_price := get_num config "max_favorite_price" 0.85;
     position_size := get_num config "position_size" 5 |}.

Definition set_paper_mode (self : t) (b : bool) : t :=
  mk (name self) (config self) (active self) b (min_favorite_price self)
     (max_favorite_price self) (position_size self).

(** [analyze] *)
Definition analyze (self : t) (market_data : MarketDict.t) (now : Z)
    : option Signal.t :=
  let market_id := market_id_str market_data in
  let yes_price := get_default (MarketDict.yes_price market_data) 0.5 in
  if negb (str_in "KXUFCFIGHT" market_id) then None
  else if qleb (min_favorite_price self) yes_price
          && qleb yes_price (max_favorite_price self) then
    Some (yes_signal market_id (name self) yes_price (position_size self) now
            [("reason", VStr "favorite_in_range"); ("price", VNum yes_price)])
  else None.

(** [should_exit] *)
Definition should_exit (self : t) (position : PosDict.t)
    (market_data : MarketDict.t) : bool :=
  let entry_price := get_default (PosDict.entry_price position) 0.5 in
  let current_price := get_default (MarketDict.yes_price market_data) 0.5 in
  if qltb current_price (entry_price * 0.85) then true
  else if qltb (entry_price * 1.20) current_price then true
  else if qltb (get_default (MarketDict.close_in_hours market_data) 24) 0.5
       then true
       else false.

Definition strategy : BaseStrategy.t t :=
  {| BaseStrategy.name := name;
     BaseStrategy.active := active;
     BaseStrategy.paper_mode := paper_mode;
     BaseStrategy.analyze := fun self md now => (self, Ok (analyze self md now));
     BaseStrategy.should_exit := fun self pos md => Ok (should_exit self pos md);
     BaseStrategy.enable_paper_mode := fun self => set_paper_mode self true;
     BaseStrategy.disable_paper_mode := fun self => set_paper_mode self false |}.

End FavoriteBackerStrategy.

(** ** [class UnderdogValueStrategy] *)
Module UnderdogValueStrategy.

Record t : Type := mk {
  name : string;
  config : dict string PyVal;
  active : bool;
  paper_mode : bool;
  min_underdog_price : Q;
  max_underdog_price : Q;
  position_size : Q;
}.

(** [__init__] *)
Definition init (config : dict string PyVal) : t :=
  {| name := "UnderdogValue"; config := config;
     active := true; paper_mode := true;
     min_underdog_price := get_num config "min_underdog_price" 0.15;
     max_underdog_price := get_num config "max_underdog_price" 0.35;
     position_size := get_num config "position_size" 3 |}.

Definition set_paper_mode (self : t) (b : bool) : t :=
  mk (name self) (config self) (active self) b (min_underdog_price self)
     (max_underdog_price self) (position_size self).

(** [analyze] *)
Definition analyze (self : t) (market_data : MarketDict.t) (now : Z)
    : option Signal.t :=
  let market_id := market_id_str market_data in
  let yes_price := get_default (MarketDict.yes_price market_data) 0.5 in
  if negb (str_in "KXUFCFIGHT" market_id) then None
  else if qleb (min_underdog_price self) yes_price
          && qleb yes_price (max_underdog_price self) then
    Some (yes_signal market_id (name self) (1 - yes_price)
            (position_size self) now
            [("reason", VStr "underdog_value"); ("price", VNum yes_price)])
  else None.

(** [should_exit] *)
Definition should_exit (self : t) (position : PosDict.t)
    (market_data : MarketDict.t) : bool :=
  let entry_price := get_default (PosDict.entry_price position) 0.5 in
  let current_price := get_default (MarketDict.yes_price market_data) 0.5 in
  if qleb (entry_price * 2) current_price then true
  else if qltb current_price (entry_price * 0.5) then true
  else if qltb (get_default (MarketDict.close_in_hours market_data) 24) 0.5
       then true
       else false.

Definition strategy : BaseStrategy.t t :=
  {| BaseStrategy.name := name;
     BaseStrategy.active := active;
     BaseStrategy.paper_mode := paper_mode;
     BaseStrategy.analyze := fun self md now => (self, Ok (analyze self md now));
     BaseStrategy.should_exit := fun self pos md => Ok (should_exit self pos md);
     BaseStrategy.enable_paper_mode := fun self => set_paper_mode self true;
     BaseStrategy.disable_paper_mode := fun self => set_paper_mode self false |}.

End UnderdogValueStrategy.

(** ** [class FinishPropStrategy] *)
Module FinishPropStrategy.

Record t : Type := mk {
  name : string;
  config : dict string PyVal;
  active : bool;
  paper_mode : bool;
  max_finish_price : Q;
  position_size : Q;
}.

(** [__init__] *)
Definition init (config : dict string PyVal) : t :=
  {| name := "FinishProp"; config := config;
     active := true; paper_mode := true;
     max_finish_price := get_num config "max_finish_price" 0.40;
     position_size := get_num config "position_size" 4 |}.

Definition set_paper_mode (self : t) (b : bool) : t :=
  mk (name self) (config self) (active self) b (max_finish_price self)
     (position_size self).

(** [analyze] *)
Definition analyze (self : t) (market_data : MarketDict.t) (now : Z)
    : option Signal.t :=
  let market_id := market_id_str market_data in
  let yes_price := get_default (MarketDict.yes_price market_data) 0.5 in
  if negb (str_in "KXUFCROUNDS" market_id) then None
  else if qleb yes_price (max_finish_price self) && qltb 0.05 yes_price then
    Some (yes_signal market_id (name self) 0.55 (position_size self) now
            [("reason", VStr "finish_value"); ("price", VNum yes_price)])
  else None.

(** [should_exit] *)
Definition should_exit (self : t) (position : PosDict.t)
    (market_data : MarketDict.t) : bool :=
  let entry_price := get_default (PosDict.entry_price position) 0.5 in
  let current_price := get_default (MarketDict.yes_price market_data) 0.5 in
  if qleb (entry_price * 1.5) current_price then true
  else if qltb current_price (entry_price * 0.6) then true
  else if qltb (get_default (MarketDict.close_in_hours market_data) 24) 0.25
       then true
       else false.

Definition strategy : BaseStrategy.t t :=
  {| BaseStrategy.name := name;
     BaseStrategy.active := active;
     BaseStrategy.paper_mode := paper_mode;
     BaseStrategy.analyze := fun self md now => (self, Ok (analyze self md now));
     BaseStrategy.should_exit := fun self pos md => Ok (should_exit self pos md);
     BaseStrategy.enable_paper_mode := fun self => set_paper_mode self true;
     BaseStrategy.disable_paper_mode := fun self => set_paper_mode self false |}.

End FinishPropStrategy.

(** ** [class MethodOfVictoryStrategy] *)
Module MethodOfVictoryStrategy.

Record t : Type := mk {
  name : string;
  config : dict string PyVal;
  active : bool;
  paper_mode : bool;
  ko_fair_price : Q;
  sub_fair_price : Q;
  dec_fair_price : Q;
  edge_threshold : Q;
  position_size : Q;
}.

(** [__init__] *)
Definition init (config : dict string PyVal) : t :=
  {| name := "MethodOfVictory"; config := config;
     active := true; paper_mode := true;
     ko_fair_price := get_num config "ko_fair_price" 0.30;
     sub_fair_price := get_num config "sub_fair_price" 0.20;
     dec_fair_price := get_num config "dec_fair_price" 0.45;
     edge_threshold := get_num config "edge_threshold" 0.10;
     position_size := get_num config "position_size" 4 |}.

Definition set_paper_mode (self : t) (b : bool) : t :=
  mk (name self) (config self) (active self) b (ko_fair_price self)
     (sub_fair_price self) (dec_fair_price self) (edge_threshold self)
     (position_size self).

(** The chain of tests of [analyze] on the id in capitals: the fair
    price and the method of the market, [None] where [analyze] returns
    without a signal. *)
Definition fair_price_of (self : t) (ticker_upper : string)
    : option (Q * string) :=
  if str_in "KOTKODQ" ticker_upper || str_in "KO" ticker_upper then
    Some (ko_fair_price self, "ko")
  else if str_in "SUB" ticker_upper then Some (sub_fair_price self, "submission")
  else if str_in "DEC" ticker_upper then Some (dec_fair_price self, "decision")
  else None.

(** [analyze] *)
Definition analyze (self : t) (market_data : MarketDict.t) (now : Z)
    : option Signal.t :=
  let market_id := market_id_str market_data in
  let yes_price := get_default (MarketDict.yes_price market_data) 0.5 in
  if negb (str_in "KXUFCMOV" market_id) then None
  else
    let ticker_upper := upper market_id in
    match fair_price_of self ticker_upper with
    | None => None
    | Some (fair_price, method) =>
        let edge := fair_price - yes_price in
        if qleb (edge_threshold self) edge && qltb 0.03 yes_price then
          Some (yes_signal market_id (name self) fair_price
                  (position_size self) now
                  [("reason", VStr (method ++ "_value"));
                   ("price", VNum yes_price);
                   ("fair_price", VNum fair_price);
                   ("edge", VNum edge)])
        else None
    end.

(** [should_exit] *)
Definition should_exit (self : t) (position : PosDict.t)
    (market_data : MarketDict.t) : bool :=
  let entry_price := get_default (PosDict.entry_price position) 0.5 in
  let current_price := get_default (MarketDict.yes_price market_data) 0.5 in
  let fair_price :=
    get_num (get_default (PosDict.metadata position) []) "fair_price" 0.5 in
  if qleb fair_price current_price then true
  else if qltb current_price (entry_price * 0.5) then true
  else if qltb (get_default (MarketDict.close_in_hours market_data) 24) 0.25
       then true
       else false.

Definition strategy : BaseStrategy.t t :=
  {| BaseStrategy.name := name;
     BaseStrategy.active := active;
     BaseStrategy.paper_mode := paper_mode;
     BaseStrategy.analyze := fun self md now => (self, Ok (analyze self md now));
     BaseStrategy.should_exit := fun self pos md => Ok (should_exit self pos md);
     BaseStrategy.enable_paper_mode := fun self => set_paper_mode self true;
     BaseStrategy.disable_paper_mode := fun self => set_paper_mode self false |}.

End MethodOfVictoryStrategy.

Module FB := FavoriteBackerStrategy.
Module UV := UnderdogValueStrategy.
Module FP := FinishPropStrategy.
Module MOV := MethodOfVictoryStrategy.
