(* ===== verification/StrategiesProps.v ===== *)
(** * Theorems on the strategies

    When each strategy emits a signal and what the signal holds, the
    bounds of sizes and confidences, when the momentum strategy raises,
    the bound of its price history, and what the ledger does with the
    signals of the mean-reversion and market-making strategies. *)

From Stdlib Require Import String.
From Stdlib Require Import QArith Qabs Lqa Lia ZArith List Bool.
From S2P Require Import Prelude PyDict Config Strategy Ledger.
From S2P Require Import LedgerInv LedgerSteps Strategies.
Import ListNotations.
Open Scope string_scope.
Open Scope list_scope.
Open Scope py_scope.

(** ** Demonstration data *)

Definition market (id : string) (yes : Q) : MarketDict.t :=
  {| MarketDict.market_id := Some id; MarketDict.ticker := Some id;
     MarketDict.title := None; MarketDict.yes_price := Some yes;
     MarketDict.no_price := Some (1 - yes); MarketDict.volume := None;
     MarketDict.volume_24h := None; MarketDict.open_interest := None;
     MarketDict.status := Some "open"; MarketDict.close_in_hours := Some 48;
     MarketDict.order_book := None; MarketDict.last_updated := None |}.

Definition mr0 : MR.t := MR.init StrategyParams.empty.
Definition mom0 : Mom.t := Mom.init StrategyParams.empty.

(** ** Mean reversion *)

(** The mean-reversion strategy emits a signal exactly when the YES
    price is at or above the extreme threshold, in which case it bets NO,
    or at or below the minimum threshold, in which case it bets YES. *)
Theorem mean_reversion_analyze_spec self md now :
  let yes := get_default (MarketDict.yes_price md) 0.5 in
  match MR.analyze self md now with
  | Some s =>
    Signal.strategy_name s = MR.name self /\
    Signal.size s = MR._calculate_position_size self yes /\
    ((MR.extreme_threshold self <= yes /\ Signal.side s = "no") \/
     (yes < MR.extreme_threshold self /\ yes <= MR.min_threshold self
      /\ Signal.side s = "yes"))
  | None => yes < MR.extreme_threshold self /\ MR.min_threshold self < yes
  end.
Proof.
  intros yes. unfold MR.analyze. fold yes.
  destruct (qleb_spec (MR.extreme_threshold self) yes) as [H1|H1]; simpl.
  - repeat split; auto.
  - destruct (qleb_spec yes (MR.min_threshold self)) as [H2|H2]; simpl.
    + repeat split; auto. right. split; [lra|]. split; [lra | reflexivity].
    + split; lra.
Qed.

(** The size of a mean-reversion signal is at most the maximum
    position size; on a price between 0 and 1 with a base size that is not
    negative it is at least the smaller of the base size and the maximum,
    and at most twice the base size. *)
Theorem calculate_position_size_bounds self price :
  let base :=
    get_default (StrategyParams.base_position_size (MR.config self)) 5 in
  let cap :=
    get_default (StrategyParams.max_position_size (MR.config self)) 10 in
  MR._calculate_position_size self price <= cap /\
  (0 <= base -> py_min base cap <= MR._calculate_position_size self price) /\
  (0 <= base -> 0 <= price <= 1 ->
   MR._calculate_position_size self price <= 2 * base).
Proof.
  intros base cap. unfold MR._calculate_position_size. fold base cap.
  pose proof (Qabs_nonneg (price - 0.5)) as Habs.
  set (a := Qabs (price - 0.5)) in *.
  split; [apply py_min_le_r|]. split.
  - intros Hb.
    destruct (py_min_spec (base * (1 + a * 2)) cap) as [[? ->]|[? ->]];
      destruct (py_min_spec base cap) as [[? ->]|[? ->]]; nra.
  - intros Hb Hp. assert (Ha : a <= 0.5)
      by (unfold a; apply Qabs_case; intros; lra).
    destruct (py_min_spec (base * (1 + a * 2)) cap) as [[? ->]|[? ->]]; nra.
Qed.

(** With an extreme threshold of at least 0.5 and a minimum threshold
    of at most 0.5 the confidence of a mean-reversion signal is between
    0.5 and 0.95. *)
Theorem mean_reversion_confidence self md now s :
  0.5 <= MR.extreme_threshold self -> MR.min_threshold self <= 0.5 ->
  MR.analyze self md now = Some s ->
  0.5 <= Signal.confidence s <= 0.95.
Proof.
  intros He Hm. unfold MR.analyze.
  set (yes := get_default (MarketDict.yes_price md) 0.5).
  destruct (qleb_spec (MR.extreme_threshold self) yes) as [H1|H1].
  - intros H; injection H as <-; simpl.
    destruct (py_min_spec 0.95 yes) as [[? ->]|[? ->]]; lra.
  - destruct (qleb_spec yes (MR.min_threshold self)) as [H2|H2]; [|discriminate].
    intros H; injection H as <-; simpl.
    destruct (py_min_spec 0.95 (1 - yes)) as [[? ->]|[? ->]]; lra.
Qed.

(** [should_exit] of the mean-reversion strategy holds exactly when
    the entry price was above 0.5 and the YES price is at or below the
    target, or the entry price was below 0.5 and the YES price is at or
    above the target, or the market closes within the hour. *)
Theorem mean_reversion_should_exit_spec self pos md :
  let entry := get_default (PosDict.entry_price pos) 0.5 in
  let current := get_default (MarketDict.yes_price md) 0.5 in
  MR.should_exit self pos md = true
  <-> (0.5 < entry /\ current <= MR.exit_target self)
      \/ (entry < 0.5 /\ MR.exit_target self <= current)
      \/ get_default (MarketDict.close_in_hours md) 24 < 1.
Proof.
  intros entry current. unfold MR.should_exit. fold entry current.
  destruct (qltb_spec 0.5 entry); destruct (qleb_spec current (MR.exit_target self));
    destruct (qltb_spec entry 0.5); destruct (qleb_spec (MR.exit_target self) current);
    destruct (qltb_spec (get_default (MarketDict.close_in_hours md) 24) 1);
    simpl; split; try tauto; try discriminate; intros [?|[?|?]]; lra.
Qed.

(** C29. A NO position that the ledger opens for a mean-reversion signal
    is due for exit at once: on the snapshot that triggered the signal
    [should_exit] already holds, because the entry price recorded is the
    NO price while the exit test reads the YES price; and closed at that
    same price the position has a P&L of 0. *)
Theorem mean_reversion_no_exits_at_once self md now s T y nid T' p reason now' :
  MarketDict.yes_price md = Some y ->
  0.5 < y -> MR.exit_target self <= y -> MR.extreme_threshold self <= y ->
  MR.analyze self md now = Some s ->
  PT.execute_signal T s y nid now = (T', Some p) ->
  PP.side p = "no" /\ PP.entry_price p = 1 - y /\
  MR.should_exit self (PT.pos_dict p) md = true /\
  PP.pnl (PT.closed_at p y reason now') == 0.
Proof.
  intros Hy Hhalf Ht He Ha Hx.
  assert (Hs : Signal.side s = "no").
  { unfold MR.analyze in Ha. rewrite Hy in Ha. cbn [get_default] in Ha.
    apply qleb_true in He. rewrite He in Ha. now injection Ha as <-. }
  apply execute_signal_some in Hx. destruct Hx as (pf & _ & _ & _ & -> & _).
  rewrite closed_at_pnl. unfold MR.should_exit. cbn. rewrite Hs, Hy. cbn.
  split; [reflexivity|]. split; [reflexivity|]. split; [|ring].
  destruct (qltb_spec 0.5 (1 - y)); [lra|].
  destruct (qltb_spec (1 - y) 0.5); [|lra].
  destruct (qleb_spec (MR.exit_target self) y); [reflexivity | lra].
Qed.

(** ** Market making *)

(** The market-making strategy emits a signal exactly when the spread
    is at least the minimum spread and the best bid is not 0; the signal
    is for both sides, with the spread as its confidence, and the ledger
    would price it as a NO order. *)
Theorem market_making_analyze_spec self md now :
  let book := get_default (MarketDict.order_book md) OrderBook.empty in
  let bid := get_default (OrderBook.best_bid book) 0 in
  let ask := get_default (OrderBook.best_ask book) 1 in
  match MM.analyze self md now with
  | Some s =>
    MM.min_spread self <= ask - bid /\ ~ bid == 0 /\
    Signal.side s = "both" /\ Signal.confidence s = ask - bid /\
    forall y, PT.contract_price (Signal.side s) y = 1 - y
  | None => ask - bid < MM.min_spread self \/ bid == 0
  end.
Proof.
  intros book bid ask. unfold MM.analyze. fold book. fold bid ask.
  destruct (qltb_spec (ask - bid) (MM.min_spread self));
    destruct (qeqb_spec bid 0); simpl; auto.
  repeat split; auto. lra.
Qed.

(** ** Momentum *)

Lemma deque_append_length maxlen d x :
  length (deque_append maxlen d x) = Nat.min (length d + 1) maxlen.
Proof.
  unfold deque_append. rewrite length_skipn, length_app. simpl. lia.
Qed.

Lemma deque_append_last maxlen d x :
  (0 < maxlen)%nat -> last (deque_append maxlen d x) 0 = x.
Proof.
  intros H. unfold deque_append.
  assert (Hd : d ++ [x] = firstn (length (d ++ [x]) - maxlen) d
                          ++ skipn (length (d ++ [x]) - maxlen) d ++ [x]).
  { rewrite length_app; simpl. rewrite app_assoc, firstn_skipn. reflexivity. }
  rewrite skipn_app. rewrite length_app at 2. simpl.
  replace (length d + 1 - maxlen - length d)%nat with 0%nat by lia.
  simpl. apply last_last.
Qed.

(** No deque of the price history is longer than the long period. *)
Definition history_ok (self : Mom.t) : Prop :=
  dict_wf (Mom.price_history self) /\
  Forall (fun h => (length h <= Mom.long_ma_period self)%nat)
         (dict_values (Mom.price_history self)).

Lemma moving_averages_ok self prices :
  (0 < Mom.short_ma_period self)%nat -> (0 < Mom.long_ma_period self)%nat ->
  exists mas, Mom.moving_averages self prices = Ok mas.
Proof.
  intros Hs Hl. unfold Mom.moving_averages.
  rewrite !qdiv_ok; [simpl; eauto | |];
    change 0 with (inject_Z 0); rewrite inject_Z_injective; lia.
Qed.

Lemma moving_averages_err self prices :
  Mom.short_ma_period self = 0%nat \/ Mom.long_ma_period self = 0%nat ->
  Mom.moving_averages self prices = Err ZeroDivisionError.
Proof.
  intros H. unfold Mom.moving_averages.
  destruct (Mom.short_ma_period self) as [|s] eqn:Es;
    [now rewrite qdiv_err by reflexivity|].
  destruct H as [H|H]; [discriminate|]. rewrite H.
  rewrite qdiv_ok, qdiv_err; [reflexivity | reflexivity |].
  change 0 with (inject_Z 0); rewrite inject_Z_injective; lia.
Qed.

(** What [analyze] does to the state: the price is appended to the deque
    of the market. *)
Definition recorded (self : Mom.t) (md : MarketDict.t) (y : Q) : Mom.t :=
  Mom.set_price_history self
    (dict_set (Mom.price_history self) (MarketDict.market_id md)
       (deque_append (Mom.long_ma_period self)
          (get_default (dict_get (Mom.price_history self)
                                 (MarketDict.market_id md)) []) y)).

Lemma analyze_state self md now :
  fst (Mom.analyze self md now)
  = match MarketDict.yes_price md with
    | Some y => recorded self md y
    | None => self
    end.
Proof.
  unfold Mom.analyze. now destruct (MarketDict.yes_price md).
Qed.

(** The result of [analyze] once the price [y] is recorded. *)
Lemma analyze_result self md now y :
  MarketDict.yes_price md = Some y ->
  snd (Mom.analyze self md now)
  = let prices :=
      deque_append (Mom.long_ma_period self)
        (get_default (dict_get (Mom.price_history self)
                               (MarketDict.market_id md)) []) y in
    if (length prices <? Mom.long_ma_period self)%nat then Ok None
    else
      mas <- Mom.moving_averages self prices ;;
      let momentum := fst mas - snd mas in
      if qltb (Mom.momentum_threshold self) momentum && qltb (fst mas) y then
        Ok (Some (Mom.momentum_signal self (market_id_str md) "yes"
                    "upward_momentum" (fst mas) (snd mas) momentum now))
      else if qltb momentum (- Mom.momentum_threshold self)
              && qltb y (fst mas) then
        Ok (Some (Mom.momentum_signal self (market_id_str md) "no"
                    "downward_momentum" (fst mas) (snd mas) momentum now))
      else Ok None.
Proof.
  intros Hy. unfold Mom.analyze. rewrite Hy. cbn [snd]. cbv zeta.
  destruct (_ <? _)%nat; [reflexivity|].
  unfold Mom.moving_averages. cbn [Mom.short_ma_period Mom.long_ma_period
    Mom.set_price_history].
  destruct (qdiv _ _) as [sm|e]; [|reflexivity]. cbn [bind].
  destruct (qdiv _ _) as [lm|e]; reflexivity.
Qed.

Lemma recorded_history_ok self md y : history_ok self -> history_ok (recorded self md y).
Proof.
  intros [Hwf Hall]. split; simpl; [now apply dict_set_wf|].
  apply Forall_forall. intros h Hin.
  apply dict_values_get in Hin; [|now apply dict_set_wf].
  destruct Hin as (k & Hk). rewrite dict_get_set in Hk.
  destruct (eq_dec (MarketDict.market_id md) k).
  - injection Hk as <-. rewrite deque_append_length. lia.
  - rewrite Forall_forall in Hall. eapply Hall, dict_get_values, Hk.
Qed.

(** [analyze] of the momentum strategy keeps every deque of the price
    history within the long period, records the price of the snapshot as
    the newest entry of its market, and changes no other attribute; this
    holds of the state it leaves also when it raises. *)
Theorem momentum_history_bounded self md now y :
  history_ok self -> (0 < Mom.long_ma_period self)%nat ->
  MarketDict.yes_price md = Some y ->
  let self' := fst (Mom.analyze self md now) in
  history_ok self' /\
  Mom.long_ma_period self' = Mom.long_ma_period self /\
  Mom.short_ma_period self' = Mom.short_ma_period self /\
  exists prices,
    dict_get (Mom.price_history self') (MarketDict.market_id md) = Some prices
    /\ last prices 0 = y.
Proof.
  intros Hok Hl Hy self'. subst self'. rewrite analyze_state, Hy.
  split; [now apply recorded_history_ok|]. split; [reflexivity|].
  split; [reflexivity|]. eexists. split; [apply dict_get_set_same|].
  now apply deque_append_last.
Qed.

(** The three-way choice of both methods returns once the averages do. *)
Ltac returns_by_cases :=
  cbn [bind];
  repeat match goal with
         | |- context [if ?c then _ else _] => destruct c
         end; eauto.

(** C38. With both periods positive [analyze] and [should_exit] of the
    momentum strategy return; with a period of 0 [analyze] raises
    ZeroDivisionError as soon as the deque holds the long period of
    prices, and the price of the snapshot stays recorded. *)
Theorem momentum_returns self md pos now :
  ((0 < Mom.short_ma_period self)%nat -> (0 < Mom.long_ma_period self)%nat ->
   (exists r, snd (Mom.analyze self md now) = Ok r) /\
   (exists b, Mom.should_exit self pos md = Ok b)) /\
  (Mom.short_ma_period self = 0%nat \/ Mom.long_ma_period self = 0%nat ->
   forall y, MarketDict.yes_price md = Some y ->
   (Mom.long_ma_period self
    <= length (get_default (dict_get (Mom.price_history self)
                                     (MarketDict.market_id md)) []) + 1)%nat ->
   Mom.analyze self md now = (recorded self md y, Err ZeroDivisionError)).
Proof.
  split.
  - intros Hs Hl. split.
    + destruct (MarketDict.yes_price md) as [y|] eqn:Hy;
        [|unfold Mom.analyze; rewrite Hy; now eexists].
      rewrite (analyze_result _ _ _ y Hy). cbv zeta.
      destruct (_ <? _)%nat; [eauto|].
      edestruct moving_averages_ok as [[s l] ->]; [exact Hs | exact Hl |].
      returns_by_cases.
    + unfold Mom.should_exit. destruct (dict_get _ _) as [prices|]; [|eauto].
      destruct (_ <? _)%nat; [eauto|].
      edestruct moving_averages_ok as [[s l] ->]; [exact Hs | exact Hl |].
      returns_by_cases.
  - intros Hz y Hy Hlen. apply injective_projections.
    + now rewrite analyze_state, Hy.
    + rewrite (analyze_result _ _ _ y Hy). cbv zeta.
      rewrite deque_append_length.
      replace (_ <? _)%nat with false by (symmetry; apply Nat.ltb_ge; cbn; lia).
      now rewrite moving_averages_err.
Qed.

(** The momentum strategy emits no signal while the deque of the
    market holds fewer prices than the long period. *)
Theorem momentum_warmup self md now y :
  MarketDict.yes_price md = Some y ->
  (length (get_default (dict_get (Mom.price_history self)
                                 (MarketDict.market_id md)) []) + 1
   < Mom.long_ma_period self)%nat ->
  Mom.analyze self md now = (recorded self md y, Ok None).
Proof.
  intros Hy Hlen. apply injective_projections.
  - now rewrite analyze_state, Hy.
  - rewrite (analyze_result _ _ _ y Hy). cbv zeta. rewrite deque_append_length.
    replace (_ <? _)%nat with true by (symmetry; apply Nat.ltb_lt; cbn; lia).
    reflexivity.
Qed.

(** A momentum signal has a confidence between 0.5 and 0.9, the
    configured size, and the side of the momentum recorded in its
    metadata: YES above the threshold, NO below its opposite. *)
Theorem momentum_signal_spec self md now s :
  0 <= Mom.momentum_threshold self ->
  snd (Mom.analyze self md now) = Ok (Some s) ->
  0.5 <= Signal.confidence s <= 0.9 /\
  Signal.size s
  = get_default (StrategyParams.position_size (Mom.config self)) 5 /\
  let momentum := get_num (get_default (Signal.metadata s) []) "momentum" 0 in
  (Signal.side s = "yes" /\ Mom.momentum_threshold self < momentum) \/
  (Signal.side s = "no" /\ momentum < - Mom.momentum_threshold self).
Proof.
  intros Ht. destruct (MarketDict.yes_price md) as [y|] eqn:Hy;
    [|unfold Mom.analyze; rewrite Hy; discriminate].
  rewrite (analyze_result _ _ _ y Hy). cbv zeta.
  destruct (_ <? _)%nat; [discriminate|].
  intros H. inv_bind H. destruct a as [sm lm]. clear Hbind.
  cbn [fst snd] in H.
  set (m := sm - lm) in *. pose proof (Qabs_nonneg m) as Habs.
  assert (Hc : 0.5 <= py_min 0.9 (0.5 + Qabs m) <= 0.9)
    by (destruct (py_min_spec 0.9 (0.5 + Qabs m)) as [[? ->]|[? ->]]; lra).
  destruct (qltb (Mom.momentum_threshold self) m && qltb sm y) eqn:E1.
  - apply andb_prop in E1. destruct E1 as [E1 _]. apply qltb_true in E1.
    injection H as <-. cbn. split; [exact Hc|]. split; [reflexivity|]. now left.
  - destruct (qltb m (- Mom.momentum_threshold self) && qltb y sm) eqn:E2;
      [|discriminate].
    apply andb_prop in E2. destruct E2 as [E2 _]. apply qltb_true in E2.
    injection H as <-. cbn. split; [exact Hc|]. split; [reflexivity|]. now right.
Qed.

(** ** Witnesses *)

Definition extreme_market : MarketDict.t := market "MKT" 0.96.

Definition mr_trader : PT.t :=
  PT.initialize_portfolio (PT.init RiskConfig.default) "MeanReversion" 66.

Definition mr_signal : Signal.t :=
  match MR.analyze mr0 extreme_market 5 with
  | Some s => s
  | None => demo_signal
  end.

Definition mr_position : PP.t :=
  match snd (PT.execute_signal mr_trader mr_signal 0.96 "id-7" 5) with
  | Some p => p
  | None => demo_position
  end.

Lemma mean_reversion_confidence_witness :
  0.5 <= Signal.confidence mr_signal <= 0.95.
Proof.
  apply (mean_reversion_confidence mr0 extreme_market 5%Z mr_signal);
    [discriminate | discriminate | reflexivity].
Defined.

Lemma mean_reversion_no_exits_at_once_witness :
  MR.should_exit mr0 (PT.pos_dict mr_position) extreme_market = true.
Proof.
  apply (mean_reversion_no_exits_at_once mr0 extreme_market 5%Z mr_signal
           mr_trader 0.96 "id-7"
           (fst (PT.execute_signal mr_trader mr_signal 0.96 "id-7" 5))
           mr_position "strategy_exit" 6%Z);
    reflexivity || discriminate.
Defined.

Definition small_params : StrategyParams.t :=
  {| StrategyParams.extreme_threshold := None;
     StrategyParams.min_threshold := None;
     StrategyParams.exit_target := None;
     StrategyParams.base_position_size := None;
     StrategyParams.max_position_size := None;
     StrategyParams.min_spread := None;
     StrategyParams.position_size := None;
     StrategyParams.short_ma := Some 2%nat;
     StrategyParams.long_ma := Some 3%nat;
     StrategyParams.momentum_threshold := None |}.

(** The momentum strategy after the snapshots of a list of prices of one
    market. *)
Definition after_prices (self : Mom.t) (prices : list Q) : Mom.t :=
  fold_left (fun self y =>
               fst (Mom.analyze self (market "MKT" y) 0)) prices self.

Definition mom_warm : Mom.t := after_prices (Mom.init small_params) [0.3; 0.4].

Definition mom_result : Mom.t * result (option Signal.t) :=
  Mom.analyze mom_warm (market "MKT" 0.6) 9.

Definition mom_signal : Signal.t :=
  match snd mom_result with Ok (Some s) => s | _ => demo_signal end.

Lemma mom_warm_ok : history_ok mom_warm.
Proof.
  split; [repeat constructor; simpl; tauto|].
  repeat constructor.
Defined.

Lemma momentum_history_bounded_witness : history_ok (fst mom_result).
Proof.
  apply (momentum_history_bounded mom_warm (market "MKT" 0.6) 9%Z 0.6
           mom_warm_ok); [simpl; lia | reflexivity].
Defined.

Lemma momentum_warmup_witness :
  Mom.analyze mom0 (market "MKT" 0.5) 0
  = (recorded mom0 (market "MKT" 0.5) 0.5, Ok None).
Proof.
  apply (momentum_warmup mom0 (market "MKT" 0.5) 0%Z 0.5); [reflexivity|].
  simpl; lia.
Defined.

Lemma momentum_signal_spec_witness :
  0.5 <= Signal.confidence mom_signal <= 0.9.
Proof.
  apply (momentum_signal_spec mom_warm (market "MKT" 0.6) 9%Z mom_signal);
    [discriminate | reflexivity].
Defined.

(** A momentum strategy whose periods are configured as 0. *)
Definition zero_params : StrategyParams.t :=
  {| StrategyParams.extreme_threshold := None;
     StrategyParams.min_threshold := None;
     StrategyParams.exit_target := None;
     StrategyParams.base_position_size := None;
     StrategyParams.max_position_size := None;
     StrategyParams.min_spread := None;
     StrategyParams.position_size := None;
     StrategyParams.short_ma := Some 0%nat;
     StrategyParams.long_ma := Some 0%nat;
     StrategyParams.momentum_threshold := None |}.

Definition mom_zero : Mom.t := Mom.init zero_params.

Lemma momentum_returns_witness :
  ((exists r, snd (Mom.analyze mom_warm (market "MKT" 0.6) 9) = Ok r) /\
   (exists b, Mom.should_exit mom_warm (PT.pos_dict demo_position)
                (market "MKT" 0.6) = Ok b)) /\
  Mom.analyze mom_zero (market "MKT" 0.5) 0
  = (recorded mom_zero (market "MKT" 0.5) 0.5, Err ZeroDivisionError).
Proof.
  split.
  - apply (proj1 (momentum_returns mom_warm (market "MKT" 0.6)
                    (PT.pos_dict demo_position) 9%Z)); simpl; lia.
  - apply (proj2 (momentum_returns mom_zero (market "MKT" 0.5)
                    (PT.pos_dict demo_position) 0%Z)
             (or_introl eq_refl) 0.5 eq_refl).
    simpl; lia.
Defined.
