(* ===== verification/StrategyLaws.v ===== *)
(** * The strategies meet the interface

    The three strategy classes are [Lawful]: what the scanner and the
    orchestrator assume of a strategy holds of each of them.  The proofs
    are case analyses of [analyze]; [lawful_by_cases] runs them. *)

From Stdlib Require Import String.
From Stdlib Require Import QArith ZArith List Bool.
From S2P Require Import Prelude PyDict Strategy Strategies.
Import ListNotations.
Open Scope string_scope.
Open Scope list_scope.
Open Scope py_scope.

(** Splits the conditionals of an [analyze] that returned a signal and
    reads the field off the signal. *)
Ltac signal_cases H :=
  repeat match type of H with
         | context [if ?c then _ else _] => destruct c
         end;
  try discriminate; injection H as <-; cbn; auto.

#[export] Instance MeanReversion_Lawful : Lawful MR.strategy.
Proof.
  split; try reflexivity; cbn; unfold MR.analyze; intros s md now sig H;
    signal_cases H.
Qed.

#[export] Instance MarketMaking_Lawful : Lawful MM.strategy.
Proof.
  split; try reflexivity; cbn; unfold MM.analyze; intros s md now sig H;
    signal_cases H.
Qed.

(** The signal of the momentum strategy, whichever way it points. *)
Lemma momentum_analyze_signal s md now sig :
  snd (Mom.analyze s md now) = Ok (Some sig) ->
  exists side reason sm lm m,
    sig = Mom.momentum_signal (fst (Mom.analyze s md now)) (market_id_str md)
            side reason sm lm m now /\ (side = "yes" \/ side = "no").
Proof.
  unfold Mom.analyze. destruct (MarketDict.yes_price md) as [y|];
    [|discriminate]. cbn [fst snd].
  destruct (_ <? _)%nat; [discriminate|].
  destruct (Mom.moving_averages _ _) as [[sm lm]|e]; [|discriminate].
  cbn [bind]. intros H.
  repeat match type of H with
         | context [if ?c then _ else _] => destruct c
         end; try discriminate; injection H as <-; eauto 10.
Qed.

#[export] Instance Momentum_Lawful : Lawful Mom.strategy.
Proof.
  split; try reflexivity; cbn.
  1-3: intros s md now; unfold Mom.analyze;
       now destruct (MarketDict.yes_price md).
  all: intros s md now sig H;
       destruct (momentum_analyze_signal s md now sig H)
         as (side & reason & sm & lm & m & -> & Hside); cbn.
  - unfold Mom.analyze. now destruct (MarketDict.yes_price md).
  - reflexivity.
  - destruct Hside as [-> | ->]; auto.
Qed.
