(* ===== verification/UfcProps.v ===== *)
(** * Properties of the UFC strategies

    When each of the four classes signals and with what, that the
    favourite and the underdog strategies never take the same market,
    how the method-of-victory strategy reads the method off the market
    id, that the fair price a signal carries comes back from the
    position the ledger opens for it, that no position of the four is
    due for exit on the snapshot that opened it, and that the four
    classes meet the [Lawful] interface of the scanner. *)

From Stdlib Require Import String.
From Stdlib Require Import QArith Lqa Lia ZArith List Bool.
From S2P Require Import Prelude PyDict PyStr Config Strategy Ledger.
From S2P Require Import LedgerInv Strategies StrategiesProps UfcStrategies.
Import ListNotations.
Open Scope string_scope.
Open Scope list_scope.
Open Scope py_scope.

(** Splits the tests of an [analyze] or a [should_exit] into facts on
    the rationals. *)
Ltac ufc_cases :=
  repeat match goal with
         | |- context [qleb ?a ?b] => destruct (qleb_spec a b)
         | |- context [qltb ?a ?b] => destruct (qltb_spec a b)
         | |- context [str_in ?a ?b] => destruct (str_in a b)
         end; cbn [negb andb orb].

Ltac ufc_spec :=
  ufc_cases;
  (split; [intros H; try discriminate; injection H as <-; repeat split; auto
          |intros (Hin & Hlo & Hhi & Hs); try discriminate; try lra;
           now subst]).

Section Analyze.
Variables (md : MarketDict.t) (now : Z).

(** The favourite strategy signals exactly on a market whose id
    holds KXUFCFIGHT and whose YES price lies between the two bounds of
    the strategy, and the signal buys YES at the strategy's size with
    the price as its confidence. *)
Theorem favorite_analyze_spec (self : FB.t) s :
  let id := market_id_str md in
  let yes := get_default (MarketDict.yes_price md) 0.5 in
  FB.analyze self md now = Some s
  <-> str_in "KXUFCFIGHT" id = true
      /\ FB.min_favorite_price self <= yes
      /\ yes <= FB.max_favorite_price self
      /\ s = yes_signal id (FB.name self) yes (FB.position_size self) now
               [("reason", VStr "favorite_in_range"); ("price", VNum yes)].
Proof. intros id yes. unfold FB.analyze. fold id yes. ufc_spec. Qed.

(** The underdog strategy: the same market test, the price between the
    bounds of the underdog, and a confidence of one minus the price. *)
Theorem underdog_analyze_spec (self : UV.t) s :
  let id := market_id_str md in
  let yes := get_default (MarketDict.yes_price md) 0.5 in
  UV.analyze self md now = Some s
  <-> str_in "KXUFCFIGHT" id = true
      /\ UV.min_underdog_price self <= yes
      /\ yes <= UV.max_underdog_price self
      /\ s = yes_signal id (UV.name self) (1 - yes) (UV.position_size self) now
               [("reason", VStr "underdog_value"); ("price", VNum yes)].
Proof. intros id yes. unfold UV.analyze. fold id yes. ufc_spec. Qed.

(** The finish strategy signals on a KXUFCROUNDS market priced above
    0.05 and at most the maximum, with the constant confidence 0.55. *)
Theorem finish_analyze_spec (self : FP.t) s :
  let id := market_id_str md in
  let yes := get_default (MarketDict.yes_price md) 0.5 in
  FP.analyze self md now = Some s
  <-> str_in "KXUFCROUNDS" id = true
      /\ yes <= FP.max_finish_price self
      /\ 0.05 < yes
      /\ s = yes_signal id (FP.name self) 0.55 (FP.position_size self) now
               [("reason", VStr "finish_value"); ("price", VNum yes)].
Proof. intros id yes. unfold FP.analyze. fold id yes. ufc_spec. Qed.

(** The method-of-victory strategy signals on a KXUFCMOV market of a
    known method whose price is above 0.03 and below the fair price of
    the method by at least the edge threshold; the signal carries the
    fair price as its confidence and in its metadata. *)
Theorem method_analyze_spec (self : MOV.t) s :
  let id := market_id_str md in
  let yes := get_default (MarketDict.yes_price md) 0.5 in
  MOV.analyze self md now = Some s
  <-> exists fair method,
      str_in "KXUFCMOV" id = true
      /\ MOV.fair_price_of self (upper id) = Some (fair, method)
      /\ MOV.edge_threshold self <= fair - yes /\ 0.03 < yes
      /\ s = yes_signal id (MOV.name self) fair (MOV.position_size self) now
               [("reason", VStr (method ++ "_value")); ("price", VNum yes);
                ("fair_price", VNum fair); ("edge", VNum (fair - yes))].
Proof.
  intros id yes. unfold MOV.analyze. fold id yes.
  destruct (str_in "KXUFCMOV" id); cbn [negb];
    [|split; [discriminate | now intros (? & ? & ? & _)]].
  destruct (MOV.fair_price_of self (upper id)) as [[fair method]|];
    [|split; [discriminate | now intros (? & ? & _ & ? & _)]].
  ufc_cases; split; try discriminate.
  - intros H. injection H as <-. now exists fair, method.
  - intros (f & m & _ & H & _ & _ & ->). now injection H as -> ->.
  - intros (f & m & _ & H & ? & ? & _). injection H as -> ->. lra.
  - intros (f & m & _ & H & ? & ? & _). injection H as -> ->. lra.
  - intros (f & m & _ & H & ? & ? & _). injection H as -> ->. lra.
Qed.

(** The favourite and the underdog strategies never take the same
    market: when the highest underdog price is below the lowest
    favourite price, at most one of the two signals on a snapshot. *)
Theorem favorite_underdog_exclusive (fb : FB.t) (uv : UV.t) :
  UV.max_underdog_price uv < FB.min_favorite_price fb ->
  FB.analyze fb md now = None \/ UV.analyze uv md now = None.
Proof.
  intros Hgap. unfold FB.analyze, UV.analyze.
  ufc_cases; auto; lra.
Qed.

End Analyze.

(** ** The method read off the market id *)

(** The first test of the chain is subsumed by the second: an id that
    holds KOTKODQ holds KO. *)
Lemma fair_price_of_ko self u :
  MOV.fair_price_of self u
  = if str_in "KO" u then Some (MOV.ko_fair_price self, "ko")
    else if str_in "SUB" u then Some (MOV.sub_fair_price self, "submission")
    else if str_in "DEC" u then Some (MOV.dec_fair_price self, "decision")
    else None.
Proof.
  unfold MOV.fair_price_of. destruct (str_in "KOTKODQ" u) eqn:E; [|reflexivity].
  now rewrite (str_in_trans "KO" "KOTKODQ" u eq_refl E).
Qed.

(** The method of a market is read off any part of its id: an id
    that holds the letters KO anywhere, in either case, is priced as a
    knockout market, whatever else it holds, a submission or a decision
    suffix included. *)
Theorem method_ko_shadows self pre post :
  MOV.fair_price_of self (upper (pre ++ "KO" ++ post))
  = Some (MOV.ko_fair_price self, "ko").
Proof.
  rewrite fair_price_of_ko, !upper_app.
  change (upper "KO") with "KO". now rewrite str_in_app.
Qed.

(** ** Positions of the four strategies *)

Section Opened.
Variables (T T' : PT.t) (md : MarketDict.t) (now : Z) (nid : string)
          (s : Signal.t) (p : PP.t) (y : Q).
Hypothesis Hy : MarketDict.yes_price md = Some y.
Hypothesis Hopen : PT.execute_signal T s y nid now = (T', Some p).

(** The position the ledger opens for a YES signal enters at the YES
    price and keeps the metadata of the signal. *)
Lemma yes_position id name confidence size meta :
  s = yes_signal id name confidence size now meta ->
  PT.pos_dict p
  = {| PosDict.entry_price := Some y; PosDict.side := Some "yes";
       PosDict.metadata := Some meta |}.
Proof.
  intros ->. apply execute_signal_some in Hopen.
  now destruct Hopen as (pf & _ & _ & _ & -> & _).
Qed.

(** The fair price of a method-of-victory signal comes back at the
    exit: [should_exit] reads from the position the ledger opened the
    fair price [analyze] priced the method at. *)
Theorem method_fair_price_roundtrip (self : MOV.t) :
  MOV.analyze self md now = Some s ->
  exists method,
    MOV.fair_price_of self (upper (market_id_str md))
    = Some (get_num (get_default (PosDict.metadata (PT.pos_dict p)) [])
                    "fair_price" 0.5, method).
Proof.
  intros Ha. apply method_analyze_spec in Ha
    as (fair & method & _ & Hf & _ & _ & Hs).
  rewrite (yes_position _ _ _ _ _ Hs). now exists method.
Qed.

(** No position of the four strategies is due for exit on the
    snapshot that opened it, as long as the market is not about to
    close: the stop and the target of each class leave room around a
    positive entry price. *)
Theorem ufc_no_exit_at_once (fb : FB.t) (uv : UV.t) (fp : FP.t) (mov : MOV.t) :
  0 < y -> 0.5 <= get_default (MarketDict.close_in_hours md) 24 ->
  0 < MOV.edge_threshold mov ->
  (FB.analyze fb md now = Some s -> FB.should_exit fb (PT.pos_dict p) md = false)
  /\ (UV.analyze uv md now = Some s -> UV.should_exit uv (PT.pos_dict p) md = false)
  /\ (FP.analyze fp md now = Some s -> FP.should_exit fp (PT.pos_dict p) md = false)
  /\ (MOV.analyze mov md now = Some s
      -> MOV.should_exit mov (PT.pos_dict p) md = false).
Proof.
  intros Hpos Hclose Hedge. repeat split; intros Ha.
  - apply favorite_analyze_spec in Ha as (_ & _ & _ & Hs).
    rewrite (yes_position _ _ _ _ _ Hs). unfold FB.should_exit.
    rewrite Hy. cbn [get_default PosDict.entry_price]. ufc_cases; auto; lra.
  - apply underdog_analyze_spec in Ha as (_ & _ & _ & Hs).
    rewrite (yes_position _ _ _ _ _ Hs). unfold UV.should_exit.
    rewrite Hy. cbn [get_default PosDict.entry_price]. ufc_cases; auto; lra.
  - apply finish_analyze_spec in Ha as (_ & _ & _ & Hs).
    rewrite (yes_position _ _ _ _ _ Hs). unfold FP.should_exit.
    rewrite Hy. cbn [get_default PosDict.entry_price]. ufc_cases; auto; lra.
  - apply method_analyze_spec in Ha as (fair & m & _ & _ & He & _ & Hs).
    rewrite (yes_position _ _ _ _ _ Hs). unfold MOV.should_exit.
    rewrite Hy in *. cbn [get_default PosDict.entry_price PosDict.metadata].
    change (get_num _ "fair_price" 0.5) with fair.
    cbn [get_default] in He. ufc_cases; auto; lra.
Qed.

End Opened.

(** ** The four classes meet the interface *)

Ltac ufc_lawful analyze :=
  split; try reflexivity; cbn; unfold analyze; intros s md now sig H;
  repeat match type of H with
         | context [if ?c then _ else _] => destruct c
         | context [match ?c with _ => _ end] => destruct c as [[? ?]|]
         end;
  try discriminate; injection H as <-; cbn; auto.

#[export] Instance FavoriteBacker_Lawful : Lawful FB.strategy.
Proof. ufc_lawful FB.analyze. Qed.

#[export] Instance UnderdogValue_Lawful : Lawful UV.strategy.
Proof. ufc_lawful UV.analyze. Qed.

#[export] Instance FinishProp_Lawful : Lawful FP.strategy.
Proof. ufc_lawful FP.analyze. Qed.

#[export] Instance MethodOfVictory_Lawful : Lawful MOV.strategy.
Proof. ufc_lawful MOV.analyze. Qed.

(** ** Witnesses *)

(** A method-of-victory market on a decision at 0.30, the ledger with a
    portfolio for the strategy, and the position it opens there. *)
Definition mov0 : MOV.t := MOV.init [].

Definition decision_market : MarketDict.t := market "KXUFCMOV-26-DEC" 0.30.

Definition mov_trader : PT.t :=
  PT.initialize_portfolio (PT.init RiskConfig.default) "MethodOfVictory" 50.

Definition mov_signal : Signal.t :=
  match MOV.analyze mov0 decision_market 5 with
  | Some s => s
  | None => demo_signal
  end.

Definition mov_position : PP.t :=
  match snd (PT.execute_signal mov_trader mov_signal 0.30 "id-9" 5) with
  | Some p => p
  | None => demo_position
  end.

Lemma favorite_underdog_exclusive_witness :
  FB.analyze (FB.init []) (market "KXUFCFIGHT-26-ABC" 0.75) 5 = None
  \/ UV.analyze (UV.init []) (market "KXUFCFIGHT-26-ABC" 0.75) 5 = None.
Proof.
  apply (favorite_underdog_exclusive (market "KXUFCFIGHT-26-ABC" 0.75) 5%Z
           (FB.init []) (UV.init [])).
  reflexivity.
Defined.

Lemma method_fair_price_roundtrip_witness :
  exists method,
    MOV.fair_price_of mov0 (upper "KXUFCMOV-26-DEC")
    = Some (get_num (get_default (PosDict.metadata (PT.pos_dict mov_position)) [])
                    "fair_price" 0.5, method).
Proof.
  exact (method_fair_price_roundtrip mov_trader
           (fst (PT.execute_signal mov_trader mov_signal 0.30 "id-9" 5))
           decision_market 5%Z "id-9" mov_signal mov_position 0.30
           eq_refl mov0 eq_refl).
Defined.

Lemma ufc_no_exit_at_once_witness :
  MOV.should_exit mov0 (PT.pos_dict mov_position) decision_market = false.
Proof.
  refine (proj2 (proj2 (proj2
    (ufc_no_exit_at_once mov_trader
       (fst (PT.execute_signal mov_trader mov_signal 0.30 "id-9" 5))
       decision_market 5%Z "id-9" mov_signal mov_position 0.30
       eq_refl eq_refl (FB.init []) (UV.init []) (FP.init []) mov0
       _ _ _))) eq_refl); reflexivity || discriminate.
Defined.
