(* ===== verification/LedgerExits.v ===== *)
(** * What [check_exits] closes (src/src/paper_trader.py)

    The loop of [PaperTrader.check_exits] against a reference: the
    positions that leave are those of the strategy's portfolio on the
    market of the snapshot for which the exit rule answers yes ([exits]),
    the portfolio it leaves is the portfolio after closing each of them
    in turn ([after_exits]), and the call raises exactly when the rule
    raises on a position of that market.  The lemmas are stated for a
    rule [should_exit] shared by the section; the theorems on
    [check_exits] instantiate it with the method of the strategy. *)

From Stdlib Require Import String.
From Stdlib Require Import QArith Lqa Lia ZArith List Bool.
From S2P Require Import Prelude PyDict Config Strategy Ledger LedgerInv.
From S2P Require Import LedgerSteps Strategies StrategiesProps.
Import ListNotations.
Open Scope string_scope.
Open Scope list_scope.

(** ** Closing a position of a known portfolio *)

(** In a well-formed ledger [close_position] finds the position in the
    portfolio that holds it. *)
Lemma close_position_at T n pf id p price reason now :
  trader_ok T -> dict_get (PT.portfolios T) n = Some pf ->
  dict_get (SP.positions pf) id = Some p ->
  PT.close_position T id price reason now
  = (PT.mk (PT.risk_config T)
       (dict_set (PT.portfolios T) n
          (PT.portfolio_after_close pf id (PT.closed_at p price reason now)))
       (PT._daily_pnl T + PP.pnl (PT.closed_at p price reason now))
       (PT._daily_start_date T),
     Some (PT.closed_at p price reason now)).
Proof.
  intros Hok Hpf Hp. unfold PT.close_position.
  destruct (PT.find_holder _ _) as [[[n' pf'] p']|] eqn:E.
  - apply find_holder_get in E as [Hpf' Hp']; [|apply Hok].
    assert (n' = n) as -> by (eapply Hok; eassumption).
    congruence.
  - exfalso. rewrite find_holder_none in E.
    specialize (E n pf (dict_get_In _ _ _ Hpf)). congruence.
Qed.

(** The open positions of a well-formed portfolio, by their ids. *)
Lemma open_position_get name pf p :
  portfolio_ok name pf ->
  In p (SP.open_positions pf) <-> dict_get (SP.positions pf) (PP.id p) = Some p.
Proof.
  intros Hok. rewrite (open_positions_ok _ _ Hok).
  destruct Hok as (_ & Hwf & Hpos & _). split.
  - intros Hin. destruct (dict_values_get _ _ Hwf Hin) as (k & Hk).
    destruct (Hpos k p Hk) as ((<- & _) & _). exact Hk.
  - apply dict_get_values.
Qed.

Lemma keys_are_ids (d : dict string PP.t) :
  (forall k p, In (k, p) d -> PP.id p = k) ->
  map PP.id (dict_values d) = dict_keys d.
Proof.
  induction d as [|[k p] d IH]; intros H; [reflexivity|]. simpl.
  rewrite (H k p (or_introl eq_refl)). f_equal. apply IH.
  intros k' p' Hin. apply H. now right.
Qed.

Lemma open_positions_NoDup name pf :
  portfolio_ok name pf -> NoDup (map PP.id (SP.open_positions pf)).
Proof.
  intros Hok. rewrite (open_positions_ok _ _ Hok).
  destruct Hok as (_ & Hwf & Hpos & _). rewrite keys_are_ids; [exact Hwf|].
  intros k p Hin. apply (dict_In_get _ _ _ Hwf) in Hin.
  now destruct (Hpos k p Hin) as ((<- & _) & _).
Qed.

(** ** The reference *)

Section Exits.
Context (should_exit : PosDict.t -> MarketDict.t -> result bool).
Context (md : MarketDict.t) (now : Z).

Local Abbreviation price := (get_default (MarketDict.yes_price md) 0.5).
Local Abbreviation close := (fun p => PT.closed_at p price "strategy_exit" now).

(** The position is on the market of the snapshot. *)
Definition on_market (p : PP.t) : bool := negb (PT.ticker_differs p md).

(** The position leaves: it is on the market and the rule says yes. *)
Definition exits (p : PP.t) : bool :=
  on_market p &&
  match should_exit (PT.pos_dict p) md with Ok true => true | _ => false end.

(** The rule raises on a position of the market. *)
Definition raises (p : PP.t) : bool :=
  on_market p &&
  match should_exit (PT.pos_dict p) md with Err _ => true | _ => false end.

(** The portfolio after the positions of [l] that leave are closed. *)
Definition exit_one (pf : SP.t) (p : PP.t) : SP.t :=
  if exits p then PT.portfolio_after_close pf (PP.id p) (close p) else pf.

Definition after_exits (l : list PP.t) (pf : SP.t) : SP.t :=
  fold_left exit_one l pf.

Lemma after_exits_closed l : forall pf,
  SP.closed_positions (after_exits l pf)
  = SP.closed_positions pf ++ map close (filter exits l).
Proof.
  induction l as [|p l IH]; intros pf; simpl; [now rewrite app_nil_r|].
  unfold after_exits in IH. rewrite IH. unfold exit_one.
  destruct (exits p); simpl; [now rewrite <- app_assoc | reflexivity].
Qed.

Lemma after_exits_capital l : forall pf,
  SP.current_capital (after_exits l pf)
  == SP.current_capital pf + Qsum (map PP.pnl (map close (filter exits l))).
Proof.
  induction l as [|p l IH]; intros pf; simpl; [lra|].
  unfold after_exits in IH. rewrite IH. unfold exit_one.
  destruct (exits p); simpl; lra.
Qed.

Lemma after_exits_static l pf :
  SP.strategy_name (after_exits l pf) = SP.strategy_name pf /\
  SP.initial_capital (after_exits l pf) = SP.initial_capital pf.
Proof.
  revert pf. induction l as [|p l IH]; intros pf; [easy|].
  change (after_exits (p :: l) pf) with (after_exits l (exit_one pf p)).
  destruct (IH (exit_one pf p)) as [-> ->].
  unfold exit_one. now destruct (exits p).
Qed.

(** The positions that stay open are those that do not leave. *)
Lemma after_exits_get l : forall pf k,
  dict_wf (SP.positions pf) ->
  dict_get (SP.positions (after_exits l pf)) k
  = if existsb (fun p => String.eqb (PP.id p) k && exits p) l then None
    else dict_get (SP.positions pf) k.
Proof.
  induction l as [|p l IH]; intros pf k Hwf; [reflexivity|].
  cbn [after_exits fold_left existsb]. unfold after_exits in IH.
  rewrite IH by (unfold exit_one; destruct (exits p); simpl; auto with py).
  unfold exit_one. destruct (exits p) eqn:Ex; rewrite ?andb_false_r; simpl;
    [|reflexivity].
  rewrite andb_true_r, dict_get_del by assumption.
  destruct (eq_dec (PP.id p) k) as [->|Hne].
  - rewrite String.eqb_refl. now destruct (existsb _ _).
  - apply String.eqb_neq in Hne. now rewrite Hne.
Qed.

(** ** The loop *)

(** One step of the loop on a position that leaves. *)
Lemma exit_step T n pf p :
  trader_ok T -> dict_get (PT.portfolios T) n = Some pf ->
  dict_get (SP.positions pf) (PP.id p) = Some p ->
  exists T',
    PT.close_position T (PP.id p) price "strategy_exit" now
    = (T', Some (close p))
    /\ trader_ok T'
    /\ dict_get (PT.portfolios T') n
       = Some (PT.portfolio_after_close pf (PP.id p) (close p))
    /\ (forall m, m <> n ->
          dict_get (PT.portfolios T') m = dict_get (PT.portfolios T) m).
Proof.
  intros Hok Hpf Hp.
  pose proof (close_position_ok T (PP.id p) price "strategy_exit" now Hok) as Hok'.
  rewrite (close_position_at T n pf _ p _ _ _ Hok Hpf Hp) in *.
  eexists. split; [reflexivity|]. split; [exact Hok'|].
  cbn [PT.portfolios]. split; [apply dict_get_set_same|].
  intros m Hm. now apply dict_get_set_diff.
Qed.

(** The positions still to visit are open under their ids. *)
Definition pending (pf : SP.t) (l : list PP.t) : Prop :=
  NoDup (map PP.id l) /\
  Forall (fun p => dict_get (SP.positions pf) (PP.id p) = Some p) l.

Lemma pending_tail pf p l :
  dict_wf (SP.positions pf) -> pending pf (p :: l) ->
  pending pf l /\ pending (exit_one pf p) l.
Proof.
  intros Hwf [Hnd Hall]. inversion Hnd as [|? ? Hnotin Hnd']; subst.
  inversion Hall as [|? ? Hp Hall']; subst.
  split; [now split|]. split; [exact Hnd'|].
  unfold exit_one. destruct (exits p); [|exact Hall']. simpl.
  rewrite Forall_forall in *. intros q Hq.
  rewrite dict_get_del_diff; [now apply Hall'|].
  intros Heq. apply Hnotin. rewrite Heq. now apply in_map.
Qed.

(** The loop on a position that stays and on one that leaves. *)
Lemma loop_stay p l T closed :
  exits p = false -> raises p = false ->
  PT.check_exit_loop should_exit md now (p :: l) T closed
  = PT.check_exit_loop should_exit md now l T closed.
Proof.
  unfold exits, raises, on_market. cbn [PT.check_exit_loop].
  destruct (PT.ticker_differs p md); [reflexivity|].
  now destruct (should_exit _ _) as [[|]|e].
Qed.

Lemma loop_exit p l T closed :
  exits p = true ->
  PT.check_exit_loop should_exit md now (p :: l) T closed
  = let '(T', result) :=
      PT.close_position T (PP.id p) price "strategy_exit" now in
    PT.check_exit_loop should_exit md now l T'
      match result with Some r => closed ++ [r] | None => closed end.
Proof.
  unfold exits, on_market. cbn [PT.check_exit_loop].
  destruct (PT.ticker_differs p md); [discriminate|].
  now destruct (should_exit _ _) as [[|]|e].
Qed.

(** When the rule raises on no position the loop returns the closed
    positions of the reference and leaves its portfolio. *)
Lemma check_exit_loop_ok n l : forall T pf closed,
  trader_ok T -> dict_get (PT.portfolios T) n = Some pf -> pending pf l ->
  forallb (fun p => negb (raises p)) l = true ->
  let r := PT.check_exit_loop should_exit md now l T closed in
  snd r = Ok (closed ++ map close (filter exits l)) /\
  trader_ok (fst r) /\
  dict_get (PT.portfolios (fst r)) n = Some (after_exits l pf) /\
  (forall m, m <> n ->
     dict_get (PT.portfolios (fst r)) m = dict_get (PT.portfolios T) m).
Proof.
  induction l as [|p l IH]; intros T pf closed Hok Hpf Hpend Hnr r; subst r.
  { cbn. now rewrite app_nil_r. }
  assert (Hwf : dict_wf (SP.positions pf))
    by (destruct Hok as (_ & Hall & _); apply (Hall _ _ Hpf)).
  destruct (pending_tail pf p l Hwf Hpend) as [Hpl Hpl'].
  assert (Hp : dict_get (SP.positions pf) (PP.id p) = Some p)
    by (destruct Hpend as [_ H]; now inversion H).
  cbn [forallb] in Hnr. apply andb_prop in Hnr as [Hr Hnr].
  apply negb_true_iff in Hr.
  change (after_exits (p :: l) pf) with (after_exits l (exit_one pf p)).
  cbn [filter]. unfold exit_one in *. destruct (exits p) eqn:Ex.
  - rewrite loop_exit by exact Ex.
    destruct (exit_step T n pf p Hok Hpf Hp) as (T' & -> & Hok' & Hpf' & Hfr).
    cbn [map]. replace (closed ++ close p :: map close (filter exits l))
      with ((closed ++ [close p]) ++ map close (filter exits l))
      by now rewrite <- app_assoc.
    destruct (IH _ _ (closed ++ [close p]) Hok' Hpf' Hpl' Hnr)
      as (H1 & H2 & H3 & H4).
    split; [exact H1|]. split; [exact H2|]. split; [exact H3|].
    intros m Hm. now rewrite H4, Hfr.
  - rewrite loop_stay by assumption. now apply IH.
Qed.

(** The loop raises when the rule raises on a position it reaches. *)
Lemma check_exit_loop_err l : forall T closed,
  existsb raises l = true ->
  exists e, snd (PT.check_exit_loop should_exit md now l T closed) = Err e.
Proof.
  induction l as [|p l IH]; intros T closed; [discriminate|].
  cbn [existsb PT.check_exit_loop]. unfold raises at 1, on_market.
  destruct (PT.ticker_differs p md); cbn [negb andb orb]; [apply IH|].
  destruct (should_exit _ _) as [[|]|e]; cbn [orb].
  - destruct (PT.close_position _ _ _ _ _) as [T' r]. apply IH.
  - apply IH.
  - intros _. now exists e.
Qed.

End Exits.

(** ** [check_exits] *)

(** No open position of the strategy is due to leave on the snapshot:
    each is on another market or one the exit rule keeps. *)
Definition settled (strategy : Strategy.t) (md : MarketDict.t) (T : PT.t)
    : Prop :=
  forall pf q,
    dict_get (PT.portfolios T) (Strategy.name strategy) = Some pf ->
    In q (SP.open_positions pf) ->
    PT.ticker_differs q md = true \/
    Strategy.should_exit strategy (PT.pos_dict q) md = Ok false.

(** The ledger [T'] holds no open position [T] does not hold. *)
Definition shrinks (T T' : PT.t) : Prop :=
  forall n pf' q,
    dict_get (PT.portfolios T') n = Some pf' -> In q (SP.open_positions pf') ->
    exists pf, dict_get (PT.portfolios T) n = Some pf /\
               In q (SP.open_positions pf).

Lemma shrinks_refl T : shrinks T T.
Proof. intros n pf q H1 H2. eauto. Qed.

Lemma shrinks_trans T1 T2 T3 : shrinks T1 T2 -> shrinks T2 T3 -> shrinks T1 T3.
Proof.
  intros H12 H23 n pf3 q H3 Hq.
  destruct (H23 n pf3 q H3 Hq) as (pf2 & H2 & Hq2). eauto.
Qed.

Lemma settled_shrinks strategy md T T' :
  shrinks T T' -> settled strategy md T -> settled strategy md T'.
Proof.
  intros Hsh Hs pf' q Hpf' Hq. destruct (Hsh _ _ _ Hpf' Hq) as (pf & Hpf & Hin).
  exact (Hs pf q Hpf Hin).
Qed.

(** Closing opens nothing. *)
Lemma close_position_shrinks T id price reason now :
  trader_ok T -> shrinks T (fst (PT.close_position T id price reason now)).
Proof.
  intros Hok. pose proof (close_position_ok T id price reason now Hok) as Hok'.
  destruct (PT.close_position T id price reason now) as [T' [p'|]] eqn:E.
  2:{ pose proof (close_position_none T id price reason now) as Hn.
      rewrite E in Hn. specialize (Hn eq_refl). injection Hn as <-.
      apply shrinks_refl. }
  cbn [fst] in *. apply close_position_some in E as (name & pf & p & Hf & -> & ->).
  apply find_holder_get in Hf as [Hpf Hp]; [|apply Hok].
  intros n pf' q Hpf' Hq.
  assert (Hpok' : portfolio_ok n pf') by (now apply Hok').
  cbn [PT.portfolios] in Hpf'. rewrite dict_get_set in Hpf'.
  destruct (eq_dec name n) as [<-|Hne]; [|eauto].
  injection Hpf' as <-. exists pf. split; [exact Hpf|].
  assert (Hpok : portfolio_ok name pf) by (now apply Hok).
  apply (open_position_get _ _ q Hpok') in Hq.
  apply (open_position_get _ _ q Hpok).
  cbn [SP.positions PT.portfolio_after_close] in Hq.
  rewrite dict_get_del in Hq by apply Hpok.
  now destruct (eq_dec id (PP.id q)).
Qed.

Lemma check_exits_shrinks T strategy md now :
  trader_ok T -> shrinks T (fst (PT.check_exits T strategy md now)).
Proof.
  intros Hok.
  apply (check_exits_preserves (fun T' => trader_ok T' /\ shrinks T T'));
    [|split; [exact Hok | apply shrinks_refl]].
  intros T0 id [H0 Hs]. split; [now apply close_position_ok|].
  eapply shrinks_trans; [exact Hs | now apply close_position_shrinks].
Qed.

Section CheckExits.
Context (T : PT.t) (strategy : Strategy.t) (md : MarketDict.t) (now : Z).
Context (pf : SP.t).
Hypothesis Hok : trader_ok T.
Hypothesis Hpf : dict_get (PT.portfolios T) (Strategy.name strategy) = Some pf.

Local Abbreviation rule := (Strategy.should_exit strategy).
Local Abbreviation opens := (SP.open_positions pf).
Local Abbreviation T' := (fst (PT.check_exits T strategy md now)).

Lemma opens_pending : pending pf opens.
Proof.
  assert (Hpok : portfolio_ok (Strategy.name strategy) pf)
    by (destruct Hok as (_ & Hall & _); now apply Hall).
  split; [now apply (open_positions_NoDup _ _ Hpok)|].
  apply Forall_forall. intros p Hin. now apply (open_position_get _ _ p Hpok).
Qed.

(** A call that returns met no position on which the rule raises. *)
Lemma returns_no_raise closed :
  snd (PT.check_exits T strategy md now) = Ok closed ->
  forallb (fun p => negb (raises rule md p)) opens = true.
Proof.
  unfold PT.check_exits. rewrite Hpf. intros Hret.
  destruct (existsb (raises rule md) opens) eqn:E.
  - destruct (check_exit_loop_err rule md now opens T [] E) as [e He].
    congruence.
  - apply forallb_forall. intros p Hin. apply negb_true_iff.
    destruct (raises rule md p) eqn:Er; [|reflexivity].
    assert (existsb (raises rule md) opens = true)
      by (apply existsb_exists; eauto). congruence.
Qed.

(** Without a raising position the loop returns the positions that
    leave, closed at the price of the snapshot. *)
Lemma check_exits_returns_closed :
  forallb (fun p => negb (raises rule md p)) opens = true ->
  snd (PT.check_exits T strategy md now)
  = Ok (map (fun p => PT.closed_at p (get_default (MarketDict.yes_price md) 0.5)
                        "strategy_exit" now)
            (filter (exits rule md) opens)).
Proof.
  intros Hnr. unfold PT.check_exits. rewrite Hpf.
  destruct (check_exit_loop_ok rule md now _ opens T pf [] Hok Hpf
              opens_pending Hnr) as (H1 & _).
  now rewrite H1.
Qed.

(** C16. [check_exits] against its reference: when the exit rule raises
    on no open position of the market, the call returns the positions
    that leave, closed at the price of the snapshot in the order of the
    portfolio, leaves the portfolio of the strategy as closing each of
    them in turn does, and touches no other portfolio. *)
Theorem check_exits_reference :
  forallb (fun p => negb (raises rule md p)) opens = true ->
  snd (PT.check_exits T strategy md now)
  = Ok (map (fun p => PT.closed_at p (get_default (MarketDict.yes_price md) 0.5)
                        "strategy_exit" now)
            (filter (exits rule md) opens)) /\
  dict_get (PT.portfolios T') (Strategy.name strategy)
  = Some (after_exits rule md now opens pf) /\
  (forall m, m <> Strategy.name strategy ->
     dict_get (PT.portfolios T') m = dict_get (PT.portfolios T) m).
Proof.
  intros Hnr. unfold PT.check_exits. rewrite Hpf.
  destruct (check_exit_loop_ok rule md now _ opens T pf [] Hok Hpf
              opens_pending Hnr) as (H1 & _ & H3 & H4).
  now rewrite H1.
Qed.

(** After a [check_exits] that returns, each position still open in the
    portfolio of the strategy is on another market or one the exit rule
    keeps. *)
Lemma check_exits_settles closed : 
  snd (PT.check_exits T strategy md now) = Ok closed ->
  settled strategy md T'.
Proof.
  intros Hret pf' q Hpf' Hin. pose proof (returns_no_raise closed Hret) as Hnr.
  assert (Hok' : trader_ok T')
    by (apply check_exits_preserves; [intros; now apply close_position_ok|exact Hok]).
  unfold PT.check_exits in Hpf'. rewrite Hpf in Hpf'.
  destruct (check_exit_loop_ok rule md now _ opens T pf [] Hok Hpf
              opens_pending Hnr) as (_ & _ & H3 & _).
  rewrite H3 in Hpf'. injection Hpf' as <-.
  assert (Hpok : portfolio_ok (Strategy.name strategy) pf)
    by (destruct Hok as (_ & Hall & _); now apply Hall).
  assert (Hpok' : portfolio_ok (Strategy.name strategy)
                    (after_exits rule md now opens pf)).
  { destruct Hok' as (_ & Hall & _). apply Hall.
    unfold PT.check_exits. now rewrite Hpf. }
  apply (open_position_get _ _ q Hpok') in Hin.
  rewrite after_exits_get in Hin by apply Hpok.
  destruct (existsb _ _) eqn:Ex; [discriminate|].
  apply (open_position_get _ _ q Hpok) in Hin.
  rewrite forallb_forall in Hnr. specialize (Hnr q Hin).
  apply negb_true_iff in Hnr.
  assert (Hq : exits rule md q = false).
  { destruct (exits rule md q) eqn:Eq; [|reflexivity].
    assert (existsb (fun p => String.eqb (PP.id p) (PP.id q) && exits rule md p)
                    opens = true); [|congruence].
    apply existsb_exists. exists q. now rewrite String.eqb_refl, Eq. }
  unfold exits, raises, on_market in *.
  destruct (PT.ticker_differs q md); [now left|right].
  cbn [negb andb] in *. now destruct (rule _ _) as [[|]|e].
Qed.

(** Every position due to leave is closed by the call: after a
    [check_exits] that returns, each position still open in the
    portfolio of the strategy is on another market or one the exit rule
    keeps. *)
Theorem check_exits_closes_all closed pf' q :
  snd (PT.check_exits T strategy md now) = Ok closed ->
  dict_get (PT.portfolios T') (Strategy.name strategy) = Some pf' ->
  In q (SP.open_positions pf') ->
  PT.ticker_differs q md = true \/
  Strategy.should_exit strategy (PT.pos_dict q) md = Ok false.
Proof. intros Hret. exact (check_exits_settles closed Hret pf' q). Qed.

(** C33. [check_exits] raises exactly when the exit rule raises on an open
    position of the strategy on the market of the snapshot. *)
Theorem check_exits_raises_iff :
  (exists e, snd (PT.check_exits T strategy md now) = Err e) <->
  exists p, In p opens /\ PT.ticker_differs p md = false /\
            exists e, Strategy.should_exit strategy (PT.pos_dict p) md = Err e.
Proof.
  split.
  - intros [e He]. destruct (existsb (raises rule md) opens) eqn:E.
    + apply existsb_exists in E as (p & Hin & Hr). exists p.
      unfold raises, on_market in Hr. split; [exact Hin|].
      destruct (PT.ticker_differs p md); [discriminate|]. split; [reflexivity|].
      destruct (rule _ _) as [b|e']; [discriminate | eauto].
    + assert (Hnr : forallb (fun p => negb (raises rule md p)) opens = true).
      { apply forallb_forall. intros p Hin. apply negb_true_iff.
        destruct (raises rule md p) eqn:Er; [|reflexivity].
        assert (existsb (raises rule md) opens = true)
          by (apply existsb_exists; eauto). congruence. }
      rewrite (check_exits_returns_closed Hnr) in He. discriminate.
  - intros (p & Hin & Ht & e & He). unfold PT.check_exits. rewrite Hpf.
    apply check_exit_loop_err, existsb_exists. exists p. split; [exact Hin|].
    unfold raises, on_market. now rewrite Ht, He.
Qed.

End CheckExits.

(** A [check_exits] that returns settles the strategy on the snapshot,
    whether the strategy has a portfolio or not. *)
Lemma check_exits_settled T strategy md now closed :
  trader_ok T ->
  snd (PT.check_exits T strategy md now) = Ok closed ->
  settled strategy md (fst (PT.check_exits T strategy md now)).
Proof.
  intros Hok Hret.
  destruct (dict_get (PT.portfolios T) (Strategy.name strategy)) as [pf|] eqn:E.
  - exact (check_exits_settles T strategy md now pf Hok E closed Hret).
  - unfold PT.check_exits. rewrite E. intros pf q Hpf. cbn in Hpf. congruence.
Qed.

(** ** Witnesses *)

(** The mean-reversion strategy as an object, and the ledger after its NO
    bet at a YES price of 0.96. *)
Definition mr_strategy : Strategy.t := Strategy.mk MR.t MR.strategy mr0.

Definition mr_opened : PT.t :=
  fst (PT.execute_signal mr_trader mr_signal 0.96 "id-7" 5).

Definition mr_portfolio : SP.t :=
  match PT.get_portfolio mr_opened "MeanReversion" with
  | Some pf => pf
  | None => demo_portfolio
  end.

Lemma mr_opened_ok : trader_ok mr_opened.
Proof.
  apply (reachable_inv_ok RiskConfig.default); [exact demo_risk_ok|].
  change mr_opened
    with (run_ops (PT.init RiskConfig.default)
            [OpInitialize "MeanReversion" 66;
             OpExecute mr_signal 0.96 "id-7" 5]).
  apply run_ops_reachable; [apply reach_init|].
  simpl. repeat split; try reflexivity; lra.
Defined.

Lemma check_exits_reference_witness :
  snd (PT.check_exits mr_opened mr_strategy extreme_market 6)
  = Ok [PT.closed_at mr_position 0.96 "strategy_exit" 6].
Proof.
  exact (proj1 (check_exits_reference mr_opened mr_strategy extreme_market 6%Z
                  mr_portfolio mr_opened_ok eq_refl eq_refl)).
Defined.

Lemma check_exits_closes_all_witness :
  PT.ticker_differs mr_position (market "OTHER" 0.5) = true \/
  Strategy.should_exit mr_strategy (PT.pos_dict mr_position)
    (market "OTHER" 0.5) = Ok false.
Proof.
  apply (check_exits_closes_all mr_opened mr_strategy (market "OTHER" 0.5) 6%Z
           mr_portfolio mr_opened_ok eq_refl [] mr_portfolio mr_position);
    [reflexivity | reflexivity | left; reflexivity].
Defined.

Lemma check_exits_raises_iff_witness :
  (exists e, snd (PT.check_exits mr_opened mr_strategy extreme_market 6) = Err e)
  <-> exists p, In p (SP.open_positions mr_portfolio) /\
                PT.ticker_differs p extreme_market = false /\
                exists e, Strategy.should_exit mr_strategy (PT.pos_dict p)
                            extreme_market = Err e.
Proof.
  exact (check_exits_raises_iff mr_opened mr_strategy extreme_market 6%Z
           mr_portfolio mr_opened_ok eq_refl).
Defined.
