(* ===== verification/Scanner.v ===== *)
(** * The market scanner (src/src/scanner.py)

    [MarketData] with its derived [close_in_hours] and [to_dict], and
    [MarketScanner]: parsing of the markets and order books the exchange
    returns, the filters, the paginated scan with its cache, and the
    collection of signals from the strategies.

    The exchange is a value of [Exchange.t]: what [client.get_markets] and
    [client.get_orderbook] answer, or the exception they raise.  [now] is
    the clock, read once per scan.  The scan loop runs on fuel;
    [scan_fuel] is enough for every exchange (ScannerProps).  The
    strategies are the list the orchestrator shares with the scanner:
    [generate_signals] returns it with the state each [analyze] left. *)

From Stdlib Require Import String.
From Stdlib Require Import QArith ZArith List Bool.
From S2P Require Import Prelude PyDict PyStr Config Strategy.
Import ListNotations.
Open Scope string_scope.
Open Scope list_scope.
Open Scope py_scope.

(** Microseconds in an hour: [delta.total_seconds() / 3600]. *)
Definition hour_us : Q := 3600000000.

(** [class MarketData] *)
Module MarketData.

Record t : Type := mk {
  market_id : option string;
  ticker : string;
  title : string;
  yes_price : Q;
  no_price : Q;
  volume : Z;
  volume_24h : Z;
  open_interest : Z;
  status : string;
  close_time : option Z;
  order_book : OrderBook.t;
  last_updated : Z;
}.

Definition set_order_book (self : t) (book : OrderBook.t) : t :=
  mk (market_id self) (ticker self) (title self) (yes_price self)
     (no_price self) (volume self) (volume_24h self) (open_interest self)
     (status self) (close_time self) book (last_updated self).

(** [close_in_hours] *)
Definition close_in_hours (self : t) (now : Z) : Q :=
  match close_time self with
  | None => 9999
  | Some close_time =>
    let delta := (close_time - now)%Z in
    py_max 0 (inject_Z delta / hour_us)
  end.

(** [to_dict] *)
Definition to_dict (self : t) (now : Z) : MarketDict.t :=
  {| MarketDict.market_id := market_id self;
     MarketDict.ticker := Some (ticker self);
     MarketDict.title := Some (title self);
     MarketDict.yes_price := Some (yes_price self);
     MarketDict.no_price := Some (no_price self);
     MarketDict.volume := Some (volume self);
     MarketDict.volume_24h := Some (volume_24h self);
     MarketDict.open_interest := Some (open_interest self);
     MarketDict.status := Some (status self);
     MarketDict.close_in_hours := Some (close_in_hours self now);
     MarketDict.order_book := Some (order_book self);
     MarketDict.last_updated := Some (last_updated self) |}.

End MarketData.

(** A market as the exchange returns it: the keys [_parse_market] reads.
    [close_time] is the text under the key as [datetime.fromisoformat]
    reads it, a time or the exception of a malformed text; an empty text
    counts as absent. *)
Module RawMarket.
Record t : Type := mk {
  id : option string;
  ticker : option string;
  title : option string;
  yes_bid : option Q;
  volume : option Z;
  volume_24h : option Z;
  open_interest : option Z;
  status : option string;
  close_time : option (result Z);
}.
End RawMarket.

(** The answer of [get_orderbook]: the dictionary under ["orderbook"],
    if any, with the levels under ["yes"] and ["no"] (none when the key
    is absent). *)
Module RawOrderbook.
Record t : Type := mk {
  yes : list OrderBook.level;
  no : list OrderBook.level;
}.
Definition empty : t := mk [] [].
End RawOrderbook.

(** The answer of [get_markets]: one page and the cursor of the next. *)
Module MarketsResponse.
Record t : Type := mk {
  markets : list RawMarket.t;
  cursor : option string;
}.
End MarketsResponse.

(** The exchange as the scanner and the orchestrator call it: the
    answers of [get_markets(status, cursor)], [get_orderbook(ticker)] and
    [get_balance()], or the exceptions they raise. *)
Module Exchange.
Record t : Type := mk {
  get_markets : string -> option string -> result MarketsResponse.t;
  get_orderbook : string -> result (option RawOrderbook.t);
  get_balance : result Z;
}.
End Exchange.

(** [max(xs, default=d)] and [min(xs, default=d)] *)
Definition py_max_default (l : list Q) (default : Q) : Q :=
  match l with
  | [] => default
  | x :: l' => fold_left py_max l' x
  end.

Definition py_min_default (l : list Q) (default : Q) : Q :=
  match l with
  | [] => default
  | x :: l' => fold_left py_min l' x
  end.

(** [class MarketScanner] *)
Module MarketScanner.

Record t : Type := mk {
  config : ScannerConfig.t;
  strategies : list Strategy.t;
  _market_cache : dict string MarketData.t;
  _last_scan : option Z;
  _running : bool;
}.

(** [__init__] *)
Definition init (config : ScannerConfig.t) (strategies : list Strategy.t) : t :=
  {| config := config; strategies := strategies;
     _market_cache := []; _last_scan := None; _running := false |}.

Definition set_strategies (self : t) (l : list Strategy.t) : t :=
  mk (config self) l (_market_cache self) (_last_scan self) (_running self).

Definition set_running (self : t) (b : bool) : t :=
  mk (config self) (strategies self) (_market_cache self) (_last_scan self) b.

(** [_parse_market] *)
Definition _parse_market (raw : RawMarket.t) (now : Z) : MarketData.t :=
  let yes_price := get_default (RawMarket.yes_bid raw) 50 / 100 in
  let no_price := 1 - yes_price in
  let close_time :=
    match RawMarket.close_time raw with
    | Some (Ok t) => Some t
    | Some (Err _) => None
    | None => None
    end in
  {| MarketData.market_id :=
       match RawMarket.id raw with
       | Some i => Some i
       | None => RawMarket.ticker raw
       end;
     MarketData.ticker := get_default (RawMarket.ticker raw) "";
     MarketData.title := get_default (RawMarket.title raw) "";
     MarketData.yes_price := yes_price;
     MarketData.no_price := no_price;
     MarketData.volume := get_default (RawMarket.volume raw) 0%Z;
     MarketData.volume_24h := get_default (RawMarket.volume_24h raw) 0%Z;
     MarketData.open_interest := get_default (RawMarket.open_interest raw) 0%Z;
     MarketData.status := get_default (RawMarket.status raw) "unknown";
     MarketData.close_time := close_time;
     MarketData.order_book := OrderBook.empty;
     MarketData.last_updated := now |}.

(** [_parse_orderbook].  [best_yes_ask] is computed from the NO side and
    then not used: the ask the dictionary holds is one minus the bid. *)
Definition _parse_orderbook (raw : option RawOrderbook.t) : OrderBook.t :=
  let orderbook := get_default raw RawOrderbook.empty in
  let yes_bids := RawOrderbook.yes orderbook in
  let no_bids := RawOrderbook.no orderbook in
  let best_yes_bid :=
    match yes_bids with
    | [] => 0
    | _ => py_max_default (map fst yes_bids) 0 / 100
    end in
  let best_yes_ask :=
    match no_bids with
    | [] => 1
    | _ => py_min_default (map fst no_bids) 100 / 100
    end in
  {| OrderBook.best_bid := Some best_yes_bid;
     OrderBook.best_ask :=
       Some (if qltb 0 best_yes_bid then 1 - best_yes_bid else 1);
     OrderBook.yes_bids := Some yes_bids;
     OrderBook.no_bids := Some no_bids;
     OrderBook.spread :=
       Some (if qltb 0 best_yes_bid
             then (1 - best_yes_bid) - best_yes_bid else 1) |}.

(** [_passes_filters] *)
Definition _passes_filters (self : t) (market : MarketData.t) (now : Z)
    : bool :=
  if (MarketData.volume_24h market <? ScannerConfig.min_volume (config self))%Z
  then false
  else if negb (String.eqb (MarketData.status market) "open") then false
  else if qltb (MarketData.close_in_hours market now) 1 then false
  else true.

(** The local variables of [scan_once] together with the cache it
    writes. *)
Record scan : Type := mkScan {
  qualifying_markets : list MarketData.t;
  cache : dict string MarketData.t;
  total_scanned : Z;
}.

Definition set_total (st : scan) (n : Z) : scan :=
  mkScan (qualifying_markets st) (cache st) n.

(** The body of [for market in markets] for a market within the limit:
    parse, filter, fetch the book (an exception of the fetch leaves the
    market without one), append and cache under the ticker. *)
Definition scan_market (self : t) (api : Exchange.t) (now : Z)
    (market : RawMarket.t) (st : scan) : scan :=
  let market_data := _parse_market market now in
  if _passes_filters self market_data now then
    let market_data :=
      match Exchange.get_orderbook api (MarketData.ticker market_data) with
      | Ok orderbook =>
        MarketData.set_order_book market_data (_parse_orderbook orderbook)
      | Err _ => market_data
      end in
    mkScan (qualifying_markets st ++ [market_data])
           (dict_set (cache st) (MarketData.ticker market_data) market_data)
           (total_scanned st)
  else st.

(** [for market in markets], which breaks once the count exceeds
    [max_markets]. *)
Fixpoint scan_markets (self : t) (api : Exchange.t) (now : Z)
    (markets : list RawMarket.t) (st : scan) : scan :=
  match markets with
  | [] => st
  | market :: rest =>
    let st := set_total st (total_scanned st + 1) in
    if (ScannerConfig.max_markets (config self) <? total_scanned st)%Z then st
    else scan_markets self api now rest (scan_market self api now market st)
  end.

(** [while True] of [scan_once], on fuel: [None] when the fuel runs out,
    otherwise the variables at the exit of the loop and the exception of
    [get_markets] that ended it, if one did. *)
Fixpoint scan_pages (fuel : nat) (self : t) (api : Exchange.t) (now : Z)
    (cursor : option string) (st : scan) : option (scan * option PyError) :=
  match fuel with
  | O => None
  | S fuel =>
    match Exchange.get_markets api (ScannerConfig.market_status (config self))
                               cursor with
    | Err e => Some (st, Some e)
    | Ok response =>
      match MarketsResponse.markets response with
      | [] => Some (st, None)
      | markets =>
        let st := scan_markets self api now markets st in
        if (ScannerConfig.max_markets (config self) <=? total_scanned st)%Z
        then Some (st, None)
        else
          let cursor := MarketsResponse.cursor response in
          if truthy_str cursor then scan_pages fuel self api now cursor st
          else Some (st, None)
      end
    end
  end.

(** Pages the loop can fetch before the count reaches [max_markets]. *)
Definition scan_fuel (self : t) : nat :=
  S (Z.to_nat (ScannerConfig.max_markets (config self))).

(** [scan_once]: the scanner it leaves and the qualifying markets, or the
    exception of [get_markets]; the cache keeps what was written before
    the exception, and [_last_scan] is set only on return. *)
Definition scan_once (self : t) (api : Exchange.t) (now : Z)
    : t * result (list MarketData.t) :=
  match scan_pages (scan_fuel self) self api now None
                   (mkScan [] (_market_cache self) 0) with
  | Some (st, None) =>
    (mk (config self) (strategies self) (cache st) (Some now) (_running self),
     Ok (qualifying_markets st))
  | Some (st, Some e) =>
    (mk (config self) (strategies self) (cache st) (_last_scan self)
        (_running self),
     Err e)
  | None => (self, Err (RuntimeError "scan_once: out of fuel"))
  end.

(** The body of [for strategy in self.strategies] of [generate_signals]:
    an inactive strategy is skipped, an exception of [analyze] is logged
    and dropped, and the strategy keeps the state [analyze] left. *)
Definition analyze_step (market_dict : MarketDict.t) (now : Z)
    (acc : list Strategy.t * list Signal.t) (strategy : Strategy.t)
  : list Strategy.t * list Signal.t :=
  let '(done, signals) := acc in
  if negb (Strategy.active strategy) then (done ++ [strategy], signals)
  else
    let '(strategy, r) := Strategy.analyze strategy market_dict now in
    match r with
    | Ok (Some signal) => (done ++ [strategy], signals ++ [signal])
    | Ok None => (done ++ [strategy], signals)
    | Err _ => (done ++ [strategy], signals)
    end.

(** The body of [for market in markets]. *)
Definition market_step (now : Z) (acc : list Strategy.t * list Signal.t)
    (market : MarketData.t) : list Strategy.t * list Signal.t :=
  let '(strategies, signals) := acc in
  let market_dict := MarketData.to_dict market now in
  fold_left (analyze_step market_dict now) strategies ([], signals).

(** [generate_signals] *)
Definition generate_signals (self : t) (markets : list MarketData.t) (now : Z)
    : t * list Signal.t :=
  let '(strategies, signals) :=
    fold_left (market_step now) markets (strategies self, []) in
  (set_strategies self strategies, signals).

(** [stop] *)
Definition stop (self : t) : t := set_running self false.

(** [get_market] *)
Definition get_market (self : t) (ticker : string) : option MarketData.t :=
  dict_get (_market_cache self) ticker.

(** [get_all_markets] *)
Definition get_all_markets (self : t) : list MarketData.t :=
  dict_values (_market_cache self).

(** One turn of [while self._running] of [run_continuous]: the signals it
    yields, or nothing when the scan raised (the loop logs, backs off
    and goes on). *)
Definition run_continuous_step (self : t) (api : Exchange.t) (now : Z)
    : t * option (list Signal.t) :=
  let '(self, r) := scan_once self api now in
  match r with
  | Ok markets =>
    let '(self, signals) := generate_signals self markets now in
    (self, Some signals)
  | Err _ => (self, None)
  end.

End MarketScanner.

Module MD := MarketData.
Module MS := MarketScanner.
