(* ===== verification/ClientExchange.v ===== *)
(** * The exchange behind a client

    The scanner and the orchestrator are modelled over [Exchange.t], a
    record of the answers to the three calls they make, which does not
    say when or how often a call is made.  The client of
    src/src/api/kalshi_client.py is not such a record: a call moves its
    limiter and the clock, and the exchange may answer the n-th request
    differently from the one before.

    This file states when the record is what the client gives.  For an
    exchange that is steady (its answer depends on the method, the
    address and the parameters of a request, not on its headers, the
    time or the requests before) and never refuses with a 429, every
    call of a client with a positive rate returns what
    [exchange_of] holds for it, from whatever state the client and the
    clock are in, and leaves the client fit for the next call.  The
    bodies are read by [markets_of], [orderbook_of] and [balance_of]:
    the keys the scanner takes out of the JSON object. *)

From Stdlib Require Import String.
From Stdlib Require Import QArith ZArith List Bool Lqa.
From S2P Require Import Prelude PyDict PyStr Client ClientProps Config Strategy.
From S2P Require Import Scanner.
Import ListNotations.
Open Scope string_scope.
Open Scope list_scope.
Open Scope py_scope.

Section Behind.
Context {B : Type}.
Variables (markets_of : B -> MarketsResponse.t)
          (orderbook_of : B -> option RawOrderbook.t)
          (balance_of : B -> Z).

(** The answer of a steady exchange to a method, an address and
    parameters. *)
Variable answer : string -> string -> option (dict string Param)
                  -> result (Response.t B).

Definition steady : Server B :=
  fun _ request =>
    answer (Request.method request) (Request.url request)
           (Request.params request).

Definition never_refuses : Prop :=
  forall method url params response,
    answer method url params = Ok response ->
    Response.status_code response <> 429%Z.

(** What a request to [endpoint] of the exchange at [base] returns. *)
Definition call (base method endpoint : string)
    (params : option (dict string Param)) : result B :=
  response <- answer method (base ++ endpoint)%string params ;;
  outcome response.

(** The record of the three calls, for the exchange at [base]: the
    scanner asks for pages of 100 markets and for books of the default
    depth. *)
Definition exchange_of (base : string) : Exchange.t :=
  {| Exchange.get_markets := fun status cursor =>
       body <- call base "GET" "/markets"
                 (Some (KC.with_text [("status", PStr status);
                                      ("limit", PInt 100)] "cursor" cursor)) ;;
       Ok (markets_of body);
     Exchange.get_orderbook := fun ticker =>
       body <- call base "GET" ("/markets/" ++ ticker ++ "/orderbook")%string
                 (Some [("depth", PInt 10)]) ;;
       Ok (orderbook_of body);
     Exchange.get_balance :=
       body <- call base "GET" "/portfolio/balance" None ;;
       Ok (balance_of body) |}.

(** A client that can call: its limiter has a positive rate. *)
Definition fit (base : string) (self : KC.t) : Prop :=
  KC.base_url self = base /\ 0 < RL.calls_per_second (KC.rate_limiter self).

Hypothesis Hnever : never_refuses.

(** One attempt is enough on a steady exchange that does not refuse,
    and its result does not depend on the state of the client or on the
    clock. *)
Lemma request_steady fuel base self w method endpoint params json_data :
  fit base self ->
  let r := KC._request steady (S fuel) self w method endpoint params json_data in
  snd r = Some (call base method endpoint params) /\ fit base (fst (fst r)).
Proof.
  intros [Hbase Hpos]. cbv zeta. rewrite request_step.
  destruct (wait_ok _ (World.clock w) Hpos) as (now & -> & _).
  pose proof (attempt_facts method endpoint params json_data self w now)
    as Hat.
  assert (Hb : KC.base_url (fst (attempt method endpoint params json_data
                                   self w now)) = base) by exact Hbase.
  destruct (attempt _ _ _ _ self w now) as [self1 w1].
  destruct Hat as (_ & _ & Hcps). cbn [fst] in Hb.
  assert (Hfit : fit base self1) by (split; [exact Hb | now rewrite Hcps]).
  unfold answer_to, steady, call. cbn [Request.method Request.url Request.params].
  rewrite Hbase.
  destruct (answer method (base ++ endpoint)%string params) as [response|e] eqn:E;
    cbn [bind]; [|now split].
  apply Hnever, Z.eqb_neq in E. rewrite E. unfold outcome.
  now destruct (Response.is_success response).
Qed.

(** C24. The record of the exchange is what the client returns: the three
    calls of the scanner and the orchestrator, made by a fit client in
    any state and at any time, return the entries of [exchange_of]
    once their bodies are read, and leave the client fit. *)
Theorem client_gives_exchange fuel base self w :
  fit base self ->
  (forall status cursor,
     let r := KC.get_markets steady (S fuel) self w status 100 cursor None None in
     option_map (fun body => b <- body ;; Ok (markets_of b)) (snd r)
     = Some (Exchange.get_markets (exchange_of base) status cursor)
     /\ fit base (fst (fst r))) /\
  (forall ticker,
     let r := KC.get_orderbook steady (S fuel) self w ticker 10 in
     option_map (fun body => b <- body ;; Ok (orderbook_of b)) (snd r)
     = Some (Exchange.get_orderbook (exchange_of base) ticker)
     /\ fit base (fst (fst r))) /\
  (let r := KC.get_balance steady (S fuel) self w in
   option_map (fun body => b <- body ;; Ok (balance_of b)) (snd r)
   = Some (Exchange.get_balance (exchange_of base))
   /\ fit base (fst (fst r))).
Proof.
  intros Hfit. repeat apply conj; intros;
    repeat match goal with r := _ |- _ => subst r end;
    unfold KC.get_markets, KC.get_orderbook, KC.get_balance;
    match goal with
    | |- context [KC._request steady (S fuel) self w ?m ?e ?p ?j] =>
        destruct (request_steady fuel base self w m e p j Hfit) as [H1 H2]
    end; cbv zeta in H1, H2;
    first [apply H2 | rewrite H1; reflexivity
          | split; [rewrite H1; reflexivity | exact H2]].
Qed.

End Behind.

(** A steady exchange with one page of one market, and the bodies as the
    record of what the scanner reads of them. *)
Inductive demo_body : Type :=
| Markets (response : MarketsResponse.t)
| Book (book : option RawOrderbook.t)
| Balance (cents : Z).

Definition demo_markets_of (b : demo_body) : MarketsResponse.t :=
  match b with
  | Markets response => response
  | _ => MarketsResponse.mk [] None
  end.

Definition demo_orderbook_of (b : demo_body) : option RawOrderbook.t :=
  match b with
  | Book book => book
  | _ => None
  end.

Definition demo_balance_of (b : demo_body) : Z :=
  match b with
  | Balance cents => cents
  | _ => 0%Z
  end.

Definition demo_answer (method url : string)
    (params : option (dict string Param)) : result (Response.t demo_body) :=
  if String.eqb url (SANDBOX_BASE_URL ++ "/portfolio/balance")
  then Ok (Response.mk 200 (Ok (Balance 100)))
  else Ok (Response.mk 404 (Err (ValueError "no body"))).

Lemma demo_never_refuses : never_refuses demo_answer.
Proof.
  intros method url params response. unfold demo_answer.
  destruct (String.eqb _ _); intros [= <-]; discriminate.
Qed.

Lemma demo_fit : fit SANDBOX_BASE_URL demo_client.
Proof. split; [reflexivity | vm_compute; reflexivity]. Qed.

Lemma client_gives_exchange_witness :
  option_map (fun body => b <- body ;; Ok (demo_balance_of b))
    (snd (KC.get_balance (steady demo_answer) 1 demo_client demo_world))
  = Some (Exchange.get_balance
            (exchange_of demo_markets_of demo_orderbook_of demo_balance_of
               demo_answer SANDBOX_BASE_URL)).
Proof.
  exact (proj1 (proj2 (proj2
    (client_gives_exchange demo_markets_of demo_orderbook_of demo_balance_of
       demo_answer demo_never_refuses 0 SANDBOX_BASE_URL demo_client
       demo_world demo_fit)))).
Defined.
