(* ===== verification/ScannerProps.v ===== *)
(** * Theorems on the scanner

    Parsing: the two prices of a market sum to 1, the bid of a parsed
    book is the highest YES level and its ask and spread are functions
    of the bid alone.  The scan: it stops on every exchange within
    [scan_fuel] pages, parses exactly the markets within the limit,
    returns markets that pass the filters, and leaves each under its
    ticker in a cache that never loses a key.  The signals: they come
    from the active strategies and the scanned markets, and an exception
    of one strategy silences that strategy only. *)

From Stdlib Require Import String.
From Stdlib Require Import QArith Qabs Lqa Lia ZArith List Bool.
From S2P Require Import Prelude PyDict PyStr Config Strategy Strategies StrategyLaws.
From S2P Require Import Scanner.
Import ListNotations.
Open Scope string_scope.
Open Scope list_scope.
Open Scope py_scope.

(** ** Parsing *)

(** The prices of a parsed market are the YES bid in dollars, 0.50 when
    the exchange gives none, and its complement: they sum to 1. *)
Theorem parse_market_prices raw now :
  let m := MS._parse_market raw now in
  MD.yes_price m == get_default (RawMarket.yes_bid raw) 50 / 100 /\
  MD.yes_price m + MD.no_price m == 1.
Proof. cbn. split; [reflexivity | lra]. Qed.

Lemma div_le_mono x y c : 0 < c -> x <= y -> x / c <= y / c.
Proof.
  intros Hc Hxy. unfold Qdiv. apply Qmult_le_compat_r; [exact Hxy|].
  now apply Qlt_le_weak, Qinv_lt_0_compat.
Qed.

Lemma fold_py_max_In l a : In (fold_left py_max l a) (a :: l).
Proof.
  revert a; induction l as [|x l IH]; intros a; simpl; [now left|].
  destruct (IH (py_max a x)) as [H|H]; [|now right; right].
  rewrite <- H. unfold py_max. destruct (qltb a x); [right|]; now left.
Qed.

Lemma py_max_default_upper l d : Forall (fun x => x <= py_max_default l d) l.
Proof.
  destruct l as [|x l]; [constructor|]. simpl. constructor.
  - apply fold_py_max_ge.
  - apply fold_py_max_upper.
Qed.

Lemma py_max_default_In l d : l <> [] -> In (py_max_default l d) l.
Proof. destruct l as [|x l]; [congruence|]. intros _. apply fold_py_max_In. Qed.

(** The best bid of a book, in dollars. *)
Definition best_bid (raw : option RawOrderbook.t) : Q :=
  get_default (OrderBook.best_bid (MS._parse_orderbook raw)) 0.

Lemma best_bid_eq raw :
  best_bid raw
  = match RawOrderbook.yes (get_default raw RawOrderbook.empty) with
    | [] => 0
    | yes => py_max_default (map fst yes) 0 / 100
    end.
Proof.
  unfold best_bid, MS._parse_orderbook. cbn [OrderBook.best_bid get_default].
  now destruct (RawOrderbook.yes _).
Qed.

(** The bid of a parsed order book is the highest YES level in dollars,
    or 0 without levels. *)
Theorem parse_orderbook_best_bid raw :
  let yes := RawOrderbook.yes (get_default raw RawOrderbook.empty) in
  Forall (fun level => fst level / 100 <= best_bid raw) yes /\
  (yes <> [] -> exists level, In level yes /\ best_bid raw = fst level / 100) /\
  (yes = [] -> best_bid raw = 0).
Proof.
  intros yes. rewrite best_bid_eq. fold yes.
  destruct yes as [|l0 ys]; [repeat split; [constructor|congruence]|].
  set (l := l0 :: ys). split; [|split; [|discriminate]].
  - apply Forall_forall. intros level Hin.
    pose proof (py_max_default_upper (map fst l) 0) as Hup.
    rewrite Forall_forall in Hup. specialize (Hup _ (in_map fst _ _ Hin)).
    now apply div_le_mono.
  - intros _.
    destruct (proj1 (in_map_iff _ _ _)
                (py_max_default_In (map fst l) 0 ltac:(discriminate)))
      as (level & Hl & Hin).
    exists level. split; [exact Hin | now rewrite Hl].
Qed.

(** The ask and the spread of a parsed book depend on the bid only: with
    a positive bid [b] the ask is [1 - b] and the spread [1 - 2 b], and
    both are 1 otherwise.  The NO side of the book does not enter. *)
Theorem parse_orderbook_ask_spread raw :
  let book := MS._parse_orderbook raw in
  let b := best_bid raw in
  OrderBook.best_bid book = Some b /\
  OrderBook.best_ask book = Some (if qltb 0 b then 1 - b else 1) /\
  OrderBook.spread book = Some (if qltb 0 b then (1 - b) - b else 1) /\
  OrderBook.yes_bids book
  = Some (RawOrderbook.yes (get_default raw RawOrderbook.empty)) /\
  OrderBook.no_bids book
  = Some (RawOrderbook.no (get_default raw RawOrderbook.empty)).
Proof. cbv zeta. unfold best_bid. cbn. repeat split. Qed.

(** ** Time to close and the filters *)

(** The hours to the close of a market are never negative: 9999
    without a close time, the time left in hours before the close, 0
    after it. *)
Theorem close_in_hours_spec m now :
  0 <= MD.close_in_hours m now /\
  match MD.close_time m with
  | None => MD.close_in_hours m now = 9999
  | Some c =>
    ((now < c)%Z -> MD.close_in_hours m now = inject_Z (c - now) / hour_us) /\
    ((c <= now)%Z -> MD.close_in_hours m now == 0)
  end.
Proof.
  unfold MD.close_in_hours. destruct (MD.close_time m) as [c|];
    [|split; [lra | reflexivity]].
  cbv zeta. split; [apply py_max_ge_l|].
  assert (Hh : 0 < hour_us) by reflexivity.
  unfold py_max. split; intros Hc.
  - replace (qltb 0 (inject_Z (c - now) / hour_us)) with true; [reflexivity|].
    symmetry. apply qltb_true. unfold Qdiv. apply Qmult_lt_0_compat.
    + change 0 with (inject_Z 0). rewrite <- Zlt_Qlt. lia.
    + now apply Qinv_lt_0_compat.
  - destruct (qltb_spec 0 (inject_Z (c - now) / hour_us)) as [Hlt|_];
      [|reflexivity].
    exfalso. apply (Qlt_not_le _ _ Hlt).
    setoid_replace 0 with (0 / hour_us) by reflexivity.
    apply div_le_mono; [exact Hh|].
    change 0 with (inject_Z 0). rewrite <- Zle_Qle. lia.
Qed.

(** A market passes the filters exactly when its 24-hour volume reaches
    the minimum, its status is open, and it closes in an hour or more. *)
Theorem passes_filters_iff self m now :
  MS._passes_filters self m now = true <->
  (ScannerConfig.min_volume (MS.config self) <= MD.volume_24h m)%Z /\
  MD.status m = "open" /\
  1 <= MD.close_in_hours m now.
Proof.
  unfold MS._passes_filters.
  destruct (Z.ltb_spec (MD.volume_24h m) (ScannerConfig.min_volume (MS.config self))).
  { split; [discriminate|]. intros (? & _). lia. }
  destruct (String.eqb_spec (MD.status m) "open") as [He|Hne]; cbn [negb].
  2:{ split; [discriminate|]. now intros (_ & ? & _). }
  destruct (qltb (MD.close_in_hours m now) 1) eqn:E.
  - apply qltb_true in E. split; [discriminate|]. intros (_ & _ & ?). lra.
  - apply qltb_false in E. split; [|reflexivity]. intros _. now repeat split.
Qed.

(** The filters do not read the order book. *)
Lemma passes_filters_book self m book now :
  MS._passes_filters self (MD.set_order_book m book) now
  = MS._passes_filters self m now.
Proof. reflexivity. Qed.

(** ** The scan of a page against its reference *)

Section Scan.
Context (self : MS.t) (api : Exchange.t) (now : Z).

Local Abbreviation limit := (ScannerConfig.max_markets (MS.config self)).

(** A market as the scan keeps it: with the parsed book of the exchange,
    or without one when the fetch raises. *)
Definition with_book (m : MD.t) : MD.t :=
  match Exchange.get_orderbook api (MD.ticker m) with
  | Ok orderbook => MD.set_order_book m (MS._parse_orderbook orderbook)
  | Err _ => m
  end.

(** The reference: the markets of a list that qualify, in order. *)
Definition qualifying (markets : list RawMarket.t) : list MD.t :=
  map with_book
    (filter (fun m => MS._passes_filters self m now)
            (map (fun raw => MS._parse_market raw now) markets)).

(** The cache after the markets of a list are stored under their
    tickers. *)
Definition cached (cache : dict string MD.t) (ms : list MD.t)
    : dict string MD.t :=
  fold_left (fun c m => dict_set c (MD.ticker m) m) ms cache.

Lemma qualifying_app l1 l2 : qualifying (l1 ++ l2) = qualifying l1 ++ qualifying l2.
Proof. unfold qualifying. now rewrite map_app, filter_app, map_app. Qed.

Lemma cached_app cache l1 l2 : cached cache (l1 ++ l2) = cached (cached cache l1) l2.
Proof. apply fold_left_app. Qed.

Lemma qualifying_length l : (length (qualifying l) <= length l)%nat.
Proof.
  unfold qualifying. rewrite length_map.
  etransitivity; [apply filter_length_le | now rewrite length_map].
Qed.

Lemma qualifying_pass l :
  Forall (fun m => MS._passes_filters self m now = true) (qualifying l).
Proof.
  apply Forall_forall. intros m Hin. unfold qualifying in Hin.
  apply in_map_iff in Hin as (m0 & <- & Hin). apply filter_In in Hin as [_ Hp].
  unfold with_book. now destruct (Exchange.get_orderbook _ _).
Qed.

Lemma scan_market_eq raw st :
  MS.scan_market self api now raw st
  = MS.mkScan (MS.qualifying_markets st ++ qualifying [raw])
              (cached (MS.cache st) (qualifying [raw]))
              (MS.total_scanned st).
Proof.
  unfold MS.scan_market, qualifying. cbn [map filter].
  destruct (MS._passes_filters _ _ _); cbn [map cached fold_left].
  - unfold with_book. now destruct (Exchange.get_orderbook _ _).
  - rewrite app_nil_r. now destruct st.
Qed.

(** The loop over a page with its break against the reference: it
    parses exactly the markets within the limit, keeps those of them
    that qualify, caches each under its ticker, and counts one market
    past the limit at most. *)
Theorem scan_markets_prefix markets : forall st,
  let k := Z.to_nat (limit - MS.total_scanned st) in
  let st' := MS.scan_markets self api now markets st in
  MS.qualifying_markets st'
  = MS.qualifying_markets st ++ qualifying (firstn k markets) /\
  MS.cache st' = cached (MS.cache st) (qualifying (firstn k markets)) /\
  MS.total_scanned st'
  = (MS.total_scanned st + Z.of_nat (Nat.min (length markets) (S k)))%Z.
Proof.
  induction markets as [|raw rest IH]; intros st k st'; subst k st'.
  { rewrite firstn_nil. cbn. rewrite app_nil_r. repeat split. lia. }
  cbn [MS.scan_markets]. cbv zeta. cbn [MS.set_total MS.total_scanned].
  destruct (Z.ltb_spec limit (MS.total_scanned st + 1)) as [Hlt|Hge].
  - replace (Z.to_nat (limit - MS.total_scanned st)) with 0%nat by lia.
    cbn. rewrite app_nil_r. repeat split. lia.
  - replace (Z.to_nat (limit - MS.total_scanned st))
      with (S (Z.to_nat (limit - (MS.total_scanned st + 1)))) by lia.
    set (k' := Z.to_nat (limit - (MS.total_scanned st + 1))).
    rewrite scan_market_eq.
    cbn [MS.set_total MS.qualifying_markets MS.cache MS.total_scanned].
    destruct (IH (MS.mkScan (MS.qualifying_markets st ++ qualifying [raw])
                    (cached (MS.cache st) (qualifying [raw]))
                    (MS.total_scanned st + 1))) as (H1 & H2 & H3).
    cbn [MS.qualifying_markets MS.cache MS.total_scanned] in H1, H2, H3.
    fold k' in H1, H2, H3. rewrite H1, H2, H3. cbn [firstn].
    change (raw :: firstn k' rest) with ([raw] ++ firstn k' rest).
    rewrite qualifying_app, cached_app, app_assoc. repeat split.
    cbn [length]. lia.
Qed.

(** ** The pages *)

(** What every page preserves holds when the loop over the pages
    ends. *)
Lemma scan_pages_inv (P : MS.scan -> Prop) :
  (forall markets st, P st -> P (MS.scan_markets self api now markets st)) ->
  forall fuel cursor st r,
    P st -> MS.scan_pages fuel self api now cursor st = Some r -> P (fst r).
Proof.
  intros Hstep. induction fuel as [|fuel IH]; intros cursor st r Hst;
    [discriminate|].
  cbn [MS.scan_pages].
  destruct (Exchange.get_markets _ _ _) as [response|e];
    [|intros H; now inversion H].
  destruct (MarketsResponse.markets response) as [|raw rest] eqn:Em;
    [intros H; now inversion H|].
  specialize (Hstep (raw :: rest) st Hst). cbv zeta.
  destruct (_ <=? _)%Z; [intros H; now inversion H|].
  destruct (truthy_str _); [now apply IH | intros H; now inversion H].
Qed.

(** A page that is not empty moves the count. *)
Lemma scan_markets_counts raw rest st :
  (MS.total_scanned st
   < MS.total_scanned (MS.scan_markets self api now (raw :: rest) st))%Z.
Proof.
  destruct (scan_markets_prefix (raw :: rest) st) as (_ & _ & ->).
  cbn [length]. lia.
Qed.

(** With more pages of fuel than markets left under the limit the loop
    ends by itself. *)
Lemma scan_pages_enough : forall fuel cursor st,
  (Z.to_nat (limit - MS.total_scanned st) < fuel)%nat ->
  exists r, MS.scan_pages fuel self api now cursor st = Some r.
Proof.
  induction fuel as [|fuel IH]; intros cursor st Hfuel; [lia|].
  cbn [MS.scan_pages].
  destruct (Exchange.get_markets _ _ _) as [response|e]; [|eauto].
  destruct (MarketsResponse.markets response) as [|raw rest]; [eauto|].
  cbv zeta. pose proof (scan_markets_counts raw rest st) as Hcount.
  destruct (Z.leb_spec limit
              (MS.total_scanned (MS.scan_markets self api now (raw :: rest) st)));
    [eauto|].
  destruct (truthy_str _); [|eauto]. apply IH. lia.
Qed.

End Scan.

(** ** The cache *)

Lemma find_snoc {A : Type} (f : A -> bool) l x :
  find f (l ++ [x])
  = match find f l with Some y => Some y | None => if f x then Some x else None end.
Proof.
  induction l as [|y l IH]; simpl; [reflexivity|]. now destruct (f y).
Qed.

(** A ticker reads the latest market stored under it, and what the cache
    held before when none was. *)
Lemma cached_get ms : forall cache k,
  dict_get (cached cache ms) k
  = match find (fun m => String.eqb (MD.ticker m) k) (rev ms) with
    | Some m => Some m
    | None => dict_get cache k
    end.
Proof.
  induction ms as [|m ms IH]; intros cache k; [reflexivity|].
  cbn [cached fold_left rev]. fold (cached (dict_set cache (MD.ticker m) m) ms).
  rewrite IH, find_snoc, dict_get_set.
  destruct (find _ (rev ms)); [reflexivity|].
  destruct (eq_dec (MD.ticker m) k) as [->|Hne].
  - now rewrite String.eqb_refl.
  - apply String.eqb_neq in Hne. now rewrite Hne.
Qed.

Section ScanOnce.
Context (self : MS.t) (api : Exchange.t) (now : Z).

Local Abbreviation limit := (ScannerConfig.max_markets (MS.config self)).
Local Abbreviation start := (MS.mkScan [] (MS._market_cache self) 0).
Local Abbreviation pages :=
  (MS.scan_pages (MS.scan_fuel self) self api now None start).

(** What holds of the variables of [scan_once] throughout: the markets
    kept pass the filters, they are no more than the count and the
    limit, and the cache is the old one with them stored. *)
Definition scan_ok (st : MS.scan) : Prop :=
  Forall (fun m => MS._passes_filters self m now = true)
         (MS.qualifying_markets st) /\
  (Z.of_nat (length (MS.qualifying_markets st))
   <= Z.min (MS.total_scanned st) (Z.max 0 limit))%Z /\
  MS.cache st = cached (MS._market_cache self) (MS.qualifying_markets st).

Lemma scan_ok_start : scan_ok start.
Proof. repeat split; [constructor | cbn; lia]. Qed.

Lemma scan_ok_page markets st :
  scan_ok st -> scan_ok (MS.scan_markets self api now markets st).
Proof.
  intros (Hp & Hb & Hc). unfold scan_ok.
  destruct (scan_markets_prefix self api now markets st) as (-> & -> & ->).
  set (k := Z.to_nat (limit - MS.total_scanned st)).
  pose proof (qualifying_length self api now (firstn k markets)) as Hl.
  rewrite length_firstn in Hl. split; [|split].
  - apply Forall_app. split; [exact Hp | apply qualifying_pass].
  - rewrite length_app. lia.
  - now rewrite Hc, cached_app.
Qed.

(** C17. The scan ends on every exchange: one page more than the limit of
    markets is fuel enough for the loop over the pages, whatever the
    exchange answers. *)
Theorem scan_once_terminates :
  exists r,
    MS.scan_pages (MS.scan_fuel self) self api now None
      (MS.mkScan [] (MS._market_cache self) 0) = Some r.
Proof. apply scan_pages_enough. unfold MS.scan_fuel. cbn. lia. Qed.

Lemma scan_once_ok markets :
  snd (MS.scan_once self api now) = Ok markets ->
  exists st, pages = Some (st, None) /\ scan_ok st /\
             MS.qualifying_markets st = markets.
Proof.
  unfold MS.scan_once. destruct pages as [[st [e|]]|] eqn:E; try discriminate.
  intros H. injection H as <-. exists st. split; [reflexivity|]. split; [|reflexivity].
  apply (scan_pages_inv self api now scan_ok scan_ok_page _ _ _ _ scan_ok_start E).
Qed.

(** A scan that returns gives markets that pass the filters, no more of
    them than the limit, and records its time. *)
Theorem scan_once_qualifying markets :
  snd (MS.scan_once self api now) = Ok markets ->
  Forall (fun m => MS._passes_filters self m now = true) markets /\
  (Z.of_nat (length markets) <= Z.max 0 limit)%Z /\
  MS._last_scan (fst (MS.scan_once self api now)) = Some now.
Proof.
  intros H. destruct (scan_once_ok markets H) as (st & E & (Hp & Hb & _) & <-).
  unfold MS.scan_once. rewrite E. repeat split; [exact Hp | lia].
Qed.

(** C20. After a scan that returns, a ticker reads the latest of the
    returned markets with that ticker, and the snapshot the cache held
    before the scan when no returned market has it: the cache is never
    pruned. *)
Theorem scan_once_cache_lookup markets k :
  snd (MS.scan_once self api now) = Ok markets ->
  MS.get_market (fst (MS.scan_once self api now)) k
  = match find (fun m => String.eqb (MD.ticker m) k) (rev markets) with
    | Some m => Some m
    | None => MS.get_market self k
    end.
Proof.
  intros H. destruct (scan_once_ok markets H) as (st & E & (_ & _ & Hc) & <-).
  unfold MS.scan_once, MS.get_market. rewrite E. cbn [fst MS._market_cache].
  rewrite Hc. apply cached_get.
Qed.

End ScanOnce.

(** ** The signals *)

Section Signals.
Context (now : Z).

(** What one strategy does with one snapshot: the state it is left in
    and the signal it adds.  An inactive strategy is not asked; one that
    raises adds nothing. *)
Definition step_state (md : MarketDict.t) (s : Strategy.t) : Strategy.t :=
  if Strategy.active s then fst (Strategy.analyze s md now) else s.

Definition step_signal (md : MarketDict.t) (s : Strategy.t) : list Signal.t :=
  if Strategy.active s then
    match snd (Strategy.analyze s md now) with
    | Ok (Some signal) => [signal]
    | _ => []
    end
  else [].

(** The reference of [generate_signals]: market after market, the
    signals of all strategies and the strategies as the market leaves
    them. *)
Fixpoint signals_of (strategies : list Strategy.t) (markets : list MD.t)
    : list Signal.t :=
  match markets with
  | [] => []
  | m :: ms =>
    flat_map (step_signal (MD.to_dict m now)) strategies
    ++ signals_of (map (step_state (MD.to_dict m now)) strategies) ms
  end.

Fixpoint states_after (strategies : list Strategy.t) (markets : list MD.t)
    : list Strategy.t :=
  match markets with
  | [] => strategies
  | m :: ms => states_after (map (step_state (MD.to_dict m now)) strategies) ms
  end.

Lemma analyze_steps md l : forall done signals,
  fold_left (MS.analyze_step md now) l (done, signals)
  = (done ++ map (step_state md) l, signals ++ flat_map (step_signal md) l).
Proof.
  induction l as [|s l IH]; intros done signals; cbn [fold_left map flat_map].
  { now rewrite !app_nil_r. }
  unfold MS.analyze_step at 2, step_state at 1, step_signal at 1.
  destruct (Strategy.active s); cbn [negb].
  - destruct (Strategy.analyze s md now) as [s' [[sig|]|e]]; cbn [fst snd];
      rewrite IH, <- ?app_assoc; cbn [app]; now rewrite ?app_nil_r.
  - rewrite IH, <- app_assoc. reflexivity.
Qed.

Lemma market_steps markets : forall strategies signals,
  fold_left (MS.market_step now) markets (strategies, signals)
  = (states_after strategies markets, signals ++ signals_of strategies markets).
Proof.
  induction markets as [|m ms IH]; intros strategies signals;
    cbn [fold_left states_after signals_of]; [now rewrite app_nil_r|].
  unfold MS.market_step at 2. rewrite analyze_steps, IH.
  now rewrite app_assoc.
Qed.

Lemma generate_signals_eq self markets :
  MS.generate_signals self markets now
  = (MS.set_strategies self (states_after (MS.strategies self) markets),
     signals_of (MS.strategies self) markets).
Proof. unfold MS.generate_signals. now rewrite market_steps. Qed.

Lemma states_after_app markets : forall l1 l2,
  states_after (l1 ++ l2) markets
  = states_after l1 markets ++ states_after l2 markets.
Proof.
  induction markets as [|m ms IH]; intros l1 l2; cbn [states_after];
    [reflexivity|]. now rewrite map_app, IH.
Qed.

Lemma states_after_length markets : forall l,
  length (states_after l markets) = length l.
Proof.
  induction markets as [|m ms IH]; intros l; cbn [states_after];
    [reflexivity|]. now rewrite IH, length_map.
Qed.

Lemma states_after_one markets : forall s,
  exists s', states_after [s] markets = [s'].
Proof.
  induction markets as [|m ms IH]; intros s; cbn [states_after map]; eauto.
Qed.

(** A strategy without a signal of its own can be taken out of the list
    without a change to the signals of the others. *)
Lemma signals_of_silent markets : forall pre s post,
  signals_of [s] markets = [] ->
  signals_of (pre ++ s :: post) markets = signals_of (pre ++ post) markets.
Proof.
  induction markets as [|m ms IH]; intros pre s post Hs; cbn [signals_of];
    [reflexivity|].
  cbn [signals_of flat_map map] in Hs. rewrite app_nil_r in Hs.
  apply app_eq_nil in Hs as [Hm Hms].
  rewrite !flat_map_app, !map_app. cbn [flat_map map].
  now rewrite Hm, (IH _ _ _ Hms).
Qed.

(** C18. An exception of [analyze] stays with the strategy that raised it:
    a strategy that adds no signal on the markets of a scan, because it
    raises, returns nothing or is inactive on every call, can be taken
    out of the list without a change for the others.  [generate_signals]
    returns the signals of the scan without it, in the same order, and
    leaves the other strategies in the same states. *)
Theorem generate_signals_isolates self pre s post markets :
  MS.strategies self = pre ++ s :: post ->
  snd (MS.generate_signals (MS.set_strategies self [s]) markets now) = [] ->
  let without :=
    MS.generate_signals (MS.set_strategies self (pre ++ post)) markets now in
  snd (MS.generate_signals self markets now) = snd without /\
  exists pre' s' post',
    length pre' = length pre /\
    MS.strategies (fst (MS.generate_signals self markets now))
    = pre' ++ s' :: post' /\
    MS.strategies (fst without) = pre' ++ post'.
Proof.
  intros Hl Hs without. unfold without. rewrite !generate_signals_eq in *.
  cbn [fst snd MS.strategies MS.set_strategies] in *. rewrite Hl.
  split; [now apply signals_of_silent|].
  destruct (states_after_one markets s) as [s' Hs'].
  exists (states_after pre markets), s', (states_after post markets).
  split; [apply states_after_length|].
  change (s :: post) with ([s] ++ post). now rewrite !states_after_app, Hs'.
Qed.
(** Lawful strategies keep their class, name and flags through a
    snapshot. *)
Lemma step_state_lawful md s :
  Strategy.lawful s ->
  Strategy.lawful (step_state md s) /\
  Strategy.name (step_state md s) = Strategy.name s /\
  Strategy.active (step_state md s) = Strategy.active s /\
  Strategy.paper_mode (step_state md s) = Strategy.paper_mode s.
Proof.
  destruct s as [S c st]. unfold Strategy.lawful, step_state, Strategy.analyze,
    Strategy.name, Strategy.active, Strategy.paper_mode. cbn. intros L.
  destruct (BaseStrategy.active c st) eqn:Ea; [|easy].
  pose proof (analyze_name st md now) as Hn.
  pose proof (analyze_active st md now) as Hact.
  pose proof (analyze_paper_mode st md now) as Hp.
  destruct (BaseStrategy.analyze c st md now) as [st' r]. cbn in *.
  now rewrite Hn, Hact, Hp, Ea.
Qed.

Lemma states_after_lawful markets : forall strategies,
  Forall Strategy.lawful strategies ->
  Forall Strategy.lawful (states_after strategies markets) /\
  map Strategy.name (states_after strategies markets)
  = map Strategy.name strategies /\
  map Strategy.paper_mode (states_after strategies markets)
  = map Strategy.paper_mode strategies.
Proof.
  induction markets as [|m ms IH]; intros strategies Hl; cbn; [easy|].
  set (md := MD.to_dict m now).
  assert (Hstep : Forall Strategy.lawful (map (step_state md) strategies)
                  /\ map Strategy.name (map (step_state md) strategies)
                     = map Strategy.name strategies
                  /\ map Strategy.paper_mode (map (step_state md) strategies)
                     = map Strategy.paper_mode strategies).
  { induction Hl as [|s l Hs _ IHl]; cbn; [easy|].
    destruct (step_state_lawful md s Hs) as (H1 & H2 & _ & H4).
    destruct IHl as (H5 & H6 & H7). rewrite H2, H4, H6, H7. now repeat split; auto. }
  destruct Hstep as (H1 & H2 & H3). destruct (IH _ H1) as (H4 & H5 & H6).
  now rewrite H5, H6, H2, H3.
Qed.

(** The contract of a signal of the scan: the name of an active strategy
    of the list, the market id of a scanned market, and one of the three
    sides. *)
Definition signal_ok (names : list string) (markets : list MD.t)
    (signal : Signal.t) : Prop :=
  In (Signal.strategy_name signal) names /\
  (exists m, In m markets /\
             Signal.market_id signal = market_id_str (MD.to_dict m now)) /\
  In (Signal.side signal) ["yes"; "no"; "both"].

Lemma step_signal_ok md s signal :
  Strategy.lawful s -> In signal (step_signal md s) ->
  Signal.strategy_name signal = Strategy.name s /\
  Signal.market_id signal = market_id_str md /\
  In (Signal.side signal) ["yes"; "no"; "both"].
Proof.
  destruct s as [S c st]. unfold Strategy.lawful, step_signal, Strategy.analyze,
    Strategy.name, Strategy.active. cbn. intros L.
  destruct (BaseStrategy.active c st); [|easy].
  pose proof (signal_name st md now signal) as Hn.
  pose proof (signal_market st md now signal) as Hm.
  pose proof (signal_side st md now signal) as Hs.
  destruct (BaseStrategy.analyze c st md now) as [st' [[sig|]|e]]; cbn in *;
    try easy.
  intros [<-|[]]. auto.
Qed.

(** C19. Every signal of [generate_signals] over lawful strategies meets
    the contract of a signal: it names a strategy of the list, carries
    the id of one of the markets it was given, and a side among yes, no
    and both. *)
Theorem generate_signals_typed self markets :
  Forall Strategy.lawful (MS.strategies self) ->
  Forall (signal_ok (map Strategy.name (MS.strategies self)) markets)
         (snd (MS.generate_signals self markets now)).
Proof.
  rewrite generate_signals_eq. cbn [snd].
  generalize (MS.strategies self) as l. clear self.
  induction markets as [|m ms IH]; intros l Hl; cbn; [constructor|].
  apply Forall_app. split.
  - apply Forall_forall. intros sig Hin. apply in_flat_map in Hin as (s & Hs & Hin).
    rewrite Forall_forall in Hl.
    destruct (step_signal_ok _ s sig (Hl s Hs) Hin) as (Hn & Hm & Hside).
    split; [rewrite Hn; now apply in_map|]. split; [|exact Hside].
    exists m. split; [now left | exact Hm].
  - destruct (states_after_lawful [m] l Hl) as (H1 & H2 & _). cbn in H1, H2.
    specialize (IH _ H1). rewrite H2 in IH.
    eapply Forall_impl; [|exact IH]. intros sig (Hn & (m' & Hin & Hm) & Hs).
    split; [exact Hn|]. split; [|exact Hs]. exists m'. split; [now right|exact Hm].
Qed.

End Signals.

(** ** Witnesses *)

(** An exchange with two pages: two liquid markets at the extremes, one
    of them without a book, then a market without volume. *)
Definition demo_raw (ticker : string) (bid : Q) (volume_24h : Z) : RawMarket.t :=
  {| RawMarket.id := None; RawMarket.ticker := Some ticker;
     RawMarket.title := None; RawMarket.yes_bid := Some bid;
     RawMarket.volume := Some 1000%Z; RawMarket.volume_24h := Some volume_24h;
     RawMarket.open_interest := None; RawMarket.status := Some "open";
     RawMarket.close_time := None |}.

Definition demo_exchange : Exchange.t :=
  {| Exchange.get_markets := fun _ cursor =>
       match cursor with
       | None =>
         Ok {| MarketsResponse.markets :=
                 [demo_raw "MKT" 96 500; demo_raw "LOW" 4 500];
               MarketsResponse.cursor := Some "page-2" |}
       | Some _ =>
         Ok {| MarketsResponse.markets := [demo_raw "THIN" 50 0];
               MarketsResponse.cursor := None |}
       end;
     Exchange.get_orderbook := fun ticker =>
       if String.eqb ticker "MKT"
       then Ok (Some {| RawOrderbook.yes := [(40, 10); (45, 5)];
                        RawOrderbook.no := [(50, 7)] |})
       else Err (HTTPStatusError 404);
     Exchange.get_balance := Ok 20000%Z |}.

Definition demo_strategies : list Strategy.t :=
  [ Strategy.mk MR.t MR.strategy (MR.init StrategyParams.empty);
    Strategy.mk Mom.t Mom.strategy (Mom.init StrategyParams.empty);
    Strategy.mk MM.t MM.strategy (MM.init StrategyParams.empty) ].

Definition demo_scanner : MS.t := MS.init ScannerConfig.default demo_strategies.

Definition demo_scanned : MS.t := fst (MS.scan_once demo_scanner demo_exchange 7).

Definition demo_markets : list MD.t :=
  match snd (MS.scan_once demo_scanner demo_exchange 7) with
  | Ok markets => markets
  | Err _ => []
  end.

Lemma demo_strategies_lawful : Forall Strategy.lawful demo_strategies.
Proof.
  apply Forall_cons; [exact MeanReversion_Lawful|].
  apply Forall_cons; [exact Momentum_Lawful|].
  apply Forall_cons; [exact MarketMaking_Lawful | apply Forall_nil].
Defined.

Lemma scan_once_qualifying_witness :
  Forall (fun m => MS._passes_filters demo_scanner m 7 = true) demo_markets.
Proof.
  exact (proj1 (scan_once_qualifying demo_scanner demo_exchange 7%Z
                  demo_markets eq_refl)).
Defined.

Lemma scan_once_cache_lookup_witness :
  MS.get_market demo_scanned "MKT" = nth_error demo_markets 0.
Proof.
  exact (scan_once_cache_lookup demo_scanner demo_exchange 7%Z demo_markets
           "MKT" eq_refl).
Defined.

Lemma generate_signals_typed_witness :
  Forall (signal_ok 7 ["MeanReversion"; "Momentum"; "MarketMaking"] demo_markets)
         (snd (MS.generate_signals demo_scanned demo_markets 7)).
Proof.
  exact (generate_signals_typed 7%Z demo_scanned demo_markets
           demo_strategies_lawful).
Defined.

(** A momentum strategy configured with periods of 0 raises
    [ZeroDivisionError] on every snapshot. *)
Definition broken_params : StrategyParams.t :=
  {| StrategyParams.extreme_threshold := None;
     StrategyParams.min_threshold := None;
     StrategyParams.exit_target := None;
     StrategyParams.base_position_size := None;
     StrategyParams.max_position_size := None;
     StrategyParams.min_spread := None;
     StrategyParams.position_size := None;
     StrategyParams.short_ma := Some 0%nat;
     StrategyParams.long_ma := Some 0%nat;
     StrategyParams.momentum_threshold := None |}.

Definition broken_momentum : Strategy.t :=
  Strategy.mk Mom.t Mom.strategy (Mom.init broken_params).

Definition mean_reversion : Strategy.t :=
  Strategy.mk MR.t MR.strategy (MR.init StrategyParams.empty).

Definition market_making : Strategy.t :=
  Strategy.mk MM.t MM.strategy (MM.init StrategyParams.empty).

Definition broken_scanner : MS.t :=
  MS.set_strategies demo_scanned [mean_reversion; broken_momentum; market_making].

Example broken_momentum_raises :
  Forall (fun m => snd (Strategy.analyze broken_momentum (MD.to_dict m 7) 7)
                   = Err ZeroDivisionError) demo_markets /\
  demo_markets <> [] /\
  snd (MS.generate_signals broken_scanner demo_markets 7) <> [].
Proof. vm_compute. repeat split; try discriminate. repeat constructor. Qed.

Lemma broken_momentum_silent :
  snd (MS.generate_signals (MS.set_strategies broken_scanner [broken_momentum])
         demo_markets 7) = [].
Proof. vm_compute. reflexivity. Qed.

Lemma generate_signals_isolates_witness :
  snd (MS.generate_signals broken_scanner demo_markets 7)
  = snd (MS.generate_signals
           (MS.set_strategies broken_scanner ([mean_reversion] ++ [market_making]))
           demo_markets 7).
Proof.
  exact (proj1 (generate_signals_isolates 7%Z broken_scanner [mean_reversion]
                  broken_momentum [market_making] demo_markets eq_refl
                  broken_momentum_silent)).
Defined.
