(* ===== verification/ScannerClient.v ===== *)
(** * The scan over the client (src/src/scanner.py over
    src/src/api/kalshi_client.py)

    [Scanner] models [scan_once] and a turn of [run_continuous] over a
    record of answers.  Here the same loops call the client: every
    [await self.client.get_markets] and [await self.client.get_orderbook]
    is a call of [KalshiClient] that waits for the limiter, signs, sends
    and retries, so the scan threads the client and the world through
    its two loops, and the loop of [run_continuous] sleeps between its
    turns.  A call that is still retrying when its attempts are used up
    leaves the scan without a result ([None]).  The theorems are in
    [ScannerClientProps]. *)

From Stdlib Require Import String.
From Stdlib Require Import QArith ZArith List Bool.
From S2P Require Import Prelude PyDict PyStr Client Config Strategy Scanner.
Import ListNotations.
Open Scope string_scope.
Open Scope list_scope.
Open Scope py_scope.

(** The scan with the client and the world threaded through it. *)
Module ClientScan.

(** The client of the scanner with the world it talks to. *)
Definition conn : Type := (KC.t * World.t)%type.

Section OverClient.
Context {B : Type}.
Variables (markets_of : B -> MarketsResponse.t)
          (orderbook_of : B -> option RawOrderbook.t).
Variables (server : Server B) (attempts : nat).

(** [await self.client.get_orderbook(market_data.ticker)] *)
Definition fetch_orderbook (c : conn) (ticker : string)
    : conn * option (result (option RawOrderbook.t)) :=
  let '(client, w, r) :=
    KC.get_orderbook server attempts (fst c) (snd c) ticker 10 in
  ((client, w), option_map (fun body => b <- body ;; Ok (orderbook_of b)) r).

(** [await self.client.get_markets(status=..., limit=100, cursor=cursor)] *)
Definition fetch_markets (c : conn) (status : string) (cursor : option string)
    : conn * option (result MarketsResponse.t) :=
  let '(client, w, r) :=
    KC.get_markets server attempts (fst c) (snd c) status 100 cursor None None in
  ((client, w), option_map (fun body => b <- body ;; Ok (markets_of b)) r).

(** The body of [for market in markets] for a market within the limit. *)
Definition scan_market (self : MS.t) (now : Z) (market : RawMarket.t)
    (c : conn) (st : MS.scan) : conn * option MS.scan :=
  let market_data := MS._parse_market market now in
  if MS._passes_filters self market_data now then
    let '(c, fetched) := fetch_orderbook c (MD.ticker market_data) in
    match fetched with
    | None => (c, None)
    | Some r =>
      let market_data :=
        match r with
        | Ok orderbook =>
          MD.set_order_book market_data (MS._parse_orderbook orderbook)
        | Err _ => market_data
        end in
      (c, Some (MS.mkScan (MS.qualifying_markets st ++ [market_data])
                  (dict_set (MS.cache st) (MD.ticker market_data) market_data)
                  (MS.total_scanned st)))
    end
  else (c, Some st).

(** [for market in markets], which breaks once the count exceeds
    [max_markets]. *)
Fixpoint scan_markets (self : MS.t) (now : Z) (markets : list RawMarket.t)
    (c : conn) (st : MS.scan) : conn * option MS.scan :=
  match markets with
  | [] => (c, Some st)
  | market :: rest =>
    let st := MS.set_total st (MS.total_scanned st + 1) in
    if (ScannerConfig.max_markets (MS.config self) <? MS.total_scanned st)%Z
    then (c, Some st)
    else
      match scan_market self now market c st with
      | (c, Some st) => scan_markets self now rest c st
      | (c, None) => (c, None)
      end
  end.

(** [while True] of [scan_once], on the fuel of its pages. *)
Fixpoint scan_pages (fuel : nat) (self : MS.t) (now : Z)
    (cursor : option string) (c : conn) (st : MS.scan)
    : conn * option (MS.scan * option PyError) :=
  match fuel with
  | O => (c, None)
  | S fuel =>
    let '(c, fetched) :=
      fetch_markets c (ScannerConfig.market_status (MS.config self)) cursor in
    match fetched with
    | None => (c, None)
    | Some (Err e) => (c, Some (st, Some e))
    | Some (Ok response) =>
      match MarketsResponse.markets response with
      | [] => (c, Some (st, None))
      | markets =>
        match scan_markets self now markets c st with
        | (c, None) => (c, None)
        | (c, Some st) =>
          if (ScannerConfig.max_markets (MS.config self)
              <=? MS.total_scanned st)%Z
          then (c, Some (st, None))
          else
            let cursor := MarketsResponse.cursor response in
            if truthy_str cursor then scan_pages fuel self now cursor c st
            else (c, Some (st, None))
        end
      end
    end
  end.

(** [scan_once] over the client: the client and the world it leaves,
    and the scanner with what the scan returns or raises. *)
Definition scan_once (self : MS.t) (c : conn) (now : Z)
    : conn * option (MS.t * result (list MD.t)) :=
  match scan_pages (MS.scan_fuel self) self now None c
                   (MS.mkScan [] (MS._market_cache self) 0) with
  | (c, Some (st, None)) =>
    (c, Some (MS.mk (MS.config self) (MS.strategies self) (MS.cache st)
                (Some now) (MS._running self),
              Ok (MS.qualifying_markets st)))
  | (c, Some (st, Some e)) =>
    (c, Some (MS.mk (MS.config self) (MS.strategies self) (MS.cache st)
                (MS._last_scan self) (MS._running self),
              Err e))
  | (c, None) => (c, None)
  end.

(** [await asyncio.sleep(d)], which returns at once when [d] is not
    positive. *)
Definition asyncio_sleep (c : conn) (d : Q) : conn :=
  if qltb 0 d then (fst c, World.sleep (snd c) d) else c.

(** The [try] block of a turn of [run_continuous] up to its [yield]:
    the scan and the signals, or nothing when the scan raised. *)
Definition scan_turn (self : MS.t) (c : conn) (now : Z)
    : conn * option (MS.t * option (list Signal.t)) :=
  match scan_once self c now with
  | (c, None) => (c, None)
  | (c, Some (self, Ok markets)) =>
    let '(self, signals) := MS.generate_signals self markets now in
    (c, Some (self, Some signals))
  | (c, Some (self, Err _)) => (c, Some (self, None))
  end.

(** The sleep that ends a turn: the poll interval after a [yield], 5
    seconds after an exception. *)
Definition pause (self : MS.t) (yielded : option (list Signal.t)) : Q :=
  match yielded with
  | Some _ => ScannerConfig.poll_interval_seconds (MS.config self)
  | None => 5
  end.

(** One turn of [while self._running] of [run_continuous] over the
    client, with the sleep that ends it. *)
Definition run_continuous_step (self : MS.t) (c : conn) (now : Z)
    : conn * option (MS.t * option (list Signal.t)) :=
  match scan_turn self c now with
  | (c, None) => (c, None)
  | (c, Some (self, yielded)) =>
    (asyncio_sleep c (pause self yielded), Some (self, yielded))
  end.

(** The turns of the loop for a consumer that only collects what is
    yielded and resumes the generator: one turn, with its sleep, for
    each time [datetime.now()] is read, while the scanner runs. *)
Fixpoint turns (self : MS.t) (c : conn) (nows : list Z)
    : conn * option (MS.t * list (list Signal.t)) :=
  match nows with
  | [] => (c, Some (self, []))
  | now :: rest =>
    if negb (MS._running self) then (c, Some (self, []))
    else
      match run_continuous_step self c now with
      | (c, None) => (c, None)
      | (c, Some (self, yielded)) =>
        match turns self c rest with
        | (c, None) => (c, None)
        | (c, Some (self, later)) =>
          (c, Some (self, match yielded with
                          | Some signals => signals :: later
                          | None => later
                          end))
        end
      end
  end.

(** [run_continuous] *)
Definition run_continuous (self : MS.t) (c : conn) (nows : list Z)
    : conn * option (MS.t * list (list Signal.t)) :=
  turns (MS.set_running self true) c nows.

End OverClient.

End ClientScan.

Module CS := ClientScan.
