(* ===== verification/ScannerClientProps.v ===== *)
(** * Properties of the scan over the client

    What the composition of the scanner and the client gives.  What
    every request and every sleep preserve, the scan and the loop
    preserve; so on every exchange the requests of the loop go to the
    exchange of the client and are paced by its limiter, and a turn
    lasts at least the poll interval.  On a steady exchange that never
    refuses the scan and the turn over the client are the scan and the
    turn over the record [exchange_of]: the detailed loop refines the
    one the scanner, the orchestrator and their theorems are stated
    over. *)

From Stdlib Require Import String.
From Stdlib Require Import QArith ZArith List Bool Lia Lqa.
From S2P Require Import Prelude PyDict PyStr Client ClientProps Config Strategy.
From S2P Require Import Scanner ClientExchange ScannerProps ScannerClient.
Import ListNotations.
Open Scope string_scope.
Open Scope list_scope.
Open Scope py_scope.

(** ** What every request keeps, the scan keeps *)

Section Preserves.
Context {B : Type}.
Variables (markets_of : B -> MarketsResponse.t)
          (orderbook_of : B -> option RawOrderbook.t).
Variables (server : Server B) (attempts : nat).
Variable P : KC.t -> World.t -> Prop.
Hypothesis Hrequest :
  forall method endpoint params json_data self w,
    P self w ->
    let r := KC._request server attempts self w method endpoint params
               json_data in
    P (fst (fst r)) (snd (fst r)).

Definition holds (c : CS.conn) : Prop := P (fst c) (snd c).

Lemma fetch_orderbook_preserves c ticker :
  holds c ->
  holds (fst (CS.fetch_orderbook orderbook_of server attempts c ticker)).
Proof.
  intros Hc. unfold CS.fetch_orderbook, KC.get_orderbook.
  specialize (Hrequest "GET" ("/markets/" ++ ticker ++ "/orderbook")%string
                (Some [("depth", PInt 10)]) None _ _ Hc).
  cbv zeta in Hrequest. now destruct (KC._request _ _ _ _ _ _ _ _) as [[client w] r].
Qed.

Lemma fetch_markets_preserves c status cursor :
  holds c ->
  holds (fst (CS.fetch_markets markets_of server attempts c status cursor)).
Proof.
  intros Hc. unfold CS.fetch_markets, KC.get_markets.
  match goal with
  | |- context [KC._request server attempts _ _ ?m ?e ?p ?j] =>
      specialize (Hrequest m e p j _ _ Hc)
  end.
  cbv zeta in Hrequest. now destruct (KC._request _ _ _ _ _ _ _ _) as [[client w] r].
Qed.

Lemma scan_market_preserves self now market c st :
  holds c ->
  holds (fst (CS.scan_market orderbook_of server attempts self now market
                c st)).
Proof.
  intros Hc. unfold CS.scan_market.
  destruct (MS._passes_filters _ _ _); [|exact Hc].
  pose proof (fetch_orderbook_preserves c
                (MD.ticker (MS._parse_market market now)) Hc) as H.
  destruct (CS.fetch_orderbook _ _) as [c' [r|]]; exact H.
Qed.

Lemma scan_markets_preserves self now markets : forall c st,
  holds c ->
  holds (fst (CS.scan_markets orderbook_of server attempts self now markets
                c st)).
Proof.
  induction markets as [|market rest IH]; intros c st Hc; [exact Hc|].
  cbn [CS.scan_markets]. cbv zeta.
  match goal with |- context [if ?b then _ else _] => destruct b end;
    [exact Hc|].
  pose proof (scan_market_preserves self now market c
                (MS.set_total st (MS.total_scanned st + 1)) Hc) as H.
  destruct (CS.scan_market _ _ _ _ _) as [c' [st'|]]; [now apply IH | exact H].
Qed.

Lemma scan_pages_preserves self now : forall fuel cursor c st,
  holds c ->
  holds (fst (CS.scan_pages markets_of orderbook_of server attempts fuel self
                now cursor c st)).
Proof.
  induction fuel as [|fuel IH]; intros cursor c st Hc; [exact Hc|].
  cbn [CS.scan_pages].
  pose proof (fetch_markets_preserves c
                (ScannerConfig.market_status (MS.config self)) cursor Hc) as H.
  destruct (CS.fetch_markets _ _ _) as [c1 [[response|e]|]]; try exact H.
  destruct (MarketsResponse.markets response) as [|raw rest]; [exact H|].
  pose proof (scan_markets_preserves self now (raw :: rest) c1 st H) as H'.
  destruct (CS.scan_markets _ _ _ _ _) as [c2 [st'|]]; [|exact H'].
  destruct (_ <=? _)%Z; [exact H'|].
  destruct (truthy_str _); [now apply IH | exact H'].
Qed.

Lemma scan_once_preserves self c now :
  holds c ->
  holds (fst (CS.scan_once markets_of orderbook_of server attempts self c
                now)).
Proof.
  intros Hc. unfold CS.scan_once.
  pose proof (scan_pages_preserves self now (MS.scan_fuel self) None c
                (MS.mkScan [] (MS._market_cache self) 0) Hc) as H.
  now destruct (CS.scan_pages _ _ _ _ _ _) as [c' [[st [e|]]|]].
Qed.

(** With a property that survives a sleep, the turns of the loop. *)
Hypothesis Hsleep :
  forall self w d, 0 < d -> P self w -> P self (World.sleep w d).

Lemma asyncio_sleep_preserves c d : holds c -> holds (CS.asyncio_sleep c d).
Proof.
  intros Hc. unfold CS.asyncio_sleep.
  destruct (qltb_spec 0 d); [now apply Hsleep | exact Hc].
Qed.

Lemma scan_turn_preserves self c now :
  holds c ->
  holds (fst (CS.scan_turn markets_of orderbook_of server attempts self c now)).
Proof.
  intros Hc. unfold CS.scan_turn.
  pose proof (scan_once_preserves self c now Hc) as H.
  destruct (CS.scan_once _ _ _ _ _ _ _) as [c' [[self' [markets|e]]|]];
    try exact H.
  now destruct (MS.generate_signals self' markets now).
Qed.

Lemma run_continuous_step_preserves self c now :
  holds c ->
  holds (fst (CS.run_continuous_step markets_of orderbook_of server attempts
                self c now)).
Proof.
  intros Hc. unfold CS.run_continuous_step.
  pose proof (scan_turn_preserves self c now Hc) as H.
  destruct (CS.scan_turn _ _ _ _ _ _ _) as [c' [[self' yielded]|]];
    [now apply asyncio_sleep_preserves | exact H].
Qed.

Lemma turns_preserves nows : forall self c,
  holds c ->
  holds (fst (CS.turns markets_of orderbook_of server attempts self c nows)).
Proof.
  induction nows as [|now rest IH]; intros self c Hc; [exact Hc|].
  cbn [CS.turns]. destruct (negb _); [exact Hc|].
  pose proof (run_continuous_step_preserves self c now Hc) as H.
  destruct (CS.run_continuous_step _ _ _ _ _ _ _) as [c1 [[self1 yielded]|]];
    [|exact H].
  specialize (IH self1 c1 H).
  now destruct (CS.turns _ _ _ _ _ _ _) as [c2 [[self2 later]|]].
Qed.

End Preserves.

(** ** The pace and the exchange of the requests *)

Section Kept.
Context {B : Type}.
Variables (markets_of : B -> MarketsResponse.t)
          (orderbook_of : B -> option RawOrderbook.t).
Variables (server : Server B) (attempts : nat) (base : string) (rate : Q).

(** What the client and the world keep through every request and every
    sleep: the pace of the log, the exchange of the requests and the
    rate of the limiter. *)
Definition kept (client : KC.t) (w : World.t) : Prop :=
  paced client w /\ all_to base w /\ KC.base_url client = base
  /\ RL.calls_per_second (KC.rate_limiter client) = rate.

Lemma request_kept method endpoint params json_data self w :
  kept self w ->
  let r := KC._request server attempts self w method endpoint params
             json_data in
  kept (fst (fst r)) (snd (fst r)).
Proof.
  intros (H1 & H2 & H3 & H4).
  pose proof (request_paced server method endpoint params json_data attempts
                self w H1) as Hp.
  destruct (request_all_to server method endpoint params json_data base
              attempts self w H3 H2) as [Ha Hb].
  pose proof (request_rate server method endpoint params json_data attempts
                self w) as Hr.
  cbv zeta in *. repeat split; try assumption; try apply Hp. now rewrite Hr.
Qed.

Lemma sleep_kept self w d : 0 < d -> kept self w -> kept self (World.sleep w d).
Proof.
  intros Hd ((Hpos & Hsp & Hle & Hclock) & H2 & H3).
  repeat split; try assumption; try apply H3. cbn [World.sleep World.clock]. lra.
Qed.

Lemma scan_once_kept self c now :
  kept (fst c) (snd c) ->
  let c' := fst (CS.scan_once markets_of orderbook_of server attempts self c
                   now) in
  kept (fst c') (snd c').
Proof.
  exact (scan_once_preserves markets_of orderbook_of server attempts kept
           request_kept self c now).
Qed.

Lemma turns_kept self c nows :
  kept (fst c) (snd c) ->
  let c' := fst (CS.turns markets_of orderbook_of server attempts self c
                   nows) in
  kept (fst c') (snd c').
Proof.
  exact (turns_preserves markets_of orderbook_of server attempts kept
           request_kept sleep_kept nows self c).
Qed.

(** Between a request of a log that is kept and the [j]-th after it at
    least [j / rate] seconds pass. *)
Lemma kept_rate client w i k x y :
  kept client w -> (i <= k)%nat ->
  nth_error (times w) i = Some x -> nth_error (times w) k = Some y ->
  x + inject_Z (Z.of_nat (k - i)) / rate <= y.
Proof.
  intros (H1 & _ & _ & <-) Hik Hx Hy. apply (paced_rate _ _ i (k - i) x y H1 Hx).
  now replace (i + (k - i))%nat with k by lia.
Qed.

End Kept.

(** The requests of one scan go to the exchange of the client and are
    paced by its limiter. *)
Theorem scan_once_paced_on_exchange {B : Type}
    (markets_of : B -> MarketsResponse.t)
    (orderbook_of : B -> option RawOrderbook.t)
    (server : Server B) (attempts : nat) (self : MS.t) (c : CS.conn) (now : Z) :
  paced (fst c) (snd c) -> all_to (KC.base_url (fst c)) (snd c) ->
  let c' := fst (CS.scan_once markets_of orderbook_of server attempts self c
                   now) in
  paced (fst c') (snd c')
  /\ all_to (KC.base_url (fst c)) (snd c')
  /\ KC.base_url (fst c') = KC.base_url (fst c).
Proof.
  intros Hp Ha.
  destruct (scan_once_kept markets_of orderbook_of server attempts _ _ self c
              now (conj Hp (conj Ha (conj eq_refl eq_refl))))
    as (H1 & H2 & H3 & _).
  exact (conj H1 (conj H2 H3)).
Qed.

(** The requests of the scanning loop go to the exchange of the
    client and are paced by its limiter, over any number of turns,
    retries included, whatever the exchange answers and whether or not
    a scan returns: the log stays paced, every address is under the
    base URL of the client, and between a request of the log and the
    [j]-th after it at least [j / calls_per_second] seconds pass. *)
Theorem run_continuous_paced_on_exchange {B : Type}
    (markets_of : B -> MarketsResponse.t)
    (orderbook_of : B -> option RawOrderbook.t)
    (server : Server B) (attempts : nat) (self : MS.t) (c : CS.conn)
    (nows : list Z) :
  paced (fst c) (snd c) -> all_to (KC.base_url (fst c)) (snd c) ->
  let c' := fst (CS.run_continuous markets_of orderbook_of server attempts
                   self c nows) in
  paced (fst c') (snd c')
  /\ all_to (KC.base_url (fst c)) (snd c')
  /\ KC.base_url (fst c') = KC.base_url (fst c)
  /\ (forall i k x y,
        (i <= k)%nat ->
        nth_error (times (snd c')) i = Some x ->
        nth_error (times (snd c')) k = Some y ->
        x + inject_Z (Z.of_nat (k - i))
            / RL.calls_per_second (KC.rate_limiter (fst c)) <= y)%Q.
Proof.
  intros Hp Ha.
  pose proof (turns_kept markets_of orderbook_of server attempts _ _
                (MS.set_running self true) c nows
                (conj Hp (conj Ha (conj eq_refl eq_refl)))) as H.
  cbv zeta in *. unfold CS.run_continuous.
  split; [apply H|]. split; [apply H|]. split; [apply H|].
  intros i k x y. now apply kept_rate with (1 := H).
Qed.

(** ** The time a turn takes *)

Section Time.
Context {B : Type}.
Variables (markets_of : B -> MarketsResponse.t)
          (orderbook_of : B -> option RawOrderbook.t).
Variables (server : Server B) (attempts : nat).

(** The scan leaves the configuration of the scanner as it is. *)
Lemma scan_once_config self c now self' r :
  snd (CS.scan_once markets_of orderbook_of server attempts self c now)
  = Some (self', r) ->
  MS.config self' = MS.config self.
Proof.
  unfold CS.scan_once.
  destruct (CS.scan_pages _ _ _ _ _ _ _ _ _ _) as [c' [[st [e|]]|]];
    cbn [snd]; [| |discriminate]; now intros [= <- _].
Qed.

Lemma generate_signals_config self markets now :
  MS.config (fst (MS.generate_signals self markets now)) = MS.config self.
Proof.
  unfold MS.generate_signals. now destruct (fold_left _ _ _).
Qed.

(** The clock after a sleep. *)
Lemma asyncio_sleep_clock c d t :
  t <= World.clock (snd c) -> t + d <= World.clock (snd (CS.asyncio_sleep c d)).
Proof.
  unfold CS.asyncio_sleep. destruct (qltb_spec 0 d); cbn [snd World.sleep World.clock];
    lra.
Qed.

(** The scanner a turn leaves has the configuration it had. *)
Lemma scan_turn_config self c now self' yielded :
  snd (CS.scan_turn markets_of orderbook_of server attempts self c now)
  = Some (self', yielded) ->
  MS.config self' = MS.config self.
Proof.
  unfold CS.scan_turn. pose proof (scan_once_config self c now) as Hconfig.
  destruct (CS.scan_once _ _ _ _ _ _ _) as [c' [[self1 [markets|e]]|]];
    cbn [snd] in *; [| |discriminate].
  - pose proof (generate_signals_config self1 markets now) as Hg.
    destruct (MS.generate_signals self1 markets now) as [self2 signals].
    cbn [fst snd] in *. intros [= <- _]. rewrite Hg.
    exact (Hconfig _ _ eq_refl).
  - intros [= <- _]. exact (Hconfig _ _ eq_refl).
Qed.

(** The clock does not run backwards through the [try] block. *)
Lemma scan_turn_clock self c now :
  0 < RL.calls_per_second (KC.rate_limiter (fst c)) ->
  let c' := fst (CS.scan_turn markets_of orderbook_of server attempts self c
                   now) in
  0 < RL.calls_per_second (KC.rate_limiter (fst c'))
  /\ World.clock (snd c) <= World.clock (snd c').
Proof.
  intros Hpos.
  exact (scan_turn_preserves markets_of orderbook_of server attempts
           (fun client w => 0 < RL.calls_per_second (KC.rate_limiter client)
                            /\ World.clock (snd c) <= World.clock w)
           (fun m e p j client w H =>
              request_clock server m e p j _ attempts client w
                (proj1 H) (proj2 H))
           self c now (conj Hpos (Qle_refl _))).
Qed.

(** A turn of the loop lasts at least the poll interval when it yields
    and at least 5 seconds when its scan raises: the scanner does not
    scan more often than the configuration says, however fast the
    exchange answers. *)
Theorem turn_takes_poll_interval self c now self' yielded :
  0 < RL.calls_per_second (KC.rate_limiter (fst c)) ->
  let r := CS.run_continuous_step markets_of orderbook_of server attempts
             self c now in
  snd r = Some (self', yielded) ->
  World.clock (snd c) + CS.pause self yielded <= World.clock (snd (fst r)).
Proof.
  intros Hpos. cbv zeta. unfold CS.run_continuous_step.
  destruct (scan_turn_clock self c now Hpos) as [_ Hclock].
  pose proof (scan_turn_config self c now) as Hconfig.
  destruct (CS.scan_turn _ _ _ _ _ _ _) as [c' [[self1 y]|]];
    cbn [fst snd] in *; [|discriminate].
  intros [= <- <-]. replace (CS.pause self y) with (CS.pause self1 y).
  - now apply asyncio_sleep_clock.
  - unfold CS.pause. now rewrite (Hconfig _ _ eq_refl).
Qed.

End Time.

(** ** The scan over the client refines the scan over the record *)

Section Refines.
Context {B : Type}.
Variables (markets_of : B -> MarketsResponse.t)
          (orderbook_of : B -> option RawOrderbook.t)
          (balance_of : B -> Z).
Variable answer : string -> string -> option (dict string Param)
                  -> result (Response.t B).
Hypothesis Hnever : never_refuses answer.
Variables (attempts : nat) (base : string) (self : MS.t) (now : Z).

Local Abbreviation api :=
  (exchange_of markets_of orderbook_of balance_of answer base).

(** A call through a fit client returns what the record holds, and
    leaves a fit client. *)
Definition gives {A : Type} (r : CS.conn * option A) (a : A) : Prop :=
  snd r = Some a /\ fit base (fst (fst r)).

Lemma fetch_orderbook_steady c ticker :
  fit base (fst c) ->
  gives (CS.fetch_orderbook orderbook_of (steady answer) (S attempts) c ticker)
        (Exchange.get_orderbook api ticker).
Proof.
  intros Hfit. unfold CS.fetch_orderbook, KC.get_orderbook, gives.
  destruct (request_steady answer Hnever attempts base (fst c) (snd c) "GET"
              ("/markets/" ++ ticker ++ "/orderbook")%string
              (Some [("depth", PInt 10)]) None Hfit) as [H1 H2].
  cbv zeta in H1, H2.
  destruct (KC._request _ _ _ _ _ _ _ _) as [[client w] r].
  cbn [fst snd] in *. now subst r.
Qed.

Lemma fetch_markets_steady c status cursor :
  fit base (fst c) ->
  gives (CS.fetch_markets markets_of (steady answer) (S attempts) c status cursor)
        (Exchange.get_markets api status cursor).
Proof.
  intros Hfit. unfold CS.fetch_markets, KC.get_markets, gives.
  match goal with
  | |- context [KC._request _ _ _ _ ?m ?e ?p ?j] =>
      destruct (request_steady answer Hnever attempts base (fst c) (snd c)
                  m e p j Hfit) as [H1 H2]
  end.
  cbv zeta in H1, H2.
  destruct (KC._request _ _ _ _ _ _ _ _) as [[client w] r].
  cbn [fst snd] in *. now subst r.
Qed.

Lemma scan_market_steady market c st :
  fit base (fst c) ->
  gives (CS.scan_market orderbook_of (steady answer) (S attempts) self now market
           c st)
        (MS.scan_market self api now market st).
Proof.
  intros Hfit. unfold CS.scan_market, MS.scan_market.
  destruct (MS._passes_filters _ _ _); [|now split].
  destruct (fetch_orderbook_steady c (MD.ticker (MS._parse_market market now))
              Hfit) as [H1 H2].
  destruct (CS.fetch_orderbook _ _ _ _ _) as [c' r]. cbn [fst snd] in *.
  subst r. split; [|exact H2]. cbn [snd].
  now destruct (Exchange.get_orderbook _ _).
Qed.

Lemma scan_markets_steady markets : forall c st,
  fit base (fst c) ->
  gives (CS.scan_markets orderbook_of (steady answer) (S attempts) self now
           markets c st)
        (MS.scan_markets self api now markets st).
Proof.
  induction markets as [|market rest IH]; intros c st Hfit; [now split|].
  cbn [CS.scan_markets MS.scan_markets]. cbv zeta.
  destruct (_ <? _)%Z; [now split|].
  destruct (scan_market_steady market c
              (MS.set_total st (MS.total_scanned st + 1)) Hfit) as [H1 H2].
  destruct (CS.scan_market _ _ _ _ _ _ _ _) as [c' r]. cbn [fst snd] in *.
  subst r. now apply IH.
Qed.

Lemma scan_pages_steady : forall fuel cursor c st,
  fit base (fst c) ->
  let r := CS.scan_pages markets_of orderbook_of (steady answer) (S attempts)
             fuel self now cursor c st in
  snd r = MS.scan_pages fuel self api now cursor st /\ fit base (fst (fst r)).
Proof.
  induction fuel as [|fuel IH]; intros cursor c st Hfit; [now split|].
  cbv zeta. cbn [CS.scan_pages MS.scan_pages].
  destruct (fetch_markets_steady c
              (ScannerConfig.market_status (MS.config self)) cursor Hfit)
    as [H1 H2].
  destruct (CS.fetch_markets _ _ _ _ _ _) as [c1 r]. cbn [fst snd] in *. subst r.
  destruct (Exchange.get_markets _ _ _) as [response|e]; [|now split].
  destruct (MarketsResponse.markets response) as [|raw rest]; [now split|].
  destruct (scan_markets_steady (raw :: rest) c1 st H2) as [H3 H4].
  destruct (CS.scan_markets _ _ _ _ _ _ _ _) as [c2 r]. cbn [fst snd] in *.
  subst r. destruct (_ <=? _)%Z; [now split|].
  destruct (truthy_str _); [now apply IH | now split].
Qed.

(** On a steady exchange that never refuses, the scan over a fit client
    returns, and returns what the scan over the record of the exchange
    returns: the same scanner, with the same cache, and the same markets
    or the same exception.  The client it leaves is fit for the next
    scan. *)
Theorem scan_over_client_refines c :
  fit base (fst c) ->
  let r := CS.scan_once markets_of orderbook_of (steady answer) (S attempts)
             self c now in
  snd r = Some (MS.scan_once self api now) /\ fit base (fst (fst r)).
Proof.
  intros Hfit. cbv zeta. unfold CS.scan_once, MS.scan_once.
  destruct (scan_pages_steady (MS.scan_fuel self) None c
              (MS.mkScan [] (MS._market_cache self) 0) Hfit) as [H1 H2].
  cbv zeta in H1, H2.
  destruct (scan_pages_enough self api now (MS.scan_fuel self) None
              (MS.mkScan [] (MS._market_cache self) 0)) as [[st e] Hr];
    [unfold MS.scan_fuel; cbn; lia|].
  rewrite Hr in *.
  destruct (CS.scan_pages _ _ _ _ _ _ _ _ _ _) as [c' r]. cbn [fst snd] in *.
  subst r. now destruct e.
Qed.

Lemma scan_turn_steady c :
  fit base (fst c) ->
  gives (CS.scan_turn markets_of orderbook_of (steady answer) (S attempts)
           self c now)
        (MS.run_continuous_step self api now).
Proof.
  intros Hfit. unfold CS.scan_turn, MS.run_continuous_step, gives.
  destruct (scan_over_client_refines c Hfit) as [H1 H2]. cbv zeta in H1, H2.
  destruct (CS.scan_once _ _ _ _ _ _ _) as [c' r]. cbn [fst snd] in *.
  subst r. destruct (MS.scan_once self api now) as [self' [markets|e]];
    [destruct (MS.generate_signals self' markets now) as [self2 signals]|];
    now split.
Qed.

(** A turn of the scanning loop over the client refines the turn over
    the record of the exchange: on a steady exchange that never refuses,
    with one attempt per request, the turn over a fit client returns the
    scanner and the signals that [run_continuous_step] over
    [exchange_of] returns, or nothing where that scan raises, and
    leaves the client fit for the next turn. *)
Theorem turn_over_client_refines c :
  fit base (fst c) ->
  let r := CS.run_continuous_step markets_of orderbook_of (steady answer)
             (S attempts) self c now in
  snd r = Some (MS.run_continuous_step self api now)
  /\ fit base (fst (fst r)).
Proof.
  intros Hfit. cbv zeta. unfold CS.run_continuous_step.
  destruct (scan_turn_steady c Hfit) as [H1 H2].
  destruct (CS.scan_turn _ _ _ _ _ _ _) as [c' r]. cbn [fst snd] in *.
  subst r. destruct (MS.run_continuous_step self api now) as [self' yielded].
  split; [reflexivity|]. unfold CS.asyncio_sleep. now destruct (qltb 0 _).
Qed.

End Refines.

(** ** Witnesses *)

(** The two pages and the book of the exchange of [ScannerProps], served
    by a steady exchange at the address of the sandbox. *)
Definition demo_scan_answer (method url : string)
    (params : option (dict string Param)) : result (Response.t demo_body) :=
  if String.eqb url (SANDBOX_BASE_URL ++ "/markets") then
    Ok (Response.mk 200
          (Ok (Markets
                 match dict_get (get_default params []) "cursor" with
                 | None =>
                   MarketsResponse.mk
                     [demo_raw "MKT" 96 500; demo_raw "LOW" 4 500]
                     (Some "page-2")
                 | Some _ => MarketsResponse.mk [demo_raw "THIN" 50 0] None
                 end)))
  else if String.eqb url (SANDBOX_BASE_URL ++ "/markets/MKT/orderbook") then
    Ok (Response.mk 200
          (Ok (Book (Some (RawOrderbook.mk [(40, 10); (45, 5)] [(50, 7)])))))
  else Ok (Response.mk 404 (Err (ValueError "no body"))).

Definition demo_conn : CS.conn := (demo_client, demo_world).

Definition demo_steady_scan
    : CS.conn * option (MS.t * result (list MD.t)) :=
  CS.scan_once demo_markets_of demo_orderbook_of (steady demo_scan_answer) 1
    demo_scanner demo_conn 7.

Lemma demo_scan_never_refuses : never_refuses demo_scan_answer.
Proof.
  intros method url params response. unfold demo_scan_answer.
  repeat destruct (String.eqb _ _); intros [= <-]; discriminate.
Qed.

(** The scan of the two pages sends four requests, two for the pages and
    two for the books of the markets that pass the filters, a
    eighth of a second apart, and returns the two markets. *)
Example demo_steady_scan_requests :
  Forall2 Qeq (map fst (World.sent (snd (fst demo_steady_scan))))
    [1 # 8; 2 # 8; 3 # 8; 4 # 8]%Q /\
  map (fun tr => Request.url (snd tr)) (World.sent (snd (fst demo_steady_scan)))
  = [ (SANDBOX_BASE_URL ++ "/markets")%string;
      (SANDBOX_BASE_URL ++ "/markets/MKT/orderbook")%string;
      (SANDBOX_BASE_URL ++ "/markets/LOW/orderbook")%string;
      (SANDBOX_BASE_URL ++ "/markets")%string ] /\
  option_map (fun r => map MD.ticker match snd r with
                                     | Ok markets => markets
                                     | Err _ => []
                                     end) (snd demo_steady_scan)
  = Some ["MKT"; "LOW"].
Proof.
  vm_compute. repeat split; try reflexivity; repeat constructor; reflexivity.
Qed.

(** The client and the world two turns of the loop leave. *)
Local Abbreviation demo_ran :=
  (fst (CS.run_continuous demo_markets_of demo_orderbook_of
          (steady demo_scan_answer) 1 demo_scanner demo_conn [7; 8]%Z)).

Lemma demo_ran_nth n :
  (n < 8)%nat ->
  nth_error (times (snd demo_ran)) n = Some (nth n (times (snd demo_ran)) 0).
Proof.
  intros H. apply nth_error_nth'.
  replace (length (times (snd demo_ran))) with 8%nat; [exact H|].
  vm_compute. reflexivity.
Qed.

(** The two scans of the example are the poll interval apart: the fifth
    request is sent half a minute after the fourth. *)
Example demo_ran_times :
  map Qred (times (snd demo_ran))
  = [1 # 8; 1 # 4; 3 # 8; 1 # 2; 61 # 2; 245 # 8; 123 # 4; 247 # 8]%Q.
Proof. vm_compute. reflexivity. Qed.

Lemma run_continuous_paced_on_exchange_witness :
  nth 0 (times (snd demo_ran)) 0
  + inject_Z (Z.of_nat (7 - 0))
    / RL.calls_per_second (KC.rate_limiter (fst demo_conn))
  <= nth 7 (times (snd demo_ran)) 0.
Proof.
  exact (proj2 (proj2 (proj2
    (run_continuous_paced_on_exchange demo_markets_of demo_orderbook_of
       (steady demo_scan_answer) 1 demo_scanner demo_conn [7; 8]%Z
       demo_client_paced (Forall_nil _)))) 0%nat 7%nat
    (nth 0 (times (snd demo_ran)) 0) (nth 7 (times (snd demo_ran)) 0)
    (Nat.le_0_l 7)
    (demo_ran_nth 0 (Nat.lt_0_succ 7))
    (demo_ran_nth 7 (Nat.lt_succ_diag_r 7))).
Defined.

Lemma scan_over_client_refines_witness :
  snd demo_steady_scan
  = Some (MS.scan_once demo_scanner
            (exchange_of demo_markets_of demo_orderbook_of demo_balance_of
               demo_scan_answer SANDBOX_BASE_URL) 7)
  /\ fit SANDBOX_BASE_URL (fst (fst demo_steady_scan)).
Proof.
  exact (scan_over_client_refines demo_markets_of demo_orderbook_of
           demo_balance_of demo_scan_answer demo_scan_never_refuses 0
           SANDBOX_BASE_URL demo_scanner 7%Z demo_conn demo_fit).
Defined.

Lemma turn_over_client_refines_witness :
  snd (CS.run_continuous_step demo_markets_of demo_orderbook_of
         (steady demo_scan_answer) 1 demo_scanner demo_conn 7)
  = Some (MS.run_continuous_step demo_scanner
            (exchange_of demo_markets_of demo_orderbook_of demo_balance_of
               demo_scan_answer SANDBOX_BASE_URL) 7)
  /\ fit SANDBOX_BASE_URL
       (fst (fst (CS.run_continuous_step demo_markets_of demo_orderbook_of
                    (steady demo_scan_answer) 1 demo_scanner demo_conn 7))).
Proof.
  exact (turn_over_client_refines demo_markets_of demo_orderbook_of
           demo_balance_of demo_scan_answer demo_scan_never_refuses 0
           SANDBOX_BASE_URL demo_scanner 7%Z demo_conn demo_fit).
Defined.

Lemma turn_takes_poll_interval_witness :
  World.clock (snd demo_conn) + 30
  <= World.clock (snd (fst (CS.run_continuous_step demo_markets_of
                              demo_orderbook_of (steady demo_scan_answer) 1
                              demo_scanner demo_conn 7))).
Proof.
  apply (turn_takes_poll_interval demo_markets_of demo_orderbook_of
           (steady demo_scan_answer) 1 demo_scanner demo_conn 7%Z
           (fst (MS.run_continuous_step demo_scanner
                   (exchange_of demo_markets_of demo_orderbook_of
                      demo_balance_of demo_scan_answer SANDBOX_BASE_URL) 7))
           (Some (get_default (snd (MS.run_continuous_step demo_scanner
                   (exchange_of demo_markets_of demo_orderbook_of
                      demo_balance_of demo_scan_answer SANDBOX_BASE_URL) 7))
                    []))).
  - vm_compute. reflexivity.
  - vm_compute. reflexivity.
Defined.
