(* ===== verification/Persistence.v ===== *)
(** * The SQLite store of the tracker (src/src/performance.py)

    The three tables [_init_db] creates, as the statements of
    [record_trade], [record_capital_snapshot], [save_daily_metrics] and
    [get_rolling_metrics] use them: [trades] keyed by the position id,
    [daily_metrics] with one row per day and strategy, and the
    append-only [capital_history].  A row holds the values bound to the
    statement; a time stands for its ISO text and a metadata dictionary
    for its JSON text.  [INSERT OR REPLACE] removes the row of the same
    key and appends the new one.

    The program never decodes a row (the conversion is a TODO of
    [get_rolling_metrics]); [TradeRow.to_position] is the decoder the
    schema allows and the round trip shows that a row loses nothing of
    its position.  The quantity of a position the ledger opens fits the
    64-bit [INTEGER] column it is bound to. *)

From Stdlib Require Import String.
From Stdlib Require Import QArith ZArith List Bool Permutation Lqa Lia.
From S2P Require Import Prelude PyDict PySort Config Strategy Ledger Metrics.
Import ListNotations.
Open Scope string_scope.
Open Scope list_scope.

(** [PositionStatus(value)], which raises ValueError on another text. *)
Definition status_of_value (v : string) : result PositionStatus :=
  if String.eqb v "open" then Ok OPEN
  else if String.eqb v "closed" then Ok CLOSED
  else if String.eqb v "expired" then Ok EXPIRED
  else Err (ValueError (v ++ " is not a valid PositionStatus")).

(** A row of the table [trades]: the fifteen values [record_trade]
    binds. *)
Module TradeRow.
Record t : Type := mk {
  id : string;
  strategy_name : string;
  market_id : string;
  ticker : string;
  side : string;
  quantity : Z;
  entry_price : Q;
  entry_time : Z;
  entry_cost : Q;
  exit_price : option Q;
  exit_time : option Z;
  exit_value : option Q;
  pnl : Q;
  status : string;
  metadata : dict string PyVal;
}.

(** The tuple of [record_trade]. *)
Definition of_position (position : PaperPosition.t) : t :=
  {| id := PaperPosition.id position;
     strategy_name := PaperPosition.strategy_name position;
     market_id := PaperPosition.market_id position;
     ticker := PaperPosition.ticker position;
     side := PaperPosition.side position;
     quantity := PaperPosition.quantity position;
     entry_price := PaperPosition.entry_price position;
     entry_time := PaperPosition.entry_time position;
     entry_cost := PaperPosition.entry_cost position;
     exit_price := PaperPosition.exit_price position;
     exit_time := PaperPosition.exit_time position;
     exit_value := PaperPosition.exit_value position;
     pnl := PaperPosition.pnl position;
     status := status_value (PaperPosition.status position);
     metadata := PaperPosition.metadata position |}.

(** The position a row denotes; the column [pnl] is derived and not
    read. *)
Definition to_position (row : t) : result PaperPosition.t :=
  status <- status_of_value (status row) ;;
  Ok {| PaperPosition.id := id row;
        PaperPosition.strategy_name := strategy_name row;
        PaperPosition.market_id := market_id row;
        PaperPosition.ticker := ticker row;
        PaperPosition.side := side row;
        PaperPosition.quantity := quantity row;
        PaperPosition.entry_price := entry_price row;
        PaperPosition.entry_time := entry_time row;
        PaperPosition.entry_cost := entry_cost row;
        PaperPosition.exit_price := exit_price row;
        PaperPosition.exit_time := exit_time row;
        PaperPosition.exit_value := exit_value row;
        PaperPosition.status := status;
        PaperPosition.metadata := metadata row |}.
End TradeRow.

(** A row of [daily_metrics], without the date and the strategy that key
    it. *)
Module DailyRow.
Record t : Type := mk {
  capital : Q;
  pnl : Q;
  trades : nat;
  win_rate : Q;
  sharpe_ratio : Q;
}.
End DailyRow.

(** A row of [capital_history]. *)
Module SnapshotRow.
Record t : Type := mk {
  timestamp : Z;
  strategy_name : string;
  capital : Q;
}.
End SnapshotRow.

(** The key of [daily_metrics]: [UNIQUE(date, strategy_name)]. *)
#[export] Instance day_key_EqDec : EqDec (Z * string).
Proof. intros x y. decide equality; [apply string_dec | apply Z.eq_dec]. Defined.

(** Microseconds in a day; [datetime.now(timezone.utc).date()] is the
    number of the day. *)
Definition day_us : Z := 86400000000.
Definition date_of (now : Z) : Z := (now / day_us)%Z.

(** [INSERT OR REPLACE] on a table with a unique key. *)
Definition insert_or_replace {K V : Type} `{EqDec K} (table : dict K V)
    (k : K) (row : V) : dict K V :=
  dict_del table k ++ [(k, row)].

Module Database.

Record t : Type := mk {
  trades : dict string TradeRow.t;
  daily_metrics : dict (Z * string) DailyRow.t;
  capital_history : list SnapshotRow.t;
}.

(** [_init_db]: [CREATE TABLE IF NOT EXISTS] keeps the tables of a file
    that exists and creates empty ones otherwise. *)
Definition _init_db (file : option t) : t :=
  match file with
  | Some db => db
  | None => mk [] [] []
  end.

(** The statement of [record_trade]. *)
Definition record_trade (db : t) (position : PaperPosition.t) : t :=
  mk (insert_or_replace (trades db) (PaperPosition.id position)
        (TradeRow.of_position position))
     (daily_metrics db) (capital_history db).

(** The statement of [record_capital_snapshot]. *)
Definition record_capital_snapshot (db : t) (strategy_name : string)
    (capital : Q) (now : Z) : t :=
  mk (trades db) (daily_metrics db)
     (capital_history db
      ++ [{| SnapshotRow.timestamp := now;
             SnapshotRow.strategy_name := strategy_name;
             SnapshotRow.capital := capital |}]).

(** [save_daily_metrics] *)
Definition save_daily_metrics (db : t) (strategy_name : string)
    (metrics : StrategyMetrics.t) (now : Z) : t :=
  let today := date_of now in
  mk (trades db)
     (insert_or_replace (daily_metrics db) (today, strategy_name)
        {| DailyRow.capital := StrategyMetrics.current_capital metrics;
           DailyRow.pnl := StrategyMetrics.total_return metrics;
           DailyRow.trades := StrategyMetrics.total_trades metrics;
           DailyRow.win_rate := StrategyMetrics.win_rate metrics;
           DailyRow.sharpe_ratio := StrategyMetrics.sharpe_ratio metrics |})
     (capital_history db).

(** The query of [get_rolling_metrics]: the trades of the strategy that
    left at or after the cutoff, by exit time.  A row without an exit
    time has a NULL there and is not selected. *)
Definition rolling_trades (db : t) (strategy_name : string) (cutoff : Z)
    : list TradeRow.t :=
  sorted_by_Z (fun row => get_default (TradeRow.exit_time row) 0%Z)
    (filter (fun row =>
               String.eqb (TradeRow.strategy_name row) strategy_name
               && match TradeRow.exit_time row with
                  | Some t => (cutoff <=? t)%Z
                  | None => false
                  end)
            (dict_values (trades db))).

(** The capital snapshots of a strategy, oldest first. *)
Definition snapshots_of (db : t) (strategy_name : string) : list Q :=
  map SnapshotRow.capital
    (filter (fun row => String.eqb (SnapshotRow.strategy_name row) strategy_name)
            (capital_history db)).

End Database.

Module DB := Database.

(** The cutoff of [get_rolling_metrics]: [days] before now, the window of
    the configuration when [days] is [None]. *)
Definition rolling_cutoff (T : PerformanceTracker.t) (days : option Z)
    (now : Z) : Z :=
  let days :=
    match days with
    | None => PerformanceConfig.rolling_window_days (PerformanceTracker.config T)
    | Some d => d
    end in
  (now - days * day_us)%Z.

(** The greatest value a column of type [INTEGER] holds: SQLite stores
    an integer in at most eight bytes, and binding a greater one
    raises. *)
Definition INTEGER_MAX : Z := 2 ^ 63 - 1.

(** ** Properties of the store *)

(** A row loses nothing of its position: decoding the row
    [record_trade] writes gives the position back. *)
Theorem trade_row_roundtrip position :
  TradeRow.to_position (TradeRow.of_position position) = Ok position.
Proof. destruct position as [? ? ? ? ? ? ? ? ? ? ? ? [] ?]; reflexivity. Qed.

(** C21. The quantity [record_trade] binds fits the column: a position the
    ledger opens at a price of a cent or more holds at most a hundred
    contracts for each dollar of the maximum position size, so with a
    maximum of up to 2^63 / 100 dollars, that of the configuration by
    far, the quantity is a positive 64-bit integer. *)
Theorem quantity_fits_integer T s mp nid now T' p :
  PT.execute_signal T s mp nid now = (T', Some p) ->
  1 # 100 <= PT.contract_price (Signal.side s) mp ->
  100 * RiskConfig.max_position_size (PT.risk_config T)
    <= inject_Z INTEGER_MAX ->
  (1 <= TradeRow.quantity (TradeRow.of_position p) <= INTEGER_MAX)%Z /\
  inject_Z (TradeRow.quantity (TradeRow.of_position p))
    <= 100 * RiskConfig.max_position_size (PT.risk_config T).
Proof.
  intros E Hcent Hmax.
  apply execute_signal_some in E as (pf & _ & Hrisk & Hq & -> & _).
  apply risk_verdict_passed in Hrisk as (_ & Hsize & _).
  cbn [TradeRow.quantity TradeRow.of_position PP.quantity PT.new_position].
  destruct (contracts_for_pos _ _ Hq) as [Hp Heq]. rewrite Heq in *.
  destruct (contracts_cost (Signal.size s) _ Hp ltac:(lia)) as [_ Hcost].
  assert (Hone : 1 <= inject_Z (Qtrunc (Signal.size s
                                / PT.contract_price (Signal.side s) mp))).
  { change 1 with (inject_Z 1). rewrite <- Zle_Qle. lia. }
  assert (Hle : inject_Z (Qtrunc (Signal.size s
                            / PT.contract_price (Signal.side s) mp))
                <= 100 * RiskConfig.max_position_size (PT.risk_config T))
    by nra.
  split; [split; [lia|]|exact Hle]. rewrite Zle_Qle. lra.
Qed.

Lemma quantity_fits_integer_witness :
  (1 <= TradeRow.quantity (TradeRow.of_position demo_position) <= INTEGER_MAX)%Z /\
  inject_Z (TradeRow.quantity (TradeRow.of_position demo_position))
    <= 100 * RiskConfig.max_position_size (PT.risk_config demo_trader).
Proof.
  apply (quantity_fits_integer demo_trader demo_signal 0.20 "id-1" 10
           demo_opened demo_position demo_execute);
    vm_compute; discriminate.
Defined.

Section Tables.
Context {K V : Type} `{EqDec K}.
Implicit Types (table : dict K V) (k : K) (row : V).

Lemma insert_or_replace_get table k row k' :
  dict_wf table ->
  dict_get (insert_or_replace table k row) k'
  = if eq_dec k k' then Some row else dict_get table k'.
Proof.
  intros Hwf. unfold insert_or_replace.
  rewrite dict_get_app, dict_get_del by assumption. simpl.
  destruct (eq_dec k k') as [->|Hne].
  - now destruct (eq_dec k' k').
  - destruct (eq_dec k' k); [congruence|]. now destruct (dict_get table k').
Qed.

Lemma insert_or_replace_wf table k row :
  dict_wf table -> dict_wf (insert_or_replace table k row).
Proof.
  intros Hwf. unfold insert_or_replace, dict_wf, dict_keys.
  rewrite map_app. simpl.
  apply (Permutation_NoDup (Permutation_cons_append _ _)).
  constructor; [|now apply dict_del_wf].
  apply dict_get_None. now apply dict_get_del_same.
Qed.

End Tables.
