(* ===== verification/Orchestrator.v ===== *)
(** * The orchestrator (src/src/orchestrator.py)

    [Orchestrator] wires the scanner, the strategies, the ledger, the
    tracker with its store and the allocator, and runs the trading loop.
    The objects several components hold are kept once: the strategies
    live in the scanner ([_strategies] reads them there), the ledger and
    the tracker in the allocator ([_paper_trader],
    [_performance_tracker]), as the constructor calls of [initialize]
    share them.

    What a call takes from outside is a parameter: the exchange, the
    clock [now] (read once per cycle), and [new_id], the identifiers
    [uuid.uuid4()] gives to the positions the cycle opens, by the index
    of the signal.  An exception of a cycle ends the loop and [run] goes
    on to [cleanup]; the cycle returns the state it had reached with the
    exception.  Only a rebalance that raises leaves no trace: what its
    ranking had cached of metrics is dropped. *)

From Stdlib Require Import String.
From Stdlib Require Import QArith ZArith List Bool.
From S2P Require Import Prelude PyDict Config Strategy Ledger Metrics.
From S2P Require Import Allocator Strategies Scanner Persistence.
Import ListNotations.
Open Scope string_scope.
Open Scope list_scope.
Open Scope py_scope.

(** [timedelta.seconds] of a difference in microseconds: the seconds
    within the day, without the days. *)
Definition timedelta_seconds (delta : Z) : Z :=
  ((delta mod day_us) / 1000000)%Z.

(** When a termination signal reaches the loop during a turn: not at
    all, while the scanner sleeps before the scan, or during the scan. *)
Inductive interrupt : Type :=
| NoInterrupt
| BeforeScan
| DuringScan.

(** What a turn of the loop takes from outside. *)
Module Round.
Record t : Type := mk {
  api : Exchange.t;
  now : Z;
  new_id : nat -> string;
  signal : interrupt;
}.
End Round.

(** The dictionary [run_once] returns. *)
Module CycleReport.
Record t : Type := mk {
  markets_scanned : nat;
  signals_generated : nat;
  summary : Summary.t;
}.
End CycleReport.

(** The dictionary [get_status] returns. *)
Module Status.
Record t : Type := mk {
  running : bool;
  sandbox : bool;
  strategies : list string;
  portfolio : Summary.t;
  metrics : dict string (dict string Field);
  allocations : Q * option Z * list CapitalAllocator.SummaryRow.t;
}.
End Status.

Module Orchestrator.

Record t : Type := mk {
  config : Config.t;
  _scanner : MarketScanner.t;
  _allocator : CapitalAllocator.t;
  _db : Database.t;
  _running : bool;
  _last_status : option Z;
}.

Definition _strategies (self : t) : list Strategy.t :=
  MarketScanner.strategies (_scanner self).
Definition _paper_trader (self : t) : PaperTrader.t :=
  CapitalAllocator.paper_trader (_allocator self).
Definition _performance_tracker (self : t) : PerformanceTracker.t :=
  CapitalAllocator.performance_tracker (_allocator self).

(** The ledger, the tracker and the store, which the second phase of a
    cycle updates together. *)
Record books : Type := mkBooks {
  trader : PaperTrader.t;
  tracker : PerformanceTracker.t;
  db : Database.t;
}.

Definition get_books (self : t) : books :=
  mkBooks (_paper_trader self) (_performance_tracker self) (_db self).

Definition set_allocator (self : t) (A : CapitalAllocator.t) : t :=
  mk (config self) (_scanner self) A (_db self) (_running self)
     (_last_status self).

Definition set_trader (self : t) (T : PaperTrader.t) : t :=
  let A := _allocator self in
  set_allocator self
    (CapitalAllocator.mk (CapitalAllocator.config A)
       (CapitalAllocator.performance_tracker A) T
       (CapitalAllocator.total_capital A) (CapitalAllocator._last_rebalance A)
       (CapitalAllocator._allocation_history A)).

Definition set_books (self : t) (B : books) : t :=
  let self := set_trader self (trader B) in
  mk (config self) (_scanner self)
     (CapitalAllocator.set_tracker (_allocator self) (tracker B))
     (db B) (_running self) (_last_status self).

Definition set_scanner (self : t) (scanner : MarketScanner.t) : t :=
  mk (config self) scanner (_allocator self) (_db self) (_running self)
     (_last_status self).

Definition set_running (self : t) (b : bool) : t :=
  mk (config self) (_scanner self) (_allocator self) (_db self) b
     (_last_status self).

(** The body of the loop of [_create_strategies]. *)
Definition create_strategy (strategies : list Strategy.t)
    (item : string * StrategyConfig.t) : list Strategy.t :=
  let '(name, strat_config) := item in
  if negb (StrategyConfig.enabled strat_config) then strategies
  else
    let params :=
      StrategyParams.of_dict
        (dict_set (StrategyConfig.params strat_config) "max_position_size"
           (VNum (StrategyConfig.max_position_size strat_config))) in
    if String.eqb name "MeanReversion" then
      strategies ++ [Strategy.enable_paper_mode
                       (Strategy.mk MR.t MR.strategy (MR.init params))]
    else if String.eqb name "Momentum" then
      strategies ++ [Strategy.enable_paper_mode
                       (Strategy.mk Mom.t Mom.strategy (Mom.init params))]
    else if String.eqb name "MarketMaking" then
      strategies ++ [Strategy.enable_paper_mode
                       (Strategy.mk MM.t MM.strategy (MM.init params))]
    else strategies.

(** [_create_strategies] *)
Definition _create_strategies (config : Config.t) : list Strategy.t :=
  fold_left create_strategy (dict_items (Config.strategies config)) [].

(** The loop of [initialize] that opens a portfolio for every enabled
    strategy of the configuration. *)
Definition initialize_portfolios (config : Config.t) (T : PaperTrader.t)
    : PaperTrader.t :=
  fold_left
    (fun T '(name, strat_config) =>
       if StrategyConfig.enabled strat_config then
         PaperTrader.initialize_portfolio T name
           (StrategyConfig.initial_capital strat_config)
       else T)
    (dict_items (Config.strategies config)) T.

(** What [initialize] builds once the connection is verified: the
    strategies, the scanner, the ledger with its portfolios, the tracker
    with its store and the allocator.  [None] stands for the answer
    [False]. *)
Definition assemble (config : Config.t) (file : option Database.t)
    : option t :=
  match _create_strategies config with
  | [] => None
  | strategies =>
    let scanner := MarketScanner.init (Config.scanner config) strategies in
    let paper_trader :=
      initialize_portfolios config (PaperTrader.init (Config.risk config)) in
    let performance_tracker :=
      PerformanceTracker.init (Config.performance config) in
    let allocator :=
      CapitalAllocator.init (Config.allocator config) performance_tracker
        paper_trader (RiskConfig.max_total_capital (Config.risk config)) in
    Some (mk config scanner allocator (Database._init_db file) false None)
  end.

(** [__init__] and [initialize]: [client] is what [create_client_from_env]
    returned or raised, [file] the database file if it exists. *)
Definition initialize (config : Config.t) (client : result Exchange.t)
    (file : option Database.t) : option t :=
  match client with
  | Err _ => None
  | Ok api =>
    match Exchange.get_balance api with
    | Err _ => None
    | Ok _ => assemble config file
    end
  end.

(** Phase 1 of [_process_cycle], for one signal: a signal for both sides
    is skipped, one whose market the cache does not hold under the
    signal's [market_id] is skipped, another is executed at the cached
    YES price. *)
Definition execute_step (scanner : MarketScanner.t) (now : Z)
    (new_id : nat -> string) (acc : PaperTrader.t * nat) (signal : Signal.t)
  : PaperTrader.t * nat :=
  let '(T, i) := acc in
  if String.eqb (Signal.side signal) "both" then (T, S i)
  else
    match MarketScanner.get_market scanner (Signal.market_id signal) with
    | None => (T, S i)
    | Some market =>
      (fst (PaperTrader.execute_signal T signal (MarketData.yes_price market)
              (new_id i) now),
       S i)
    end.

Definition execute_signals (scanner : MarketScanner.t) (now : Z)
    (new_id : nat -> string) (signals : list Signal.t) (T : PaperTrader.t)
  : PaperTrader.t :=
  fst (fold_left (execute_step scanner now new_id) signals (T, 0%nat)).

(** Phase 2, for one closed position: the trade goes to the store and
    the capital of the portfolio, as it is now, to the history of the
    tracker and to the store. *)
Definition record_closed (strategy_name : string) (now : Z) (B : books)
    (position : PaperPosition.t) : books :=
  let db := Database.record_trade (db B) position in
  match PaperTrader.get_portfolio (trader B) strategy_name with
  | Some portfolio =>
    let capital := StrategyPortfolio.current_capital portfolio in
    mkBooks (trader B)
      (PerformanceTracker.record_capital_snapshot (tracker B) strategy_name
         capital)
      (Database.record_capital_snapshot db strategy_name capital now)
  | None => mkBooks (trader B) (tracker B) db
  end.

(** Phase 2, for one market and one strategy.  When [check_exits]
    raises, the positions it had closed stay closed in the ledger and
    are not recorded. *)
Definition exit_step (market_dict : MarketDict.t) (now : Z) (B : books)
    (strategy : Strategy.t) : books * option PyError :=
  let '(T, r) := PaperTrader.check_exits (trader B) strategy market_dict now in
  match r with
  | Ok closed =>
    (fold_left (record_closed (Strategy.name strategy) now) closed
       (mkBooks T (tracker B) (db B)),
     None)
  | Err e => (mkBooks T (tracker B) (db B), Some e)
  end.

(** Phase 2, for one market. *)
Definition market_exits (strategies : list Strategy.t) (now : Z) (B : books)
    (market : MarketData.t) : books * option PyError :=
  foldS (exit_step (MarketData.to_dict market now) now) strategies B.

(** Phase 2: every cached market against every strategy. *)
Definition check_all_exits (self : t) (now : Z) (B : books)
    : books * option PyError :=
  foldS (market_exits (_strategies self) now)
        (MarketScanner.get_all_markets (_scanner self)) B.

(** Phase 4: the status is logged, and its time kept, unless the last
    one is less than 300 seconds of the day back. *)
Definition log_status (self : t) (now : Z) : t :=
  let logged :=
    mk (config self) (_scanner self) (_allocator self) (_db self)
       (_running self) (Some now) in
  match _last_status self with
  | Some last =>
    if (timedelta_seconds (now - last) <? 300)%Z then self else logged
  | None => logged
  end.

Section WithSqrt.
Context {SQ : Sqrt}.

(** Phase 3: the allocator rebalances when it is due. *)
Definition maybe_rebalance (self : t) (now : Z) : t * option PyError :=
  if CapitalAllocator.should_rebalance (_allocator self) now then
    match CapitalAllocator.rebalance (_allocator self) now with
    | Ok r => (set_allocator self (fst r), None)
    | Err e => (self, Some e)
    end
  else (self, None).

(** [_process_cycle] *)
Definition _process_cycle (self : t) (signals : list Signal.t) (now : Z)
    (new_id : nat -> string) : t * option PyError :=
  let T := execute_signals (_scanner self) now new_id signals
             (_paper_trader self) in
  match check_all_exits self now
          (mkBooks T (_performance_tracker self) (_db self)) with
  | (B, Some e) => (set_books self B, Some e)
  | (B, None) =>
    match maybe_rebalance (set_books self B) now with
    | (self, Some e) => (self, Some e)
    | (self, None) => (log_status self now, None)
    end
  end.

(** What [run_once] does with its scan: the signals, the cycle and the
    report, or the exception of the scan or of the cycle. *)
Definition after_scan (self : t)
    (scan : MarketScanner.t * result (list MarketData.t)) (now : Z)
    (new_id : nat -> string) : t * result CycleReport.t :=
  let '(scanner, scanned) := scan in
  match scanned with
  | Err e => (set_scanner self scanner, Err e)
  | Ok markets =>
    let '(scanner, signals) :=
      MarketScanner.generate_signals scanner markets now in
    match _process_cycle (set_scanner self scanner) signals now new_id with
    | (self, Some e) => (self, Err e)
    | (self, None) =>
      (self,
       Ok {| CycleReport.markets_scanned := length markets;
             CycleReport.signals_generated := length signals;
             CycleReport.summary :=
               PaperTrader.get_summary (_paper_trader self) |})
    end
  end.

(** [run_once]: the orchestrator it leaves, and the exception of the
    scan or of the cycle, or the report. *)
Definition run_once (self : t) (r : Round.t) : t * result CycleReport.t :=
  after_scan self
    (MarketScanner.scan_once (_scanner self) (Round.api r) (Round.now r))
    (Round.now r) (Round.new_id r).

(** [shutdown] *)
Definition shutdown (self : t) : t :=
  set_scanner (set_running self false) (MarketScanner.stop (_scanner self)).

(** The body of the loop of [cleanup]. *)
Definition save_final (now : Z)
    (acc : PerformanceTracker.t * Database.t)
    (item : string * StrategyPortfolio.t)
  : PerformanceTracker.t * Database.t * option PyError :=
  let '(tracker, db) := acc in
  let '(name, portfolio) := item in
  match PerformanceTracker.calculate_metrics tracker portfolio now with
  | Ok (tracker, metrics) =>
    ((tracker, Database.save_daily_metrics db name metrics now), None)
  | Err e => ((tracker, db), Some e)
  end.

(** [cleanup]: the final metrics of every portfolio are computed and
    saved. *)
Definition cleanup (self : t) (now : Z) : t * option PyError :=
  let '((tracker, db), e) :=
    foldS (save_final now)
      (dict_items (PaperTrader.portfolios (_paper_trader self)))
      (_performance_tracker self, _db self) in
  (set_books self (mkBooks (_paper_trader self) tracker db), e).

(** What the loop of [run] does with a turn of the scanner.  A signal
    that arrives during the scan lets the scanner yield and ends the
    loop before the cycle.  An exception of the scan is logged by the
    scanner, which goes on; one of the cycle ends the loop.  The flag
    returned says whether the loop goes on. *)
Definition after_turn (self : t) (interrupted : interrupt)
    (turn : MarketScanner.t * option (list Signal.t)) (now : Z)
    (new_id : nat -> string) : t * bool :=
  let '(scanner, yielded) := turn in
  let self := set_scanner self scanner in
  let self :=
    match interrupted with DuringScan => shutdown self | _ => self end in
  match yielded with
  | None => (self, _running self)
  | Some signals =>
    if negb (_running self) then (self, false)
    else
      match _process_cycle self signals now new_id with
      | (self, None) => (self, true)
      | (self, Some _) => (self, false)
      end
  end.

(** One turn of the loop of [run].  A signal that arrives while the
    scanner sleeps ends the scanner's loop before the scan. *)
Definition run_step (self : t) (r : Round.t) : t * bool :=
  match Round.signal r with
  | BeforeScan => (shutdown self, false)
  | interrupted =>
    after_turn self interrupted
      (MarketScanner.run_continuous_step (_scanner self) (Round.api r)
         (Round.now r))
      (Round.now r) (Round.new_id r)
  end.

(** The turns of the loop over the rounds the environment offers; the
    loop also ends with the rounds, when the task is cancelled. *)
Fixpoint run_loop (self : t) (rounds : list Round.t) : t :=
  match rounds with
  | [] => self
  | r :: rounds =>
    match run_step self r with
    | (self, true) => run_loop self rounds
    | (self, false) => self
    end
  end.

(** The flags at the start of [run] and of [run_continuous]. *)
Definition start (self : t) : t :=
  set_scanner (set_running self true)
              (MarketScanner.set_running (_scanner self) true).

(** [run]: the loop, then [cleanup] at time [finish] whatever ended the
    loop. *)
Definition run (self : t) (rounds : list Round.t) (finish : Z)
    : t * option PyError :=
  cleanup (run_loop (start self) rounds) finish.

(** [get_status]; the allocation summary recomputes the metrics and
    leaves them in the cache of the tracker. *)
Definition get_status (self : t) (now : Z) : result (t * Status.t) :=
  r <- CapitalAllocator.get_allocation_summary (_allocator self) now ;;
  Ok (set_allocator self (fst r),
      {| Status.running := _running self;
         Status.sandbox := Config.sandbox (config self);
         Status.strategies := map Strategy.name (_strategies self);
         Status.portfolio := PaperTrader.get_summary (_paper_trader self);
         Status.metrics :=
           map (fun item => (fst item, StrategyMetrics.to_dict (snd item)))
             (dict_items
                (PerformanceTracker.get_all_metrics
                   (_performance_tracker self)));
         Status.allocations := snd r |}).

End WithSqrt.

End Orchestrator.

(** The configuration [run_bot] builds: the loaded one, with the sandbox
    forced when [sandbox] is set. *)
Definition run_bot_config (data : Yaml.t) (sandbox : bool) : Config.t :=
  let config := Config.load data in
  if sandbox then Config.set_sandbox config true else config.

Section RunBot.
Context {SQ : Sqrt}.

(** [run_bot]: [None] when the orchestrator fails to initialise. *)
Definition run_bot (data : Yaml.t) (sandbox : bool)
    (client : result Exchange.t) (file : option Database.t)
    (rounds : list Round.t) (finish : Z)
    : option (Orchestrator.t * option PyError) :=
  match Orchestrator.initialize (run_bot_config data sandbox) client file with
  | Some orchestrator => Some (Orchestrator.run orchestrator rounds finish)
  | None => None
  end.

End RunBot.

Module Orc := Orchestrator.
