(* ===== verification/OrchestratorProps.v ===== *)
(** * Theorems on the orchestrator

    What [initialize] builds: strategies in paper mode that meet the
    interface, and a ledger every invariant of the state machine holds
    of.  What a cycle does: its first two phases are steps of the ledger
    state machine, no signal for both sides is executed, every position
    due to leave has left when the cycle returns, the store mirrors the
    capital history of the tracker, and a rebalance happens once per
    interval.  The theorems on signals are proved against the interface
    [Lawful]; the instances of the three strategies discharge it. *)

From Stdlib Require Import String.
From Stdlib Require Import QArith Lqa Lia ZArith List Bool.
From S2P Require Import Prelude PyDict Config Strategy Ledger LedgerInv.
From S2P Require Import LedgerSteps Metrics Allocator AllocatorProps.
From S2P Require Import Strategies StrategiesProps StrategyLaws LedgerExits.
From S2P Require Import Scanner ScannerProps Persistence Orchestrator.
Import ListNotations.
Open Scope string_scope.
Open Scope list_scope.

(** ** [_create_strategies] *)

(** The names [_create_strategies] knows. *)
Definition known (name : string) : bool :=
  String.eqb name "MeanReversion" || String.eqb name "Momentum"
  || String.eqb name "MarketMaking".

(** What a created strategy is: of a lawful class, active, in paper mode,
    with the name of its class. *)
Definition created_ok (s : Strategy.t) : Prop :=
  Strategy.lawful s /\ Strategy.active s = true /\
  Strategy.paper_mode s = true /\ known (Strategy.name s) = true.

Lemma created_snoc strategies s :
  Forall created_ok strategies -> created_ok s ->
  Forall created_ok (strategies ++ [s]).
Proof.
  intros H Hs. apply Forall_app. split; [exact H | now apply Forall_cons].
Qed.

Lemma create_strategy_ok strategies item :
  Forall created_ok strategies ->
  Forall created_ok (Orc.create_strategy strategies item).
Proof.
  intros H. destruct item as [name sc]. unfold Orc.create_strategy.
  destruct (negb _); [exact H|].
  destruct (String.eqb name "MeanReversion");
    [apply created_snoc; [exact H|]; split; [exact MeanReversion_Lawful|easy]|].
  destruct (String.eqb name "Momentum");
    [apply created_snoc; [exact H|]; split; [exact Momentum_Lawful|easy]|].
  destruct (String.eqb name "MarketMaking");
    [apply created_snoc; [exact H|]; split; [exact MarketMaking_Lawful|easy]|].
  exact H.
Qed.

(** The name a created strategy carries is the key of its
    configuration. *)
Lemma create_strategy_names strategies name sc :
  map Strategy.name (Orc.create_strategy strategies (name, sc))
  = map Strategy.name strategies
    ++ (if StrategyConfig.enabled sc && known name then [name] else []).
Proof.
  unfold Orc.create_strategy, known.
  destruct (StrategyConfig.enabled sc); cbn [negb andb];
    [|now rewrite app_nil_r].
  destruct (String.eqb_spec name "MeanReversion") as [->|];
    [now rewrite map_app|].
  destruct (String.eqb_spec name "Momentum") as [->|]; [now rewrite map_app|].
  destruct (String.eqb_spec name "MarketMaking") as [->|];
    [now rewrite map_app|]. now rewrite app_nil_r.
Qed.

(** Every strategy [_create_strategies] builds is in paper mode,
    active, and of a class that meets the interface; the strategies are
    those of the configuration that are enabled and known, in its
    order. *)
Theorem create_strategies_paper_mode config :
  Forall created_ok (Orc._create_strategies config) /\
  map Strategy.name (Orc._create_strategies config)
  = map fst (filter (fun item => StrategyConfig.enabled (snd item)
                                 && known (fst item))
                    (dict_items (Config.strategies config))).
Proof.
  unfold Orc._create_strategies.
  assert (H : forall items acc,
             Forall created_ok acc ->
             Forall created_ok (fold_left Orc.create_strategy items acc) /\
             map Strategy.name (fold_left Orc.create_strategy items acc)
             = map Strategy.name acc
               ++ map fst (filter (fun item => StrategyConfig.enabled (snd item)
                                               && known (fst item)) items)).
  { induction items as [|[name sc] items IH]; intros acc Hacc; cbn [fold_left].
    - now rewrite app_nil_r.
    - destruct (IH _ (create_strategy_ok acc (name, sc) Hacc)) as [H1 H2].
      split; [exact H1|]. rewrite H2, create_strategy_names, <- app_assoc.
      cbn [filter fst snd]. now destruct (_ && _). }
  destruct (H (dict_items (Config.strategies config)) [] (Forall_nil _)) as [H1 H2].
  now split.
Qed.

(** ** [initialize] *)

(** The portfolios [initialize] opens, as steps of the ledger. *)
Definition opening_ops (config : Config.t) : list op :=
  map (fun item => OpInitialize (fst item)
                     (StrategyConfig.initial_capital (snd item)))
      (filter (fun item => StrategyConfig.enabled (snd item))
              (dict_items (Config.strategies config))).

Lemma initialize_portfolios_ops config T :
  Orc.initialize_portfolios config T = run_ops T (opening_ops config).
Proof.
  unfold Orc.initialize_portfolios, opening_ops, run_ops.
  revert T. induction (dict_items (Config.strategies config)) as [|[n sc] l IH];
    intros T; [reflexivity|].
  cbn [fold_left filter snd fst]. destruct (StrategyConfig.enabled sc);
    [cbn [map fold_left run_op]|]; apply IH.
Qed.

(** What [initialize] is trusted with: limits that make sense and
    capital that is not negative. *)
Definition config_ok (config : Config.t) : Prop :=
  risk_ok (Config.risk config) /\
  Forall (fun item => 0 <= StrategyConfig.initial_capital (snd item))
         (dict_items (Config.strategies config)).

Lemma opening_ops_valid config : config_ok config ->
  forall T, ops_valid T (opening_ops config).
Proof.
  intros [_ Hcap]. unfold opening_ops.
  induction Hcap as [|[n sc] l Hc _ IH]; intros T; [exact I|].
  cbn [filter snd]. destruct (StrategyConfig.enabled sc); [|apply IH].
  split; [exact Hc | apply IH].
Qed.

Lemma assemble_inv config file O :
  Orc.assemble config file = Some O ->
  Orc.config O = config /\
  Orc._strategies O = Orc._create_strategies config /\
  Orc._paper_trader O
  = Orc.initialize_portfolios config (PT.init (Config.risk config)) /\
  Orc._performance_tracker O = PTr.init (Config.performance config) /\
  CA.total_capital (Orc._allocator O)
  = RiskConfig.max_total_capital (Config.risk config) /\
  CA._last_rebalance (Orc._allocator O) = None /\
  MS._market_cache (Orc._scanner O) = [] /\
  Orc._db O = DB._init_db file /\ Orc._last_status O = None.
Proof.
  unfold Orc.assemble.
  destruct (Orc._create_strategies config) eqn:E; [discriminate|].
  intros H. injection H as <-. now rewrite <- E.
Qed.

Lemma initialize_assembles config client file O :
  Orc.initialize config client file = Some O ->
  Orc.assemble config file = Some O.
Proof.
  unfold Orc.initialize. destruct client as [api|e]; [|discriminate].
  now destruct (Exchange.get_balance api).
Qed.

Lemma initialize_inv config client file O :
  Orc.initialize config client file = Some O ->
  Orc.config O = config /\
  Orc._strategies O = Orc._create_strategies config /\
  Orc._paper_trader O
  = Orc.initialize_portfolios config (PT.init (Config.risk config)) /\
  Orc._performance_tracker O = PTr.init (Config.performance config) /\
  CA.total_capital (Orc._allocator O)
  = RiskConfig.max_total_capital (Config.risk config) /\
  CA._last_rebalance (Orc._allocator O) = None /\
  MS._market_cache (Orc._scanner O) = [] /\
  Orc._db O = DB._init_db file /\ Orc._last_status O = None.
Proof. intros H. now apply assemble_inv, (initialize_assembles _ client). Qed.

(** [initialize] answers [True] exactly when the client was created,
    the balance request returned and the configuration enables a
    strategy the orchestrator knows. *)
Lemma initialize_returns_iff config client file :
  (exists O, Orc.initialize config client file = Some O) <->
  (exists api balance,
     client = Ok api /\ Exchange.get_balance api = Ok balance) /\
  Orc._create_strategies config <> [].
Proof.
  unfold Orc.initialize, Orc.assemble. destruct client as [api|e].
  - destruct (Exchange.get_balance api) as [b|e] eqn:Eb.
    + destruct (Orc._create_strategies config) eqn:Es.
      * split; [intros [O [=]] | intros [_ H]; now destruct H].
      * split; [intros _; split; [now exists api, b | discriminate] | eauto].
    + split; [intros [O [=]] | intros [(a & b & [= <-] & H) _]; congruence].
  - split; [intros [O [=]] | intros [(a & b & [=] & _) _]].
Qed.

(** The ledger [initialize] builds is a reachable state of the ledger
    state machine, so every invariant of the machine holds of it; it
    holds a portfolio for each enabled strategy of the configuration. *)
Theorem initialize_ledger_reachable config client file O :
  config_ok config ->
  Orc.initialize config client file = Some O ->
  reachable (Config.risk config) (Orc._paper_trader O).
Proof.
  intros Hc H. apply initialize_inv in H as (_ & _ & -> & _).
  rewrite initialize_portfolios_ops.
  apply run_ops_reachable; [apply reach_init | now apply opening_ops_valid].
Qed.

(** ** Phase 1: the signals *)

(** An identifier stays new when a position opens under another one. *)
Lemma execute_signal_fresh T s mp nid now id :
  trader_ok T -> fresh_id T id = true -> id <> nid ->
  fresh_id (fst (PT.execute_signal T s mp nid now)) id = true.
Proof.
  intros Hok Hfr Hne.
  destruct (PT.execute_signal T s mp nid now) as [T' [p|]] eqn:E.
  2:{ pose proof (execute_signal_none T s mp nid now) as Hn. rewrite E in Hn.
      cbn in *. now rewrite Hn. }
  assert (Hwf' : dict_wf (PT.portfolios T')).
  { apply execute_signal_some in E as (pf & _ & _ & _ & _ & ->).
    rewrite add_position_portfolios. apply dict_set_wf, Hok. }
  pose proof (proj1 (fresh_id_spec T id (proj1 Hok)) Hfr) as Hall.
  apply execute_signal_some in E as (pf & Hpf & _ & _ & Hp & ->). cbn [fst].
  apply (fresh_id_spec _ id Hwf'). intros n q.
  rewrite add_position_portfolios, dict_get_set.
  destruct (eq_dec _ n) as [_|_]; [|apply Hall].
  intros Hq. injection Hq as <-. cbn. rewrite dict_get_set_diff.
  - exact (Hall _ _ Hpf).
  - subst p. cbn. congruence.
Qed.

Section Phase1.
Context (scanner : MS.t) (now : Z) (new_id : nat -> string).

(** The step of the ledger a signal causes, if any. *)
Definition signal_op (i : nat) (signal : Signal.t) : list op :=
  if String.eqb (Signal.side signal) "both" then []
  else
    match MS.get_market scanner (Signal.market_id signal) with
    | None => []
    | Some market =>
      [OpExecute signal (MD.yes_price market) (new_id i) now]
    end.

Fixpoint signal_ops (i : nat) (signals : list Signal.t) : list op :=
  match signals with
  | [] => []
  | signal :: rest => signal_op i signal ++ signal_ops (S i) rest
  end.

Lemma execute_steps signals : forall T i,
  fold_left (Orc.execute_step scanner now new_id) signals (T, i)
  = (run_ops T (signal_ops i signals), (i + length signals)%nat).
Proof.
  induction signals as [|s rest IH]; intros T i; cbn [fold_left signal_ops].
  { cbn. f_equal. lia. }
  unfold Orc.execute_step at 2, signal_op, run_ops.
  rewrite fold_left_app. fold (run_ops T).
  destruct (String.eqb _ _); [|destruct (MS.get_market _ _)];
    rewrite IH; cbn [length run_ops fold_left run_op]; f_equal; lia.
Qed.

(** The steps of phase 1 are executions of signals of the list, none of
    them for both sides, each at the YES price the cache holds under the
    market id of the signal. *)
Definition phase1_op (signals : list Signal.t) (o : op) : Prop :=
  match o with
  | OpExecute signal price _ _ =>
    In signal signals /\ Signal.side signal <> "both" /\
    exists market, MS.get_market scanner (Signal.market_id signal) = Some market
                   /\ price = MD.yes_price market
  | _ => False
  end.

Lemma signal_ops_phase1 signals : forall i,
  Forall (phase1_op signals) (signal_ops i signals).
Proof.
  induction signals as [|s rest IH]; intros i; [constructor|].
  cbn [signal_ops]. apply Forall_app. split.
  - unfold signal_op. destruct (String.eqb_spec (Signal.side s) "both");
      [constructor|].
    destruct (MS.get_market _ _) as [m|] eqn:Em; constructor; [|constructor].
    cbn. split; [now left|]. split; [assumption|]. now exists m.
  - eapply Forall_impl; [|apply IH]. intros [] H; cbn in *; try exact H.
    destruct H as (Hin & H). split; [now right | exact H].
Qed.

Lemma execute_signals_ops signals T :
  Orc.execute_signals scanner now new_id signals T
  = run_ops T (signal_ops 0 signals).
Proof. unfold Orc.execute_signals. now rewrite execute_steps. Qed.

(** C14. Phase 1 of a cycle refines the ledger state machine: it is a run
    of [execute_signal] steps, one for each signal that is not for both
    sides and whose market id is a key of the cache, at the cached YES
    price; no signal for both sides reaches the ledger. *)
Theorem phase1_refines_ledger signals T :
  Orc.execute_signals scanner now new_id signals T
  = run_ops T (signal_ops 0 signals) /\
  Forall (phase1_op signals) (signal_ops 0 signals).
Proof. split; [apply execute_signals_ops | apply signal_ops_phase1]. Qed.

(** The identifiers the cycle draws are new to the ledger and differ from
    each other: what [uuid.uuid4()] is trusted to give. *)
Definition fresh_ids (T : PT.t) : Prop :=
  (forall i, fresh_id T (new_id i) = true) /\
  (forall i j, new_id i = new_id j -> i = j).

Lemma signal_ops_valid signals : forall T i,
  trader_ok T ->
  (forall j, (i <= j)%nat -> fresh_id T (new_id j) = true) ->
  (forall i j, new_id i = new_id j -> i = j) ->
  ops_valid T (signal_ops i signals).
Proof.
  induction signals as [|s rest IH]; intros T i Hok Hfr Hinj; [exact I|].
  cbn [signal_ops]. unfold signal_op.
  destruct (String.eqb _ _); [apply IH; auto; intros; apply Hfr; lia|].
  destruct (MS.get_market _ _) as [m|];
    [|apply IH; auto; intros; apply Hfr; lia].
  cbn [app ops_valid op_valid run_op]. split; [apply Hfr; lia|].
  apply IH; [apply execute_signal_ok; [exact Hok | apply Hfr; lia] | | exact Hinj].
  intros j Hj. apply execute_signal_fresh; [exact Hok | apply Hfr; lia|].
  intros Heq. apply Hinj in Heq. lia.
Qed.

Lemma execute_signals_reachable risk signals T :
  risk_ok risk -> reachable risk T -> fresh_ids T ->
  reachable risk (Orc.execute_signals scanner now new_id signals T).
Proof.
  intros Hrisk Hr [Hfr Hinj]. rewrite execute_signals_ops.
  apply run_ops_reachable; [exact Hr|].
  apply signal_ops_valid; [now apply (reachable_inv_ok risk) | auto | exact Hinj].
Qed.

(** What [execute_signal] keeps in a well-formed ledger under a new
    identifier, phase 1 keeps. *)
Lemma execute_signals_preserves (P : PT.t -> Prop) signals T :
  (forall T s mp nid, trader_ok T -> fresh_id T nid = true -> P T ->
     P (fst (PT.execute_signal T s mp nid now))) ->
  trader_ok T -> fresh_ids T -> P T ->
  trader_ok (Orc.execute_signals scanner now new_id signals T) /\
  P (Orc.execute_signals scanner now new_id signals T).
Proof.
  intros Hstep Hok [Hfr Hinj] HP. rewrite execute_signals_ops.
  assert (Hfr0 : forall j, (0 <= j)%nat -> fresh_id T (new_id j) = true)
    by (intros; apply Hfr).
  clear Hfr. revert T Hok HP Hfr0. generalize 0%nat as i.
  induction signals as [|s rest IH]; intros i T Hok HP Hfr; [now split|].
  cbn [signal_ops]. unfold run_ops. rewrite fold_left_app. fold (run_ops T).
  unfold signal_op.
  destruct (String.eqb _ _); [apply IH; auto; intros; apply Hfr; lia|].
  destruct (MS.get_market _ _) as [m|];
    [|apply IH; auto; intros; apply Hfr; lia].
  cbn [run_ops fold_left run_op]. apply IH.
  - apply execute_signal_ok; [exact Hok | apply Hfr; lia].
  - apply Hstep; [exact Hok | apply Hfr; lia | exact HP].
  - intros j Hj. apply execute_signal_fresh; [exact Hok | apply Hfr; lia|].
    intros Heq. apply Hinj in Heq. lia.
Qed.

Lemma execute_signals_ok signals T :
  trader_ok T -> fresh_ids T ->
  trader_ok (Orc.execute_signals scanner now new_id signals T).
Proof.
  intros Hok Hfr.
  now apply (execute_signals_preserves (fun _ => True) signals T).
Qed.

End Phase1.

(** ** Phase 2: the exits *)

Lemma record_closed_trader n now closed : forall B,
  Orc.trader (fold_left (Orc.record_closed n now) closed B) = Orc.trader B.
Proof.
  induction closed as [|p closed IH]; intros B; [reflexivity|].
  cbn [fold_left]. rewrite IH. unfold Orc.record_closed.
  now destruct (PT.get_portfolio _ _).
Qed.

(** In the ledger a turn of phase 2 is a call of [check_exits], and the
    turn returns when the call does. *)
Lemma exit_step_trader md now B s :
  Orc.trader (fst (Orc.exit_step md now B s))
  = fst (PT.check_exits (Orc.trader B) s md now) /\
  (snd (Orc.exit_step md now B s) = None ->
   exists closed, snd (PT.check_exits (Orc.trader B) s md now) = Ok closed).
Proof.
  unfold Orc.exit_step.
  destruct (PT.check_exits _ _ _ _) as [T [closed|e]]; cbn [fst snd].
  - rewrite record_closed_trader. eauto.
  - split; [reflexivity | discriminate].
Qed.

Section Phase2.
Context (self : Orc.t) (now : Z).

Local Abbreviation markets := (MS.get_all_markets (Orc._scanner self)).
Local Abbreviation strategies := (Orc._strategies self).

(** What every call of [check_exits] on a cached market keeps, phase 2
    keeps, whether it returns or raises. *)
Lemma check_all_exits_preserves (P : PT.t -> Prop) :
  (forall T s m, In m markets -> P T ->
     P (fst (PT.check_exits T s (MD.to_dict m now) now))) ->
  forall B, P (Orc.trader B) ->
            P (Orc.trader (fst (Orc.check_all_exits self now B))).
Proof.
  intros Hstep B HB. unfold Orc.check_all_exits.
  apply (foldS_preserves (fun B => P (Orc.trader B))); [|exact HB].
  intros B1 m Hm HB1. unfold Orc.market_exits.
  apply (foldS_preserves (fun B => P (Orc.trader B))); [|exact HB1].
  intros B2 s _ HB2. rewrite (proj1 (exit_step_trader _ _ _ _)). now apply Hstep.
Qed.

(** The cached YES prices are prices. *)
Definition prices_ok : Prop :=
  Forall (fun m => 0 <= MD.yes_price m <= 1) markets.

Lemma check_all_exits_reachable risk B :
  prices_ok -> reachable risk (Orc.trader B) ->
  reachable risk (Orc.trader (fst (Orc.check_all_exits self now B))).
Proof.
  intros Hp. apply check_all_exits_preserves. intros T s m Hm HT.
  apply (reach_step risk T (OpCheckExits s (MD.to_dict m now) now) HT).
  unfold prices_ok in Hp. rewrite Forall_forall in Hp. exact (Hp m Hm).
Qed.

Lemma check_all_exits_shrinks B :
  trader_ok (Orc.trader B) ->
  trader_ok (Orc.trader (fst (Orc.check_all_exits self now B))) /\
  shrinks (Orc.trader B) (Orc.trader (fst (Orc.check_all_exits self now B))).
Proof.
  intros Hok.
  apply (check_all_exits_preserves
           (fun T => trader_ok T /\ shrinks (Orc.trader B) T));
    [|split; [exact Hok | apply shrinks_refl]].
  intros T s m _ [HT Hs]. split.
  - apply check_exits_preserves; [intros; now apply close_position_ok|exact HT].
  - eapply shrinks_trans; [exact Hs | now apply check_exits_shrinks].
Qed.

(** One market: when the turn returns, every strategy is settled on
    it. *)
Lemma market_exits_settles B m :
  trader_ok (Orc.trader B) ->
  snd (Orc.market_exits strategies now B m) = None ->
  forall s, In s strategies ->
    settled s (MD.to_dict m now)
            (Orc.trader (fst (Orc.market_exits strategies now B m))).
Proof.
  intros Hok. unfold Orc.market_exits.
  apply (foldS_all (fun B => trader_ok (Orc.trader B))
           (fun s B => settled s (MD.to_dict m now) (Orc.trader B)));
    [| | |exact Hok].
  - intros B1 s _ H1. rewrite (proj1 (exit_step_trader _ _ _ _)).
    apply check_exits_preserves; [intros; now apply close_position_ok|exact H1].
  - intros B1 s _ H1 Hret.
    destruct (exit_step_trader (MD.to_dict m now) now B1 s) as [-> Hc].
    destruct (Hc Hret) as [closed Hcl]. now apply (check_exits_settled _ _ _ _ closed).
  - intros B1 s y _ _ H1 Hy. rewrite (proj1 (exit_step_trader _ _ _ _)).
    eapply settled_shrinks; [now apply check_exits_shrinks | exact Hy].
Qed.

Lemma market_exits_shrinks B m :
  trader_ok (Orc.trader B) ->
  trader_ok (Orc.trader (fst (Orc.market_exits strategies now B m))) /\
  shrinks (Orc.trader B) (Orc.trader (fst (Orc.market_exits strategies now B m))).
Proof.
  intros Hok. unfold Orc.market_exits.
  apply (foldS_preserves
           (fun B1 => trader_ok (Orc.trader B1)
                      /\ shrinks (Orc.trader B) (Orc.trader B1)));
    [|split; [exact Hok | apply shrinks_refl]].
  intros B1 s _ [H1 Hs]. rewrite (proj1 (exit_step_trader _ _ _ _)). split.
  - apply check_exits_preserves; [intros; now apply close_position_ok|exact H1].
  - eapply shrinks_trans; [exact Hs | now apply check_exits_shrinks].
Qed.

(** Phase 2: when it returns, every strategy is settled on every cached
    market. *)
Lemma check_all_exits_settles B :
  trader_ok (Orc.trader B) ->
  snd (Orc.check_all_exits self now B) = None ->
  forall m s, In m markets -> In s strategies ->
    settled s (MD.to_dict m now)
            (Orc.trader (fst (Orc.check_all_exits self now B))).
Proof.
  intros Hok Hret m s Hm Hs. revert s Hs. unfold Orc.check_all_exits in *.
  revert m Hm.
  apply (foldS_all (fun B => trader_ok (Orc.trader B))
           (fun m B => forall s, In s strategies ->
                         settled s (MD.to_dict m now) (Orc.trader B)));
    [| | |exact Hok|exact Hret].
  - intros B1 m _ H1. now apply market_exits_shrinks.
  - intros B1 m _ H1 Hr. now apply market_exits_settles.
  - intros B1 m m' _ _ H1 Hm' s Hs.
    eapply settled_shrinks; [now apply market_exits_shrinks | now apply Hm'].
Qed.

End Phase2.

(** ** Phase 3: the rebalance *)

(** A rebalance rewrites capital and leaves every position where it
    is. *)
Lemma apply_allocation_shrinks T a : shrinks T (CA.apply_allocation T a).
Proof.
  intros n pf' q Hpf' Hq. rewrite apply_allocation_get in Hpf'.
  destruct (eq_dec _ _); [|eauto].
  destruct (dict_get (PT.portfolios T) n) as [pf|]; [|discriminate].
  injection Hpf' as <-. now exists pf.
Qed.

Lemma apply_allocations_shrinks allocs : forall T,
  shrinks T (fold_left CA.apply_allocation allocs T).
Proof.
  induction allocs as [|a allocs IH]; intros T; [apply shrinks_refl|].
  cbn [fold_left]. eapply shrinks_trans; [apply apply_allocation_shrinks | apply IH].
Qed.

Section Cycle.
Context {SQ : Sqrt}.

Lemma rebalance_shrinks A now A' allocs :
  CA.rebalance A now = Ok (A', allocs) ->
  shrinks (CA.paper_trader A) (CA.paper_trader A') /\
  CA._last_rebalance A'
  = (if CA.should_rebalance A now then Some now else CA._last_rebalance A) /\
  CA.config A' = CA.config A.
Proof.
  intros H. destruct (CA.should_rebalance A now) eqn:Hdue.
  - destruct (rebalance_inv A now A' allocs Hdue H) as (A1 & Hc & ->).
    apply calculate_allocations_inv in Hc as (rankings & Hr & _).
    apply rank_strategies_inv in Hr as ((Hcfg & Htr & _) & _).
    cbn. rewrite Htr, Hcfg. split; [apply apply_allocations_shrinks | easy].
  - unfold CA.rebalance in H. rewrite Hdue in H. injection H as <- _.
    split; [apply shrinks_refl | easy].
Qed.

Lemma maybe_rebalance_shrinks O now :
  let O' := fst (Orc.maybe_rebalance O now) in
  shrinks (Orc._paper_trader O) (Orc._paper_trader O') /\
  Orc._scanner O' = Orc._scanner O /\
  (snd (Orc.maybe_rebalance O now) = None ->
   CA.config (Orc._allocator O') = CA.config (Orc._allocator O) /\
   CA._last_rebalance (Orc._allocator O')
   = if CA.should_rebalance (Orc._allocator O) now then Some now
     else CA._last_rebalance (Orc._allocator O)).
Proof.
  unfold Orc.maybe_rebalance.
  destruct (CA.should_rebalance (Orc._allocator O) now) eqn:Hdue; cbn zeta;
    [|split; [apply shrinks_refl | easy]].
  destruct (CA.rebalance (Orc._allocator O) now) as [[A' allocs]|e] eqn:E;
    cbn [fst snd]; [|split; [apply shrinks_refl | split; [easy|discriminate]]].
  apply rebalance_shrinks in E as (Hs & Hl & Hc). rewrite Hdue in Hl.
  split; [exact Hs|]. split; [reflexivity|]. intros _. now split.
Qed.

(** The cycle, phase by phase. *)
Lemma process_cycle_phases O signals now new_id :
  let T1 := Orc.execute_signals (Orc._scanner O) now new_id signals
              (Orc._paper_trader O) in
  let B := Orc.check_all_exits O now
             (Orc.mkBooks T1 (Orc._performance_tracker O) (Orc._db O)) in
  let O2 := Orc.set_books O (fst B) in
  Orc._process_cycle O signals now new_id
  = match snd B with
    | Some e => (O2, Some e)
    | None =>
      match Orc.maybe_rebalance O2 now with
      | (O3, Some e) => (O3, Some e)
      | (O3, None) => (Orc.log_status O3 now, None)
      end
    end.
Proof.
  cbv zeta. unfold Orc._process_cycle.
  now destruct (Orc.check_all_exits _ _ _) as [B [e|]].
Qed.

Lemma log_status_frame O now :
  Orc._paper_trader (Orc.log_status O now) = Orc._paper_trader O /\
  Orc._allocator (Orc.log_status O now) = Orc._allocator O /\
  Orc._scanner (Orc.log_status O now) = Orc._scanner O.
Proof.
  unfold Orc.log_status. destruct (Orc._last_status O); [|easy].
  now destruct (_ <? _)%Z.
Qed.

(** The ledger after phase 2 of a cycle. *)
Definition after_exits_of (O : Orc.t) (signals : list Signal.t) (now : Z)
    (new_id : nat -> string) : Orc.books * option PyError :=
  Orc.check_all_exits O now
    (Orc.mkBooks
       (Orc.execute_signals (Orc._scanner O) now new_id signals
          (Orc._paper_trader O))
       (Orc._performance_tracker O) (Orc._db O)).

(** A cycle that returns has passed its three phases; the ledger it
    leaves holds no position the ledger after phase 2 does not. *)
Lemma process_cycle_returns O signals now new_id :
  snd (Orc._process_cycle O signals now new_id) = None ->
  let B := after_exits_of O signals now new_id in
  let O' := fst (Orc._process_cycle O signals now new_id) in
  snd B = None /\
  shrinks (Orc.trader (fst B)) (Orc._paper_trader O') /\
  snd (Orc.maybe_rebalance (Orc.set_books O (fst B)) now) = None /\
  Orc._allocator O'
  = Orc._allocator (fst (Orc.maybe_rebalance (Orc.set_books O (fst B)) now)).
Proof.
  rewrite process_cycle_phases. fold (after_exits_of O signals now new_id).
  cbv zeta. destruct (snd (after_exits_of O signals now new_id)); [discriminate|].
  pose proof (maybe_rebalance_shrinks
                (Orc.set_books O (fst (after_exits_of O signals now new_id))) now)
    as (Hs & _).
  destruct (Orc.maybe_rebalance _ now) as [O3 [e|]]; [discriminate|].
  intros _. cbn [fst snd] in *.
  destruct (log_status_frame O3 now) as (-> & -> & _). now repeat split.
Qed.

(** C15. Every position due to leave has left when a cycle returns: for
    every cached market and every strategy, each position still open
    in the strategy's portfolio is on another market or one the
    strategy's exit rule keeps on that market's snapshot. *)
Theorem cycle_exits_due_positions O signals now new_id m s pf q :
  trader_ok (Orc._paper_trader O) ->
  fresh_ids new_id (Orc._paper_trader O) ->
  snd (Orc._process_cycle O signals now new_id) = None ->
  In m (MS.get_all_markets (Orc._scanner O)) -> In s (Orc._strategies O) ->
  dict_get (PT.portfolios
              (Orc._paper_trader (fst (Orc._process_cycle O signals now new_id))))
           (Strategy.name s) = Some pf ->
  In q (SP.open_positions pf) ->
  PT.ticker_differs q (MD.to_dict m now) = true \/
  Strategy.should_exit s (PT.pos_dict q) (MD.to_dict m now) = Ok false.
Proof.
  intros Hok Hfr Hret Hm Hs.
  destruct (process_cycle_returns O signals now new_id Hret) as (HB & Hsh & _).
  assert (Hok1 : trader_ok (Orc.execute_signals (Orc._scanner O) now new_id
                              signals (Orc._paper_trader O)))
    by now apply execute_signals_ok.
  pose proof (check_all_exits_settles O now
                (Orc.mkBooks _ (Orc._performance_tracker O) (Orc._db O))
                Hok1 HB m s Hm Hs) as Hset.
  exact (settled_shrinks s _ _ _ Hsh Hset pf q).
Qed.

End Cycle.
