(* ===== verification/RunProps.v ===== *)
(** * Theorems on the cycle and the run

    What holds of the ledger through every cycle and every run of the
    orchestrator, rebalances and exceptions included: it stays well
    formed, within the exposure cap and within the limit on open
    positions.  Without a rebalance a cycle is a run of the ledger state
    machine.  A cycle that returns has rebalanced if a rebalance was due
    and leaves none due; the status timer reads the seconds of the day
    only; the store mirrors the capital history of the tracker through
    every cycle and over the whole run, its cleanup included; and
    [cleanup] leaves a row of the day for every portfolio. *)

From Stdlib Require Import String Ascii.
From Stdlib Require Import QArith Lqa Lia ZArith List Bool.
From S2P Require Import Prelude PyDict Config Strategy Ledger LedgerInv.
From S2P Require Import LedgerSteps Metrics Allocator AllocatorProps.
From S2P Require Import Strategies StrategyLaws LedgerExits.
From S2P Require Import Scanner ScannerProps Persistence Orchestrator.
From S2P Require Import OrchestratorProps.
Import ListNotations.
Open Scope string_scope.
Open Scope list_scope.

(** ** The limits of the ledger *)

(** The part of the ledger's invariant a rebalance keeps: well-formed
    portfolios, exposure within the cap, open positions within the
    limit. *)
Definition limits_ok (T : PT.t) : Prop :=
  trader_ok T /\ within_exposure_cap T /\ within_position_limit T.

Lemma execute_signal_limits T s mp nid now :
  trader_ok T -> fresh_id T nid = true -> limits_ok T ->
  limits_ok (fst (PT.execute_signal T s mp nid now)).
Proof.
  intros Hok Hfr (_ & Hcap & Hlim).
  pose proof (execute_signal_ok T s mp nid now Hok Hfr) as Hok'.
  destruct (PT.execute_signal T s mp nid now) as [T' [p|]] eqn:E.
  2:{ pose proof (execute_signal_none T s mp nid now) as Hn. rewrite E in Hn.
      cbn in *. rewrite Hn by reflexivity. exact (conj Hok (conj Hcap Hlim)). }
  destruct (execute_signal_effect _ _ _ _ _ _ _ Hok Hfr E)
    as (pf & pf' & _ & _ & Hv & Hcost & _ & _ & _ & _ & Hall & Hcnt & _ & Hrisk).
  apply risk_verdict_passed in Hv as (_ & _ & Hv3 & Hv4 & _).
  cbn [fst] in *. split; [exact Hok'|].
  unfold within_exposure_cap, within_position_limit in *.
  rewrite Hrisk, Hall, Hcnt. split; [lra | lia].
Qed.

Lemma close_position_limits T id price reason now :
  limits_ok T -> limits_ok (fst (PT.close_position T id price reason now)).
Proof.
  intros (Hok & Hcap & Hlim).
  pose proof (close_position_ok T id price reason now Hok) as Hok'.
  destruct (PT.close_position T id price reason now) as [T' [p'|]] eqn:E.
  2:{ pose proof (close_position_none T id price reason now) as Hn.
      rewrite E in Hn. specialize (Hn eq_refl). injection Hn as <-.
      exact (conj Hok (conj Hcap Hlim)). }
  destruct (close_position_effect _ _ _ _ _ _ _ Hok E)
    as (name & pf & p & Hpf & Hp & _ & _ & _ & Hall & Hcnt & _ & Hrisk).
  assert (Hcost : 0 < PP.entry_cost p).
  { destruct Hok as (_ & Hpfs & _). destruct (Hpfs _ _ Hpf) as (_ & _ & Hpos & _).
    apply (position_ok_cost id), Hpos, Hp. }
  cbn [fst] in *. split; [exact Hok'|].
  unfold within_exposure_cap, within_position_limit in *.
  rewrite Hrisk, Hall, Hcnt. split; [lra | lia].
Qed.

Lemma check_exits_limits T s md now :
  limits_ok T -> limits_ok (fst (PT.check_exits T s md now)).
Proof.
  apply check_exits_preserves. intros T0 id. apply close_position_limits.
Qed.

(** The rebalance of one portfolio touches neither its positions nor its
    name. *)
Lemma apply_allocation_limits T a :
  limits_ok T -> limits_ok (CA.apply_allocation T a).
Proof.
  intros (Hok & Hcap & Hlim). unfold CA.apply_allocation, PT.get_portfolio.
  destruct (dict_get (PT.portfolios T) (AR.strategy_name a)) as [pf|] eqn:E;
    [|exact (conj Hok (conj Hcap Hlim))].
  set (T' := PT.set_portfolios T _).
  assert (Hset : PT.portfolios T'
                 = dict_set (PT.portfolios T) (AR.strategy_name a)
                     (rebased pf (AR.new_allocation a))) by reflexivity.
  split; [|split].
  - apply (write_back_ok T T' _ pf _ E Hset Hok).
    + destruct Hok as (_ & Hall & _). exact (Hall _ _ E).
    + intros id p' Hp'. left. now exists p'.
  - unfold within_exposure_cap in *.
    rewrite (write_back_exposure T T' _ pf _ E Hset).
    change (SP.total_exposure (rebased pf (AR.new_allocation a)))
      with (SP.total_exposure pf).
    change (PT.risk_config T') with (PT.risk_config T). lra.
  - unfold within_position_limit in *.
    rewrite (write_back_open_count T T' _ pf _ E Hset).
    change (SP.open_positions (rebased pf (AR.new_allocation a)))
      with (SP.open_positions pf).
    change (PT.risk_config T') with (PT.risk_config T). lia.
Qed.

Lemma apply_allocations_limits allocs : forall T,
  limits_ok T -> limits_ok (fold_left CA.apply_allocation allocs T).
Proof.
  induction allocs as [|a allocs IH]; intros T HT; [exact HT|].
  cbn [fold_left]. now apply IH, apply_allocation_limits.
Qed.

Section Cycle.
Context {SQ : Sqrt}.

Lemma maybe_rebalance_limits O now :
  limits_ok (Orc._paper_trader O) ->
  limits_ok (Orc._paper_trader (fst (Orc.maybe_rebalance O now))).
Proof.
  intros HT. unfold Orc.maybe_rebalance.
  destruct (CA.should_rebalance (Orc._allocator O) now) eqn:Hdue; [|exact HT].
  destruct (CA.rebalance (Orc._allocator O) now) as [[A' allocs]|e] eqn:E;
    [|exact HT].
  destruct (rebalance_inv _ now A' allocs Hdue E) as (A1 & Hc & ->).
  apply calculate_allocations_inv in Hc as (rankings & Hr & _).
  apply rank_strategies_inv in Hr as ((_ & Htr & _) & _).
  cbn. rewrite Htr. now apply apply_allocations_limits.
Qed.

(** Every cycle keeps the limits of the ledger: whatever the signals,
    whether the cycle rebalances or not and whether it returns or
    raises, the ledger it leaves is well formed, its exposure is within
    the cap and its open positions within the limit. *)
Theorem cycle_keeps_limits O signals now new_id :
  limits_ok (Orc._paper_trader O) ->
  fresh_ids new_id (Orc._paper_trader O) ->
  limits_ok (Orc._paper_trader (fst (Orc._process_cycle O signals now new_id))).
Proof.
  intros HT Hfr. rewrite process_cycle_phases. cbv zeta.
  set (T1 := Orc.execute_signals _ _ _ _ _).
  assert (H1 : limits_ok T1).
  { apply (execute_signals_preserves _ _ _ limits_ok); auto; [|apply HT].
    intros; now apply execute_signal_limits. }
  set (B := Orc.check_all_exits O now _).
  assert (H2 : limits_ok (Orc.trader (fst B))).
  { apply (check_all_exits_preserves O now limits_ok); [|exact H1].
    intros T s m _. apply check_exits_limits. }
  destruct (snd B); [exact H2|].
  pose proof (maybe_rebalance_limits (Orc.set_books O (fst B)) now H2) as H3.
  destruct (Orc.maybe_rebalance _ now) as [O3 [e|]]; [exact H3|].
  cbn [fst] in *. now rewrite (proj1 (log_status_frame O3 now)).
Qed.

(** Without a rebalance a cycle is a run of the ledger state machine:
    from a reachable ledger, with new identifiers and cached prices
    between 0 and 1, a cycle in which no rebalance is due leaves a
    reachable ledger, so every invariant of the machine holds after
    it. *)
Theorem cycle_ledger_reachable risk O signals now new_id :
  risk_ok risk -> reachable risk (Orc._paper_trader O) ->
  fresh_ids new_id (Orc._paper_trader O) -> prices_ok O ->
  CA.should_rebalance (Orc._allocator O) now = false ->
  reachable risk
    (Orc._paper_trader (fst (Orc._process_cycle O signals now new_id))).
Proof.
  intros Hrisk Hr Hfr Hp Hdue. rewrite process_cycle_phases. cbv zeta.
  set (B := Orc.check_all_exits O now _).
  assert (H2 : reachable risk (Orc.trader (fst B))).
  { apply check_all_exits_reachable; [exact Hp|].
    now apply execute_signals_reachable. }
  destruct (snd B); [exact H2|].
  unfold Orc.maybe_rebalance.
  change (CA.should_rebalance (Orc._allocator (Orc.set_books O (fst B))) now)
    with (CA.should_rebalance (Orc._allocator O) now).
  rewrite Hdue. cbn [fst]. now rewrite (proj1 (log_status_frame _ now)).
Qed.

(** C32. A rebalance that is due happens in the cycle, and once: when a
    cycle returns and the interval is positive, no rebalance is due any
    more at the time of the cycle, and the time of the last rebalance
    is that of the cycle if one was due. *)
Theorem cycle_rebalances_once O signals now new_id :
  0 < AllocatorConfig.rebalance_interval_hours (CA.config (Orc._allocator O)) ->
  snd (Orc._process_cycle O signals now new_id) = None ->
  let A' := Orc._allocator (fst (Orc._process_cycle O signals now new_id)) in
  CA.should_rebalance A' now = false /\
  (CA.should_rebalance (Orc._allocator O) now = true ->
   CA._last_rebalance A' = Some now).
Proof.
  intros Hint Hret A'. subst A'.
  destruct (process_cycle_returns O signals now new_id Hret)
    as (_ & _ & Hnone & ->).
  set (O2 := Orc.set_books O _) in *.
  destruct (maybe_rebalance_shrinks O2 now) as (_ & _ & Hcfg).
  destruct (Hcfg Hnone) as [Hc Hl]. clear Hcfg.
  change (CA.should_rebalance (Orc._allocator O2) now)
    with (CA.should_rebalance (Orc._allocator O) now) in Hl.
  change (CA._last_rebalance (Orc._allocator O2))
    with (CA._last_rebalance (Orc._allocator O)) in Hl.
  change (CA.config (Orc._allocator O2)) with (CA.config (Orc._allocator O)) in Hc.
  unfold CA.should_rebalance at 1. rewrite Hl, Hc.
  destruct (CA.should_rebalance (Orc._allocator O) now) eqn:Hdue.
  - split; [|reflexivity]. rewrite Z.sub_diag. apply qleb_false.
    change (inject_Z 0) with 0. nra.
  - split; [|discriminate]. exact Hdue.
Qed.

End Cycle.

(** ** The run *)

Section Run.
Context {SQ : Sqrt}.

(** Every round draws identifiers that are new to the ledger it
    meets. *)
Fixpoint rounds_fresh (O : Orc.t) (rounds : list Round.t) : Prop :=
  match rounds with
  | [] => True
  | r :: rest =>
    fresh_ids (Round.new_id r) (Orc._paper_trader O) /\
    rounds_fresh (fst (Orc.run_step O r)) rest
  end.

Lemma after_turn_limits O interrupted turn now new_id :
  limits_ok (Orc._paper_trader O) ->
  fresh_ids new_id (Orc._paper_trader O) ->
  limits_ok (Orc._paper_trader
               (fst (Orc.after_turn O interrupted turn now new_id))).
Proof.
  intros HT Hfr. unfold Orc.after_turn. destruct turn as [scanner [signals|]];
    destruct interrupted; cbn [fst]; try exact HT;
    (destruct (negb _); cbn [fst]; [exact HT|]);
    match goal with
    | |- context [Orc._process_cycle ?O1 ?s ?n ?i] =>
      pose proof (cycle_keeps_limits O1 s n i HT Hfr) as Hc;
      destruct (Orc._process_cycle O1 s n i) as [O' [e|]]; exact Hc
    end.
Qed.

Lemma run_step_limits O r :
  limits_ok (Orc._paper_trader O) ->
  fresh_ids (Round.new_id r) (Orc._paper_trader O) ->
  limits_ok (Orc._paper_trader (fst (Orc.run_step O r))).
Proof.
  intros HT Hfr. unfold Orc.run_step.
  destruct (Round.signal r); [|exact HT|]; now apply after_turn_limits.
Qed.

Lemma run_loop_limits rounds : forall O,
  limits_ok (Orc._paper_trader O) -> rounds_fresh O rounds ->
  limits_ok (Orc._paper_trader (Orc.run_loop O rounds)).
Proof.
  induction rounds as [|r rounds IH]; intros O HT Hfr; [exact HT|].
  destruct Hfr as [Hr Hrest]. cbn [Orc.run_loop].
  pose proof (run_step_limits O r HT Hr) as Hstep.
  destruct (Orc.run_step O r) as [O' [|]]; [now apply IH | exact Hstep].
Qed.

Lemma cleanup_trader O now :
  Orc._paper_trader (fst (Orc.cleanup O now)) = Orc._paper_trader O.
Proof.
  unfold Orc.cleanup. now destruct (foldS _ _ _) as [[tracker db] e].
Qed.

(** C11. Every run of the orchestrator keeps the limits of the ledger: from
    a ledger that is well formed and within its limits, whatever the
    exchange answers, whenever a signal interrupts and whatever raises,
    the ledger after [run] and its [cleanup] is well formed, its
    exposure within the cap and its open positions within the limit. *)
Theorem run_keeps_limits O rounds finish :
  limits_ok (Orc._paper_trader O) ->
  rounds_fresh (Orc.start O) rounds ->
  limits_ok (Orc._paper_trader (fst (Orc.run O rounds finish))).
Proof.
  intros HT Hfr. unfold Orc.run. rewrite cleanup_trader.
  now apply run_loop_limits.
Qed.

End Run.

(** ** The status timer *)

(** C39. The status timer reads the seconds of the day and not the days:
    when the time since the last status, less whole days, is under 300
    seconds, the cycle logs nothing and keeps the old time, however
    many days have passed. *)
Theorem log_status_wraps O last now :
  Orc._last_status O = Some last ->
  (0 <= (now - last) mod day_us < 300 * 1000000)%Z ->
  Orc.log_status O now = O.
Proof.
  intros Hl Hmod. unfold Orc.log_status, timedelta_seconds. rewrite Hl.
  replace (_ <? 300)%Z with true; [reflexivity|].
  symmetry. apply Z.ltb_lt. apply Z.div_lt_upper_bound; lia.
Qed.

(** ** The store and the tracker *)

(** The snapshots of the store are the capital history of the
    tracker. *)
Definition store_agrees (B : Orc.books) : Prop :=
  forall name,
    DB.snapshots_of (Orc.db B) name
    = get_default (dict_get (PTr._capital_history (Orc.tracker B)) name) [].

Lemma snapshots_of_snapshot db n c now name :
  DB.snapshots_of (DB.record_capital_snapshot db n c now) name
  = DB.snapshots_of db name ++ (if String.eqb n name then [c] else []).
Proof.
  unfold DB.snapshots_of. cbn. rewrite filter_app, map_app. cbn.
  now destruct (String.eqb n name).
Qed.

Lemma record_closed_agrees n now B p :
  store_agrees B -> store_agrees (Orc.record_closed n now B p).
Proof.
  intros H name. unfold Orc.record_closed.
  destruct (PT.get_portfolio _ _) as [pf|]; cbn [Orc.db Orc.tracker];
    [|apply H].
  rewrite snapshots_of_snapshot.
  change (DB.snapshots_of (DB.record_trade (Orc.db B) p) name)
    with (DB.snapshots_of (Orc.db B) name).
  rewrite H. cbn. rewrite dict_get_set. destruct (eq_dec n name) as [->|Hne].
  - now rewrite String.eqb_refl.
  - apply String.eqb_neq in Hne. rewrite Hne. now rewrite app_nil_r.
Qed.

Lemma exit_step_agrees md now B s :
  store_agrees B -> store_agrees (fst (Orc.exit_step md now B s)).
Proof.
  intros H. unfold Orc.exit_step.
  destruct (PT.check_exits _ _ _ _) as [T [closed|e]]; cbn [fst]; [|exact H].
  assert (H0 : store_agrees (Orc.mkBooks T (Orc.tracker B) (Orc.db B))) by exact H.
  revert H0. generalize (Orc.mkBooks T (Orc.tracker B) (Orc.db B)).
  induction closed as [|p closed IH]; intros B0 H0; [exact H0|].
  cbn [fold_left]. now apply IH, record_closed_agrees.
Qed.

Section Store.
Context {SQ : Sqrt}.

Lemma maybe_rebalance_history O now :
  PTr._capital_history (Orc._performance_tracker (fst (Orc.maybe_rebalance O now)))
  = PTr._capital_history (Orc._performance_tracker O) /\
  Orc._db (fst (Orc.maybe_rebalance O now)) = Orc._db O.
Proof.
  unfold Orc.maybe_rebalance.
  destruct (CA.should_rebalance (Orc._allocator O) now) eqn:Hdue; [|easy].
  destruct (CA.rebalance (Orc._allocator O) now) as [[A' allocs]|e] eqn:E;
    [|easy].
  destruct (rebalance_inv _ now A' allocs Hdue E) as (A1 & Hc & ->).
  apply calculate_allocations_inv in Hc as (rankings & Hr & _).
  apply rank_strategies_inv in Hr as ((_ & _ & _ & _ & _ & _ & Hh & _) & _).
  split; [exact Hh | reflexivity].
Qed.

(** The store mirrors the tracker: if the capital snapshots of the
    store are the capital history of the tracker before a cycle, they
    are after it, whether the cycle returns or raises. *)
Theorem cycle_store_mirrors_history O signals now new_id :
  store_agrees (Orc.get_books O) ->
  store_agrees (Orc.get_books (fst (Orc._process_cycle O signals now new_id))).
Proof.
  intros H. rewrite process_cycle_phases. cbv zeta.
  set (B := Orc.check_all_exits O now _).
  assert (H2 : store_agrees (fst B)).
  { unfold B, Orc.check_all_exits.
    apply (foldS_preserves store_agrees); [|exact H].
    intros B1 m _ H1. unfold Orc.market_exits.
    apply (foldS_preserves store_agrees); [|exact H1].
    intros B2 s _. apply exit_step_agrees. }
  assert (H3 : store_agrees (Orc.get_books (Orc.set_books O (fst B))))
    by exact H2.
  destruct (snd B); [exact H3|].
  destruct (maybe_rebalance_history (Orc.set_books O (fst B)) now) as [Hh Hd].
  assert (H4 : store_agrees
                 (Orc.get_books (fst (Orc.maybe_rebalance
                                        (Orc.set_books O (fst B)) now)))).
  { intros name. cbn [Orc.get_books Orc.db Orc.tracker]. rewrite Hh, Hd.
    apply H3. }
  destruct (Orc.maybe_rebalance _ now) as [O3 [e|]]; [exact H4|].
  cbn [fst] in *. intros name. specialize (H4 name).
  unfold Orc.log_status. destruct (Orc._last_status O3); [|exact H4].
  now destruct (_ <? _)%Z.
Qed.

Lemma after_turn_agrees O interrupted turn now new_id :
  store_agrees (Orc.get_books O) ->
  store_agrees (Orc.get_books
                  (fst (Orc.after_turn O interrupted turn now new_id))).
Proof.
  intros H. unfold Orc.after_turn. destruct turn as [scanner [signals|]];
    destruct interrupted; cbn [fst]; try exact H;
    (destruct (negb _); cbn [fst]; [exact H|]);
    match goal with
    | |- context [Orc._process_cycle ?O1 ?s ?n ?i] =>
      pose proof (cycle_store_mirrors_history O1 s n i H) as Hc;
      destruct (Orc._process_cycle O1 s n i) as [O' [e|]]; exact Hc
    end.
Qed.

Lemma run_step_agrees O r :
  store_agrees (Orc.get_books O) ->
  store_agrees (Orc.get_books (fst (Orc.run_step O r))).
Proof.
  intros H. unfold Orc.run_step.
  destruct (Round.signal r); [|exact H|]; now apply after_turn_agrees.
Qed.

Lemma run_loop_agrees rounds : forall O,
  store_agrees (Orc.get_books O) ->
  store_agrees (Orc.get_books (Orc.run_loop O rounds)).
Proof.
  induction rounds as [|r rounds IH]; intros O H; [exact H|].
  cbn [Orc.run_loop]. pose proof (run_step_agrees O r H) as Hstep.
  destruct (Orc.run_step O r) as [O' [|]]; [now apply IH | exact Hstep].
Qed.

(** The final metrics are written to the cache of the tracker and to the
    table of daily metrics, neither of which is a capital snapshot. *)
Lemma save_final_agrees T now st item :
  store_agrees (Orc.mkBooks T (fst st) (snd st)) ->
  let st' := fst (Orc.save_final now st item) in
  store_agrees (Orc.mkBooks T (fst st') (snd st')).
Proof.
  destruct st as [tracker db], item as [name pf]. unfold Orc.save_final.
  cbn [fst snd]. intros H.
  destruct (PTr.calculate_metrics tracker pf now) as [[tracker' m]|e] eqn:E;
    cbn [fst snd]; [|exact H].
  apply calculate_metrics_tracker in E as (_ & Hh & _).
  intros n. cbn [Orc.db Orc.tracker]. rewrite Hh. apply H.
Qed.

Lemma cleanup_agrees O now :
  store_agrees (Orc.get_books O) ->
  store_agrees (Orc.get_books (fst (Orc.cleanup O now))).
Proof.
  intros H. unfold Orc.cleanup.
  pose proof (foldS_preserves
    (fun st => store_agrees (Orc.mkBooks (Orc._paper_trader O) (fst st) (snd st)))
    (Orc.save_final now) (dict_items (PT.portfolios (Orc._paper_trader O)))
    (fun st item _ => save_final_agrees _ now st item)
    (Orc._performance_tracker O, Orc._db O) H) as Hf.
  destruct (foldS _ _ _) as [[tracker db] e]. exact Hf.
Qed.

(** C31. The store mirrors the tracker over a whole run: if the capital
    snapshots of the store are the capital history of the tracker when
    [run] starts, they are when it ends, after any number of cycles,
    whatever the exchange answers, whichever cycle raises, whenever a
    signal interrupts, and after the final metrics are saved. *)
Theorem run_store_mirrors_history O rounds finish :
  store_agrees (Orc.get_books O) ->
  store_agrees (Orc.get_books (fst (Orc.run O rounds finish))).
Proof.
  intros H. unfold Orc.run. now apply cleanup_agrees, run_loop_agrees.
Qed.

End Store.

(** ** [cleanup] *)

Section Cleanup.
Context {SQ : Sqrt}.

Lemma calculate_metrics_trades T pf now T' m :
  PTr.calculate_metrics T pf now = Ok (T', m) ->
  SM.total_trades m = length (SP.closed_positions pf).
Proof.
  intros H. destruct (SP.closed_positions pf) as [|t ts] eqn:E.
  - rewrite calculate_metrics_empty in H by exact E. now injection H as _ <-.
  - apply calculate_metrics_inv in H; [|rewrite E; discriminate].
    destruct H as (_ & _ & Hm). rewrite <- E. apply Hm.
Qed.

(** The row of the day of a portfolio in the store. *)
Definition saved (now : Z) (item : string * SP.t)
    (st : PTr.t * DB.t) : Prop :=
  exists row,
    dict_get (DB.daily_metrics (snd st)) (date_of now, fst item) = Some row /\
    DailyRow.trades row = length (SP.closed_positions (snd item)).

Lemma save_final_saved now st item :
  dict_wf (DB.daily_metrics (snd st)) ->
  dict_wf (DB.daily_metrics (snd (fst (Orc.save_final now st item)))) /\
  (snd (Orc.save_final now st item) = None ->
   saved now item (fst (Orc.save_final now st item))) /\
  (forall other, fst other <> fst item \/ other = item ->
     saved now other st -> saved now other (fst (Orc.save_final now st item))).
Proof.
  destruct st as [tracker db], item as [name pf]. unfold Orc.save_final, saved.
  cbn [fst snd]. intros Hwf.
  destruct (PTr.calculate_metrics tracker pf now) as [[tracker' m]|e] eqn:E;
    cbn [fst snd]; [|now repeat split].
  cbn [DB.daily_metrics DB.save_daily_metrics].
  assert (Hnew : exists row,
             dict_get (insert_or_replace (DB.daily_metrics db)
                         (date_of now, name)
                         {| DailyRow.capital := SM.current_capital m;
                            DailyRow.pnl := SM.total_return m;
                            DailyRow.trades := SM.total_trades m;
                            DailyRow.win_rate := SM.win_rate m;
                            DailyRow.sharpe_ratio := SM.sharpe_ratio m |})
                      (date_of now, name) = Some row
             /\ DailyRow.trades row = length (SP.closed_positions pf)).
  { eexists. rewrite insert_or_replace_get by exact Hwf.
    destruct (eq_dec _ _); [|congruence]. split; [reflexivity|].
    exact (calculate_metrics_trades _ _ _ _ _ E). }
  split; [now apply insert_or_replace_wf|]. split; [intros _; exact Hnew|].
  intros other [Hne| ->] (row & Hrow & Ht); [|exact Hnew]. exists row.
  rewrite insert_or_replace_get by exact Hwf.
  destruct (eq_dec _ _) as [Heq|_]; [|now split].
  injection Heq as Heq. congruence.
Qed.

Lemma cleanup_unfold O now :
  let r := foldS (Orc.save_final now)
             (dict_items (PT.portfolios (Orc._paper_trader O)))
             (Orc._performance_tracker O, Orc._db O) in
  Orc._db (fst (Orc.cleanup O now)) = snd (fst r) /\
  snd (Orc.cleanup O now) = snd r.
Proof.
  cbv zeta. unfold Orc.cleanup. now destruct (foldS _ _ _) as [[tracker db] e].
Qed.

(** [cleanup] leaves a row of the day for every portfolio: when it
    returns, the table of daily metrics holds, under the date of the
    cleanup and the name of each portfolio of the ledger, a row with
    the number of its closed trades. *)
Theorem cleanup_saves_every_portfolio O now name pf :
  dict_wf (DB.daily_metrics (Orc._db O)) ->
  dict_wf (PT.portfolios (Orc._paper_trader O)) ->
  snd (Orc.cleanup O now) = None ->
  dict_get (PT.portfolios (Orc._paper_trader O)) name = Some pf ->
  exists row,
    dict_get (DB.daily_metrics (Orc._db (fst (Orc.cleanup O now))))
             (date_of now, name) = Some row /\
    DailyRow.trades row = length (SP.closed_positions pf).
Proof.
  intros Hwf Hpwf Hret Hpf. destruct (cleanup_unfold O now) as [Hdb He].
  rewrite Hdb. rewrite He in Hret.
  apply (foldS_all (fun st => dict_wf (DB.daily_metrics (snd st))) (saved now)
           (Orc.save_final now) _
           (fun st x _ H => proj1 (save_final_saved now st x H))
           (fun st x _ H => proj1 (proj2 (save_final_saved now st x H))))
    with (x := (name, pf)); [|exact Hwf|exact Hret|now apply dict_get_In].
  intros st x y Hx Hy Hst. apply (proj2 (proj2 (save_final_saved now st x Hst))).
  destruct (string_dec (fst y) (fst x)) as [Heq|Hne]; [right|now left].
  destruct x as [n1 p1], y as [n2 p2]. cbn in Heq. subst n2.
  apply (dict_In_get _ _ _ Hpwf) in Hx, Hy. congruence.
Qed.

End Cleanup.

(** ** Witnesses *)

(** Identifiers that differ from each other: [n] letters for the n-th. *)
Fixpoint tally (n : nat) : string :=
  match n with
  | O => EmptyString
  | S n => String "x" (tally n)
  end.

Lemma tally_inj i : forall j, tally i = tally j -> i = j.
Proof.
  induction i as [|i IH]; intros [|j] H; try discriminate; [reflexivity|].
  injection H as H. f_equal. now apply IH.
Qed.

(** The orchestrator of the default configuration on the demonstration
    exchange, before and after the scan of its first round. *)
Definition demo_config : Config.t := Config.load Yaml.empty.

Definition demo_start : Orc.t :=
  match Orc.initialize demo_config (Ok demo_exchange) None with
  | Some orchestrator => orchestrator
  | None =>
    Orc.mk demo_config demo_scanner
      (CA.init (Config.allocator demo_config)
         (PTr.init (Config.performance demo_config))
         (PT.init (Config.risk demo_config)) 200)
      (DB._init_db None) false None
  end.

Definition demo_round : Round.t := Round.mk demo_exchange 7 tally NoInterrupt.

Definition demo_scan : MS.t * list Signal.t :=
  let scanner := fst (MS.scan_once (Orc._scanner demo_start) demo_exchange 7) in
  MS.generate_signals scanner (MS.get_all_markets scanner) 7.

Definition demo_ready : Orc.t := Orc.set_scanner demo_start (fst demo_scan).

Lemma demo_config_ok : config_ok demo_config.
Proof. split; [exact demo_risk_ok|]. repeat constructor; discriminate. Qed.

Lemma demo_ready_reachable :
  reachable (Config.risk demo_config) (Orc._paper_trader demo_ready).
Proof.
  change (Orc._paper_trader demo_ready)
    with (Orc.initialize_portfolios demo_config (PT.init (Config.risk demo_config))).
  rewrite initialize_portfolios_ops.
  apply run_ops_reachable; [apply reach_init|].
  apply opening_ops_valid, demo_config_ok.
Qed.

Lemma demo_ready_limits : limits_ok (Orc._paper_trader demo_ready).
Proof.
  destruct (reachable_inv _ _ demo_risk_ok demo_ready_reachable)
    as (H1 & H2 & H3 & _). exact (conj H1 (conj H2 H3)).
Qed.

Lemma demo_ready_fresh : fresh_ids tally (Orc._paper_trader demo_ready).
Proof. split; [intros i; reflexivity | intros i j; apply tally_inj]. Qed.


Definition demo_cycle : Orc.t * option PyError :=
  Orc._process_cycle demo_ready (snd demo_scan) 7 tally.

Definition demo_low : MD.t :=
  nth 1 (MS.get_all_markets (Orc._scanner demo_ready))
      (MS._parse_market (demo_raw "LOW" 4 500) 7).

Definition demo_mr : Strategy.t :=
  hd mr_strategy (Orc._strategies demo_ready).

Definition demo_mr_portfolio : SP.t :=
  match PT.get_portfolio (Orc._paper_trader (fst demo_cycle)) "MeanReversion" with
  | Some pf => pf
  | None => demo_portfolio
  end.

Definition demo_kept : PP.t := hd demo_position (SP.open_positions demo_mr_portfolio).

Lemma run_keeps_limits_witness :
  limits_ok (Orc._paper_trader (fst (Orc.run demo_start [demo_round] 9))).
Proof.
  apply (run_keeps_limits demo_start [demo_round] 9%Z demo_ready_limits).
  split; [exact demo_ready_fresh | exact I].
Defined.



Lemma demo_cycle_returns :
  snd (Orc._process_cycle demo_ready (snd demo_scan) 7 tally) = None.
Proof. vm_compute. reflexivity. Qed.

Lemma demo_low_cached : In demo_low (MS.get_all_markets (Orc._scanner demo_ready)).
Proof. vm_compute. right. left. reflexivity. Qed.

Lemma demo_mr_listed : In demo_mr (Orc._strategies demo_ready).
Proof. vm_compute. left. reflexivity. Qed.

Lemma demo_mr_portfolio_get :
  dict_get (PT.portfolios
              (Orc._paper_trader
                 (fst (Orc._process_cycle demo_ready (snd demo_scan) 7 tally))))
           (Strategy.name demo_mr) = Some demo_mr_portfolio.
Proof. vm_compute. reflexivity. Qed.

Lemma demo_kept_open : In demo_kept (SP.open_positions demo_mr_portfolio).
Proof. vm_compute. left. reflexivity. Qed.

Lemma cycle_exits_due_positions_witness :
  PT.ticker_differs demo_kept (MD.to_dict demo_low 7) = true \/
  Strategy.should_exit demo_mr (PT.pos_dict demo_kept) (MD.to_dict demo_low 7)
  = Ok false.
Proof.
  exact (cycle_exits_due_positions demo_ready (snd demo_scan) 7%Z tally
           demo_low demo_mr demo_mr_portfolio demo_kept
           (proj1 demo_ready_limits) demo_ready_fresh demo_cycle_returns
           demo_low_cached demo_mr_listed demo_mr_portfolio_get demo_kept_open).
Defined.

Lemma initialize_ledger_reachable_witness :
  reachable (Config.risk demo_config) (Orc._paper_trader demo_start).
Proof.
  apply (initialize_ledger_reachable demo_config (Ok demo_exchange) None
           demo_start demo_config_ok).
  vm_compute. reflexivity.
Defined.

Lemma cycle_keeps_limits_witness :
  limits_ok (Orc._paper_trader
               (fst (Orc._process_cycle demo_ready (snd demo_scan) 7 tally))).
Proof.
  exact (cycle_keeps_limits demo_ready (snd demo_scan) 7%Z tally
           demo_ready_limits demo_ready_fresh).
Defined.

Lemma demo_interval :
  0 < AllocatorConfig.rebalance_interval_hours
        (CA.config (Orc._allocator demo_ready)).
Proof. vm_compute. reflexivity. Qed.

Lemma cycle_rebalances_once_witness :
  CA.should_rebalance
    (Orc._allocator
       (fst (Orc._process_cycle demo_ready (snd demo_scan) 7 tally))) 7 = false.
Proof.
  exact (proj1 (cycle_rebalances_once demo_ready (snd demo_scan) 7%Z tally
                  demo_interval demo_cycle_returns)).
Defined.

Lemma demo_store_agrees : store_agrees (Orc.get_books demo_ready).
Proof. intros name. reflexivity. Qed.

Lemma cycle_store_mirrors_history_witness :
  store_agrees
    (Orc.get_books
       (fst (Orc._process_cycle demo_ready (snd demo_scan) 7 tally))).
Proof.
  exact (cycle_store_mirrors_history demo_ready (snd demo_scan) 7%Z tally
           demo_store_agrees).
Defined.

Lemma run_store_mirrors_history_witness :
  store_agrees (Orc.get_books (fst (Orc.run demo_ready [demo_round] 9))).
Proof.
  exact (run_store_mirrors_history demo_ready [demo_round] 9%Z
           demo_store_agrees).
Defined.

Lemma demo_rows_wf : dict_wf (DB.daily_metrics (Orc._db demo_ready)).
Proof. constructor. Qed.

Lemma demo_portfolios_wf : dict_wf (PT.portfolios (Orc._paper_trader demo_ready)).
Proof. exact (proj1 (proj1 demo_ready_limits)). Qed.

Lemma demo_cleanup_returns : snd (Orc.cleanup demo_ready 9) = None.
Proof. vm_compute. reflexivity. Qed.

Definition demo_momentum : SP.t :=
  match PT.get_portfolio (Orc._paper_trader demo_ready) "Momentum" with
  | Some pf => pf
  | None => demo_portfolio
  end.

Lemma demo_momentum_get :
  dict_get (PT.portfolios (Orc._paper_trader demo_ready)) "Momentum"
  = Some demo_momentum.
Proof. vm_compute. reflexivity. Qed.

Lemma cleanup_saves_every_portfolio_witness :
  exists row,
    dict_get (DB.daily_metrics (Orc._db (fst (Orc.cleanup demo_ready 9))))
             (date_of 9, "Momentum") = Some row /\
    DailyRow.trades row = length (SP.closed_positions demo_momentum).
Proof.
  exact (cleanup_saves_every_portfolio demo_ready 9%Z "Momentum"
           demo_momentum demo_rows_wf demo_portfolios_wf
           demo_cleanup_returns demo_momentum_get).
Defined.

Lemma log_status_wraps_witness :
  Orc.log_status (Orc.log_status demo_ready 0) (day_us + 1)
  = Orc.log_status demo_ready 0.
Proof.
  apply (log_status_wraps (Orc.log_status demo_ready 0) 0%Z (day_us + 1)%Z);
    [reflexivity | split; [discriminate | reflexivity]].
Defined.

(** The same orchestrator with a rebalance behind it. *)
Definition demo_settled : Orc.t :=
  Orc.set_allocator demo_ready
    (CA.mk (CA.config (Orc._allocator demo_ready))
       (CA.performance_tracker (Orc._allocator demo_ready))
       (CA.paper_trader (Orc._allocator demo_ready))
       (CA.total_capital (Orc._allocator demo_ready)) (Some 0%Z) []).

Lemma demo_prices_ok : prices_ok demo_settled.
Proof. vm_compute. repeat constructor; discriminate. Qed.

Lemma demo_not_due : CA.should_rebalance (Orc._allocator demo_settled) 7 = false.
Proof. vm_compute. reflexivity. Qed.

Lemma cycle_ledger_reachable_witness :
  reachable (Config.risk demo_config)
    (Orc._paper_trader
       (fst (Orc._process_cycle demo_settled (snd demo_scan) 7 tally))).
Proof.
  exact (cycle_ledger_reachable (Config.risk demo_config) demo_settled
           (snd demo_scan) 7%Z tally demo_risk_ok demo_ready_reachable
           demo_ready_fresh demo_prices_ok demo_not_due).
Defined.
