(* ===== verification/Main.v ===== *)
(** * The entry point (src/main.py)

    The arguments of the command line as [parse_args] returns them for
    the options argparse recognises, the choice of the sandbox and of
    the mode in [main], and the three modes:
    [check_status] over the API client, [run_once] and [run_continuous]
    over the orchestrator.  [connect] is the client [initialize] of the
    orchestrator creates, as the exchange it reaches: [exchanges] gives
    the exchange behind a base URL.  The text typed at the confirmation
    prompt is the argument [confirm].

    The bodies [check_status] logs are taken to be JSON objects of the
    documented shape; what the logging calls could raise on another
    body is not modelled. *)

From Stdlib Require Import String.
From Stdlib Require Import QArith ZArith List Bool.
From S2P Require Import Prelude PyDict PyStr PyFormat Client Config Strategy.
From S2P Require Import Ledger.
From S2P Require Import Metrics Allocator Scanner Persistence Orchestrator.
Import ListNotations.
Open Scope string_scope.
Open Scope list_scope.
Open Scope py_scope.

(** The namespace [parse_args] returns. *)
Module Args.
Record t : Type := mk {
  config : string;
  sandbox : bool;
  live : bool;
  once : bool;
  status : bool;
  verbose : bool;
  yes : bool;
}.

(** The command line without arguments. *)
Definition default : t := mk "config.yaml" true false false false false false.

(** [--sandbox] is a flag that stores true over a default of true. *)
Definition set_sandbox (args : t) : t :=
  mk (config args) true (live args) (once args) (status args) (verbose args)
     (yes args).

(** An option of the command line as [add_argument] declares it:
    [--config] (or [-c]) with its value, and the six flags. *)
Inductive Opt : Type :=
| OConfig (path : string)
| OSandbox
| OLive
| OOnce
| OStatus
| OVerbose
| OYes.

(** The action of an option on the namespace: [--config] stores its
    value, a flag of action [store_true] stores [True]. *)
Definition apply (args : t) (o : Opt) : t :=
  match o with
  | OConfig path =>
    mk path (sandbox args) (live args) (once args) (status args)
       (verbose args) (yes args)
  | OSandbox => set_sandbox args
  | OLive =>
    mk (config args) (sandbox args) true (once args) (status args)
       (verbose args) (yes args)
  | OOnce =>
    mk (config args) (sandbox args) (live args) true (status args)
       (verbose args) (yes args)
  | OStatus =>
    mk (config args) (sandbox args) (live args) (once args) true
       (verbose args) (yes args)
  | OVerbose =>
    mk (config args) (sandbox args) (live args) (once args) (status args)
       true (yes args)
  | OYes =>
    mk (config args) (sandbox args) (live args) (once args) (status args)
       (verbose args) true
  end.

(** [parse_args] on the options argparse recognises on the command
    line, in their order: the actions applied to the defaults. *)
Definition parse_args (opts : list Opt) : t := fold_left apply opts default.
End Args.

Module Main.

(** The client [Orchestrator.initialize] creates for a configuration,
    as the exchange it reaches. *)
Definition connect (exchanges : string -> Exchange.t) (api_key : option string)
    (files : string -> option (string -> string)) (config : Config.t)
    : result Exchange.t :=
  client <- create_client_from_env api_key files (Config.sandbox config) ;;
  Ok (exchanges (KalshiClient.base_url client)).

Section CheckStatus.
Context {B : Type}.
Variables (server : Server B) (fuel : nat).

(** [check_status]: [None] when a request is still being retried at the
    end of the fuel.  The client is closed on every way out. *)
Definition check_status (api_key : option string)
    (files : string -> option (string -> string)) (w : World.t)
    (sandbox : bool) : World.t * option bool :=
  match create_client_from_env api_key files sandbox with
  | Err _ => (w, Some false)
  | Ok client =>
    match KalshiClient.get_exchange_status server fuel client w with
    | (_, w, None) => (w, None)
    | (_, w, Some (Err _)) => (w, Some false)
    | (client, w, Some (Ok _)) =>
      match KalshiClient.get_balance server fuel client w with
      | (_, w, None) => (w, None)
      | (_, w, Some (Err _)) => (w, Some false)
      | (client, w, Some (Ok _)) =>
        match KalshiClient.get_markets server fuel client w "open" 10
                None None None with
        | (_, w, None) => (w, None)
        | (_, w, Some (Err _)) => (w, Some false)
        | (_, w, Some (Ok _)) => (w, Some true)
        end
      end
    end
  end.

End CheckStatus.

(** What [run_once] prints for one strategy of the summary. *)
Definition report_strategy (item : string * StrategySummary.t) : list string :=
  let '(name, stats) := item in
  [ (nl ++ "   " ++ name ++ ":")%string;
    ("     Capital: $"
     ++ format_f false 2 (StrategySummary.capital stats))%string;
    ("     Open positions: "
     ++ str_of_Z (Z.of_nat (StrategySummary.open_positions stats)))%string;
    ("     Total trades: "
     ++ str_of_Z (Z.of_nat (StrategySummary.total_trades stats)))%string;
    ("     Win rate: "
     ++ format_f false 1 (StrategySummary.win_rate stats) ++ "%")%string ].

(** The lines [run_once] prints for the report of its cycle. *)
Definition report (result : CycleReport.t) : list string :=
  let summary := CycleReport.summary result in
  [ (nl ++ "📊 Single Cycle Results:")%string;
    ("   Markets scanned: "
     ++ str_of_Z (Z.of_nat (CycleReport.markets_scanned result)))%string;
    ("   Signals generated: "
     ++ str_of_Z (Z.of_nat (CycleReport.signals_generated result)))%string;
    "   Portfolio summary:";
    ("     Total capital: $"
     ++ format_f false 2 (Summary.total_capital summary))%string;
    ("     Total P&L: $"
     ++ format_f false 2 (Summary.total_pnl summary))%string ]
  ++ flat_map report_strategy (Summary.strategies summary).

(** The configuration [run_once] gives the orchestrator: the loaded one
    with its sandbox flag overwritten. *)
Definition run_once_config (data : Yaml.t) (sandbox : bool) : Config.t :=
  Config.set_sandbox (Config.load data) sandbox.

Section Modes.
Context {SQ : Sqrt}.
Variables (exchanges : string -> Exchange.t) (api_key : option string)
          (files : string -> option (string -> string))
          (file : option Database.t).

(** What [run_once] prints and returns once the cycle and the cleanup
    are done. *)
Definition once_outcome (result : result CycleReport.t)
    (raised : option PyError) : list string * Prelude.result bool :=
  (match result with
   | Ok result => report result
   | Err _ => []
   end,
   match raised, result with
   | Some e, _ => Err e
   | None, Err e => Err e
   | None, Ok _ => Ok true
   end).

(** [run_once]: the orchestrator it leaves, if it was initialised, the
    lines it prints, and what the call returns or raises; [cleanup] runs
    at [finish] whether the cycle returned or raised. *)
Definition run_once (data : Yaml.t) (sandbox : bool) (r : Round.t) (finish : Z)
    : option Orchestrator.t * list string * result bool :=
  let config := run_once_config data sandbox in
  match Orchestrator.initialize config
          (connect exchanges api_key files config) file with
  | None => (None, [], Ok false)
  | Some orchestrator =>
    let '(orchestrator, result) := Orchestrator.run_once orchestrator r in
    let '(orchestrator, raised) := Orchestrator.cleanup orchestrator finish in
    (Some orchestrator, fst (once_outcome result raised),
     snd (once_outcome result raised))
  end.

(** The prompt of [run_continuous]: whether the run goes on. *)
Definition confirmed (sandbox skip_confirm : bool) (confirm : string) : bool :=
  if negb sandbox && negb skip_confirm then
    String.eqb confirm "I UNDERSTAND THE RISK"
  else true.

(** [run_continuous]: [run_bot] on the same configuration file, unless
    the prompt is not confirmed. *)
Definition run_continuous (data : Yaml.t) (sandbox skip_confirm : bool)
    (confirm : string) (rounds : list Round.t) (finish : Z)
    : option (Orchestrator.t * option PyError) * bool :=
  if confirmed sandbox skip_confirm confirm then
    let config := run_bot_config data sandbox in
    (run_bot data sandbox (connect exchanges api_key files config) file
       rounds finish, true)
  else (None, false).

End Modes.

(** What [main] runs. *)
Inductive Mode : Type :=
| CheckStatus (sandbox : bool)
| RunOnce (config : string) (sandbox : bool)
| RunContinuous (config : string) (sandbox skip_confirm : bool).

(** [main]: the sandbox unless [--live]; the status check before the
    single cycle before the loop. *)
Definition main (args : Args.t) : Mode :=
  let sandbox := negb (Args.live args) in
  if Args.status args then CheckStatus sandbox
  else if Args.once args then RunOnce (Args.config args) sandbox
  else RunContinuous (Args.config args) sandbox (Args.yes args).

(** The exit status of [main] on what the mode returned or raised:
    that of [sys.exit] in the first two modes, 0 when the loop returns,
    1 on an exception nothing catches. *)
Definition exit_status (mode : Mode) (outcome : result bool) : Z :=
  match outcome, mode with
  | Err _, _ => 1%Z
  | Ok success, (CheckStatus _ | RunOnce _ _) => if success then 0%Z else 1%Z
  | Ok _, RunContinuous _ _ _ => 0%Z
  end.

End Main.
