(* ===== verification/MainProps.v ===== *)
(** * Properties of the entry point

    What [parse_args] returns for the options of a command line and the
    mode [main] runs for them.  Which exchange each mode of [main]
    reaches: the sandbox unless
    [--live]; with [--live], the loop still honours [force_sandbox] of
    the configuration file while the single cycle overrides it.  The
    requests of the status check, and the confirmation of a live run. *)

From Stdlib Require Import String.
From Stdlib Require Import QArith ZArith List Bool Lia.
From S2P Require Import Prelude PyDict PyStr PyFormat Client ClientProps Config.
From S2P Require Import Strategy Ledger.
From S2P Require Import Scanner Persistence Orchestrator Main.
Import ListNotations.
Open Scope string_scope.
Open Scope list_scope.
Open Scope py_scope.

(** ** The namespace of a command line *)

#[export] Instance Opt_eq_dec : EqDec Args.Opt.
Proof. intros a b. unfold Decidable.decidable. decide equality. apply string_dec. Defined.

(** Whether an option is on the command line. *)
Definition given (o : Args.Opt) (opts : list Args.Opt) : bool :=
  if in_dec eq_dec o opts then true else false.

Lemma given_cons o o' opts :
  given o (o' :: opts) = (if eq_dec o' o then true else false) || given o opts.
Proof.
  unfold given.
  destruct (in_dec eq_dec o (o' :: opts)) as [[H|H]|H], (eq_dec o' o) as [E|E],
    (in_dec eq_dec o opts) as [I|I]; cbn in *; try reflexivity; tauto.
Qed.

Section Flag.
(** A flag of the namespace and the option that sets it. *)
Variables (get : Args.t -> bool) (o : Args.Opt).
Hypothesis Hset : forall args, get (Args.apply args o) = true.
Hypothesis Hother : forall args o', o' <> o -> get (Args.apply args o') = get args.

(** A flag is set when it was or when its option is given, wherever on
    the command line and however often. *)
Lemma fold_flag opts : forall args,
  get (fold_left Args.apply opts args) = get args || given o opts.
Proof.
  induction opts as [|o' opts IH]; intros args; cbn [fold_left];
    [now rewrite orb_false_r|].
  rewrite IH, given_cons. destruct (eq_dec o' o) as [->|Hne].
  - now rewrite Hset, orb_true_r.
  - now rewrite (Hother _ _ Hne).
Qed.

End Flag.

(** What [parse_args] returns: each flag is set exactly when its option
    is given, except [sandbox], which is set whatever the command line
    says. *)
Theorem parse_args_flags opts :
  let args := Args.parse_args opts in
  Args.sandbox args = true /\
  Args.live args = given Args.OLive opts /\
  Args.once args = given Args.OOnce opts /\
  Args.status args = given Args.OStatus opts /\
  Args.verbose args = given Args.OVerbose opts /\
  Args.yes args = given Args.OYes opts.
Proof.
  cbv zeta. unfold Args.parse_args.
  rewrite (fold_flag Args.sandbox Args.OSandbox), (fold_flag Args.live Args.OLive),
    (fold_flag Args.once Args.OOnce), (fold_flag Args.status Args.OStatus),
    (fold_flag Args.verbose Args.OVerbose), (fold_flag Args.yes Args.OYes);
    try (intros args o' Hne; destruct o'; cbn; congruence);
    try (intros args; reflexivity).
  now repeat split.
Qed.

(** The configuration file is that of the last [--config], and
    [config.yaml] without one. *)
Theorem parse_args_config opts :
  Args.config (Args.parse_args opts)
  = last (flat_map (fun o => match o with
                             | Args.OConfig path => [path]
                             | _ => []
                             end) opts) "config.yaml".
Proof.
  unfold Args.parse_args. change "config.yaml" with (Args.config Args.default).
  generalize Args.default. induction opts as [|o opts IH] using rev_ind;
    intros args; [reflexivity|].
  rewrite fold_left_app, flat_map_app. cbn [fold_left flat_map].
  rewrite app_nil_r. destruct o; cbn [Args.apply Args.config Args.set_sandbox];
    rewrite ?app_nil_r, ?last_last; try apply IH; reflexivity.
Qed.

(** The mode of a command line: the status check if [--status] is given,
    else the single cycle if [--once] is, else the loop; on the sandbox
    exactly when [--live] is not given. *)
Theorem main_of_command_line opts :
  Main.main (Args.parse_args opts)
  = let sandbox := negb (given Args.OLive opts) in
    let config := Args.config (Args.parse_args opts) in
    if given Args.OStatus opts then Main.CheckStatus sandbox
    else if given Args.OOnce opts then Main.RunOnce config sandbox
    else Main.RunContinuous config sandbox (given Args.OYes opts).
Proof.
  destruct (parse_args_flags opts) as (_ & Hl & Ho & Hs & _ & Hy).
  cbv zeta in *. unfold Main.main. now rewrite Hl, Ho, Hs, Hy.
Qed.

Example command_line_example :
  Main.main (Args.parse_args [Args.OConfig "a.yaml"; Args.OOnce;
                              Args.OSandbox; Args.OConfig "b.yaml"])
  = Main.RunOnce "b.yaml" true /\
  Main.main (Args.parse_args [Args.OSandbox; Args.OLive; Args.OYes])
  = Main.RunContinuous "config.yaml" false true.
Proof. split; reflexivity. Qed.

(** ** The exchange a configuration reaches *)

Lemma create_client_base_url api_key files sandbox client :
  create_client_from_env api_key files sandbox = Ok client ->
  KC.sandbox client = sandbox
  /\ KC.base_url client
     = (if sandbox then SANDBOX_BASE_URL else PRODUCTION_BASE_URL)
  /\ KC.rate_limiter client = RL.mk 8 0.
Proof.
  unfold create_client_from_env, KC.init.
  destruct (negb (truthy_str api_key)); [discriminate|].
  destruct (KC._load_private_key files _); [|discriminate].
  cbn [bind]. intros H. now injection H as <-.
Qed.

Lemma connect_exchange exchanges api_key files config e :
  Main.connect exchanges api_key files config = Ok e ->
  e = exchanges (if Config.sandbox config then SANDBOX_BASE_URL
                 else PRODUCTION_BASE_URL).
Proof.
  unfold Main.connect.
  destruct (create_client_from_env _ _ _) as [client|] eqn:E; [|discriminate].
  apply create_client_base_url in E as (_ & Hb & _). cbn [bind].
  rewrite Hb. intros H. now injection H as <-.
Qed.

(** The client is created exactly when KALSHI_API_KEY is set to a text
    that is not empty and the key file exists. *)
Lemma connect_returns_iff exchanges api_key files config :
  (exists e, Main.connect exchanges api_key files config = Ok e) <->
  truthy_str api_key = true /\
  files "~/.openclaw/.secrets/kalshi_private_key.pem" <> None.
Proof.
  unfold Main.connect, create_client_from_env, KC.init, KC._load_private_key.
  destruct (truthy_str api_key); cbn [negb bind].
  - destruct (files _) as [key|]; cbn [bind].
    + split; [now intros _ | eauto].
    + split; [intros [e [=]] | now intros [_ H]].
  - split; [intros [e [=]] | now intros [[=] _]].
Qed.

Lemma load_sandbox data :
  Config.sandbox (Config.load data)
  = get_default (Yaml.force_sandbox data) true
    || get_default (Yaml.sandbox data) true.
Proof.
  unfold Config.load. cbn [Config.sandbox].
  now destruct (get_default (Yaml.force_sandbox data) true).
Qed.

Section Reach.
Variables (exchanges : string -> Exchange.t) (api_key : option string)
          (files : string -> option (string -> string)).

(** C13. Without [--live] the bot reaches the sandbox only: in the single
    cycle and in the loop alike, whatever the configuration file says,
    the client of the orchestrator is the one of the demo exchange. *)
Theorem default_run_is_sandboxed args data e :
  Args.live args = false ->
  match Main.main args with
  | Main.CheckStatus sandbox => sandbox = true
  | Main.RunOnce _ sandbox =>
      Main.connect exchanges api_key files (Main.run_once_config data sandbox) = Ok e ->
      e = exchanges SANDBOX_BASE_URL
  | Main.RunContinuous _ sandbox _ =>
      Main.connect exchanges api_key files (run_bot_config data sandbox) = Ok e ->
      e = exchanges SANDBOX_BASE_URL
  end.
Proof.
  intros Hlive. unfold Main.main. rewrite Hlive. cbn [negb].
  destruct (Args.status args); [reflexivity|].
  destruct (Args.once args); intros H; now apply connect_exchange in H.
Qed.

(** C30. With [--live], a configuration file that forces the sandbox, as
    it does when it does not say otherwise, keeps the loop on the demo
    exchange, but the single cycle overwrites the flag and reaches the
    production exchange. *)
Theorem live_once_overrides_force_sandbox data e1 e2 :
  get_default (Yaml.force_sandbox data) true = true ->
  Main.connect exchanges api_key files (run_bot_config data false) = Ok e1 ->
  Main.connect exchanges api_key files (Main.run_once_config data false) = Ok e2 ->
  e1 = exchanges SANDBOX_BASE_URL /\ e2 = exchanges PRODUCTION_BASE_URL.
Proof.
  intros Hforce H1 H2. apply connect_exchange in H1, H2.
  unfold run_bot_config in H1. rewrite load_sandbox, Hforce in H1.
  now split.
Qed.

(** The loop reaches the production exchange exactly when [--live] is
    given and the file sets both [sandbox] and [force_sandbox] to
    false. *)
Theorem loop_reaches_production data sandbox :
  Config.sandbox (run_bot_config data sandbox) = false
  <-> sandbox = false /\ Yaml.force_sandbox data = Some false
      /\ Yaml.sandbox data = Some false.
Proof.
  unfold run_bot_config. destruct sandbox; cbn [Config.sandbox Config.set_sandbox].
  - split; [discriminate | now intros [? _]].
  - rewrite load_sandbox.
    destruct (Yaml.force_sandbox data) as [[|]|], (Yaml.sandbox data) as [[|]|];
      cbn; split; try discriminate; auto; intros (_ & ? & ?); discriminate.
Qed.

End Reach.

(** ** The status check *)

Section Status.
Context {B : Type}.
Variables (server : Server B) (fuel : nat).

(** The status check talks to the exchange of its mode only: every
    request it adds to the log goes under the base URL of the sandbox
    when the sandbox is chosen and of production otherwise. *)
Theorem check_status_stays_on_exchange api_key files w (sandbox : bool) :
  let base := if sandbox then SANDBOX_BASE_URL else PRODUCTION_BASE_URL in
  all_to base w ->
  all_to base (fst (Main.check_status server fuel api_key files w sandbox)).
Proof.
  intros base Hw. unfold Main.check_status.
  destruct (create_client_from_env _ _ _) as [client|] eqn:E; [|exact Hw].
  apply create_client_base_url in E as (_ & Hb & _). fold base in Hb.
  unfold KC.get_exchange_status, KC.get_balance, KC.get_markets.
  pose proof (request_all_to server "GET" "/exchange/status" None None base
                fuel client w Hb Hw) as [H1 Hb1].
  destruct (KC._request _ _ client w _ _ _ _) as [[c1 w1] [[?|?]|]];
    cbn [fst snd] in *; try exact H1.
  pose proof (request_all_to server "GET" "/portfolio/balance" None None base
                fuel c1 w1 Hb1 H1) as [H2 Hb2].
  destruct (KC._request _ _ c1 w1 _ _ _ _) as [[c2 w2] [[?|?]|]];
    cbn [fst snd] in *; try exact H2.
  match goal with
  | |- context [KC._request server fuel c2 w2 ?m ?e ?p ?j] =>
      pose proof (request_all_to server m e p j base fuel c2 w2 Hb2 H2) as [H3 _];
      destruct (KC._request server fuel c2 w2 m e p j) as [[c3 w3] [[?|?]|]]
  end; exact H3.
Qed.

End Status.

(** ** The confirmation *)

(** A live run without [--yes] goes on exactly on the phrase of the
    prompt; every other run is not asked. *)
Theorem confirmed_spec sandbox skip_confirm confirm :
  Main.confirmed sandbox skip_confirm confirm = true
  <-> sandbox = true \/ skip_confirm = true
      \/ confirm = "I UNDERSTAND THE RISK".
Proof.
  unfold Main.confirmed. destruct sandbox, skip_confirm; cbn; try tauto.
  rewrite String.eqb_eq. split; [auto | now intros [?|[?|?]]].
Qed.

(** ** The report of the single cycle *)

(** The report has six lines and five more for each portfolio. *)
Lemma report_length result :
  length (Main.report result)
  = (6 + 5 * length (Summary.strategies (CycleReport.summary result)))%nat.
Proof.
  unfold Main.report. rewrite length_app. cbn [length]. f_equal.
  induction (Summary.strategies _) as [|[name stats] l IH]; [reflexivity|].
  cbn [flat_map]. rewrite length_app, IH. cbn [Main.report_strategy length].
  lia.
Qed.

(** A capital of 66.125 is printed as 66.12 and a win rate of 62.5% with
    its digit. *)
Example report_example :
  Main.report
    (CycleReport.mk 12 3
       (Summary.mk 132 (3#2) 0
          [("MeanReversion", StrategySummary.mk (529#8) 50 16 2 8 (125#2) (3#2))]))
  = [ (nl ++ "📊 Single Cycle Results:")%string;
      "   Markets scanned: 12";
      "   Signals generated: 3";
      "   Portfolio summary:";
      "     Total capital: $132.00";
      "     Total P&L: $1.50";
      (nl ++ "   MeanReversion:")%string;
      "     Capital: $66.12";
      "     Open positions: 2";
      "     Total trades: 8";
      "     Win rate: 62.5%" ].
Proof. vm_compute. reflexivity. Qed.

(** ** Witnesses *)

Definition no_exchange : Exchange.t :=
  Exchange.mk (fun _ _ => Err (HTTPStatusError 503))
              (fun _ => Err (HTTPStatusError 503)) (Err (HTTPStatusError 503)).

Definition demo_exchanges (url : string) : Exchange.t :=
  if String.eqb url SANDBOX_BASE_URL then
    Exchange.mk (fun _ _ => Ok (MarketsResponse.mk [] None))
                (fun _ => Ok None) (Ok 100%Z)
  else no_exchange.

Definition demo_files (path : string) : option (string -> string) :=
  Some (fun message => message).

Lemma default_run_is_sandboxed_witness :
  demo_exchanges SANDBOX_BASE_URL = demo_exchanges SANDBOX_BASE_URL.
Proof.
  exact (default_run_is_sandboxed demo_exchanges (Some "key-id") demo_files
           Args.default Yaml.empty (demo_exchanges SANDBOX_BASE_URL) eq_refl
           eq_refl).
Defined.

Lemma live_once_overrides_force_sandbox_witness :
  demo_exchanges SANDBOX_BASE_URL = demo_exchanges SANDBOX_BASE_URL
  /\ no_exchange = demo_exchanges PRODUCTION_BASE_URL.
Proof.
  exact (live_once_overrides_force_sandbox demo_exchanges (Some "key-id")
           demo_files Yaml.empty (demo_exchanges SANDBOX_BASE_URL) no_exchange
           eq_refl eq_refl eq_refl).
Defined.

Lemma check_status_stays_on_exchange_witness :
  all_to SANDBOX_BASE_URL
    (fst (Main.check_status demo_server 5 (Some "key-id") demo_files demo_world true)).
Proof.
  apply (check_status_stays_on_exchange demo_server 5 (Some "key-id")
           demo_files demo_world true).
  constructor.
Defined.
