(* ===== verification/ClientRun.v ===== *)
(** * The orchestrator over the client (src/src/orchestrator.py over
    src/src/scanner.py and src/src/api/kalshi_client.py)

    [Orchestrator] runs its loop over rounds that each bring the record
    of the exchange.  Here the orchestrator holds the client it creates
    in [initialize]: the balance is asked through it, the scanner of
    every turn calls it, the sleeps of the scanner advance the clock of
    the world, and [cleanup] closes it.  What the loop does with a turn
    of the scanner ([Orchestrator.after_turn]) and what [initialize]
    builds ([Orchestrator.assemble]) are the definitions of
    [Orchestrator].

    The exchange of a round ([Round.api]) is not read: the answers come
    from the [Server] behind the client.  A request that is still
    retrying when its attempts are used up leaves the run without a
    result ([None]).  Module [ClientMain] holds the modes of src/main.py
    over such an orchestrator.  The theorems are in [ClientRunProps]. *)

From Stdlib Require Import String.
From Stdlib Require Import QArith ZArith List Bool.
From S2P Require Import Prelude PyDict PyStr Client Config Strategy Ledger.
From S2P Require Import Metrics Allocator Scanner ScannerClient Persistence.
From S2P Require Import Orchestrator Main.
Import ListNotations.
Open Scope string_scope.
Open Scope list_scope.
Open Scope py_scope.

Module ClientRun.

Section OverClient.
Context {SQ : Sqrt} {B : Type}.
Variables (markets_of : B -> MarketsResponse.t)
          (orderbook_of : B -> option RawOrderbook.t).
Variables (server : Server B) (attempts : nat).

(** [initialize]: the client is created from the environment and the
    balance asked through it.  The inner [None] stands for the answer
    [False], the outer one for a balance request still retrying. *)
Definition initialize (config : Config.t) (api_key : option string)
    (files : string -> option (string -> string)) (w : World.t)
    (file : option Database.t)
    : World.t * option (option (Orc.t * KC.t)) :=
  match create_client_from_env api_key files (Config.sandbox config) with
  | Err _ => (w, Some None)
  | Ok client =>
    match KC.get_balance server attempts client w with
    | (_, w, None) => (w, None)
    | (_, w, Some (Err _)) => (w, Some None)
    | (client, w, Some (Ok _)) =>
      (w, Some (option_map (fun self => (self, client))
                  (Orc.assemble config file)))
    end
  end.

(** One turn of the loop of [run].  The scanner sleeps before its next
    turn when it is resumed: after an exception of its scan, and after
    a [yield] when the loop of [run] goes on. *)
Definition run_step (self : Orc.t) (c : CS.conn) (r : Round.t)
    : CS.conn * option (Orc.t * bool) :=
  match Round.signal r with
  | BeforeScan => (c, Some (Orc.shutdown self, false))
  | interrupted =>
    match CS.scan_turn markets_of orderbook_of server attempts
            (Orc._scanner self) c (Round.now r) with
    | (c, None) => (c, None)
    | (c, Some turn) =>
      let '(self, go) :=
        Orc.after_turn self interrupted turn (Round.now r) (Round.new_id r) in
      let resumed := match snd turn with None => true | Some _ => go end in
      (if resumed then CS.asyncio_sleep c (CS.pause (fst turn) (snd turn))
       else c,
       Some (self, go))
    end
  end.

(** The turns of the loop over the rounds the environment offers; the
    sleep that follows the last round is counted in full. *)
Fixpoint run_loop (self : Orc.t) (c : CS.conn) (rounds : list Round.t)
    : CS.conn * option Orc.t :=
  match rounds with
  | [] => (c, Some self)
  | r :: rounds =>
    match run_step self c r with
    | (c, None) => (c, None)
    | (c, Some (self, true)) => run_loop self c rounds
    | (c, Some (self, false)) => (c, Some self)
    end
  end.

(** [run_once]: the scan through the client, then the signals, the
    cycle and the report. *)
Definition run_once (self : Orc.t) (c : CS.conn) (r : Round.t)
    : CS.conn * option (Orc.t * result CycleReport.t) :=
  match CS.scan_once markets_of orderbook_of server attempts
          (Orc._scanner self) c (Round.now r) with
  | (c, None) => (c, None)
  | (c, Some scan) =>
    (c, Some (Orc.after_scan self scan (Round.now r) (Round.new_id r)))
  end.

(** [cleanup]: the final metrics are saved, then the client is closed;
    an exception of the metrics leaves it open. *)
Definition cleanup (self : Orc.t) (c : CS.conn) (now : Z)
    : CS.conn * (Orc.t * option PyError) :=
  let r := Orc.cleanup self now in
  match snd r with
  | Some _ => (c, r)
  | None => ((KC.close (fst c), snd c), r)
  end.

(** [run]: the loop, then [cleanup] at time [finish] whatever ended the
    loop. *)
Definition run (self : Orc.t) (c : CS.conn) (rounds : list Round.t)
    (finish : Z) : CS.conn * option (Orc.t * option PyError) :=
  match run_loop (Orc.start self) c rounds with
  | (c, None) => (c, None)
  | (c, Some self) =>
    let '(c, r) := cleanup self c finish in (c, Some r)
  end.

(** [run_bot]: the inner [None] when the orchestrator fails to
    initialise. *)
Definition run_bot (data : Yaml.t) (sandbox : bool)
    (api_key : option string) (files : string -> option (string -> string))
    (w : World.t) (file : option Database.t) (rounds : list Round.t)
    (finish : Z)
    : World.t * option (option (Orc.t * KC.t * option PyError)) :=
  match initialize (run_bot_config data sandbox) api_key files w file with
  | (w, None) => (w, None)
  | (w, Some None) => (w, Some None)
  | (w, Some (Some (self, client))) =>
    match run self (client, w) rounds finish with
    | (c, None) => (snd c, None)
    | (c, Some (self, raised)) => (snd c, Some (Some (self, fst c, raised)))
    end
  end.

End OverClient.

End ClientRun.

Module CR := ClientRun.

(** The modes of src/main.py over the client. *)
Module ClientMain.

Section OverClient.
Context {SQ : Sqrt} {B : Type}.
Variables (markets_of : B -> MarketsResponse.t)
          (orderbook_of : B -> option RawOrderbook.t).
Variables (server : Server B) (attempts : nat).
Variables (api_key : option string)
          (files : string -> option (string -> string))
          (file : option Database.t).

(** [run_once]: the world it leaves, the lines it prints and what the
    call returns or raises. *)
Definition run_once (data : Yaml.t) (sandbox : bool) (w : World.t)
    (r : Round.t) (finish : Z)
    : World.t * option (list string * result bool) :=
  match CR.initialize server attempts (Main.run_once_config data sandbox)
          api_key files w file with
  | (w, None) => (w, None)
  | (w, Some None) => (w, Some ([], Ok false))
  | (w, Some (Some (orchestrator, client))) =>
    match CR.run_once markets_of orderbook_of server attempts orchestrator
            (client, w) r with
    | (c, None) => (snd c, None)
    | (c, Some (orchestrator, result)) =>
      let '(c, (orchestrator, raised)) := CR.cleanup orchestrator c finish in
      (snd c, Some (Main.once_outcome result raised))
    end
  end.

(** [run_continuous]: [run_bot] unless the prompt is not confirmed. *)
Definition run_continuous (data : Yaml.t) (sandbox skip_confirm : bool)
    (confirm : string) (w : World.t) (rounds : list Round.t) (finish : Z)
    : World.t * option bool :=
  if Main.confirmed sandbox skip_confirm confirm then
    match CR.run_bot markets_of orderbook_of server attempts data sandbox
            api_key files w file rounds finish with
    | (w, None) => (w, None)
    | (w, Some _) => (w, Some true)
    end
  else (w, Some false).

(** What [main] runs for a mode: the world it leaves and the exit
    status.  [read] gives the document of a configuration file, [r] is
    the round of the single cycle and [rounds] those of the loop. *)
Definition main (read : string -> Yaml.t) (mode : Main.Mode)
    (confirm : string) (w : World.t) (r : Round.t) (rounds : list Round.t)
    (finish : Z) : World.t * option Z :=
  match mode with
  | Main.CheckStatus sandbox =>
    let '(w, success) :=
      Main.check_status server attempts api_key files w sandbox in
    (w, option_map (fun b => Main.exit_status mode (Ok b)) success)
  | Main.RunOnce config sandbox =>
    let '(w, outcome) := run_once (read config) sandbox w r finish in
    (w, option_map (fun o => Main.exit_status mode (snd o)) outcome)
  | Main.RunContinuous config sandbox skip_confirm =>
    let '(w, outcome) :=
      run_continuous (read config) sandbox skip_confirm confirm w rounds
        finish in
    (w, option_map (fun b => Main.exit_status mode (Ok b)) outcome)
  end.

End OverClient.

End ClientMain.

Module CM := ClientMain.
