(* ===== verification/ClientRunProps.v ===== *)
(** * Properties of the orchestrator over the client

    What holds of a run of the bot with its requests made through the
    client.  What every request, every sleep and the closing of the
    client preserve, the run preserves; so every request of a run goes
    to the exchange of the client and is paced by its limiter, and
    without [--live] on the command line no mode of [main] ever sends a
    request to the production exchange, whatever the configuration file
    says and whatever the exchange answers.  The ledger stays within its limits through such
    a run.  On a steady exchange that never refuses, the run over the
    client is the run of [Orchestrator] over rounds that bring the
    record of that exchange. *)

From Stdlib Require Import String.
From Stdlib Require Import QArith ZArith List Bool Lia Lqa.
From S2P Require Import Prelude PyDict PyStr Client ClientProps Config Strategy.
From S2P Require Import Ledger Scanner ClientExchange ScannerProps.
From S2P Require Import ScannerClient ScannerClientProps Persistence.
From S2P Require Import Orchestrator OrchestratorProps RunProps Main MainProps.
From S2P Require Import ClientRun.
Import ListNotations.
Open Scope string_scope.
Open Scope list_scope.
Open Scope py_scope.

(** ** What every request keeps, the run keeps *)

Section Preserves.
Context {SQ : Sqrt} {B : Type}.
Variables (markets_of : B -> MarketsResponse.t)
          (orderbook_of : B -> option RawOrderbook.t).
Variables (server : Server B) (attempts : nat).
Variable P : KC.t -> World.t -> Prop.
Hypothesis Hrequest :
  forall method endpoint params json_data self w,
    P self w ->
    let r := KC._request server attempts self w method endpoint params
               json_data in
    P (fst (fst r)) (snd (fst r)).
Hypothesis Hsleep :
  forall self w d, 0 < d -> P self w -> P self (World.sleep w d).
Hypothesis Hclose : forall self w, P self w -> P (KC.close self) w.

Lemma run_step_preserves O c r :
  holds P c ->
  holds P (fst (CR.run_step markets_of orderbook_of server attempts O c r)).
Proof.
  intros Hc. unfold CR.run_step.
  pose proof (scan_turn_preserves markets_of orderbook_of server attempts P
                Hrequest (Orc._scanner O) c (Round.now r) Hc) as H.
  destruct (Round.signal r); [|exact Hc|];
    (destruct (CS.scan_turn _ _ _ _ _ _ _) as [c' [turn|]]; [|exact H];
     destruct (Orc.after_turn _ _ _ _ _) as [O' go]; cbn [fst];
     match goal with |- context [if ?b then _ else _] => destruct b end;
     [now apply asyncio_sleep_preserves | exact H]).
Qed.

Lemma run_loop_preserves rounds : forall O c,
  holds P c ->
  holds P (fst (CR.run_loop markets_of orderbook_of server attempts O c
                  rounds)).
Proof.
  induction rounds as [|r rounds IH]; intros O c Hc; [exact Hc|].
  cbn [CR.run_loop]. pose proof (run_step_preserves O c r Hc) as H.
  destruct (CR.run_step _ _ _ _ _ _ _) as [c' [[O' [|]]|]];
    [now apply IH | exact H | exact H].
Qed.

Lemma cleanup_preserves O c now :
  holds P c -> holds P (fst (CR.cleanup O c now)).
Proof.
  intros Hc. unfold CR.cleanup. destruct (snd (Orc.cleanup O now));
    [exact Hc | now apply Hclose].
Qed.

Lemma run_preserves O c rounds finish :
  holds P c ->
  holds P (fst (CR.run markets_of orderbook_of server attempts O c rounds
                  finish)).
Proof.
  intros Hc. unfold CR.run.
  pose proof (run_loop_preserves rounds (Orc.start O) c Hc) as H.
  destruct (CR.run_loop _ _ _ _ _ _ _) as [c' [O'|]]; [|exact H].
  pose proof (cleanup_preserves O' c' finish H) as H'.
  now destruct (CR.cleanup O' c' finish) as [c2 r].
Qed.

(** The world an operation leaves: the one it started in, or one that a
    client has kept [P] with. *)
Definition reached (w w' : World.t) : Prop :=
  w' = w \/ exists client, P client w'.

Lemma initialize_preserves config api_key files w file :
  (forall client,
     create_client_from_env api_key files (Config.sandbox config) = Ok client ->
     P client w) ->
  match CR.initialize server attempts config api_key files w file with
  | (w', Some (Some (_, client))) => P client w'
  | (w', _) => reached w w'
  end.
Proof.
  intros Hc. unfold CR.initialize.
  destruct (create_client_from_env _ _ _) as [client|e]; [|now left].
  specialize (Hc client eq_refl). unfold KC.get_balance.
  pose proof (Hrequest "GET" "/portfolio/balance" None None client w Hc) as H.
  cbv zeta in H.
  destruct (KC._request _ _ _ _ _ _ _ _) as [[client1 w1] [[body|e]|]];
    cbn [fst snd] in *; try (right; now exists client1).
  destruct (Orc.assemble _ file) as [O|]; cbn [option_map];
    [exact H | right; now exists client1].
Qed.

Lemma run_bot_preserves data sandbox api_key files w file rounds finish :
  (forall client,
     create_client_from_env api_key files
       (Config.sandbox (run_bot_config data sandbox)) = Ok client ->
     P client w) ->
  reached w (fst (CR.run_bot markets_of orderbook_of server attempts data
                    sandbox api_key files w file rounds finish)).
Proof.
  intros Hc. unfold CR.run_bot.
  pose proof (initialize_preserves _ api_key files w file Hc) as H.
  destruct (CR.initialize _ _ _ _ _ _ _) as [w1 [[[O client]|]|]];
    try exact H.
  pose proof (run_preserves O (client, w1) rounds finish H) as H'.
  destruct (CR.run _ _ _ _ _ _ _ _) as [c2 [[O2 raised]|]];
    right; now exists (fst c2).
Qed.

Lemma run_once_preserves O c r :
  holds P c ->
  holds P (fst (CR.run_once markets_of orderbook_of server attempts O c r)).
Proof.
  intros Hc. unfold CR.run_once.
  pose proof (scan_once_preserves markets_of orderbook_of server attempts P
                Hrequest (Orc._scanner O) c (Round.now r) Hc) as H.
  now destruct (CS.scan_once _ _ _ _ _ _ _) as [c' [scan|]].
Qed.

Lemma main_run_once_preserves api_key files file data sandbox w r finish :
  (forall client,
     create_client_from_env api_key files
       (Config.sandbox (Main.run_once_config data sandbox)) = Ok client ->
     P client w) ->
  reached w (fst (CM.run_once markets_of orderbook_of server attempts api_key
                    files file data sandbox w r finish)).
Proof.
  intros Hc. unfold CM.run_once.
  pose proof (initialize_preserves _ api_key files w file Hc) as H.
  destruct (CR.initialize _ _ _ _ _ _ _) as [w1 [[[O client]|]|]];
    try exact H.
  pose proof (run_once_preserves O (client, w1) r H) as H1.
  destruct (CR.run_once _ _ _ _ _ _ _) as [c2 [[O2 result]|]];
    [|right; now exists (fst c2)].
  pose proof (cleanup_preserves O2 c2 finish H1) as H2.
  destruct (CR.cleanup O2 c2 finish) as [c3 [O3 raised]].
  right. now exists (fst c3).
Qed.

Lemma check_status_preserves api_key files w sandbox :
  (forall client,
     create_client_from_env api_key files sandbox = Ok client -> P client w) ->
  reached w (fst (Main.check_status server attempts api_key files w sandbox)).
Proof.
  intros Hc. unfold Main.check_status.
  destruct (create_client_from_env _ _ _) as [client|e]; [|now left].
  specialize (Hc client eq_refl).
  unfold KC.get_exchange_status, KC.get_balance, KC.get_markets. right.
  pose proof (Hrequest "GET" "/exchange/status" None None client w Hc) as H1.
  destruct (KC._request _ _ client w _ _ _ _) as [[c1 w1] [[?|?]|]];
    cbn [fst snd] in *; try (now exists c1).
  pose proof (Hrequest "GET" "/portfolio/balance" None None c1 w1 H1) as H2.
  destruct (KC._request _ _ c1 w1 _ _ _ _) as [[c2 w2] [[?|?]|]];
    cbn [fst snd] in *; try (now exists c2).
  match goal with
  | |- context [KC._request server attempts c2 w2 ?m ?e ?p ?j] =>
      pose proof (Hrequest m e p j c2 w2 H2) as H3;
      destruct (KC._request server attempts c2 w2 m e p j)
        as [[c3 w3] [[?|?]|]]
  end; now exists c3.
Qed.

End Preserves.

(** ** The pace and the exchange of the requests of a run *)

Lemma close_kept base rate self w :
  kept base rate self w -> kept base rate (KC.close self) w.
Proof. intros H. exact H. Qed.

(** The log of a world: every request went under [base], and between a
    request and the [j]-th after it at least [j / rate] seconds
    passed. *)
Definition log_ok (base : string) (rate : Q) (w : World.t) : Prop :=
  all_to base w /\
  forall i k x y,
    (i <= k)%nat ->
    nth_error (times w) i = Some x -> nth_error (times w) k = Some y ->
    x + inject_Z (Z.of_nat (k - i)) / rate <= y.

Lemma kept_log_ok base rate client w :
  kept base rate client w -> log_ok base rate w.
Proof.
  intros H. split; [apply H|]. intros i k x y. now apply kept_rate with (1 := H).
Qed.

Lemma empty_log_ok base rate w : World.sent w = [] -> log_ok base rate w.
Proof.
  intros Hw. unfold log_ok, all_to, times. rewrite Hw.
  split; [constructor|]. intros [|i] k x y _ [=].
Qed.

(** A client fresh from [create_client_from_env] keeps a world that has
    seen no request. *)
Lemma created_kept api_key files sandbox client w :
  create_client_from_env api_key files sandbox = Ok client ->
  World.sent w = [] -> 0 <= World.clock w ->
  kept (if sandbox then SANDBOX_BASE_URL else PRODUCTION_BASE_URL) 8 client w.
Proof.
  intros E Hw Hclock. apply create_client_base_url in E as (_ & Hb & Hl).
  unfold kept, paced, all_to, times. rewrite Hl, Hw, Hb. cbn.
  repeat split; try constructor; try reflexivity. exact Hclock.
Qed.

Lemma reached_log_ok base rate w w' :
  World.sent w = [] -> reached (kept base rate) w w' -> log_ok base rate w'.
Proof.
  intros Hw [->|[client H]];
    [now apply empty_log_ok | exact (kept_log_ok _ _ _ _ H)].
Qed.

Section Paced.
Context {SQ : Sqrt} {B : Type}.
Variables (markets_of : B -> MarketsResponse.t)
          (orderbook_of : B -> option RawOrderbook.t).
Variables (server : Server B) (attempts : nat).

(** The requests of a run go to the exchange of the client and are paced
    by its limiter, whatever the exchange answers, whatever the cycles
    do and however the run ends. *)
Theorem run_paced_on_exchange O c rounds finish :
  paced (fst c) (snd c) -> all_to (KC.base_url (fst c)) (snd c) ->
  let c' := fst (CR.run markets_of orderbook_of server attempts O c rounds
                   finish) in
  paced (fst c') (snd c')
  /\ log_ok (KC.base_url (fst c))
       (RL.calls_per_second (KC.rate_limiter (fst c))) (snd c').
Proof.
  intros Hp Ha.
  pose proof (run_preserves markets_of orderbook_of server attempts
                (kept _ _) (request_kept server attempts _ _)
                (sleep_kept _ _) (close_kept _ _) O c rounds finish
                (conj Hp (conj Ha (conj eq_refl eq_refl)))) as H.
  split; [apply H | exact (kept_log_ok _ _ _ _ H)].
Qed.

(** The bot started without [--live] never talks to the production
    exchange and never exceeds its rate: whatever the configuration file
    says, whatever the exchange answers and however the run ends, every
    request of [run_bot], the balance request, the pages and the books
    of every turn, retries included, goes to an address under the base
    URL of the sandbox, and between a request and the [j]-th after it
    at least [j / 8] seconds pass. *)
Theorem sandbox_bot_stays_on_sandbox data api_key files w file rounds finish :
  World.sent w = [] -> 0 <= World.clock w ->
  log_ok SANDBOX_BASE_URL 8
    (fst (CR.run_bot markets_of orderbook_of server attempts data true
            api_key files w file rounds finish)).
Proof.
  intros Hw Hclock. apply (reached_log_ok _ _ w); [exact Hw|].
  apply (run_bot_preserves markets_of orderbook_of server attempts
           (kept SANDBOX_BASE_URL 8) (request_kept server attempts _ _)
           (sleep_kept _ _) (close_kept _ _)).
  intros client E. exact (created_kept _ _ true client w E Hw Hclock).
Qed.

Variables (api_key : option string)
          (files : string -> option (string -> string))
          (file : option Database.t) (read : string -> Yaml.t).

(** C12. Without [--live] on the command line the program never talks to
    the production exchange and never exceeds its rate, whichever mode
    [main] runs: in the status check, in the single cycle and in the
    loop, whatever the other options, the configuration file and the
    exchange, every request goes to an address under the base URL of
    the sandbox, and between a request and the [j]-th after it at
    least [j / 8] seconds pass. *)
Theorem no_live_no_production opts confirm w r rounds finish :
  given Args.OLive opts = false ->
  World.sent w = [] -> 0 <= World.clock w ->
  log_ok SANDBOX_BASE_URL 8
    (fst (CM.main markets_of orderbook_of server attempts api_key files file
            read (Main.main (Args.parse_args opts)) confirm w r rounds
            finish)).
Proof.
  intros Hlive Hw Hclock. rewrite main_of_command_line. cbv zeta.
  rewrite Hlive. cbn [negb]. apply (reached_log_ok _ _ w); [exact Hw|].
  assert (Hc : forall client,
             create_client_from_env api_key files true = Ok client ->
             kept SANDBOX_BASE_URL 8 client w)
    by (intros client E; exact (created_kept _ _ true client w E Hw Hclock)).
  unfold CM.main, CM.run_continuous.
  destruct (given Args.OStatus opts); [|destruct (given Args.OOnce opts)].
  - pose proof (check_status_preserves server attempts _
                  (request_kept server attempts _ _) api_key files w true Hc).
    now destruct (Main.check_status _ _ _ _ _ _).
  - pose proof (main_run_once_preserves markets_of orderbook_of server
                  attempts _ (request_kept server attempts _ _)
                  (close_kept _ _) api_key files file
                  (read (Args.config (Args.parse_args opts))) true w r finish
                  Hc).
    now destruct (CM.run_once _ _ _ _ _ _ _ _ _ _ _ _).
  - cbn [Main.confirmed negb andb].
    pose proof (run_bot_preserves markets_of orderbook_of server attempts _
                  (request_kept server attempts _ _) (sleep_kept _ _)
                  (close_kept _ _)
                  (read (Args.config (Args.parse_args opts))) true api_key
                  files w file rounds finish Hc).
    now destruct (CR.run_bot _ _ _ _ _ _ _ _ _ _ _ _) as [w' [x|]].
Qed.

End Paced.

(** ** The client after [cleanup] *)

(** [cleanup] closes the client exactly when the final metrics are
    saved: an exception of [calculate_metrics] leaves the connection of
    an open client open. *)
Theorem cleanup_closes_iff {SQ : Sqrt} O c now :
  KC._client (fst (fst (CR.cleanup O c now))) = false <->
  snd (Orc.cleanup O now) = None \/ KC._client (fst c) = false.
Proof.
  unfold CR.cleanup. destruct (snd (Orc.cleanup O now)) as [e|]; cbn [fst].
  - split; [now right | now intros [[=]|H]].
  - split; [now left | reflexivity].
Qed.

(** ** The limits of the ledger *)

Section Limits.
Context {SQ : Sqrt} {B : Type}.
Variables (markets_of : B -> MarketsResponse.t)
          (orderbook_of : B -> option RawOrderbook.t).
Variables (server : Server B) (attempts : nat).

(** Every round draws identifiers that are new to the ledger it
    meets. *)
Fixpoint rounds_fresh_on (O : Orc.t) (c : CS.conn) (rounds : list Round.t)
    : Prop :=
  match rounds with
  | [] => True
  | r :: rest =>
    fresh_ids (Round.new_id r) (Orc._paper_trader O) /\
    match CR.run_step markets_of orderbook_of server attempts O c r with
    | (c', Some (O', _)) => rounds_fresh_on O' c' rest
    | (_, None) => True
    end
  end.

(** What an outcome of the run says of the orchestrator it leaves, if it
    leaves one. *)
Definition leaves {A : Type} (Q : Orc.t -> Prop) (r : option (Orc.t * A))
    : Prop :=
  match r with
  | Some (orchestrator, _) => Q orchestrator
  | None => True
  end.

Lemma run_step_limits_on O c r :
  limits_ok (Orc._paper_trader O) ->
  fresh_ids (Round.new_id r) (Orc._paper_trader O) ->
  leaves (fun O' => limits_ok (Orc._paper_trader O'))
    (snd (CR.run_step markets_of orderbook_of server attempts O c r)).
Proof.
  intros HT Hfr. unfold CR.run_step.
  destruct (Round.signal r) eqn:Es; [|exact HT|];
    (destruct (CS.scan_turn _ _ _ _ _ _ _) as [c' [turn|]]; [|exact I];
     match goal with
     | |- context [Orc.after_turn ?O1 ?i ?t ?n ?f] =>
       pose proof (after_turn_limits O1 i t n f HT Hfr) as H;
       destruct (Orc.after_turn O1 i t n f) as [O' go]; exact H
     end).
Qed.

Lemma run_loop_limits_on rounds : forall O c,
  limits_ok (Orc._paper_trader O) -> rounds_fresh_on O c rounds ->
  match snd (CR.run_loop markets_of orderbook_of server attempts O c rounds)
  with
  | Some O' => limits_ok (Orc._paper_trader O')
  | None => True
  end.
Proof.
  induction rounds as [|r rounds IH]; intros O c HT Hfr; [exact HT|].
  destruct Hfr as [Hr Hrest]. cbn [CR.run_loop].
  pose proof (run_step_limits_on O c r HT Hr) as Hstep.
  destruct (CR.run_step _ _ _ _ _ _ _) as [c' [[O' [|]]|]];
    [now apply IH | exact Hstep | exact I].
Qed.

(** The run over the client keeps the limits of the ledger: whatever the
    server answers and however the run ends, the ledger the run leaves
    is well formed, its exposure within the cap and its open positions
    within the limit. *)
Theorem client_run_keeps_limits O c rounds finish :
  limits_ok (Orc._paper_trader O) ->
  rounds_fresh_on (Orc.start O) c rounds ->
  leaves (fun O' => limits_ok (Orc._paper_trader O'))
    (snd (CR.run markets_of orderbook_of server attempts O c rounds finish)).
Proof.
  intros HT Hfr. unfold CR.run.
  pose proof (run_loop_limits_on rounds (Orc.start O) c HT Hfr) as H.
  destruct (CR.run_loop _ _ _ _ _ _ _) as [c' [O'|]]; [|exact I].
  unfold CR.cleanup. cbn [snd] in H.
  pose proof (cleanup_trader O' finish) as Hc.
  destruct (Orc.cleanup O' finish) as [O2 [e|]]; cbn [fst snd leaves] in *;
    now rewrite Hc.
Qed.

End Limits.

(** ** The run over the client refines the run over the record *)

Section Refines.
Context {SQ : Sqrt} {B : Type}.
Variables (markets_of : B -> MarketsResponse.t)
          (orderbook_of : B -> option RawOrderbook.t)
          (balance_of : B -> Z).
Variable answer : string -> string -> option (dict string Param)
                  -> result (Response.t B).
Hypothesis Hnever : never_refuses answer.
Variables (attempts : nat) (base : string).

Local Abbreviation api :=
  (exchange_of markets_of orderbook_of balance_of answer base).

Lemma asyncio_sleep_fit c d : fit base (fst c) -> fit base (fst (CS.asyncio_sleep c d)).
Proof. unfold CS.asyncio_sleep. now destruct (qltb 0 d). Qed.

Lemma run_step_steady O c r :
  fit base (fst c) -> Round.api r = api ->
  gives base (CR.run_step markets_of orderbook_of (steady answer) (S attempts)
                O c r)
        (Orc.run_step O r).
Proof.
  intros Hfit Hapi. unfold CR.run_step, Orc.run_step, gives. rewrite Hapi.
  destruct (scan_turn_steady markets_of orderbook_of balance_of answer Hnever
              attempts base (Orc._scanner O) (Round.now r) c Hfit) as [H1 H2].
  destruct (Round.signal r); [|now split|];
    (destruct (CS.scan_turn _ _ _ _ _ _ _) as [c' turn]; cbn [fst snd] in *;
     subst turn; destruct (Orc.after_turn _ _ _ _ _) as [O' go];
     cbn [fst snd]; split; [reflexivity|];
     match goal with |- context [if ?b then _ else _] => destruct b end;
     [now apply asyncio_sleep_fit | exact H2]).
Qed.

Lemma run_loop_steady rounds : forall O c,
  fit base (fst c) -> Forall (fun r => Round.api r = api) rounds ->
  gives base (CR.run_loop markets_of orderbook_of (steady answer) (S attempts)
                O c rounds)
        (Orc.run_loop O rounds).
Proof.
  induction rounds as [|r rounds IH]; intros O c Hfit Hall; [now split|].
  inversion Hall as [|? ? Hr Hrest]; subst. cbn [CR.run_loop Orc.run_loop].
  destruct (run_step_steady O c r Hfit Hr) as [H1 H2].
  destruct (CR.run_step _ _ _ _ _ _ _) as [c' step]. cbn [fst snd] in *.
  subst step. destruct (Orc.run_step O r) as [O' [|]];
    [now apply IH | now split].
Qed.

(** C23. The run of the orchestrator over the client refines its run over
    the record of the exchange: on a steady exchange that never refuses,
    with one attempt per request, [run] over a fit client returns the
    orchestrator and the exception, if any, that [Orchestrator.run]
    returns over rounds that bring the record of that exchange, and
    leaves the client fit. *)
Theorem run_over_client_refines O c rounds finish :
  fit base (fst c) -> Forall (fun r => Round.api r = api) rounds ->
  let r := CR.run markets_of orderbook_of (steady answer) (S attempts) O c
             rounds finish in
  snd r = Some (Orc.run O rounds finish) /\ fit base (fst (fst r)).
Proof.
  intros Hfit Hall. cbv zeta. unfold CR.run, Orc.run.
  destruct (run_loop_steady rounds (Orc.start O) c Hfit Hall) as [H1 H2].
  destruct (CR.run_loop _ _ _ _ _ _ _) as [c' loop]. cbn [fst snd] in *.
  subst loop. unfold CR.cleanup.
  destruct (Orc.cleanup (Orc.run_loop (Orc.start O) rounds) finish)
    as [O2 [e|]]; cbn [fst snd]; now split.
Qed.

End Refines.

(** ** Witnesses *)

(** The exchange of [ScannerClientProps], which also answers the balance
    request. *)
Definition demo_bot_answer (method url : string)
    (params : option (dict string Param)) : result (Response.t demo_body) :=
  if String.eqb url (SANDBOX_BASE_URL ++ "/portfolio/balance")
  then Ok (Response.mk 200 (Ok (Balance 100)))
  else demo_scan_answer method url params.

Lemma demo_bot_never_refuses : never_refuses demo_bot_answer.
Proof.
  intros method url params response. unfold demo_bot_answer.
  destruct (String.eqb _ _); [intros [= <-]; discriminate|].
  apply demo_scan_never_refuses.
Qed.

(** A round that brings the record of that exchange. *)
Definition demo_client_round : Round.t :=
  Round.mk (exchange_of demo_markets_of demo_orderbook_of demo_balance_of
              demo_bot_answer SANDBOX_BASE_URL)
           7 tally NoInterrupt.

(** The world a run of the bot on the default configuration leaves. *)
Local Abbreviation demo_bot_world :=
  (fst (CR.run_bot demo_markets_of demo_orderbook_of (steady demo_bot_answer)
          1 Yaml.empty true (Some "key-id") (fun _ => Some (fun m => m))
          demo_world None [demo_client_round; demo_client_round] 9)).

(** The run asks for the balance, then scans twice, half a minute
    apart, and every request goes to the sandbox. *)
Example demo_bot_requests :
  map (fun tr => Request.url (snd tr)) (World.sent demo_bot_world)
  = [ (SANDBOX_BASE_URL ++ "/portfolio/balance")%string;
      (SANDBOX_BASE_URL ++ "/markets")%string;
      (SANDBOX_BASE_URL ++ "/markets/MKT/orderbook")%string;
      (SANDBOX_BASE_URL ++ "/markets/LOW/orderbook")%string;
      (SANDBOX_BASE_URL ++ "/markets")%string;
      (SANDBOX_BASE_URL ++ "/markets")%string;
      (SANDBOX_BASE_URL ++ "/markets/MKT/orderbook")%string;
      (SANDBOX_BASE_URL ++ "/markets/LOW/orderbook")%string;
      (SANDBOX_BASE_URL ++ "/markets")%string ] /\
  map Qred (times demo_bot_world)
  = [1 # 8; 1 # 4; 3 # 8; 1 # 2; 5 # 8; 245 # 8; 123 # 4; 247 # 8; 31]%Q.
Proof. split; vm_compute; reflexivity. Qed.

Lemma sandbox_bot_stays_on_sandbox_witness :
  log_ok SANDBOX_BASE_URL 8 demo_bot_world.
Proof.
  exact (sandbox_bot_stays_on_sandbox demo_markets_of demo_orderbook_of
           (steady demo_bot_answer) 1 Yaml.empty (Some "key-id")
           (fun _ => Some (fun m => m)) demo_world None
           [demo_client_round; demo_client_round] 9%Z eq_refl (Qle_refl 0)).
Defined.

Lemma demo_rounds_api :
  Forall (fun r => Round.api r
                   = exchange_of demo_markets_of demo_orderbook_of
                       demo_balance_of demo_bot_answer SANDBOX_BASE_URL)
         [demo_client_round].
Proof. repeat constructor. Qed.

Lemma run_over_client_refines_witness :
  snd (CR.run demo_markets_of demo_orderbook_of (steady demo_bot_answer) 1
         demo_ready demo_conn [demo_client_round] 9)
  = Some (Orc.run demo_ready [demo_client_round] 9)
  /\ fit SANDBOX_BASE_URL
       (fst (fst (CR.run demo_markets_of demo_orderbook_of
                    (steady demo_bot_answer) 1 demo_ready demo_conn
                    [demo_client_round] 9))).
Proof.
  exact (run_over_client_refines demo_markets_of demo_orderbook_of
           demo_balance_of demo_bot_answer demo_bot_never_refuses 0
           SANDBOX_BASE_URL demo_ready demo_conn [demo_client_round] 9%Z
           demo_fit demo_rounds_api).
Defined.

Lemma client_run_keeps_limits_witness :
  leaves (fun O' => limits_ok (Orc._paper_trader O'))
    (snd (CR.run demo_markets_of demo_orderbook_of (steady demo_bot_answer) 1
            demo_ready demo_conn [demo_client_round] 9)).
Proof.
  apply (client_run_keeps_limits demo_markets_of demo_orderbook_of
           (steady demo_bot_answer) 1 demo_ready demo_conn
           [demo_client_round] 9%Z demo_ready_limits).
  split; [exact demo_ready_fresh|].
  now destruct (CR.run_step _ _ _ _ _ _ _) as [c' [[O' go]|]].
Defined.

(** The world a single cycle started with [--once --sandbox] leaves. *)
Local Abbreviation demo_once_world :=
  (fst (CM.main demo_markets_of demo_orderbook_of (steady demo_bot_answer) 1
          (Some "key-id") (fun _ => Some (fun m => m)) None
          (fun _ => Yaml.empty)
          (Main.main (Args.parse_args [Args.OOnce; Args.OSandbox]))
          "" demo_world demo_client_round [] 9)).

(** The single cycle asks for the balance and scans once. *)
Example demo_once_requests :
  map (fun tr => Request.url (snd tr)) (World.sent demo_once_world)
  = [ (SANDBOX_BASE_URL ++ "/portfolio/balance")%string;
      (SANDBOX_BASE_URL ++ "/markets")%string;
      (SANDBOX_BASE_URL ++ "/markets/MKT/orderbook")%string;
      (SANDBOX_BASE_URL ++ "/markets/LOW/orderbook")%string;
      (SANDBOX_BASE_URL ++ "/markets")%string ].
Proof. vm_compute. reflexivity. Qed.

Lemma no_live_no_production_witness :
  log_ok SANDBOX_BASE_URL 8 demo_once_world.
Proof.
  exact (no_live_no_production demo_markets_of demo_orderbook_of
           (steady demo_bot_answer) 1 (Some "key-id")
           (fun _ => Some (fun m => m)) None (fun _ => Yaml.empty)
           [Args.OOnce; Args.OSandbox] "" demo_world demo_client_round []
           9%Z eq_refl eq_refl (Qle_refl 0)).
Defined.
