(* ===== verification/SpecExamples.v ===== *)
(** * The examples of the specification, on the model

    The four worked examples of the testable properties the
    specification lists (spec.md, section 8), evaluated on the
    definitions of the ledger, the statistics and the allocator: three
    closed trades and their statistics, the quantity bought for five
    dollars, a signal rejected for lack of capital, and the allocation
    of three scores.  The first three come out as the specification
    says; the allocations of the fourth do not add up to the total
    capital, which [AllocatorProps] shows of every ranking with a
    dominant score. *)

From Stdlib Require Import String.
From Stdlib Require Import QArith ZArith List Bool Lqa.
From S2P Require Import Prelude PyDict Config Strategy Ledger Metrics Allocator.
From S2P Require Import AllocatorProps.
Import ListNotations.
Open Scope string_scope.
Open Scope list_scope.
Open Scope py_scope.
Open Scope Q_scope.

Module PT := PaperTrader.
Module SP := StrategyPortfolio.
Module PP := PaperPosition.
Module SM := StrategyMetrics.
Module PTr := PerformanceTracker.

(** A YES signal of a strategy for a number of dollars. *)
Definition buy (strategy market : string) (size : Q) : Signal.t :=
  {| Signal.market_id := market;
     Signal.side := "yes";
     Signal.confidence := 0.8;
     Signal.size := size;
     Signal.strategy_name := strategy;
     Signal.timestamp := 0;
     Signal.metadata := None |}.

(** A ledger with one portfolio of the given capital. *)
Definition ledger (capital : Q) : PT.t :=
  PT.initialize_portfolio (PT.init RiskConfig.default) "S" capital.

(** Opening a position for [size] dollars at a YES price of one half and
    closing it at [exit]. *)
Definition round_trip (T : PT.t) (id : string) (size exit : Q) : PT.t :=
  let T := fst (PT.execute_signal T (buy "S" "M" size) 0.5 id 1) in
  fst (PT.close_position T id exit "strategy_exit" 2).

(** Three trades with a P&L of +10, -4 and +6 on a capital of 100. *)
Definition three_trades : PT.t :=
  round_trip (round_trip (round_trip (ledger 100) "a" 10 1) "b" 8 0.25) "c" 6 1.

Definition three_trades_portfolio : SP.t :=
  match PT.get_portfolio three_trades "S" with
  | Some portfolio => portfolio
  | None => SP.mk "S" 0 0 [] []
  end.

Definition three_trades_metrics : SM.t :=
  match PTr.calculate_metrics (SQ := approx_sqrt_Sqrt)
          (PTr.init PerformanceConfig.default) three_trades_portfolio 3 with
  | Ok (_, metrics) => metrics
  | Err _ => SM.init "S" 3
  end.

(** Three closed trades of +10, -4 and +6 on a capital of 100: a total
    return of 12, two winners in three, a profit factor of 16 / 4 and an
    expectancy of 4. *)
Example three_trades_statistics :
  Forall2 Qeq (map PP.pnl (SP.closed_positions three_trades_portfolio))
    [10; -4; 6] /\
  SM.total_return three_trades_metrics == 12 /\
  SM.total_return_pct three_trades_metrics == 12 /\
  SM.win_rate three_trades_metrics == 200 / 3 /\
  xeq (SM.profit_factor three_trades_metrics) (Fin 4) /\
  SM.expectancy three_trades_metrics == 4 /\
  SM.current_capital three_trades_metrics == 112.
Proof.
  vm_compute. repeat split; try reflexivity; repeat constructor; reflexivity.
Qed.

(** Five dollars at a YES price of 0.20 buy 25 contracts for exactly five
    dollars. *)
Example five_dollars_at_twenty_cents :
  exists position,
    snd (PT.execute_signal (ledger 100) (buy "S" "M" 5) 0.20 "a" 1)
    = Some position /\
    PP.quantity position = 25%Z /\
    PP.entry_price position == 0.20 /\
    PP.entry_cost position == 5.
Proof. eexists. vm_compute. repeat split; reflexivity. Qed.

(** Five dollars asked of a portfolio that has three: the signal is
    rejected for insufficient capital, no position is created and the
    ledger is as it was. *)
Example rejected_for_capital :
  PT.risk_verdict (ledger 3) (buy "S" "M" 5) (SP.mk "S" 3 3 [] [])
  = InsufficientCapital /\
  PT.execute_signal (ledger 3) (buy "S" "M" 5) 0.20 "a" 1 = (ledger 3, None).
Proof. vm_compute. split; reflexivity. Qed.

(** The allocation of the scores 0.6, 0.3 and 0 on a capital of 200,
    the third strategy with two trades: the third is qualified by its
    short history and receives the minimum, the first is cut at half of
    the capital, and the allocations add up to 520 / 3, about 173.33,
    under the capital: the normalisation only scales down, and the
    example of the specification has them add up to 200. *)
Example three_scores_allocation :
  exists results,
    CA.allocate allocator_of_200 three_scores = Ok results /\
    map AR.strategy_name results = ["A"; "B"; "C"] /\
    Forall2 Qeq (map AR.new_allocation results) [100; 200 / 3; 20 / 3] /\
    map AR.reason results
    = ["high_performer"; "moderate_performer"; "insufficient_history"] /\
    py_sum (map AR.new_allocation results) == 520 / 3 /\
    py_sum (map AR.new_allocation results) < 200.
Proof.
  eexists. split; [vm_compute; reflexivity|].
  vm_compute. repeat split; try reflexivity; repeat constructor; reflexivity.
Qed.
